(** * audio-normalizer: loudness normalisation of narration audio

    A shallow embedding of the Python sources

      - [utils.py]            (temporary directories, validation, prompts)
      - [audio_normalizer.py] (format dispatch, denoising, LUFS gain)
      - [pptx_handler.py]     (archive extraction and reconstruction)
      - [video_handler.py]    (audio track extraction and replacement)
      - [cli.py], [video_cli.py] (single-job and batch orchestration)

    The file system is an explicit tree threaded through every call,
    Python exceptions are an error component of the result that keeps the
    side effects made so far, and the third-party libraries (soundfile,
    pyloudnorm, noisereduce, zipfile's codec, ffmpeg, ffprobe) are fields
    of a record of externals over which every statement is universally
    quantified.  Floats are IEEE binary64 ([PrimFloat]), as Python's are.
    Calls to the logger have no effect on results and are left out. *)

From Stdlib Require Import ZArith List Bool Lia.
From Stdlib Require Import Ascii String.
From Stdlib.Strings Require Import Byte.
From Stdlib Require Import PrimFloat Uint63.
From stdpp Require Import base option list strings gmap sorting.

Open Scope string_scope.
Open Scope list_scope.

(** ** Exceptions and results *)

(** The subclasses of Python's [Exception] that the modelled code can
    meet.  Every handler in the sources is [except Exception], so the
    class only documents where an error comes from. *)
Inductive exn : Type :=
| ImportError
| ValueError
| ZeroDivisionError
| OSError
| FileExistsError
| SameFileError
| EOFError
| FileNotFoundError
| TimeoutExpired
| BadZipFile
| CalledProcessError
| LibraryError.

Inductive result (A : Type) : Type :=
| Ok (a : A)
| Raise (e : exn).
Arguments Ok {A} a.
Arguments Raise {A} e.

Definition is_ok {A} (r : result A) : bool :=
  match r with Ok _ => true | Raise _ => false end.

(** An optional answer of an external library; [None] is a raised error. *)
Definition or_raise {A} (e : exn) (o : option A) : result A :=
  match o with Some a => Ok a | None => Raise e end.

(** ** Strings and paths ([str], [pathlib.PurePath]) *)

Definition bytes := list byte.

(** A path is the list of its components below the file system root. *)
Definition Path := list string.

Definition joinpath (p : Path) (child : string) : Path := p ++ [child].

(** [PurePath.name]: the final component, empty for the root. *)
Definition name (p : Path) : string := List.last p "".

(** [PurePath.parent] *)
Definition parent (p : Path) : Path := List.removelast p.

Definition is_upper (c : ascii) : bool :=
  (65 <=? nat_of_ascii c)%nat && (nat_of_ascii c <=? 90)%nat.

Definition lower_ascii (c : ascii) : ascii :=
  if is_upper c then ascii_of_nat (nat_of_ascii c + 32) else c.

(** [str.lower] *)
Fixpoint lower (s : string) : string :=
  match s with
  | EmptyString => EmptyString
  | String c s' => String (lower_ascii c) (lower s')
  end.

(** [str.lstrip('.')] *)
Fixpoint lstrip_dot (s : string) : string :=
  match s with
  | String "."%char s' => lstrip_dot s'
  | _ => s
  end.

(** [str.rfind('.')], with [-1] when there is no dot; [i] is the index
    of the first character of [s] in the whole string. *)
Fixpoint rfind_dot_from (i : Z) (s : string) : Z :=
  match s with
  | EmptyString => (-1)%Z
  | String c s' =>
      let r := rfind_dot_from (i + 1) s' in
      if (0 <=? r)%Z then r
      else if Ascii.eqb c "."%char then i else (-1)%Z
  end.

Definition rfind_dot (s : string) : Z := rfind_dot_from 0 s.

Fixpoint drop_chars (n : nat) (s : string) : string :=
  match n, s with
  | O, _ => s
  | S n', String _ s' => drop_chars n' s'
  | S _, EmptyString => EmptyString
  end.

(** [PurePath.suffix]: [name[i:]] for [i = name.rfind('.')] when
    [0 < i < len(name) - 1], otherwise the empty string. *)
Definition suffix (p : Path) : string :=
  let nm := name p in
  let i := rfind_dot nm in
  if (0 <? i)%Z && (i <? Z.of_nat (String.length nm) - 1)%Z
  then drop_chars (Z.to_nat i) nm
  else "".

(** Membership in a Python list or set of strings. *)
Definition str_in (s : string) (l : list string) : bool :=
  existsb (String.eqb s) l.

(** Order of [Path] objects (component-wise, by code points), as used by
    [list.sort] on lists of paths. *)
Fixpoint path_leb (p q : Path) : bool :=
  match p, q with
  | [], _ => true
  | _ :: _, [] => false
  | a :: p', b :: q' =>
      match String.compare a b with
      | Lt => true
      | Gt => false
      | Eq => path_leb p' q'
      end
  end.

Fixpoint insert_sorted (p : Path) (l : list Path) : list Path :=
  match l with
  | [] => [p]
  | q :: l' => if path_leb p q then p :: q :: l' else q :: insert_sorted p l'
  end.

(** [list.sort()] on paths: a stable sort. *)
Definition sort_paths (l : list Path) : list Path :=
  fold_right insert_sorted [] l.

(** ** The file system *)

(** A regular file holds bytes; a directory lists its entries in the
    order the operating system reports them.  Names inside a directory
    are unique ([wf_node]). *)
Inductive node : Type :=
| File (data : bytes)
| Dir (entries : list (string * node)).

Fixpoint assoc (c : string) (es : list (string * node)) : option node :=
  match es with
  | [] => None
  | (k, n) :: es' => if String.eqb c k then Some n else assoc c es'
  end.

Fixpoint remove_entry (c : string) (es : list (string * node))
  : list (string * node) :=
  match es with
  | [] => []
  | (k, n) :: es' =>
      if String.eqb c k then remove_entry c es' else (k, n) :: remove_entry c es'
  end.

Fixpoint put_entry (c : string) (n : node) (es : list (string * node))
  : list (string * node) :=
  match es with
  | [] => [(c, n)]
  | (k, m) :: es' =>
      if String.eqb c k then (k, n) :: es' else (k, m) :: put_entry c n es'
  end.

(** Bind, replace or drop the entry called [c]. *)
Definition set_entry (c : string) (o : option node) (es : list (string * node))
  : list (string * node) :=
  match o with
  | Some n => put_entry c n es
  | None => remove_entry c es
  end.

Fixpoint fs_lookup (p : Path) (t : node) : option node :=
  match p with
  | [] => Some t
  | c :: p' =>
      match t with
      | File _ => None
      | Dir es =>
          match assoc c es with
          | Some ch => fs_lookup p' ch
          | None => None
          end
      end
  end.

(** Change what is at [p]: every proper ancestor of [p] has to be a
    directory; [f] sees what is at [p] now and answers with what shall
    be there ([Some None]: nothing), or refuses ([None]). *)
Fixpoint alter_opt (p : Path) (f : option node -> option (option node))
    (o : option node) : option (option node) :=
  match p with
  | [] => f o
  | c :: p' =>
      match o with
      | Some (Dir es) =>
          match alter_opt p' f (assoc c es) with
          | Some new => Some (Some (Dir (set_entry c new es)))
          | None => None
          end
      | _ => None
      end
  end.

(** The root itself cannot be removed. *)
Definition alter_at (p : Path) (f : option node -> option (option node))
    (t : node) : option node :=
  match alter_opt p f (Some t) with
  | Some (Some t') => Some t'
  | _ => None
  end.

Definition path_exists (p : Path) (t : node) : bool :=
  match fs_lookup p t with Some _ => true | None => false end.

Definition is_file (p : Path) (t : node) : bool :=
  match fs_lookup p t with Some (File _) => true | _ => false end.

Definition is_dir (p : Path) (t : node) : bool :=
  match fs_lookup p t with Some (Dir _) => true | _ => false end.

Definition read_file (p : Path) (t : node) : option bytes :=
  match fs_lookup p t with Some (File b) => Some b | _ => None end.

(** [open(p, 'wb')] followed by a write and close: creates or truncates. *)
Definition write_file (p : Path) (b : bytes) (t : node) : option node :=
  alter_at p (fun o => match o with
                       | Some (Dir _) => None
                       | _ => Some (Some (File b))
                       end) t.

(** [os.mkdir] *)
Definition mkdir (p : Path) (t : node) : option node :=
  alter_at p (fun o => match o with
                       | None => Some (Some (Dir []))
                       | Some _ => None
                       end) t.

(** [Path.unlink] *)
Definition unlink (p : Path) (t : node) : option node :=
  alter_at p (fun o => match o with
                       | Some (File _) => Some None
                       | _ => None
                       end) t.

(** [shutil.rmtree] *)
Definition rmtree (p : Path) (t : node) : option node :=
  alter_at p (fun o => match o with
                       | Some (Dir _) => Some None
                       | _ => None
                       end) t.

(** [Path.mkdir(parents=True, exist_ok=True)]: [done] is the part of the
    path already known to be a directory. *)
Fixpoint makedirs_from (done todo : Path) (t : node) : option node :=
  match todo with
  | [] => Some t
  | c :: todo' =>
      let here := done ++ [c] in
      match fs_lookup here t with
      | Some (Dir _) => makedirs_from here todo' t
      | Some (File _) => None
      | None =>
          match mkdir here t with
          | Some t' => makedirs_from here todo' t'
          | None => None
          end
      end
  end.

Definition makedirs (p : Path) (t : node) : option node := makedirs_from [] p t.

(** [Path.iterdir]: the names in a directory, in directory order. *)
Definition iterdir (p : Path) (t : node) : option (list Path) :=
  match fs_lookup p t with
  | Some (Dir es) => Some (map (fun e => joinpath p (fst e)) es)
  | _ => None
  end.

(** [os.walk(top)], top-down and without following links: one triple
    [(root, dirs, files)] per directory.  A [top] that is not a
    directory yields nothing. *)
Definition subdirs (es : list (string * node)) : list string :=
  map fst (List.filter (fun e => match snd e with Dir _ => true | File _ => false end) es).

Definition nondirs (es : list (string * node)) : list string :=
  map fst (List.filter (fun e => match snd e with Dir _ => false | File _ => true end) es).

Fixpoint walk (root : Path) (t : node) : list (Path * list string * list string) :=
  match t with
  | File _ => []
  | Dir es =>
      (root, subdirs es, nondirs es)
        :: (fix walk_entries (l : list (string * node)) :=
              match l with
              | [] => []
              | (k, ch) :: l' => walk (joinpath root k) ch ++ walk_entries l'
              end) es
  end.

Definition os_walk (top : Path) (t : node) : list (Path * list string * list string) :=
  match fs_lookup top t with
  | Some sub => walk top sub
  | None => []
  end.

(** [PurePath.relative_to]: [None] stands for the [ValueError] raised
    when [base] is not a prefix of [p]. *)
Fixpoint relative_to (p base : Path) {struct base} : option Path :=
  match base, p with
  | [], _ => Some p
  | b :: base', c :: p' => if String.eqb b c then relative_to p' base' else None
  | _ :: _, [] => None
  end.

(** Names are unique in every directory. *)
Fixpoint wf_node (t : node) : Prop :=
  match t with
  | File _ => True
  | Dir es =>
      NoDup (map fst es) /\
      (fix wf_entries (l : list (string * node)) : Prop :=
         match l with
         | [] => True
         | (_, ch) :: l' => wf_node ch /\ wf_entries l'
         end) es
  end.

(** ** State: the disk, and the console on top of it *)

(** [rand] is the stream of random names [tempfile] draws from. *)
Record Disk : Type := { tree : node; rand : list string }.

(** [stdin] holds the lines still to be read by [input()]. *)
Record World : Type := { disk : Disk; stdin : list string }.

(** A computation on a state [S]: it may raise, and what it did to the
    state before raising stays done. *)
Definition St (S A : Type) : Type := S -> result A * S.

Definition M := St Disk.
Definition IO := St World.

Definition ret {S A} (a : A) : St S A := fun s => (Ok a, s).

Definition raise {S A} (e : exn) : St S A := fun s => (Raise e, s).

Definition bind {S A B} (m : St S A) (k : A -> St S B) : St S B :=
  fun s => match m s with
           | (Ok a, s') => k a s'
           | (Raise e, s') => (Raise e, s')
           end.

(** [try: m except Exception as e: h e] *)
Definition catch {S A} (m : St S A) (h : exn -> St S A) : St S A :=
  fun s => match m s with
           | (Ok a, s') => (Ok a, s')
           | (Raise e, s') => h e s'
           end.

(** [try: m finally: c]: [c] always runs; an error of [c] wins. *)
Definition finally {S A} (m : St S A) (c : St S unit) : St S A :=
  fun s => match m s with
           | (r, s') =>
               match c s' with
               | (Ok _, s'') => (r, s'')
               | (Raise e, s'') => (Raise e, s'')
               end
           end.

Declare Scope st_scope.
Delimit Scope st_scope with st.
Notation "x <- m ;; k" := (bind m (fun x => k))
  (at level 100, m at next level, right associativity) : st_scope.
Notation "m ;;; k" := (bind m (fun _ => k))
  (at level 100, right associativity) : st_scope.
Open Scope st_scope.

(** A pure step that may raise. *)
Definition lift_result {S A} (r : result A) : St S A := fun s => (r, s).

(** A disk computation run from the console level. *)
Definition on_disk {A} (m : M A) : IO A :=
  fun w => match m (disk w) with
           | (r, d) => (r, {| disk := d; stdin := stdin w |})
           end.

(** Reading the tree. *)
Definition ask {A} (f : node -> A) : M A := fun d => (Ok (f (tree d)), d).

(** A change of the tree that the operating system may refuse. *)
Definition change (e : exn) (f : node -> option node) : M unit :=
  fun d => match f (tree d) with
           | Some t' => (Ok tt, {| tree := t'; rand := rand d |})
           | None => (Raise e, d)
           end.

(** [tempfile]: candidate names are drawn until one is free, and
    [create] makes the file or directory.  Running out of candidates is
    the [FileExistsError] of the library. *)
Fixpoint fresh_name (dir : Path) (pre suf : string) (names : list string)
    (t : node) : option (Path * list string) :=
  match names with
  | [] => None
  | r :: names' =>
      let p := joinpath dir (pre ++ r ++ suf) in
      if path_exists p t then fresh_name dir pre suf names' t
      else Some (p, names')
  end.

Definition mktemp (dir : Path) (pre suf : string)
    (create : Path -> node -> option node) : M Path :=
  fun d => match fresh_name dir pre suf (rand d) (tree d) with
           | None => (Raise FileExistsError, d)
           | Some (p, names') =>
               match create p (tree d) with
               | Some t' => (Ok p, {| tree := t'; rand := names' |})
               | None => (Raise OSError, {| tree := tree d; rand := names' |})
               end
           end.

(** [input(prompt)] *)
Definition input : IO string :=
  fun w => match stdin w with
           | [] => (Raise EOFError, w)
           | l :: rest => (Ok l, {| disk := disk w; stdin := rest |})
           end.

(** ** Sample arrays ([numpy.ndarray]) *)

Inductive dtype : Type := float32 | float64 | int16 | int32.

Definition dtype_eqb (a b : dtype) : bool :=
  match a, b with
  | float32, float32 | float64, float64 | int16, int16 | int32, int32 => true
  | _, _ => false
  end.

(** numpy's result type of two of these dtypes. *)
Definition promote (a b : dtype) : dtype :=
  match a, b with
  | float64, _ | _, float64 => float64
  | int32, float32 | float32, int32 => float64
  | float32, _ | _, float32 => float32
  | int32, _ | _, int32 => int32
  | int16, int16 => int16
  end.

(** One-dimensional arrays of shape [(n,)] and two-dimensional arrays
    of shape [(n, ncols)], stored by rows (frames). *)
Inductive ndarray : Type :=
| Arr1 (dt : dtype) (v : list float)
| Arr2 (dt : dtype) (ncols : nat) (rows : list (list float)).

(** Every row of a two-dimensional array has [ncols] elements. *)
Definition wf_ndarray (a : ndarray) : Prop :=
  match a with
  | Arr1 _ _ => True
  | Arr2 _ c rows => Forall (fun r => length r = c) rows
  end.

Definition dtype_of (a : ndarray) : dtype :=
  match a with Arr1 dt _ => dt | Arr2 dt _ _ => dt end.

(** [data.shape] *)
Definition shape (a : ndarray) : list nat :=
  match a with
  | Arr1 _ v => [length v]
  | Arr2 _ c rows => [length rows; c]
  end.

(** [len(data)]: the number of frames. *)
Definition len (a : ndarray) : nat :=
  match a with Arr1 _ v => length v | Arr2 _ _ rows => length rows end.

(** The number of channels: [shape[1]], or one for a flat array. *)
Definition channels (a : ndarray) : nat :=
  match a with Arr1 _ _ => 1 | Arr2 _ c _ => c end.

(** The samples of an array, frame after frame. *)
Definition values (a : ndarray) : list float :=
  match a with Arr1 _ v => v | Arr2 _ _ rows => concat rows end.

(** [data.astype(dt)], with the element conversion [cast dt]. *)
Definition astype (cast : dtype -> float -> float) (dt : dtype) (a : ndarray)
  : ndarray :=
  match a with
  | Arr1 _ v => Arr1 dt (map (cast dt) v)
  | Arr2 _ c rows => Arr2 dt c (map (map (cast dt)) rows)
  end.

(** [data[:, channel]] *)
Definition column (a : ndarray) (channel : nat) : ndarray :=
  match a with
  | Arr1 dt v => Arr1 dt v
  | Arr2 dt _ rows => Arr1 dt (map (fun r => nth channel r 0%float) rows)
  end.

Definition to_2d (a : ndarray) : ndarray :=
  match a with
  | Arr1 dt v => Arr2 dt 1 (map (fun x => [x]) v)
  | Arr2 dt c rows => Arr2 dt c rows
  end.

Fixpoint zip_rows (r1 r2 : list (list float)) : list (list float) :=
  match r1, r2 with
  | a :: r1', b :: r2' => (a ++ b) :: zip_rows r1' r2'
  | _, _ => []
  end.

Definition hstack2 (a b : ndarray) : result ndarray :=
  match to_2d a, to_2d b with
  | Arr2 d1 c1 r1, Arr2 d2 c2 r2 =>
      if (length r1 =? length r2)%nat
      then Ok (Arr2 (promote d1 d2) (c1 + c2) (zip_rows r1 r2))
      else Raise ValueError
  | _, _ => Raise ValueError
  end.

(** [np.column_stack]: flat arrays become columns, and all arrays are
    joined side by side; differing lengths raise [ValueError]. *)
Fixpoint column_stack (arrs : list ndarray) : result ndarray :=
  match arrs with
  | [] => Raise ValueError
  | [a] => Ok (to_2d a)
  | a :: rest =>
      match column_stack rest with
      | Ok r => hstack2 a r
      | Raise e => Raise e
      end
  end.

(** ** Third-party code *)

Record zip_entry : Type :=
  { ze_name : Path; ze_is_dir : bool; ze_data : bytes }.

(** One stream of ffprobe's JSON answer, each key possibly absent. *)
Record stream : Type :=
  { codec_type : option string;
    codec_name : option string;
    stream_duration : option string }.

(** What the sources call but do not define.  [None] means that the
    call raises (or that the external program exits with an error). *)
Record Externals : Type :=
  { gettempdir : Path;
    (* soundfile *)
    sf_decode : bytes -> option (ndarray * Z);
    sf_encode : string -> ndarray -> Z -> option bytes;
    (* pyloudnorm *)
    integrated_loudness : Z -> ndarray -> option float;
    normalize_loudness : ndarray -> float -> float -> option ndarray;
    (* noisereduce and numpy's element conversions *)
    noisereduce_installed : bool;
    reduce_noise : ndarray -> Z -> float -> option ndarray;
    cast : dtype -> float -> float;
    (* ffmpeg and ffprobe, by their options and the contents of their inputs *)
    ffmpeg_version : result Z;
    ffmpeg : list string -> list bytes -> option bytes;
    ffprobe : bytes -> option (list stream);
    float_of_str : string -> option float;
    (* zipfile's reader and writer *)
    is_zipfile : bytes -> bool;
    zip_decode : bytes -> option (list zip_entry);
    zip_encode : list zip_entry -> bytes }.

(** ** audio_normalizer.py *)

Record AudioNormalizationStats : Type :=
  { filename : string;
    original_lufs : float;
    target_lufs : float;
    gain_db : float;
    duration : float }.

Definition float_of_int (z : Z) : float :=
  if (z <? 0)%Z then PrimFloat.opp (PrimFloat.of_uint63 (Uint63.of_Z (- z)))
  else PrimFloat.of_uint63 (Uint63.of_Z z).

(** utils.py: [num_samples / sample_rate] on Python integers.  The
    quotient of the two converted integers is Python's true division
    whenever both are below [2^53]. *)
Definition get_audio_duration (sample_rate num_samples : Z) : result float :=
  if (sample_rate =? 0)%Z then Raise ZeroDivisionError
  else Ok (PrimFloat.div (float_of_int num_samples) (float_of_int sample_rate)).

(** The literal [0.4], that is the double nearest to it. *)
Definition min_duration : float := 0x1.999999999999ap-2%float.

Section AudioNormalizer.

Variable X : Externals.

Fixpoint denoise_channels (data_float : ndarray) (sample_rate : Z)
    (strength : float) (chans : list nat) : result (list ndarray) :=
  match chans with
  | [] => Ok []
  | channel :: rest =>
      match reduce_noise X (column data_float channel) sample_rate strength with
      | None => Raise LibraryError
      | Some denoised_channel =>
          match denoise_channels data_float sample_rate strength rest with
          | Ok ds => Ok (denoised_channel :: ds)
          | Raise e => Raise e
          end
      end
  end.

Definition denoise_audio (data : ndarray) (sample_rate : Z) (strength : float)
  : result ndarray :=
  if negb (noisereduce_installed X) then Raise ImportError else
  let original_dtype := dtype_of data in
  let data_float :=
    if negb (dtype_eqb (dtype_of data) float32)
    then astype (cast X) float32 data else data in
  let reduced :=
    if (1 <? length (shape data))%nat && (1 <? nth 1 (shape data) 0)%nat then
      let num_channels := nth 1 (shape data) 0%nat in
      match denoise_channels data_float sample_rate strength (seq 0 num_channels) with
      | Ok denoised_channels => column_stack denoised_channels
      | Raise e => Raise e
      end
    else or_raise LibraryError (reduce_noise X data_float sample_rate strength) in
  match reduced with
  | Ok reduced_noise =>
      if negb (dtype_eqb original_dtype float32)
      then Ok (astype (cast X) original_dtype reduced_noise)
      else Ok reduced_noise
  | Raise e => Raise e
  end.

(** [sf.read(path)] *)
Definition sf_read (p : Path) : M (ndarray * Z) :=
  o <- ask (read_file p) ;;
  match o with
  | None => raise OSError
  | Some b => lift_result (or_raise LibraryError (sf_decode X b))
  end.

(** [sf.write(path, data, rate)]: the container format follows the
    file name. *)
Definition sf_write (p : Path) (data : ndarray) (rate : Z) : M unit :=
  match sf_encode X (name p) data rate with
  | None => raise LibraryError
  | Some b => change OSError (write_file p b)
  end.

(** The denoising step shared by both paths: a failure is logged and
    the samples are kept as they were. *)
Definition apply_denoise (denoise : bool) (data : ndarray) (rate : Z)
    (denoise_strength : float) : ndarray :=
  if denoise then
    match denoise_audio data rate denoise_strength with
    | Ok d => d
    | Raise _ => data
    end
  else data.

Definition is_unmeasurable (loudness : float) : bool :=
  PrimFloat.eqb loudness neg_infinity || PrimFloat.is_nan loudness.

Definition _normalize_native_format (file_path : Path) (target : float)
    (denoise : bool) (denoise_strength : float)
  : M (option AudioNormalizationStats) :=
  catch
    (dr <- sf_read file_path ;;
     let '(data, rate) := dr in
     dur <- lift_result (get_audio_duration rate (Z.of_nat (len data))) ;;
     if PrimFloat.ltb dur min_duration then ret None else
     let data := apply_denoise denoise data rate denoise_strength in
     loudness <- lift_result (or_raise LibraryError (integrated_loudness X rate data)) ;;
     if is_unmeasurable loudness then ret None else
     let gain := PrimFloat.sub target loudness in
     normalized_audio <-
       lift_result (or_raise LibraryError (normalize_loudness X data loudness target)) ;;
     sf_write file_path normalized_audio rate ;;;
     ret (Some {| filename := name file_path;
                  original_lufs := loudness;
                  target_lufs := target;
                  gain_db := gain;
                  duration := dur |}))
    (fun _ => ret None).

(** A command line: literal words, and paths ([str(path)]) kept apart
    so that the program's inputs and output can be told. *)
Inductive arg : Type :=
| Str (s : string)
| PathArg (p : Path).

Fixpoint cmd_options (cmd : list arg) : list string :=
  match cmd with
  | [] => []
  | Str s :: rest => s :: cmd_options rest
  | PathArg _ :: rest => cmd_options rest
  end.

(** The paths given with [-i]. *)
Fixpoint cmd_inputs (cmd : list arg) : list Path :=
  match cmd with
  | [] => []
  | a :: rest =>
      match a, rest with
      | Str s, PathArg p :: _ =>
          if String.eqb s "-i" then p :: cmd_inputs rest else cmd_inputs rest
      | _, _ => cmd_inputs rest
      end
  end.

(** The output file: the last word of the command. *)
Definition cmd_output (cmd : list arg) : option Path :=
  match List.last cmd (Str "") with
  | PathArg p => Some p
  | Str _ => None
  end.

Fixpoint read_all (ps : list Path) (t : node) : option (list bytes) :=
  match ps with
  | [] => Some []
  | p :: rest =>
      match read_file p t, read_all rest t with
      | Some b, Some bs => Some (b :: bs)
      | _, _ => None
      end
  end.

(** [subprocess.run(cmd, check=True, ...)] for an ffmpeg command: the
    program reads its inputs and writes its one output file; any failure
    is a non-zero exit, hence [CalledProcessError]. *)
Definition run_ffmpeg (cmd : list arg) : M unit :=
  o <- ask (read_all (cmd_inputs cmd)) ;;
  match o, cmd_output cmd with
  | Some contents, Some out =>
      match ffmpeg X (cmd_options cmd) contents with
      | Some b => change CalledProcessError (write_file out b)
      | None => raise CalledProcessError
      end
  | _, _ => raise CalledProcessError
  end.

Definition _convert_to_wav_cmd (input_path output_path : Path) : list arg :=
  [Str "ffmpeg";
   Str "-i"; PathArg input_path;
   Str "-y";
   Str "-acodec"; Str "pcm_s16le";
   Str "-ar"; Str "48000";
   Str "-ac"; Str "2";
   Str "-loglevel"; Str "error";
   PathArg output_path].

Definition _convert_to_wav (input_path output_path : Path) : M unit :=
  run_ffmpeg (_convert_to_wav_cmd input_path output_path).

Definition codec_map : gmap string (list string) :=
  <["mp3" := ["-acodec"; "libmp3lame"; "-b:a"; "192k"]]>
  (<["m4a" := ["-acodec"; "aac"; "-b:a"; "192k"]]>
  (<["wma" := ["-acodec"; "wmav2"; "-b:a"; "192k"]]>
  (<["aac" := ["-acodec"; "aac"; "-b:a"; "192k"]]> ∅))).

(** [codec_map.get(target_format, ['-acodec', 'copy'])] *)
Definition codec_args (target_format : string) : list string :=
  default ["-acodec"; "copy"] (codec_map !! target_format).

Definition _convert_from_wav_cmd (input_wav output_path : Path)
    (target_format : string) : list arg :=
  [Str "ffmpeg"; Str "-i"; PathArg input_wav; Str "-y"]
    ++ map Str (codec_args target_format)
    ++ [Str "-loglevel"; Str "error"; PathArg output_path].

Definition _convert_from_wav (input_wav output_path : Path)
    (target_format : string) : M unit :=
  run_ffmpeg (_convert_from_wav_cmd input_wav output_path target_format).

(** [tempfile.NamedTemporaryFile(suffix='.wav', delete=False)], closed
    at once: an empty file with a fresh name. *)
Definition NamedTemporaryFile_wav : M Path :=
  mktemp (gettempdir X) "tmp" ".wav" (fun p => write_file p []).

(** The body of the [try] block once [temp_wav] is bound. *)
Definition compressed_body (file_path temp_wav : Path) (target : float)
    (original_format : string) (denoise : bool) (denoise_strength : float)
  : M (option AudioNormalizationStats) :=
  _convert_to_wav file_path temp_wav ;;;
  dr <- sf_read temp_wav ;;
  let '(data, rate) := dr in
  dur <- lift_result (get_audio_duration rate (Z.of_nat (len data))) ;;
  if PrimFloat.ltb dur min_duration then ret None else
  let data := apply_denoise denoise data rate denoise_strength in
  loudness <- lift_result (or_raise LibraryError (integrated_loudness X rate data)) ;;
  if is_unmeasurable loudness then ret None else
  let gain := PrimFloat.sub target loudness in
  normalized_audio <-
    lift_result (or_raise LibraryError (normalize_loudness X data loudness target)) ;;
  sf_write temp_wav normalized_audio rate ;;;
  _convert_from_wav temp_wav file_path original_format ;;;
  ret (Some {| filename := name file_path;
               original_lufs := loudness;
               target_lufs := target;
               gain_db := gain;
               duration := dur |}).

(** The [finally] clause: [if temp_wav and temp_wav.exists(): unlink]. *)
Definition remove_temp (temp_wav : Path) : M unit :=
  e <- ask (path_exists temp_wav) ;;
  if e then change OSError (unlink temp_wav) else ret tt.

Definition _normalize_compressed_format (file_path : Path) (target : float)
    (original_format : string) (denoise : bool) (denoise_strength : float)
  : M (option AudioNormalizationStats) :=
  fun d =>
    match NamedTemporaryFile_wav d with
    | (Raise _, d1) => (Ok None, d1)   (* [temp_wav] is still [None] *)
    | (Ok temp_wav, d1) =>
        finally
          (catch (compressed_body file_path temp_wav target original_format
                    denoise denoise_strength)
                 (fun _ => ret None))
          (remove_temp temp_wav) d1
    end.

(** [file_path.suffix.lower().lstrip('.')] *)
Definition file_format_of (file_path : Path) : string :=
  lstrip_dot (lower (suffix file_path)).

Definition normalize_audio_file (file_path : Path) (target : float)
    (denoise : bool) (denoise_strength : float)
  : M (option AudioNormalizationStats) :=
  let file_format := file_format_of file_path in
  if str_in file_format ["wav"; "flac"; "ogg"] then
    _normalize_native_format file_path target denoise denoise_strength
  else if str_in file_format ["mp3"; "m4a"; "wma"; "aac"] then
    _normalize_compressed_format file_path target file_format denoise denoise_strength
  else ret None.

Fixpoint normalize_audio_files (audio_files : list Path) (target : float)
    (denoise : bool) (denoise_strength : float)
  : M (list AudioNormalizationStats) :=
  match audio_files with
  | [] => ret []
  | audio_file :: rest =>
      r <- normalize_audio_file audio_file target denoise denoise_strength ;;
      stats <- normalize_audio_files rest target denoise denoise_strength ;;
      ret (match r with Some s => s :: stats | None => stats end)
  end.

End AudioNormalizer.

(** ** pptx_handler.py *)

Section PptxHandler.

Variable X : Externals.

(** [zipfile]'s cleaning of a member name: empty components, [.] and
    [..] are dropped. *)
Definition sanitize (nm : Path) : Path :=
  List.filter (fun c => negb (str_in c [""; "."; ".."])) nm.

(** [ZipFile._extract_member] *)
Definition _extract_member (path : Path) (e : zip_entry) : M unit :=
  let targetpath := path ++ sanitize (ze_name e) in
  let upperdirs := parent targetpath in
  there <- ask (path_exists upperdirs) ;;
  (if negb there then change OSError (makedirs upperdirs) else ret tt) ;;;
  if ze_is_dir e then
    isd <- ask (is_dir targetpath) ;;
    if negb isd then change OSError (mkdir targetpath) else ret tt
  else change OSError (write_file targetpath (ze_data e)).

(** [ZipFile.extractall(path, members=None)]: with no [members] given,
    every entry of the archive is extracted, in archive order. *)
Fixpoint extract_members (path : Path) (members : list zip_entry) : M unit :=
  match members with
  | [] => ret tt
  | e :: rest => _extract_member path e ;;; extract_members path rest
  end.

Definition extractall (entries : list zip_entry) (path : Path)
    (members : option (list zip_entry)) : M unit :=
  extract_members path (default entries members).

(** [zipfile.ZipFile(path, 'r')] *)
Definition ZipFile_read (p : Path) : M (list zip_entry) :=
  o <- ask (read_file p) ;;
  match o with
  | None => raise OSError
  | Some b => lift_result (or_raise BadZipFile (zip_decode X b))
  end.

Definition audio_extensions : list string :=
  [".wav"; ".mp3"; ".m4a"; ".wma"; ".aac"; ".flac"; ".ogg"].

Definition find_audio_files (extract_path : Path) : M (list Path) :=
  let media_dir := joinpath (joinpath extract_path "ppt") "media" in
  there <- ask (path_exists media_dir) ;;
  if there then
    o <- ask (iterdir media_dir) ;;
    match o with
    | None => raise OSError
    | Some children =>
        t <- ask (fun t => t) ;;
        ret (sort_paths
               (List.filter
                  (fun file_path =>
                     is_file file_path t
                     && str_in (lower (suffix file_path)) audio_extensions)
                  children))
    end
  else ret [].

Definition extract_pptx (pptx_path temp_dir : Path) : M (Path * list Path) :=
  let extract_path := joinpath temp_dir "pptx_contents" in
  change OSError (makedirs extract_path) ;;;
  entries <- ZipFile_read pptx_path ;;
  extractall entries extract_path None ;;;
  audio_files <- find_audio_files extract_path ;;
  ret (extract_path, audio_files).

(** The paths [Path(root) / file] that the two nested loops of
    [reconstruct_pptx] visit, in order. *)
Definition walk_files (extract_path : Path) (t : node) : list Path :=
  flat_map (fun '(root, _, files) => map (joinpath root) files)
           (os_walk extract_path t).

(** [zip_ref.write(file_path, arcname)] for each visited file; the
    entries written so far are kept when a step raises. *)
Fixpoint zip_write_files (extract_path : Path) (t : node) (files : list Path)
    (zip_ref : list zip_entry) : list zip_entry * option exn :=
  match files with
  | [] => (zip_ref, None)
  | file_path :: rest =>
      match relative_to file_path extract_path with
      | None => (zip_ref, Some ValueError)
      | Some arcname =>
          match read_file file_path t with
          | None => (zip_ref, Some OSError)
          | Some b =>
              zip_write_files extract_path t rest
                (zip_ref ++ [{| ze_name := arcname; ze_is_dir := false; ze_data := b |}])
          end
      end
  end.

(** The archive that [reconstruct_pptx] builds from the tree [t]. *)
Definition archive_of (extract_path : Path) (t : node)
  : list zip_entry * option exn :=
  zip_write_files extract_path t (walk_files extract_path t) [].

(** [ZipFile(output_path, 'w')] creates the file; closing it, also on
    an error, writes out what was added. *)
Definition reconstruct_pptx (extract_path output_path : Path) : M unit :=
  change OSError (makedirs (parent output_path)) ;;;
  change OSError (write_file output_path []) ;;;
  r <- ask (archive_of extract_path) ;;
  let '(zip_ref, err) := r in
  change OSError (write_file output_path (zip_encode X zip_ref)) ;;;
  match err with
  | Some e => raise e
  | None => ret tt
  end.

(** [file_path.suffix.lower().lstrip('.')] *)
Definition get_audio_format (file_path : Path) : string :=
  lstrip_dot (lower (suffix file_path)).

End PptxHandler.

(** ** utils.py *)

Section Utils.

Variable X : Externals.

(** [tempfile.mkdtemp(prefix=...)] *)
Definition mkdtemp (pre : string) : M Path :=
  mktemp (gettempdir X) pre "" mkdir.

(** [with TempDirectory() as temp_dir: body]; [__exit__] removes the
    directory if it still exists and lets an error of the body through. *)
Definition with_TempDirectory {A} (body : Path -> M A) : M A :=
  temp_dir <- mkdtemp "pptx_normalizer_" ;;
  finally (body temp_dir)
          (e <- ask (path_exists temp_dir) ;;
           if e then change OSError (rmtree temp_dir) else ret tt).

(** [subprocess.run(['ffmpeg', '-version'], ...)] answers with a return
    code or raises; only [FileNotFoundError] and [TimeoutExpired] are
    caught, every other exception leaves the function. *)
Definition check_ffmpeg_installed : result bool :=
  match ffmpeg_version X with
  | Ok returncode => Ok (returncode =? 0)%Z
  | Raise FileNotFoundError | Raise TimeoutExpired => Ok false
  | Raise e => Raise e
  end.

(** The first component of the answer of [validate_pptx_file]. *)
Definition validate_pptx_file (file_path : Path) (t : node) : bool :=
  if negb (path_exists file_path t) then false
  else if negb (is_file file_path t) then false
  else match read_file file_path t with
       | Some b => is_zipfile X b
       | None => false
       end.

Definition confirm_overwrite : IO bool :=
  response <- input ;;
  ret (str_in (lower response) ["y"; "yes"]).

Definition find_pptx_files (directory : Path) (t : node) : list Path :=
  if negb (path_exists directory t) then []
  else match iterdir directory t with
       | None => []
       | Some children =>
           sort_paths
             (List.filter
                (fun file_path =>
                   is_file file_path t
                   && String.eqb (lower (suffix file_path)) ".pptx")
                children)
       end.

End Utils.

(** ** video_handler.py *)

Record video_info : Type :=
  { info_duration : float;
    has_audio : bool;
    has_video : bool;
    video_codec : option string;
    audio_codec : option string }.

Section VideoHandler.

Variable X : Externals.

(** Python's [max(a, b)]: [b] only when it is greater. *)
Definition py_max (a b : float) : float := if PrimFloat.ltb a b then b else a.

(** [if duration: info['duration'] = max(info['duration'], float(duration))] *)
Definition updated_duration (info : video_info) (s : stream) : result float :=
  match stream_duration s with
  | None | Some "" => Ok (info_duration info)
  | Some d =>
      match float_of_str X d with
      | Some f => Ok (py_max (info_duration info) f)
      | None => Raise ValueError
      end
  end.

Fixpoint scan_streams (streams : list stream) (info : video_info)
  : result video_info :=
  match streams with
  | [] => Ok info
  | s :: rest =>
      if match codec_type s with Some ty => String.eqb ty "video" | None => false end then
        match updated_duration info s with
        | Ok d =>
            scan_streams rest
              {| info_duration := d; has_audio := has_audio info; has_video := true;
                 video_codec := codec_name s; audio_codec := audio_codec info |}
        | Raise e => Raise e
        end
      else if match codec_type s with Some ty => String.eqb ty "audio" | None => false end then
        match updated_duration info s with
        | Ok d =>
            scan_streams rest
              {| info_duration := d; has_audio := true; has_video := has_video info;
                 video_codec := video_codec info; audio_codec := codec_name s |}
        | Raise e => Raise e
        end
      else scan_streams rest info
  end.

Definition get_video_info (video_path : Path) (t : node) : result video_info :=
  match read_file video_path t with
  | None => Raise CalledProcessError
  | Some b =>
      match ffprobe X b with
      | None => Raise CalledProcessError
      | Some streams =>
          scan_streams streams
            {| info_duration := 0%float; has_audio := false; has_video := false;
               video_codec := None; audio_codec := None |}
      end
  end.

Definition _has_audio_stream (video_path : Path) (t : node) : bool :=
  match get_video_info video_path t with
  | Ok info => has_audio info
  | Raise _ => false
  end.

Definition _has_video_stream (video_path : Path) (t : node) : bool :=
  match get_video_info video_path t with
  | Ok info => has_video info
  | Raise _ => false
  end.

Definition extract_audio_cmd (video_path output_audio_path : Path) : list arg :=
  [Str "ffmpeg";
   Str "-i"; PathArg video_path;
   Str "-vn";
   Str "-acodec"; Str "pcm_s16le";
   Str "-ar"; Str "48000";
   Str "-ac"; Str "2";
   Str "-y";
   PathArg output_audio_path].

Definition extract_audio_from_video (video_path output_audio_path : Path) : M unit :=
  ok <- ask (_has_audio_stream video_path) ;;
  if negb ok then raise ValueError
  else run_ffmpeg X (extract_audio_cmd video_path output_audio_path).

Definition replace_audio_cmd (video_path audio_path output_video_path : Path)
  : list arg :=
  [Str "ffmpeg";
   Str "-i"; PathArg video_path;
   Str "-i"; PathArg audio_path;
   Str "-c:v"; Str "copy";
   Str "-c:a"; Str "aac";
   Str "-b:a"; Str "192k";
   Str "-map"; Str "0:v:0";
   Str "-map"; Str "1:a:0";
   Str "-shortest";
   Str "-y";
   PathArg output_video_path].

Definition replace_audio_in_video (video_path audio_path output_video_path : Path)
  : M unit :=
  run_ffmpeg X (replace_audio_cmd video_path audio_path output_video_path).

(** The first component of the answer of [validate_video_file]. *)
Definition validate_video_file (file_path : Path) (t : node) : bool :=
  if negb (path_exists file_path t) then false
  else if negb (is_file file_path t) then false
  else if negb (String.eqb (lower (suffix file_path)) ".mp4") then false
  else if negb (_has_video_stream file_path t) then false
  else if negb (_has_audio_stream file_path t) then false
  else true.

Definition find_video_files (directory : Path) (t : node) : list Path :=
  if negb (path_exists directory t) || negb (is_dir directory t) then []
  else match iterdir directory t with
       | None => []
       | Some children =>
           sort_paths
             (List.filter
                (fun file_path =>
                   is_file file_path t
                   && String.eqb (lower (suffix file_path)) ".mp4")
                children)
       end.

End VideoHandler.

(** ** shutil *)

(** [shutil.copy2(src, dst)]: into [dst] when it is a directory; the
    same file on both sides is refused. *)
Definition copy2_target (src dst : Path) (t : node) : Path :=
  if is_dir dst t then joinpath dst (name src) else dst.

Definition copy2 (src dst : Path) : M unit :=
  target <- ask (copy2_target src dst) ;;
  here <- ask (path_exists src) ;;
  if here && bool_decide (src = target) then raise SameFileError else
  o <- ask (read_file src) ;;
  match o with
  | None => raise OSError
  | Some b => change OSError (write_file target b)
  end.

(** ** cli.py and video_cli.py *)

(** The parsed command line. *)
Record Args : Type :=
  { arg_input : option Path;
    arg_input_dir : option Path;
    arg_output : option Path;
    arg_output_dir : option Path;
    arg_target_lufs : float;
    arg_denoise : bool;
    arg_denoise_strength : float;
    arg_verbose : bool;
    arg_force : bool }.

(** [if output_path.exists() and not force: if not confirm_overwrite(...)]:
    [true] when the job may go on. *)
Definition may_write (output_path : Path) (force : bool) : IO bool :=
  there <- on_disk (ask (path_exists output_path)) ;;
  if there && negb force then confirm_overwrite else ret true.

(** The loop of both [process_batch_directory] functions: one job per
    input file, counted as a success when it returns [0]. *)
Fixpoint batch_loop (job : Path -> Path -> IO Z) (output_dir : Path)
    (files : list Path) (success_count error_count : nat) : IO (nat * nat) :=
  match files with
  | [] => ret (success_count, error_count)
  | input_file :: rest =>
      let output_file := joinpath output_dir (name input_file) in
      result <- job input_file output_file ;;
      if (result =? 0)%Z
      then batch_loop job output_dir rest (S success_count) error_count
      else batch_loop job output_dir rest success_count (S error_count)
  end.

(** [return 0 if error_count == 0 else 1] *)
Definition batch_status (error_count : nat) : Z :=
  if (error_count =? 0)%nat then 0%Z else 1%Z.

(** The checks of [main] on the options, common to both programs, in
    the order of the code: [Ok (Some code)] is an early return, and an
    exception that leaves [check_ffmpeg_installed] leaves [main], which
    makes these checks before its [try] block. *)
Definition check_options (X : Externals) (args : Args) : result (option Z) :=
  let batch_mode := match arg_input_dir args with Some _ => true | None => false end in
  if batch_mode && negb (match arg_output_dir args with Some _ => true | None => false end)
  then Ok (Some 1%Z)
  else if negb batch_mode && negb (match arg_output args with Some _ => true | None => false end)
  then Ok (Some 1%Z)
  else if negb batch_mode && (match arg_output_dir args with Some _ => true | None => false end)
  then Ok (Some 1%Z)
  else if PrimFloat.ltb (arg_target_lufs args) (-70)%float
          || PrimFloat.ltb 0%float (arg_target_lufs args)
  then Ok (Some 1%Z)
  else if PrimFloat.ltb (arg_denoise_strength args) 0%float
          || PrimFloat.ltb 1%float (arg_denoise_strength args)
  then Ok (Some 1%Z)
  else match check_ffmpeg_installed X with
       | Raise e => Raise e
       | Ok installed => if negb installed then Ok (Some 1%Z) else Ok None
       end.

Module Cli.
Section Cli.

Variable X : Externals.

(** What both [process_single_pptx] and the single-file branch of
    [main] do inside [with TempDirectory() as temp_dir]. *)
Definition tune_container (input_path output_path : Path) (target : float)
    (denoise : bool) (denoise_strength : float) : M Z :=
  with_TempDirectory X (fun temp_dir =>
    ea <- extract_pptx X input_path temp_dir ;;
    let '(extract_path, audio_files) := ea in
    match audio_files with
    | [] =>
        copy2 input_path output_path ;;;
        ret 0%Z
    | _ :: _ =>
        stats <- normalize_audio_files X audio_files target denoise denoise_strength ;;
        reconstruct_pptx X extract_path output_path ;;;
        ret 0%Z
    end).

Definition process_single_pptx (input_path output_path : Path) (target : float)
    (force denoise : bool) (denoise_strength : float) : IO Z :=
  valid <- on_disk (ask (validate_pptx_file X input_path)) ;;
  if negb valid then ret 1%Z else
  go <- may_write output_path force ;;
  if negb go then ret 0%Z else
  on_disk (catch (tune_container input_path output_path target denoise denoise_strength)
                 (fun _ => ret 1%Z)).

Definition process_batch_directory (input_dir output_dir : Path) (target : float)
    (force denoise : bool) (denoise_strength : float) : IO Z :=
  there <- on_disk (ask (path_exists input_dir)) ;;
  if negb there then ret 1%Z else
  isd <- on_disk (ask (is_dir input_dir)) ;;
  if negb isd then ret 1%Z else
  pptx_files <- on_disk (ask (find_pptx_files input_dir)) ;;
  match pptx_files with
  | [] => ret 0%Z
  | _ :: _ =>
      on_disk (change OSError (makedirs output_dir)) ;;;
      counts <- batch_loop
                  (fun input_file output_file =>
                     process_single_pptx input_file output_file target force
                                         denoise denoise_strength)
                  output_dir pptx_files 0 0 ;;
      ret (batch_status (snd counts))
  end.

(** [main], from the parsed arguments on; [KeyboardInterrupt] is not an
    [Exception] and is not modelled. *)
Definition main (args : Args) : IO Z :=
  match check_options X args with
  | Raise e => raise e
  | Ok (Some code) => ret code
  | Ok None =>
      catch
        (match arg_input_dir args, arg_output_dir args with
         | Some input_dir, Some output_dir =>
             process_batch_directory input_dir output_dir (arg_target_lufs args)
               (arg_force args) (arg_denoise args) (arg_denoise_strength args)
         | Some _, None => ret 1%Z
         | None, _ =>
             match arg_input args, arg_output args with
             | Some input_path, Some output_path =>
                 valid <- on_disk (ask (validate_pptx_file X input_path)) ;;
                 if negb valid then ret 1%Z else
                 go <- may_write output_path (arg_force args) ;;
                 if negb go then ret 0%Z else
                 on_disk (tune_container input_path output_path (arg_target_lufs args)
                            (arg_denoise args) (arg_denoise_strength args))
             | _, _ => raise ValueError
             end
         end)
        (fun _ => ret 1%Z)
  end.

End Cli.
End Cli.

Module VideoCli.
Section VideoCli.

Variable X : Externals.

Definition process_video_body (input_path output_path : Path) (target : float)
    (denoise : bool) (denoise_strength : float) : M Z :=
  with_TempDirectory X (fun temp_dir =>
    let temp_audio := joinpath temp_dir "extracted_audio.wav" in
    extract_audio_from_video X input_path temp_audio ;;;
    stats <- normalize_audio_file X temp_audio target denoise denoise_strength ;;
    match stats with
    | None => ret 1%Z
    | Some _ =>
        replace_audio_in_video X input_path temp_audio output_path ;;;
        ret 0%Z
    end).

Definition process_single_video (input_path output_path : Path) (target : float)
    (force denoise : bool) (denoise_strength : float) : IO Z :=
  valid <- on_disk (ask (validate_video_file X input_path)) ;;
  if negb valid then ret 1%Z else
  go <- may_write output_path force ;;
  if negb go then ret 0%Z else
  on_disk (catch (process_video_body input_path output_path target denoise denoise_strength)
                 (fun _ => ret 1%Z)).

Definition process_batch_directory (input_dir output_dir : Path) (target : float)
    (force denoise : bool) (denoise_strength : float) : IO Z :=
  there <- on_disk (ask (path_exists input_dir)) ;;
  if negb there then ret 1%Z else
  isd <- on_disk (ask (is_dir input_dir)) ;;
  if negb isd then ret 1%Z else
  video_files <- on_disk (ask (find_video_files input_dir)) ;;
  match video_files with
  | [] => ret 0%Z
  | _ :: _ =>
      on_disk (change OSError (makedirs output_dir)) ;;;
      counts <- batch_loop
                  (fun input_file output_file =>
                     process_single_video input_file output_file target force
                                          denoise denoise_strength)
                  output_dir video_files 0 0 ;;
      ret (batch_status (snd counts))
  end.

Definition main (args : Args) : IO Z :=
  match check_options X args with
  | Raise e => raise e
  | Ok (Some code) => ret code
  | Ok None =>
      catch
        (match arg_input_dir args, arg_output_dir args with
         | Some input_dir, Some output_dir =>
             process_batch_directory input_dir output_dir (arg_target_lufs args)
               (arg_force args) (arg_denoise args) (arg_denoise_strength args)
         | Some _, None => ret 1%Z
         | None, _ =>
             match arg_input args, arg_output args with
             | Some input_path, Some output_path =>
                 process_single_video input_path output_path (arg_target_lufs args)
                   (arg_force args) (arg_denoise args) (arg_denoise_strength args)
             | _, _ => raise ValueError
             end
         end)
        (fun _ => ret 1%Z)
  end.

End VideoCli.
End VideoCli.

(** ** Notions used in the statements *)

(** The kind of a node, and for a file its content. *)
Definition shallow (n : node) : node :=
  match n with File b => File b | Dir _ => Dir [] end.

(** Lookup below a node that may be absent. *)
Definition lookup_opt (p : Path) (o : option node) : option node :=
  match o with Some n => fs_lookup p n | None => None end.

(** Whether a string contains a dot. *)
Fixpoint has_dot (s : string) : bool :=
  match s with
  | EmptyString => false
  | String c s' => Ascii.eqb c "."%char || has_dot s'
  end.





(** A computation under which a property of the tree, once true, stays
    true, whatever the computation answers. *)
Definition preserves {A} (P : node -> Prop) (m : M A) : Prop :=
  forall d r d', m d = (r, d') -> P (tree d) -> P (tree d').

(** The reading of the spec in which a skipped measurement never fails
    a job, for video jobs: validation, extraction and normalisation have
    run, normalisation has returned no record, and the remux would
    succeed. *)
Definition skip_never_fails_a_video_job : Prop :=
  forall (X : Externals) (input_path output_path : Path) (target : float)
         (force denoise : bool) (strength : float)
         (w w1 w' : World) (temp_dir : Path) (d1 d2 d3 d4 : Disk) (code : Z),
    validate_video_file X input_path (tree (disk w)) = true ->
    may_write output_path force w = (Ok true, w1) ->
    mkdtemp X "pptx_normalizer_" (disk w1) = (Ok temp_dir, d1) ->
    extract_audio_from_video X input_path (joinpath temp_dir "extracted_audio.wav") d1
    = (Ok tt, d2) ->
    normalize_audio_file X (joinpath temp_dir "extracted_audio.wav") target denoise
      strength d2 = (Ok None, d3) ->
    replace_audio_in_video X input_path (joinpath temp_dir "extracted_audio.wav")
      output_path d3 = (Ok tt, d4) ->
    VideoCli.process_single_video X input_path output_path target force denoise strength w
    = (Ok code, w') ->
    code = 0%Z.

(** The regular files of a tree with their paths from its root and
    their contents: those of the directory itself, then those of its
    entries in turn. *)
Fixpoint tree_files (t : node) : list (Path * bytes) :=
  match t with
  | File _ => []
  | Dir es =>
      (fix own (l : list (string * node)) : list (Path * bytes) :=
         match l with
         | [] => []
         | (k, File b) :: l' => ([k], b) :: own l'
         | (_, Dir _) :: l' => own l'
         end) es
      ++ (fix below (l : list (string * node)) : list (Path * bytes) :=
            match l with
            | [] => []
            | (k, ch) :: l' =>
                map (fun e => (k :: fst e, snd e)) (tree_files ch) ++ below l'
            end) es
  end.

Definition file_entry (e : Path * bytes) : zip_entry :=
  {| ze_name := fst e; ze_is_dir := false; ze_data := snd e |}.

(** The two halves of [tree_files] at a directory. *)
Definition own_files (es : list (string * node)) : list (Path * bytes) :=
  flat_map (fun e => match snd e with File b => [([fst e], b)] | Dir _ => [] end) es.

Definition files_below (es : list (string * node)) : list (Path * bytes) :=
  flat_map (fun e => map (fun f => (fst e :: fst f, snd f)) (tree_files (snd e))) es.

(** What is at a path, without the content of directories. *)
Definition kind_at (q : Path) (t : node) : option node := shallow <$> fs_lookup q t.

Definition wf_opt (o : option node) : Prop :=
  match o with Some n => wf_node n | None => True end.

(** An archive whose members do not clash on extraction: clean,
    non-empty names, no name twice, and no file member whose name is
    the start of another member's name. *)
Definition wf_archive (entries : list zip_entry) : Prop :=
  Forall (fun e => sanitize (ze_name e) = ze_name e /\ ze_name e <> []) entries
  /\ NoDup (map ze_name entries)
  /\ Forall (fun e =>
               ze_is_dir e = false ->
               Forall (fun e' => ze_name e `prefix_of` ze_name e' ->
                                 ze_name e' = ze_name e) entries) entries.

(** The state of the extraction directory [R] once the members [done]
    have been extracted: the files are those of [done], and every
    directory is on the way to a member of [done]. *)
Definition extracted (R : Path) (done : list zip_entry) (t : node) : Prop :=
  kind_at R t = Some (Dir [])
  /\ (forall e, e ∈ done -> ze_is_dir e = false ->
        kind_at (R ++ ze_name e) t = Some (File (ze_data e)))
  /\ (forall q b, kind_at (R ++ q) t = Some (File b) ->
        exists e, e ∈ done /\ ze_is_dir e = false /\ ze_name e = q)
  /\ (forall q, q <> [] -> kind_at (R ++ q) t = Some (Dir []) ->
        exists e, e ∈ done /\ q `prefix_of` ze_name e).

(** Ascending order of a list of paths, as [list.sort] leaves it. *)
Definition ascending (l : list Path) : Prop :=
  Sorted (fun p q => path_leb p q = true) l.

(** The test of the directory scans: a regular file whose suffix,
    lowercased, is among [exts]. *)
Definition has_extension (exts : list string) (t : node) (file_path : Path) : bool :=
  is_file file_path t && str_in (lower (suffix file_path)) exts.

(** The net effect of a computation that rewrites files in place: what
    is at a path outside [ps] is as before, and a regular file stays a
    regular file. *)
Definition rewrites_within (ps : list Path) (t t' : node) : Prop :=
  (forall q, q ∉ ps -> kind_at q t' = kind_at q t)
  /\ (forall q, is_file q t = true -> is_file q t' = true).

(** A property of every value that a computation returns normally. *)
Definition returns {A} (Q : A -> Prop) (m : M A) : Prop :=
  forall d a d', m d = (Ok a, d') -> Q a.

(** A record made for [file_path] with target [target]. *)
Definition stats_of (file_path : Path) (target : float)
    (o : option AudioNormalizationStats) : Prop :=
  forall s, o = Some s ->
    filename s = name file_path
    /\ target_lufs s = target
    /\ gain_db s = PrimFloat.sub target (original_lufs s).


(** A stream of the given type ([video], [audio], ...). *)
Definition is_stream (ty : string) (s : stream) : bool :=
  match codec_type s with Some t => String.eqb t ty | None => false end.

(** The codec name of the last stream of a type, [init] when there is
    none. *)
Definition last_codec (ty : string) (streams : list stream) (init : option string)
  : option string :=
  match List.last (map Some (List.filter (is_stream ty) streams)) None with
  | Some s => codec_name s
  | None => init
  end.

(** Every duration that [get_video_info] would convert is a number for
    [float]: the streams of another type are not looked at. *)
Definition duration_parses (X : Externals) (s : stream) : bool :=
  if is_stream "video" s || is_stream "audio" s then
    match stream_duration s with
    | None | Some "" => true
    | Some d => bool_decide (is_Some (float_of_str X d))
    end
  else true.

(** [out] is what the normaliser computes from the decoded samples
    [data] at rate [rate], and [stats] is the record it makes: the
    audio is long enough, the loudness measured after the optional
    noise reduction is a finite number, and [out] is the library's
    normalisation of those samples from that loudness to the target. *)
Definition is_normalized (X : Externals) (target : float) (denoise : bool)
    (strength : float) (data : ndarray) (rate : Z)
    (stats : AudioNormalizationStats) (out : ndarray) : Prop :=
  let data' := apply_denoise X denoise data rate strength in
  get_audio_duration rate (Z.of_nat (len data)) = Ok (duration stats)
  /\ PrimFloat.ltb (duration stats) min_duration = false
  /\ integrated_loudness X rate data' = Some (original_lufs stats)
  /\ is_unmeasurable (original_lufs stats) = false
  /\ normalize_loudness X data' (original_lufs stats) target = Some out.

(** ** A small concrete world *)

(** Stand-ins for the external programs and libraries, simple enough to
    run the whole pipeline by evaluation: audio files hold one byte per
    sample at 10 Hz, a file of zeros is silence, every other file
    measures -23 LUFS, and ffmpeg copies its input. *)
Module Demo.

Definition float_of_byte (b : byte) : float :=
  float_of_int (Z.of_N (Byte.to_N b)).

Definition decode (b : bytes) : option (ndarray * Z) :=
  match b with
  | [] => None
  | _ :: _ => Some (Arr1 float64 (map float_of_byte b), 10%Z)
  end.

Definition loudness (rate : Z) (a : ndarray) : option float :=
  if forallb (fun x => PrimFloat.eqb x 0%float) (values a)
  then Some neg_infinity else Some (-23)%float.

Definition archive_with_audio : list zip_entry :=
  [ {| ze_name := ["ppt"; "slides"; "slide1.xml"]; ze_is_dir := false; ze_data := [x3c; x78] |};
    {| ze_name := ["ppt"; "media"; "audio1.wav"]; ze_is_dir := false;
       ze_data := [x01; x02; x03; x04; x05] |};
    {| ze_name := ["ppt"; "media"; "image1.png"]; ze_is_dir := false; ze_data := [x89] |};
    {| ze_name := ["customXml"]; ze_is_dir := true; ze_data := [] |} ].

Definition archive_without_audio : list zip_entry :=
  [ {| ze_name := ["ppt"; "slides"; "slide1.xml"]; ze_is_dir := false; ze_data := [x3c; x78] |};
    {| ze_name := ["ppt"; "media"; "image1.png"]; ze_is_dir := false; ze_data := [x89] |} ].

Definition archive_silent_audio : list zip_entry :=
  [ {| ze_name := ["ppt"; "media"; "audio1.wav"]; ze_is_dir := false;
       ze_data := [x00; x00; x00; x00; x00] |} ].

Definition unzip (b : bytes) : option (list zip_entry) :=
  match b with
  | [x50; x4b; x01] => Some archive_with_audio
  | [x50; x4b; x02] => Some archive_without_audio
  | [x50; x4b; x03] => Some archive_silent_audio
  | _ => None
  end.

Definition externals : Externals :=
  {| gettempdir := ["tmp"];
     sf_decode := decode;
     sf_encode := fun _ a _ => Some (repeat x2a (len a));
     integrated_loudness := loudness;
     normalize_loudness := fun a _ _ => Some a;
     noisereduce_installed := true;
     reduce_noise := fun a _ _ => Some a;
     cast := fun _ x => x;
     ffmpeg_version := Ok 0%Z;
     ffmpeg := fun _ ins => match ins with
                            | [b] => Some b
                            | [v; a] => Some (v ++ a)
                            | _ => None
                            end;
     ffprobe := fun _ =>
       Some [ {| codec_type := Some "video"; codec_name := Some "h264";
                 stream_duration := None |};
              {| codec_type := Some "audio"; codec_name := Some "aac";
                 stream_duration := None |} ];
     float_of_str := fun _ => Some 1%float;
     is_zipfile := fun b => match b with x50 :: x4b :: _ => true | _ => false end;
     zip_decode := unzip;
     zip_encode := fun es => x50 :: x4b :: xff :: concat (map ze_data es) |}.

(** The same, with a noise reduction that always raises. *)
Definition externals_broken_denoise : Externals :=
  {| gettempdir := gettempdir externals;
     sf_decode := sf_decode externals;
     sf_encode := sf_encode externals;
     integrated_loudness := integrated_loudness externals;
     normalize_loudness := normalize_loudness externals;
     noisereduce_installed := true;
     reduce_noise := fun _ _ _ => None;
     cast := cast externals;
     ffmpeg_version := Ok 0%Z;
     ffmpeg := ffmpeg externals;
     ffprobe := ffprobe externals;
     float_of_str := float_of_str externals;
     is_zipfile := is_zipfile externals;
     zip_decode := zip_decode externals;
     zip_encode := zip_encode externals |}.

Definition root : node :=
  Dir [ ("tmp", Dir []);
        ("in", Dir [ ("talk.pptx", File [x50; x4b; x01]);
                     ("plain.pptx", File [x50; x4b; x02]);
                     ("quiet.pptx", File [x50; x4b; x03]);
                     ("broken.pptx", File [x00]);
                     ("clip.mp4", File [x01; x02; x03; x04; x05; x06]);
                     ("mute.mp4", File [x00; x00; x00; x00; x00]);
                     ("song.mp3", File [x07; x07; x07; x07]);
                     ("beep.m4a", File [x05; x05]);
                     ("blip.wav", File [x09; x09]);
                     ("voice.wav", File [x01; x02; x03; x04]);
                     ("hush.wav", File [x00; x00; x00; x00]) ]);
        ("out", Dir []) ].

Definition disk0 : Disk := {| tree := root; rand := ["a"; "b"; "c"; "d"; "e"; "f"] |}.

Definition world0 : World := {| disk := disk0; stdin := [] |}.

(** The scratch directory of the first job, and the disk once
    [talk.pptx] has been unpacked into it. *)
Definition scratch : Path := ["tmp"; "pptx_normalizer_a"].

Definition contents : Path := joinpath scratch "pptx_contents".

Definition unpacked : Disk :=
  snd (extract_pptx externals ["in"; "talk.pptx"] scratch
         (snd (mkdtemp externals "pptx_normalizer_" disk0))).

(** An archive that lists one member name twice, with different
    contents, and a [zipfile] that decodes every file to it. *)
Definition archive_duplicate : list zip_entry :=
  [ {| ze_name := ["ppt"; "media"; "audio1.wav"]; ze_is_dir := false;
       ze_data := [x00; x00; x00; x00; x00] |};
    {| ze_name := ["docProps"; "app.xml"]; ze_is_dir := false; ze_data := [x3c; x61] |};
    {| ze_name := ["docProps"; "app.xml"]; ze_is_dir := false; ze_data := [x3c; x62] |} ].

Definition externals_duplicate : Externals :=
  {| gettempdir := gettempdir externals;
     sf_decode := sf_decode externals;
     sf_encode := sf_encode externals;
     integrated_loudness := integrated_loudness externals;
     normalize_loudness := normalize_loudness externals;
     noisereduce_installed := true;
     reduce_noise := reduce_noise externals;
     cast := cast externals;
     ffmpeg_version := ffmpeg_version externals;
     ffmpeg := ffmpeg externals;
     ffprobe := ffprobe externals;
     float_of_str := float_of_str externals;
     is_zipfile := is_zipfile externals;
     zip_decode := fun _ => Some archive_duplicate;
     zip_encode := zip_encode externals |}.

(** The same, on a machine where running ffmpeg is not permitted. *)
Definition externals_blocked : Externals :=
  {| gettempdir := gettempdir externals;
     sf_decode := sf_decode externals;
     sf_encode := sf_encode externals;
     integrated_loudness := integrated_loudness externals;
     normalize_loudness := normalize_loudness externals;
     noisereduce_installed := true;
     reduce_noise := reduce_noise externals;
     cast := cast externals;
     ffmpeg_version := Raise OSError;
     ffmpeg := ffmpeg externals;
     ffprobe := ffprobe externals;
     float_of_str := float_of_str externals;
     is_zipfile := is_zipfile externals;
     zip_decode := zip_decode externals;
     zip_encode := zip_encode externals |}.


(** A disk with one audio file whose suffix is in capitals. *)
Definition capitals : Disk :=
  {| tree := Dir [ ("tmp", Dir []);
                   ("in", Dir [ ("Talk.WAV", File [x01; x02; x03; x04]) ]) ];
     rand := ["a"; "b"] |}.

(** An archive whose member names point out of the directory they are
    extracted into, and a [zipfile] that decodes every file to it. *)
Definition archive_hostile : list zip_entry :=
  [ {| ze_name := [".."; ".."; "in"; "talk.pptx"]; ze_is_dir := false; ze_data := [xff] |};
    {| ze_name := [""; "out"; "."; "x"]; ze_is_dir := false; ze_data := [xfe] |} ].

Definition externals_hostile : Externals :=
  {| gettempdir := gettempdir externals;
     sf_decode := sf_decode externals;
     sf_encode := sf_encode externals;
     integrated_loudness := integrated_loudness externals;
     normalize_loudness := normalize_loudness externals;
     noisereduce_installed := true;
     reduce_noise := reduce_noise externals;
     cast := cast externals;
     ffmpeg_version := Ok 0%Z;
     ffmpeg := ffmpeg externals;
     ffprobe := ffprobe externals;
     float_of_str := float_of_str externals;
     is_zipfile := is_zipfile externals;
     zip_decode := fun _ => Some archive_hostile;
     zip_encode := zip_encode externals |}.

(** A directory with names in mixed case, a directory named like a
    presentation, and a presentation one level further down. *)
Definition shelf : node :=
  Dir [ ("decks", Dir [ ("talk.pptx", File [x50]);
                        ("Intro.PPTX", File [x51]);
                        ("notes.txt", File []);
                        ("old.pptx", Dir []);
                        ("clip.Mp4", File [x01]);
                        ("archive", Dir [ ("deep.pptx", File []) ]) ]) ].

End Demo.

(** * Properties *)

(** ** Directory entries *)

Lemma assoc_put_same c n es : assoc c (put_entry c n es) = Some n.
Proof.
  induction es as [|[k m] es IH]; simpl.
  - by rewrite String.eqb_refl.
  - destruct (String.eqb c k) eqn:E; simpl; rewrite E; [done | apply IH].
Qed.

Lemma assoc_put_other c d n es : c <> d -> assoc d (put_entry c n es) = assoc d es.
Proof.
  intros Hne. induction es as [|[k m] es IH]; simpl.
  - destruct (String.eqb d c) eqn:E; [|done].
    apply String.eqb_eq in E. congruence.
  - destruct (String.eqb c k) eqn:E; simpl.
    + apply String.eqb_eq in E. subst k.
      destruct (String.eqb d c) eqn:E'; [|done].
      apply String.eqb_eq in E'. congruence.
    + by rewrite IH.
Qed.

Lemma assoc_remove_same c es : assoc c (remove_entry c es) = None.
Proof.
  induction es as [|[k m] es IH]; simpl; [done|].
  destruct (String.eqb c k) eqn:E; simpl; [done | by rewrite E].
Qed.

Lemma assoc_remove_other c d es : c <> d -> assoc d (remove_entry c es) = assoc d es.
Proof.
  intros Hne. induction es as [|[k m] es IH]; simpl; [done|].
  destruct (String.eqb c k) eqn:E; simpl.
  - apply String.eqb_eq in E. subst k.
    destruct (String.eqb d c) eqn:E'; [|done].
    apply String.eqb_eq in E'. congruence.
  - by rewrite IH.
Qed.

Lemma assoc_set_same c o es : assoc c (set_entry c o es) = o.
Proof. destruct o; [apply assoc_put_same | apply assoc_remove_same]. Qed.

Lemma assoc_set_other c d o es : c <> d -> assoc d (set_entry c o es) = assoc d es.
Proof. destruct o; [apply assoc_put_other | apply assoc_remove_other]. Qed.

Lemma assoc_None_notin c es : assoc c es = None -> c ∉ map fst es.
Proof.
  induction es as [|[k m] es IH]; simpl; intros H.
  - apply not_elem_of_nil.
  - destruct (String.eqb c k) eqn:E; [done|].
    apply String.eqb_neq in E. rewrite not_elem_of_cons. auto.
Qed.

Lemma assoc_Some_in c n es : assoc c es = Some n -> (c, n) ∈ es.
Proof.
  induction es as [|[k m] es IH]; simpl; intros H; [done|].
  destruct (String.eqb c k) eqn:E.
  - apply String.eqb_eq in E. simplify_eq. apply list_elem_of_here.
  - apply list_elem_of_further. auto.
Qed.

Lemma in_assoc_NoDup c n es :
  NoDup (map fst es) -> (c, n) ∈ es -> assoc c es = Some n.
Proof.
  induction es as [|[k m] es IH]; simpl; intros Hnd Hin.
  - by apply elem_of_nil in Hin.
  - apply NoDup_cons in Hnd as [Hk Hnd].
    apply elem_of_cons in Hin as [Heq | Hin].
    + simplify_eq. by rewrite String.eqb_refl.
    + destruct (String.eqb c k) eqn:E.
      * apply String.eqb_eq in E. subst k. exfalso. apply Hk.
        apply list_elem_of_fmap. by exists (c, n).
      * auto.
Qed.

Lemma remove_put_fresh c n es :
  assoc c es = None -> remove_entry c (put_entry c n es) = es.
Proof.
  induction es as [|[k m] es IH]; simpl; intros H.
  - by rewrite String.eqb_refl.
  - destruct (String.eqb c k) eqn:E; [done|]. simpl. rewrite E. f_equal. auto.
Qed.

Lemma put_put c n n' es : put_entry c n' (put_entry c n es) = put_entry c n' es.
Proof.
  induction es as [|[k m] es IH]; simpl.
  - by rewrite String.eqb_refl.
  - destruct (String.eqb c k) eqn:E; simpl; rewrite E; [done | by rewrite IH].
Qed.

Lemma put_same c n es : assoc c es = Some n -> put_entry c n es = es.
Proof.
  induction es as [|[k m] es IH]; simpl; intros H; [done|].
  destruct (String.eqb c k) eqn:E.
  - by simplify_eq.
  - f_equal. auto.
Qed.

Lemma map_fst_put c n es :
  map fst (put_entry c n es)
  = match assoc c es with
    | Some _ => map fst es
    | None => map fst es ++ [c]
    end.
Proof.
  induction es as [|[k m] es IH]; simpl; [done|].
  destruct (String.eqb c k) eqn:E; simpl; [done|].
  rewrite IH. by destruct (assoc c es).
Qed.

Lemma NoDup_put c n es : NoDup (map fst es) -> NoDup (map fst (put_entry c n es)).
Proof.
  intros Hnd. rewrite map_fst_put. destruct (assoc c es) eqn:E; [done|].
  apply NoDup_app. split_and!; [done | | apply NoDup_singleton].
  intros x Hx Hc. apply list_elem_of_singleton in Hc. subst x.
  by apply assoc_None_notin in E.
Qed.

Lemma remove_entry_sub c es x : x ∈ map fst (remove_entry c es) -> x ∈ map fst es.
Proof.
  induction es as [|[k m] es IH]; simpl; [done|].
  destruct (String.eqb c k); simpl; rewrite ?elem_of_cons; tauto.
Qed.

Lemma NoDup_remove c es : NoDup (map fst es) -> NoDup (map fst (remove_entry c es)).
Proof.
  induction es as [|[k m] es IH]; simpl; [done|].
  intros [Hk Hnd]%NoDup_cons. destruct (String.eqb c k); simpl; [auto|].
  apply NoDup_cons. split; [|auto]. intros Hin. apply Hk. by eapply remove_entry_sub.
Qed.

(** ** Lookup and change in the tree *)

Lemma lookup_opt_cons c p es :
  lookup_opt (c :: p) (Some (Dir es)) = lookup_opt p (assoc c es).
Proof. done. Qed.

Lemma fs_lookup_app p q t :
  fs_lookup (p ++ q) t = lookup_opt q (fs_lookup p t).
Proof.
  revert t. induction p as [|c p IH]; intros t; simpl; [done|].
  destruct t as [b|es]; [done|]. destruct (assoc c es); [apply IH | done].
Qed.

Lemma fs_lookup_prefix_Some p q t :
  p `prefix_of` q -> is_Some (fs_lookup q t) -> is_Some (fs_lookup p t).
Proof.
  intros [k ->] H. rewrite fs_lookup_app in H.
  destruct (fs_lookup p t); [done | by destruct H].
Qed.

Lemma fs_lookup_snoc q c t n :
  fs_lookup (q ++ [c]) t = Some n ->
  exists es, fs_lookup q t = Some (Dir es) /\ assoc c es = Some n.
Proof.
  rewrite fs_lookup_app. destruct (fs_lookup q t) as [[b|es]|]; simpl; try done.
  destruct (assoc c es) eqn:E; intros; simplify_eq. eauto.
Qed.

(** What is at [p] after a change at [p]. *)
Lemma alter_opt_lookup_same p f o o' :
  alter_opt p f o = Some o' ->
  f (lookup_opt p o) = Some (lookup_opt p o').
Proof.
  revert o o'. induction p as [|c p IH]; intros o o' H; simpl in H.
  - destruct o, o'; simpl; done.
  - destruct o as [[b|es]|]; try done.
    destruct (alter_opt p f (assoc c es)) as [new|] eqn:Ea; [|done]. simplify_eq.
    rewrite !lookup_opt_cons, assoc_set_same. by apply IH.
Qed.

Lemma alter_at_lookup_same p f t t' :
  alter_at p f t = Some t' -> f (fs_lookup p t) = Some (fs_lookup p t').
Proof.
  unfold alter_at. intros H.
  destruct (alter_opt p f (Some t)) as [[t1|]|] eqn:E; simplify_eq.
  by apply alter_opt_lookup_same in E.
Qed.

(** Paths that neither contain [p] nor lie on the way to it keep what
    they had. *)
Lemma alter_opt_lookup_disjoint p q f o o' :
  alter_opt p f o = Some o' ->
  ~ p `prefix_of` q -> ~ q `prefix_of` p ->
  lookup_opt q o' = lookup_opt q o.
Proof.
  revert q o o'. induction p as [|c p IH]; intros q o o' H Hpq Hqp.
  - exfalso. apply Hpq, prefix_nil.
  - simpl in H. destruct o as [[b|es]|]; try done.
    destruct (alter_opt p f (assoc c es)) as [new|] eqn:Ea; [|done]. simplify_eq.
    destruct q as [|d q]; [exfalso; apply Hqp, prefix_nil|].
    rewrite !lookup_opt_cons. destruct (decide (c = d)) as [->|Hne].
    + rewrite assoc_set_same. eapply IH; [done | |].
      * intros Hp. apply Hpq. by apply prefix_cons.
      * intros Hq. apply Hqp. by apply prefix_cons.
    + by rewrite assoc_set_other.
Qed.

Lemma alter_at_lookup_disjoint p q f t t' :
  alter_at p f t = Some t' ->
  ~ p `prefix_of` q -> ~ q `prefix_of` p ->
  fs_lookup q t' = fs_lookup q t.
Proof.
  unfold alter_at. intros H ? ?.
  destruct (alter_opt p f (Some t)) as [[t1|]|] eqn:E; simplify_eq.
  by apply (alter_opt_lookup_disjoint _ q) in E.
Qed.

(** Proper ancestors of a changed path were directories and stay so. *)
Lemma alter_opt_ancestor p q f o o' :
  alter_opt p f o = Some o' -> q `prefix_of` p -> q <> p ->
  exists es es', lookup_opt q o = Some (Dir es) /\ lookup_opt q o' = Some (Dir es').
Proof.
  revert q o o'. induction p as [|c p IH]; intros q o o' H Hq Hne.
  - apply prefix_nil_inv in Hq. congruence.
  - simpl in H. destruct o as [[b|es]|]; try done.
    destruct (alter_opt p f (assoc c es)) as [new|] eqn:Ea; [|done]. simplify_eq.
    destruct q as [|d q]; [simpl; eauto|].
    assert (d = c) as -> by (by apply prefix_cons_inv_1 in Hq).
    apply prefix_cons_inv_2 in Hq.
    assert (q <> p) as Hne' by congruence.
    rewrite !lookup_opt_cons, assoc_set_same. by eapply IH.
Qed.

Lemma alter_at_ancestor p q f t t' :
  alter_at p f t = Some t' -> q `prefix_of` p -> q <> p ->
  exists es es', fs_lookup q t = Some (Dir es) /\ fs_lookup q t' = Some (Dir es').
Proof.
  unfold alter_at. intros H ? ?.
  destruct (alter_opt p f (Some t)) as [[t1|]|] eqn:E; simplify_eq.
  by apply (alter_opt_ancestor _ q) in E.
Qed.

(** Outside the changed subtree, kinds and file contents are kept. *)
Lemma alter_at_shallow p q f t t' :
  alter_at p f t = Some t' -> ~ p `prefix_of` q ->
  shallow <$> fs_lookup q t' = shallow <$> fs_lookup q t.
Proof.
  intros H Hpq. destruct (decide (q `prefix_of` p)) as [Hqp|Hqp].
  - assert (q <> p) as Hne by (intros ->; by apply Hpq).
    destruct (alter_at_ancestor _ _ _ _ _ H Hqp Hne) as (es & es' & -> & ->). done.
  - by rewrite (alter_at_lookup_disjoint _ _ _ _ _ H Hpq Hqp).
Qed.

Lemma read_file_shallow q t t' :
  shallow <$> fs_lookup q t' = shallow <$> fs_lookup q t ->
  read_file q t' = read_file q t.
Proof.
  unfold read_file. intros H.
  destruct (fs_lookup q t') as [[?|?]|], (fs_lookup q t) as [[?|?]|]; by simplify_eq/=.
Qed.

Lemma path_exists_shallow q t t' :
  shallow <$> fs_lookup q t' = shallow <$> fs_lookup q t ->
  path_exists q t' = path_exists q t.
Proof.
  unfold path_exists. intros H.
  destruct (fs_lookup q t') as [[?|?]|], (fs_lookup q t) as [[?|?]|]; by simplify_eq/=.
Qed.

Lemma is_dir_shallow q t t' :
  shallow <$> fs_lookup q t' = shallow <$> fs_lookup q t ->
  is_dir q t' = is_dir q t.
Proof.
  unfold is_dir. intros H.
  destruct (fs_lookup q t') as [[?|?]|], (fs_lookup q t) as [[?|?]|]; by simplify_eq/=.
Qed.

Lemma alter_at_read_other p q f t t' :
  alter_at p f t = Some t' -> ~ p `prefix_of` q -> read_file q t' = read_file q t.
Proof. intros H Hpq. by eapply read_file_shallow, alter_at_shallow. Qed.

(** A change succeeds when [f] agrees and either something is at [p]
    already or the parent of [p] is a directory. *)
Lemma alter_opt_succeeds_present p f o n new :
  lookup_opt p o = Some n -> f (Some n) = Some new ->
  exists o', alter_opt p f o = Some o'.
Proof.
  revert o. induction p as [|c p IH]; intros o Hl Hf; simpl.
  - destruct o; simpl in Hl; simplify_eq. eauto.
  - destruct o as [[b|es]|]; try done. rewrite lookup_opt_cons in Hl.
    destruct (IH _ Hl Hf) as [o' ->]. eauto.
Qed.

Lemma alter_opt_succeeds_new p c f o es new :
  lookup_opt p o = Some (Dir es) -> f (assoc c es) = Some new ->
  exists o', alter_opt (p ++ [c]) f o = Some o'.
Proof.
  revert o. induction p as [|d p IH]; intros o Hl Hf; simpl.
  - destruct o; simpl in Hl; simplify_eq. rewrite Hf. eauto.
  - destruct o as [[b|es0]|]; try done. rewrite lookup_opt_cons in Hl.
    destruct (IH _ Hl Hf) as [o' ->]. eauto.
Qed.

Lemma alter_opt_not_removed p f o o' :
  alter_opt p f o = Some o' -> p <> [] -> is_Some o'.
Proof.
  destruct p as [|c p]; [done|]. simpl. intros H _.
  destruct o as [[b|es]|]; try done.
  destruct (alter_opt p f (assoc c es)); by simplify_eq.
Qed.

Lemma remove_absent c es : assoc c es = None -> remove_entry c es = es.
Proof.
  induction es as [|[k m] es IH]; simpl; intros H; [done|].
  destruct (String.eqb c k); [done|]. f_equal. auto.
Qed.

Lemma set_entry_id c es : set_entry c (assoc c es) es = es.
Proof.
  destruct (assoc c es) eqn:E; simpl; [by apply put_same | by apply remove_absent].
Qed.

Lemma set_set_fresh c o1 o2 es :
  assoc c es = None -> set_entry c o2 (set_entry c o1 es) = set_entry c o2 es.
Proof.
  intros H. destruct o1 as [n1|]; simpl.
  - destruct o2 as [n2|]; simpl; [apply put_put|].
    by rewrite remove_put_fresh, remove_absent.
  - by rewrite remove_absent.
Qed.

Lemma set_set_put c n o2 es :
  set_entry c o2 (put_entry c n es) = set_entry c o2 es.
Proof.
  destruct o2 as [n2|]; simpl; [apply put_put|].
  induction es as [|[k m] es IH]; simpl.
  - by rewrite String.eqb_refl.
  - destruct (String.eqb c k) eqn:E; simpl; rewrite E; [done | by rewrite IH].
Qed.

(** A change that puts back what it found changes nothing. *)
Lemma alter_opt_id p f o o' :
  alter_opt p f o = Some o' -> f (lookup_opt p o) = Some (lookup_opt p o) -> o' = o.
Proof.
  revert o o'. induction p as [|c p IH]; intros o o' H Hf; simpl in H.
  - destruct o; simpl in Hf; congruence.
  - destruct o as [[b|es]|]; try done.
    destruct (alter_opt p f (assoc c es)) as [new|] eqn:Ea; [|done]. simplify_eq.
    rewrite lookup_opt_cons in Hf. rewrite (IH _ _ Ea Hf). by rewrite set_entry_id.
Qed.

(** Two changes in a row at a path that was free at first. *)
Lemma alter_opt_compose_fresh p f g o o1 :
  lookup_opt p o = None -> alter_opt p f o = Some o1 ->
  alter_opt p g o1 = alter_opt p (fun x => match f x with Some y => g y | None => None end) o.
Proof.
  revert o o1. induction p as [|c p IH]; intros o o1 Hl H; simpl in H |- *.
  - destruct o; simpl in Hl; [done|]. by rewrite H.
  - destruct o as [[b|es]|]; try done.
    destruct (alter_opt p f (assoc c es)) as [new|] eqn:Ea; [|done]. simplify_eq.
    rewrite lookup_opt_cons in Hl. rewrite assoc_set_same, (IH _ _ Hl Ea).
    match goal with |- context [alter_opt p ?h _] => destruct (alter_opt p h (assoc c es)) as [new2|] end;
      [|done].
    do 3 f_equal.
    destruct new as [n|]; simpl; [apply set_set_put|].
    destruct p as [|c' p].
    + simpl in Hl. destruct (assoc c es) eqn:Ec; [done|]. by rewrite remove_absent.
    + by destruct (alter_opt_not_removed _ _ _ _ Ea).
Qed.

(** ** Files: reading, writing, removing *)

Lemma read_file_lookup p t b : read_file p t = Some b <-> fs_lookup p t = Some (File b).
Proof.
  unfold read_file. destruct (fs_lookup p t) as [[?|?]|]; split; intros; by simplify_eq.
Qed.

Lemma path_exists_false p t : path_exists p t = false <-> fs_lookup p t = None.
Proof. unfold path_exists. destruct (fs_lookup p t); split; intros; by simplify_eq. Qed.

Lemma alter_at_unfold p f t t' :
  alter_at p f t = Some t' <-> alter_opt p f (Some t) = Some (Some t').
Proof.
  unfold alter_at. destruct (alter_opt p f (Some t)) as [[?|]|]; split; intros; by simplify_eq.
Qed.

Lemma write_file_read_same p b t t' :
  write_file p b t = Some t' -> read_file p t' = Some b.
Proof.
  intros H. apply alter_at_lookup_same in H. apply read_file_lookup.
  destruct (fs_lookup p t) as [[?|?]|]; by simplify_eq.
Qed.

Lemma write_file_read_other p q b t t' :
  write_file p b t = Some t' -> q <> p -> read_file q t' = read_file q t.
Proof.
  intros H Hne. destruct (decide (p `prefix_of` q)) as [[k ->]|Hpq].
  - pose proof (alter_at_lookup_same _ _ _ _ H) as Hs.
    unfold read_file. rewrite !fs_lookup_app.
    destruct k as [|c k]; [by rewrite app_nil_r in Hne|].
    destruct (fs_lookup p t) as [[?|?]|]; simpl in Hs; [|done|];
      injection Hs as <-; done.
  - by eapply alter_at_read_other.
Qed.

Lemma write_file_over_file p b b0 t :
  read_file p t = Some b0 -> exists t', write_file p b t = Some t'.
Proof.
  intros H%read_file_lookup. unfold write_file.
  destruct (alter_opt_succeeds_present p
              (fun o => match o with Some (Dir _) => None | _ => Some (Some (File b)) end)
              (Some t) (File b0) (Some (File b)) H eq_refl) as [o' Ho].
  pose proof (alter_opt_lookup_same _ _ _ _ Ho) as Hs. simpl in Hs. rewrite H in Hs.
  destruct o' as [t'|]; [|done]. exists t'. by apply alter_at_unfold.
Qed.

Lemma unlink_file p b0 t :
  read_file p t = Some b0 -> p <> [] -> exists t', unlink p t = Some t'.
Proof.
  intros H%read_file_lookup Hne. unfold unlink.
  destruct (alter_opt_succeeds_present p
              (fun o => match o with Some (File _) => Some None | _ => None end)
              (Some t) (File b0) None H eq_refl) as [o' Ho].
  destruct (alter_opt_not_removed _ _ _ _ Ho Hne) as [t' ->].
  exists t'. by apply alter_at_unfold.
Qed.

Lemma alter_opt_ext p f g o :
  (forall x, f x = g x) -> alter_opt p f o = alter_opt p g o.
Proof.
  intros Hfg. revert o. induction p as [|c p IH]; intros o; simpl; [done|].
  destruct o as [[b|es]|]; try done. by rewrite IH.
Qed.

(** Creating a file where nothing was, rewriting it and removing it
    again gives back the tree one started from. *)
Lemma write_write_fresh p b b' t t1 :
  fs_lookup p t = None -> write_file p b t = Some t1 ->
  write_file p b' t1 = write_file p b' t.
Proof.
  intros Hl H1. apply alter_at_unfold in H1. unfold write_file, alter_at.
  rewrite (alter_opt_compose_fresh p _ _ (Some t) _ Hl H1).
  erewrite alter_opt_ext; [done|]. by intros [[?|?]|].
Qed.

Lemma unlink_write_fresh p b t t1 :
  fs_lookup p t = None -> write_file p b t = Some t1 -> unlink p t1 = Some t.
Proof.
  intros Hl H1. apply alter_at_unfold in H1. unfold unlink. apply alter_at_unfold.
  rewrite (alter_opt_compose_fresh p _ _ (Some t) _ Hl H1).
  assert (p <> []) as Hne by (intros ->; done).
  destruct (alter_opt_succeeds_present p
              (fun o => match o with Some (File _) => Some None | _ => None end)
              (Some t1) (File b) None) as [o' Ho]; [|done|].
  { apply alter_opt_lookup_same in H1. simpl in H1. rewrite Hl in H1. by simplify_eq. }
  rewrite (alter_opt_compose_fresh p _ _ (Some t) _ Hl H1) in Ho.
  rewrite Ho. f_equal. eapply alter_opt_id; [exact Ho|].
  simpl. by rewrite Hl.
Qed.

(** ** Running computations *)

Ltac unfold_st :=
  unfold catch, finally, bind, ret, raise, lift_result, ask, change, on_disk in *.

Lemma sf_read_run X p d b :
  read_file p (tree d) = Some b ->
  sf_read X p d = (or_raise LibraryError (sf_decode X b), d).
Proof. intros H. unfold sf_read. unfold_st. by rewrite H. Qed.

Lemma change_run e f d t' :
  f (tree d) = Some t' -> change e f d = (Ok tt, {| tree := t'; rand := rand d |}).
Proof. intros H. unfold change. by rewrite H. Qed.

Lemma change_fail e f d : f (tree d) = None -> change e f d = (Raise e, d).
Proof. intros H. unfold change. by rewrite H. Qed.

Lemma fresh_name_inv dir pre suf names t p names' :
  fresh_name dir pre suf names t = Some (p, names') ->
  fs_lookup p t = None /\ exists r, p = joinpath dir (pre ++ r ++ suf).
Proof.
  induction names as [|r names IH]; simpl; [done|].
  destruct (path_exists _ t) eqn:E; [done|]. intros ?; simplify_eq.
  split; [by apply path_exists_false | eauto].
Qed.

(** A temporary file or directory is new, and made by [create]. *)
Lemma mktemp_inv dir pre suf create d p d1 :
  mktemp dir pre suf create d = (Ok p, d1) ->
  fs_lookup p (tree d) = None
  /\ create p (tree d) = Some (tree d1)
  /\ exists r, p = joinpath dir (pre ++ r ++ suf).
Proof.
  unfold mktemp. destruct (fresh_name _ _ _ _ _) as [[p' names']|] eqn:E; [|done].
  apply fresh_name_inv in E as [Hl Hr].
  destruct (create p' (tree d)) eqn:Ec; [|done]. intros ?; simplify_eq. done.
Qed.

Lemma mktemp_tree_fail dir pre suf create d e d1 :
  mktemp dir pre suf create d = (Raise e, d1) -> tree d1 = tree d.
Proof.
  unfold mktemp. destruct (fresh_name _ _ _ _ _) as [[p' names']|]; [|by intros; simplify_eq].
  destruct (create p' (tree d)); [done|]. by intros; simplify_eq.
Qed.

(** ffmpeg with one input [src] and output [dst]. *)
Lemma run_ffmpeg_one X cmd src dst d b :
  cmd_inputs cmd = [src] -> cmd_output cmd = Some dst ->
  read_file src (tree d) = Some b ->
  run_ffmpeg X cmd d
  = match ffmpeg X (cmd_options cmd) [b] with
    | Some out => change CalledProcessError (write_file dst out) d
    | None => (Raise CalledProcessError, d)
    end.
Proof.
  intros Hi Ho Hr. unfold run_ffmpeg. unfold bind, ask at 1. rewrite Hi, Ho. simpl.
  rewrite Hr. by destruct (ffmpeg _ _ _).
Qed.

Lemma run_ffmpeg_missing X cmd src d :
  cmd_inputs cmd = [src] -> read_file src (tree d) = None ->
  run_ffmpeg X cmd d = (Raise CalledProcessError, d).
Proof.
  intros Hi Hr. unfold run_ffmpeg. unfold bind, ask at 1. rewrite Hi. simpl.
  by rewrite Hr.
Qed.

Lemma cmd_inputs_skip s rest :
  String.eqb s "-i" = false -> cmd_inputs (Str s :: rest) = cmd_inputs rest.
Proof. intros H. destruct rest as [|[?|?] ?]; simpl; by rewrite ?H. Qed.

Lemma cmd_inputs_options l rest :
  cmd_inputs (map Str l ++ Str "-loglevel" :: rest) = cmd_inputs (Str "-loglevel" :: rest).
Proof.
  induction l as [|a l IH]; [done|].
  change (cmd_inputs (Str a :: (map Str l ++ Str "-loglevel" :: rest))
          = cmd_inputs (Str "-loglevel" :: rest)).
  rewrite <- IH. by destruct l.
Qed.

Lemma last_app_nonempty {A} (l1 l2 : list A) d a :
  List.last (l1 ++ l2 ++ [a]) d = a.
Proof. by rewrite app_assoc, last_last. Qed.

Lemma convert_from_wav_cmd_io input_wav output_path fmt :
  cmd_inputs (_convert_from_wav_cmd input_wav output_path fmt) = [input_wav]
  /\ cmd_output (_convert_from_wav_cmd input_wav output_path fmt) = Some output_path.
Proof.
  unfold _convert_from_wav_cmd. split.
  - change (input_wav :: cmd_inputs (Str "-y" ::
              (map Str (codec_args fmt)
                 ++ Str "-loglevel" :: [Str "error"; PathArg output_path])) = [input_wav]).
    by rewrite cmd_inputs_skip, cmd_inputs_options.
  - unfold cmd_output.
    change ([Str "-loglevel"; Str "error"; PathArg output_path])
      with ([Str "-loglevel"; Str "error"] ++ [PathArg output_path]).
    rewrite app_assoc. by rewrite last_app_nonempty.
Qed.

Lemma cmd_options_from_wav input_wav output_path fmt :
  cmd_options (_convert_from_wav_cmd input_wav output_path fmt)
  = ["ffmpeg"; "-i"; "-y"] ++ codec_args fmt ++ ["-loglevel"; "error"].
Proof.
  unfold _convert_from_wav_cmd. simpl. do 3 f_equal.
  induction (codec_args fmt) as [|a l IH]; simpl; [done | by rewrite IH].
Qed.

(** Laws for stepping through a computation. *)
Lemma bind_lift_ok {S A B} (a : A) (k : A -> St S B) s :
  bind (lift_result (Ok a)) k s = k a s.
Proof. done. Qed.

Lemma bind_lift_raise {S A B} e (k : A -> St S B) s :
  bind (lift_result (Raise e)) k s = (Raise e, s).
Proof. done. Qed.

Lemma bind_ret {S A B} (a : A) (k : A -> St S B) s : bind (ret a) k s = k a s.
Proof. done. Qed.

Lemma bind_raise {S A B} e (k : A -> St S B) s : bind (raise e) k s = (Raise e, s).
Proof. done. Qed.

Lemma bind_ask {A B} (f : node -> A) (k : A -> M B) d :
  bind (ask f) k d = k (f (tree d)) d.
Proof. done. Qed.

Lemma bind_run {S A B} (m : St S A) (k : A -> St S B) s a s' :
  m s = (Ok a, s') -> bind m k s = k a s'.
Proof. intros H. unfold bind. by rewrite H. Qed.

Lemma bind_run_raise {S A B} (m : St S A) (k : A -> St S B) s e s' :
  m s = (Raise e, s') -> bind m k s = (Raise e, s').
Proof. intros H. unfold bind. by rewrite H. Qed.

Lemma catch_run {S A} (m : St S A) h s r s' :
  m s = (r, s') ->
  catch m h s = match r with Ok a => (Ok a, s') | Raise e => h e s' end.
Proof. intros H. unfold catch. by rewrite H. Qed.

Lemma finally_run {S A} (m : St S A) c s r s' s'' :
  m s = (r, s') -> c s' = (Ok tt, s'') -> finally m c s = (r, s'').
Proof. intros H Hc. unfold finally. by rewrite H, Hc. Qed.

Lemma convert_to_wav_cmd_io input_path output_path :
  cmd_inputs (_convert_to_wav_cmd input_path output_path) = [input_path].
Proof. done. Qed.

(** ** The native path, step by step *)

Section NativeRuns.

Variable X : Externals.
Variables (file_path : Path) (target : float) (denoise : bool) (strength : float).
Variables (d : Disk) (b : bytes) (data : ndarray) (rate : Z) (dur : float).

Hypothesis Hread : read_file file_path (tree d) = Some b.
Hypothesis Hdecode : sf_decode X b = Some (data, rate).
Hypothesis Hdur : get_audio_duration rate (Z.of_nat (len data)) = Ok dur.

Let data' := apply_denoise X denoise data rate strength.

Lemma native_skip_short :
  PrimFloat.ltb dur min_duration = true ->
  _normalize_native_format X file_path target denoise strength d = (Ok None, d).
Proof.
  intros Hlt. unfold _normalize_native_format.
  unfold catch, bind at 1. rewrite (sf_read_run _ _ _ _ Hread), Hdecode. simpl.
  unfold_st. by rewrite Hdur, Hlt.
Qed.

Lemma native_skip_unmeasurable L :
  PrimFloat.ltb dur min_duration = false ->
  integrated_loudness X rate data' = Some L ->
  is_unmeasurable L = true ->
  _normalize_native_format X file_path target denoise strength d = (Ok None, d).
Proof.
  intros Hlt HL Hun. unfold _normalize_native_format.
  unfold catch, bind at 1. rewrite (sf_read_run _ _ _ _ Hread), Hdecode. simpl.
  unfold_st. rewrite Hdur, Hlt. fold data'. rewrite HL. simpl. by rewrite Hun.
Qed.

(** Once the loudness is measured and finite, the only possible
    answers are a failure of a later step and the record with gain
    [target - L]. *)
Lemma native_measured L :
  PrimFloat.ltb dur min_duration = false ->
  integrated_loudness X rate data' = Some L ->
  is_unmeasurable L = false ->
  _normalize_native_format X file_path target denoise strength d
  = match normalize_loudness X data' L target with
    | None => (Ok None, d)
    | Some out =>
        match sf_encode X (name file_path) out rate with
        | None => (Ok None, d)
        | Some b' =>
            match write_file file_path b' (tree d) with
            | None => (Ok None, d)
            | Some t' =>
                (Ok (Some {| filename := name file_path;
                             original_lufs := L;
                             target_lufs := target;
                             gain_db := PrimFloat.sub target L;
                             duration := dur |}),
                 {| tree := t'; rand := rand d |})
            end
        end
    end.
Proof.
  intros Hlt HL Hun. unfold _normalize_native_format.
  unfold catch, bind at 1. rewrite (sf_read_run _ _ _ _ Hread), Hdecode. simpl.
  unfold_st. rewrite Hdur, Hlt. fold data'. rewrite HL. simpl. rewrite Hun.
  destruct (normalize_loudness X data' L target) as [out|]; simpl; [|done].
  unfold sf_write. destruct (sf_encode X (name file_path) out rate) as [b'|]; [|done].
  unfold_st. by destruct (write_file file_path b' (tree d)).
Qed.

End NativeRuns.

(** ** The bridged path, step by step *)

(** A temporary file [tmp], new in [t], holding [b] in [tk]. *)
Lemma temp_file_facts tmp t b tk :
  fs_lookup tmp t = None -> write_file tmp b t = Some tk ->
  read_file tmp tk = Some b
  /\ path_exists tmp tk = true
  /\ (forall q, q <> tmp -> read_file q tk = read_file q t)
  /\ (forall b', exists tk', write_file tmp b' t = Some tk' /\ write_file tmp b' tk = Some tk')
  /\ unlink tmp tk = Some t.
Proof.
  intros Hfresh Hw.
  pose proof (write_file_read_same _ _ _ _ Hw) as Hr.
  split_and!.
  - done.
  - unfold path_exists. apply read_file_lookup in Hr. by rewrite Hr.
  - intros q Hq. by eapply write_file_read_other.
  - intros b'. destruct (write_file_over_file tmp b' _ _ Hr) as [tk' Hk'].
    exists tk'. split; [|done]. by rewrite <- (write_write_fresh _ _ _ _ _ Hfresh Hw).
  - by eapply unlink_write_fresh.
Qed.

Section BridgedRuns.

Variable X : Externals.
Variables (file_path : Path) (target : float) (fmt : string).
Variables (denoise : bool) (strength : float).
Variables (d d1 : Disk) (tmp : Path) (b0 w1 : bytes).
Variables (data : ndarray) (rate : Z) (dur : float).

Hypothesis Hread : read_file file_path (tree d) = Some b0.
Hypothesis Htemp : NamedTemporaryFile_wav X d = (Ok tmp, d1).
Hypothesis Hto_wav :
  ffmpeg X (cmd_options (_convert_to_wav_cmd file_path tmp)) [b0] = Some w1.
Hypothesis Hdecode : sf_decode X w1 = Some (data, rate).
Hypothesis Hdur : get_audio_duration rate (Z.of_nat (len data)) = Ok dur.

Let data' := apply_denoise X denoise data rate strength.
Let back := {| tree := tree d; rand := rand d1 |}.

Lemma temp_is_new : fs_lookup tmp (tree d) = None /\ tmp <> file_path.
Proof.
  apply mktemp_inv in Htemp as (Hfresh & _ & _). split; [done|].
  intros ->. apply read_file_lookup in Hread. congruence.
Qed.

(** The state once the input has been converted and decoded. *)
Lemma bridged_decoded :
  exists t2,
    write_file tmp w1 (tree d) = Some t2
    /\ compressed_body X file_path tmp target fmt denoise strength d1
       = (dur0 <- lift_result (get_audio_duration rate (Z.of_nat (len data))) ;;
          if PrimFloat.ltb dur0 min_duration then ret None else
          loudness <-
            lift_result (or_raise LibraryError (integrated_loudness X rate data')) ;;
          if is_unmeasurable loudness then ret None else
          normalized_audio <-
            lift_result
              (or_raise LibraryError (normalize_loudness X data' loudness target)) ;;
          sf_write X tmp normalized_audio rate ;;;
          _convert_from_wav X tmp file_path fmt ;;;
          ret (Some {| filename := name file_path;
                       original_lufs := loudness;
                       target_lufs := target;
                       gain_db := PrimFloat.sub target loudness;
                       duration := dur0 |}))
           {| tree := t2; rand := rand d1 |}.
Proof.
  destruct temp_is_new as [Hfresh Hne].
  pose proof Htemp as (_ & Hcreate & _)%mktemp_inv.
  destruct (temp_file_facts _ _ _ _ Hfresh Hcreate) as (_ & _ & Hother & Hw & _).
  destruct (Hw w1) as (t2 & Ht2 & Ht2').
  exists t2. split; [done|].
  unfold compressed_body. unfold bind at 1. unfold _convert_to_wav.
  rewrite (run_ffmpeg_one X _ file_path tmp d1 b0); [|done|done|].
  2:{ rewrite Hother; [done | congruence]. }
  rewrite Hto_wav, (change_run _ _ _ _ Ht2').
  unfold bind at 1.
  destruct (temp_file_facts _ _ _ _ Hfresh Ht2) as (Hr2 & _).
  rewrite (sf_read_run X tmp _ w1); [|done]. rewrite Hdecode. done.
Qed.

(** The [finally] clause puts the tree back when only the temporary
    file was touched. *)
Lemma remove_temp_back b tk r :
  write_file tmp b (tree d) = Some tk ->
  remove_temp tmp {| tree := tk; rand := r |} = (Ok tt, {| tree := tree d; rand := r |}).
Proof.
  intros Hw. destruct temp_is_new as [Hfresh _].
  destruct (temp_file_facts _ _ _ _ Hfresh Hw) as (_ & Hex & _ & _ & Hun).
  unfold remove_temp. unfold bind, ask at 1. simpl. rewrite Hex.
  by apply change_run.
Qed.

Lemma bridged_skip_short :
  PrimFloat.ltb dur min_duration = true ->
  _normalize_compressed_format X file_path target fmt denoise strength d = (Ok None, back).
Proof.
  intros Hlt. unfold _normalize_compressed_format. rewrite Htemp. cbv beta iota.
  destruct bridged_decoded as (t2 & Ht2 & Hbody).
  eapply finally_run; [|by eapply remove_temp_back].
  erewrite catch_run; [|rewrite Hbody, Hdur, bind_lift_ok, Hlt; reflexivity]. done.
Qed.

Lemma bridged_skip_unmeasurable L :
  PrimFloat.ltb dur min_duration = false ->
  integrated_loudness X rate data' = Some L ->
  is_unmeasurable L = true ->
  _normalize_compressed_format X file_path target fmt denoise strength d = (Ok None, back).
Proof.
  intros Hlt HL Hun. unfold _normalize_compressed_format. rewrite Htemp. cbv beta iota.
  destruct bridged_decoded as (t2 & Ht2 & Hbody).
  eapply finally_run; [|by eapply remove_temp_back].
  erewrite catch_run;
    [|rewrite Hbody, Hdur, bind_lift_ok, Hlt, HL; cbn [or_raise];
      rewrite bind_lift_ok, Hun; reflexivity].
  done.
Qed.

(** Once the loudness is measured and finite: a later step fails and
    the tree is as before, or the record with gain [target - L] is
    returned and the asset holds the re-encoded audio. *)
Lemma bridged_measured L :
  PrimFloat.ltb dur min_duration = false ->
  integrated_loudness X rate data' = Some L ->
  is_unmeasurable L = false ->
  match normalize_loudness X data' L target with
  | None =>
      _normalize_compressed_format X file_path target fmt denoise strength d
      = (Ok None, back)
  | Some out =>
      match sf_encode X (name tmp) out rate with
      | None =>
          _normalize_compressed_format X file_path target fmt denoise strength d
          = (Ok None, back)
      | Some w2 =>
          match ffmpeg X (cmd_options (_convert_from_wav_cmd tmp file_path fmt)) [w2] with
          | None =>
              _normalize_compressed_format X file_path target fmt denoise strength d
              = (Ok None, back)
          | Some b1 =>
              exists t',
                _normalize_compressed_format X file_path target fmt denoise strength d
                = (Ok (Some {| filename := name file_path;
                               original_lufs := L;
                               target_lufs := target;
                               gain_db := PrimFloat.sub target L;
                               duration := dur |}),
                   {| tree := t'; rand := rand d1 |})
                /\ read_file file_path t' = Some b1
                /\ forall q, q <> file_path -> read_file q t' = read_file q (tree d)
          end
      end
  end.
Proof.
  intros Hlt HL Hun.
  destruct temp_is_new as [Hfresh Hne].
  destruct bridged_decoded as (t2 & Ht2 & Hbody).
  unfold _normalize_compressed_format. rewrite Htemp. cbv beta iota.
  rewrite Hdur, bind_lift_ok, Hlt, HL in Hbody. cbn [or_raise] in Hbody.
  rewrite bind_lift_ok, Hun in Hbody.
  destruct (normalize_loudness X data' L target) as [out|]; cbn [or_raise] in Hbody.
  2:{ rewrite bind_lift_raise in Hbody.
      eapply finally_run; [|by eapply remove_temp_back].
      erewrite catch_run; [|exact Hbody]. done. }
  rewrite bind_lift_ok in Hbody. unfold sf_write in Hbody.
  destruct (sf_encode X (name tmp) out rate) as [w2|].
  2:{ rewrite bind_raise in Hbody.
      eapply finally_run; [|by eapply remove_temp_back].
      erewrite catch_run; [|exact Hbody]. done. }
  destruct (temp_file_facts _ _ _ _ Hfresh Ht2) as (_ & _ & _ & Hw & _).
  destruct (Hw w2) as (t3 & Ht3 & Ht3'). clear Hw.
  rewrite (bind_run _ _ _ _ _ (change_run _ _ {| tree := t2; rand := rand d1 |} _ Ht3'))
    in Hbody.
  cbn [rand] in Hbody.
  destruct (temp_file_facts _ _ _ _ Hfresh Ht3) as (Hr3 & _ & Hother3 & _ & _).
  destruct (convert_from_wav_cmd_io tmp file_path fmt) as [Hin Hout].
  unfold _convert_from_wav in Hbody.
  assert (run_ffmpeg X (_convert_from_wav_cmd tmp file_path fmt)
            {| tree := t3; rand := rand d1 |}
          = match ffmpeg X (cmd_options (_convert_from_wav_cmd tmp file_path fmt)) [w2] with
            | Some out =>
                change CalledProcessError (write_file file_path out)
                  {| tree := t3; rand := rand d1 |}
            | None => (Raise CalledProcessError, {| tree := t3; rand := rand d1 |})
            end) as Hrun.
  { by apply (run_ffmpeg_one X _ tmp file_path). }
  destruct (ffmpeg X _ [w2]) as [b1|].
  2:{ rewrite (bind_run_raise _ _ _ _ _ Hrun) in Hbody.
      eapply finally_run; [|by eapply (remove_temp_back w2)].
      erewrite catch_run; [|exact Hbody]. done. }
  assert (read_file file_path t3 = Some b0) as Hr3' by (rewrite Hother3; [done | congruence]).
  destruct (write_file_over_file file_path b1 _ _ Hr3') as [t4 Ht4].
  rewrite (change_run _ _ {| tree := t3; rand := rand d1 |} _ Ht4) in Hrun.
  rewrite (bind_run _ _ _ _ _ Hrun) in Hbody. cbn [rand] in Hbody.
  assert (read_file tmp t4 = Some w2) as Hr4.
  { rewrite (write_file_read_other _ _ _ _ _ Ht4); done. }
  assert (tmp <> []) as Hnil.
  { apply mktemp_inv in Htemp as (_ & _ & r & ->). unfold joinpath. by destruct (gettempdir X). }
  destruct (unlink_file _ _ _ Hr4 Hnil) as [t5 Ht5].
  exists t5. split.
  { eapply finally_run.
    - unfold catch. rewrite Hbody. reflexivity.
    - unfold remove_temp. rewrite bind_ask. cbn [tree].
      assert (path_exists tmp t4 = true) as ->.
      { unfold path_exists. apply read_file_lookup in Hr4. by rewrite Hr4. }
      unfold change. cbn [tree rand]. by rewrite Ht5. }
  assert (~ tmp `prefix_of` file_path) as Hnp.
  { intros Hp. apply read_file_lookup in Hread.
    destruct (fs_lookup_prefix_Some _ _ (tree d) Hp) as [? ?]; [by rewrite Hread | congruence]. }
  split.
  - rewrite (alter_at_read_other _ _ _ _ _ Ht5 Hnp). by eapply write_file_read_same.
  - intros q Hq. destruct (decide (tmp `prefix_of` q)) as [[k ->]|Hpq].
    + unfold read_file. rewrite !fs_lookup_app.
      apply alter_at_lookup_same in Ht5. apply read_file_lookup in Hr4.
      rewrite Hr4 in Ht5. injection Ht5 as <-. by rewrite Hfresh.
    + rewrite (alter_at_read_other _ _ _ _ _ Ht5 Hpq).
      rewrite (write_file_read_other _ _ _ _ _ Ht4 Hq).
      apply Hother3. intros ->. apply Hpq. done.
Qed.

End BridgedRuns.

(** ** Arrays: stacking columns *)

Lemma shape_Arr1_inv a n :
  shape a = [n] -> exists dt v, a = Arr1 dt v /\ length v = n.
Proof. destruct a as [dt v|dt c rows]; simpl; intros H; simplify_eq. eauto. Qed.

Lemma shape_astype cast dt a : shape (astype cast dt a) = shape a.
Proof. destruct a; simpl; by rewrite length_map. Qed.

Lemma zip_rows_length r1 r2 :
  length r1 = length r2 -> length (zip_rows r1 r2) = length r1.
Proof.
  revert r2. induction r1 as [|a r1 IH]; intros [|b r2] H; simpl in *; try done.
  f_equal. apply IH. lia.
Qed.

Lemma zip_rows_widths r1 r2 c1 c2 :
  Forall (fun r => length r = c1) r1 -> Forall (fun r => length r = c2) r2 ->
  Forall (fun r => length r = c1 + c2) (zip_rows r1 r2).
Proof.
  intros H1. revert r2. induction H1 as [|a r1 Ha H1 IH]; intros r2 H2; simpl; [done|].
  destruct H2 as [|b r2 Hb H2]; [done|].
  constructor; [rewrite length_app; lia | by apply IH].
Qed.

(** The columns of a stack, when the first array is one column wide. *)
Lemma zip_rows_column v r2 j :
  length v = length r2 ->
  map (fun r => nth j r 0%float) (zip_rows (map (fun x => [x]) v) r2)
  = match j with
    | O => v
    | S j' => map (fun r => nth j' r 0%float) r2
    end.
Proof.
  revert r2. induction v as [|x v IH]; intros [|b r2] H; simpl in *; try done.
  - by destruct j.
  - specialize (IH r2 ltac:(lia)). destruct j; simpl in *; by rewrite IH.
Qed.

Lemma column_stack_columns ds n :
  ds <> [] ->
  Forall (fun a => exists dt v, a = Arr1 dt v /\ length v = n) ds ->
  exists dt rows,
    column_stack ds = Ok (Arr2 dt (length ds) rows)
    /\ length rows = n
    /\ Forall (fun r => length r = length ds) rows
    /\ forall j a, ds !! j = Some a ->
                   map (fun r => nth j r 0%float) rows = values a.
Proof.
  induction ds as [|a ds IH]; [done|]. intros _ Hall.
  apply Forall_cons in Hall as [(dt & v & -> & Hv) Hall].
  destruct ds as [|b ds].
  - exists dt, (map (fun x => [x]) v). simpl. split_and!; try done.
    + by rewrite length_map.
    + apply Forall_forall. intros r (x & -> & _)%list_elem_of_fmap. done.
    + intros [|j] a Ha; simplify_eq/=.
      clear. induction v; simpl; by f_equal.
  - destruct (IH ltac:(done) Hall) as (dt' & rows & Hst & Hlen & Hw & Hcol).
    change (column_stack (Arr1 dt v :: b :: ds))
      with (match column_stack (b :: ds) with
            | Ok r => hstack2 (Arr1 dt v) r
            | Raise e => Raise e
            end).
    rewrite Hst. unfold hstack2. cbn [to_2d]. rewrite length_map, Hv, Hlen, Nat.eqb_refl.
    eexists _, _. split; [reflexivity|]. split_and!.
    + rewrite zip_rows_length; rewrite length_map; congruence.
    + apply (zip_rows_widths _ _ 1 (length (b :: ds))); [|done].
      apply Forall_forall. intros r (x & -> & _)%list_elem_of_fmap. done.
    + intros j a Ha. rewrite zip_rows_column by congruence.
      destruct j as [|j]; simpl in Ha; [by simplify_eq|]. by apply Hcol.
Qed.

Lemma denoise_channels_inv X data_float rate strength chans ds :
  denoise_channels X data_float rate strength chans = Ok ds ->
  length ds = length chans
  /\ forall j ch, chans !! j = Some ch ->
       exists y', reduce_noise X (column data_float ch) rate strength = Some y'
                  /\ ds !! j = Some y'.
Proof.
  revert ds. induction chans as [|c chans IH]; intros ds H; simpl in H.
  - simplify_eq. split; [done|]. intros j ch Hj. by rewrite lookup_nil in Hj.
  - destruct (reduce_noise X _ rate strength) as [y|] eqn:Ey; [|done].
    destruct (denoise_channels X data_float rate strength chans) as [ds'|] eqn:Eds; [|done].
    simplify_eq. destruct (IH _ eq_refl) as [Hlen Hall]. split; [simpl; by f_equal|].
    intros [|j] ch Hj; simpl in Hj; simplify_eq; eauto.
Qed.

Lemma denoise_channels_total X data_float rate strength chans :
  (forall y sr s, is_Some (reduce_noise X y sr s)) ->
  exists ds, denoise_channels X data_float rate strength chans = Ok ds.
Proof.
  intros Htot. induction chans as [|c chans [ds IH]]; simpl; [eauto|].
  destruct (Htot (column data_float c) rate strength) as [y ->]. rewrite IH. eauto.
Qed.

(** ** File names and formats *)

Lemma str_in_spec s l : str_in s l = true <-> s ∈ l.
Proof.
  unfold str_in. rewrite existsb_exists. split.
  - intros (x & Hx & ->%String.eqb_eq). by apply list_elem_of_In.
  - intros H. exists s. split; [by apply list_elem_of_In | apply String.eqb_refl].
Qed.

Lemma str_in_false s l : str_in s l = false <-> s ∉ l.
Proof.
  rewrite <- str_in_spec. destruct (str_in s l); split; intros; done.
Qed.

Lemma name_joinpath p c : name (joinpath p c) = c.
Proof. unfold name, joinpath. apply last_last. Qed.

Lemma rfind_dotless i s : has_dot s = false -> rfind_dot_from i s = (-1)%Z.
Proof.
  revert i. induction s as [|c s IH]; intros i H; simpl in *; [done|].
  apply orb_false_iff in H as [Hc Hs]. by rewrite (IH _ Hs), Hc.
Qed.

Lemma rfind_stem_ext i stem ext :
  (0 <= i)%Z -> has_dot ext = false ->
  rfind_dot_from i (stem ++ String "." ext) = (i + Z.of_nat (String.length stem))%Z.
Proof.
  revert i. induction stem as [|c stem IH]; intros i Hi Hext.
  - simpl. rewrite (rfind_dotless _ _ Hext). simpl. lia.
  - change (rfind_dot_from i (String c (stem ++ String "." ext))
            = (i + Z.of_nat (S (String.length stem)))%Z).
    change (rfind_dot_from i (String c (stem ++ String "." ext)))
      with (let r := rfind_dot_from (i + 1) (stem ++ String "." ext) in
            if (0 <=? r)%Z then r
            else if Ascii.eqb c "."%char then i else (-1)%Z).
    rewrite IH by (done || lia). cbv zeta.
    destruct (0 <=? _)%Z eqn:E; [lia|]. apply Z.leb_gt in E. lia.
Qed.

Lemma drop_chars_stem stem s : drop_chars (String.length stem) (stem ++ s) = s.
Proof. induction stem as [|c stem IH]; simpl; [by destruct s | done]. Qed.

Lemma length_append s1 s2 :
  String.length (s1 ++ s2) = String.length s1 + String.length s2.
Proof. induction s1 as [|c s1 IH]; simpl; [done | by rewrite IH]. Qed.

(** The suffix of [stem.ext]. *)
Lemma suffix_stem_ext dir stem ext :
  stem <> "" -> ext <> "" -> has_dot ext = false ->
  suffix (joinpath dir (stem ++ String "." ext)) = String "." ext.
Proof.
  intros Hstem Hext Hdot. unfold suffix. rewrite name_joinpath.
  unfold rfind_dot. rewrite rfind_stem_ext by done.
  rewrite length_append. simpl String.length.
  assert (0 < String.length stem) by (destruct stem; simpl; [done | lia]).
  assert (0 < String.length ext) by (destruct ext; simpl; [done | lia]).
  destruct (_ && _) eqn:E.
  - rewrite Z.add_0_l, Nat2Z.id. apply drop_chars_stem.
  - apply andb_false_iff in E as [E|E]; [apply Z.ltb_ge in E | apply Z.ltb_ge in E]; lia.
Qed.

Lemma lower_ascii_not_dot c :
  Ascii.eqb c "."%char = false -> Ascii.eqb (lower_ascii c) "."%char = false.
Proof. destruct c as [[] [] [] [] [] [] [] []]; intros H; try done. Qed.

Lemma has_dot_lower s : has_dot s = false -> has_dot (lower s) = false.
Proof.
  induction s as [|c s IH]; simpl; [done|]. intros [Hc Hs]%orb_false_iff.
  by rewrite (lower_ascii_not_dot _ Hc), IH.
Qed.

Lemma lstrip_dot_dotless s : has_dot s = false -> lstrip_dot s = s.
Proof.
  destruct s as [|c s]; [done|]. simpl. intros [Hc _]%orb_false_iff.
  destruct c as [[] [] [] [] [] [] [] []]; done.
Qed.

(** The format of [stem.ext] is [ext] in lower case. *)
Lemma file_format_stem_ext dir stem ext :
  stem <> "" -> ext <> "" -> has_dot ext = false ->
  file_format_of (joinpath dir (stem ++ String "." ext)) = lower ext.
Proof.
  intros Hstem Hext Hdot. unfold file_format_of.
  rewrite suffix_stem_ext by done.
  change (lower (String "." ext)) with (String "." (lower ext)).
  change (lstrip_dot (String "." (lower ext))) with (lstrip_dot (lower ext)).
  apply lstrip_dot_dotless. by apply has_dot_lower.
Qed.

Lemma codec_args_default f :
  f ∉ ["mp3"; "m4a"; "wma"; "aac"] -> codec_args f = ["-acodec"; "copy"].
Proof.
  intros H. unfold codec_args, codec_map.
  rewrite !not_elem_of_cons in H. destruct H as (? & ? & ? & ? & _).
  by rewrite !lookup_insert_ne, lookup_empty.
Qed.

(** ** Batches *)










(** ** Properties of the tree kept by whole computations *)

Section Preserves.

Context (P : node -> Prop).

Lemma preserves_ret {A} (a : A) : preserves P (ret a).
Proof. intros d r d' H. unfold ret in H. by simplify_eq. Qed.

Lemma preserves_raise {A} e : preserves P (@raise Disk A e).
Proof. intros d r d' H. unfold raise in H. by simplify_eq. Qed.

Lemma preserves_lift {A} (x : result A) : preserves P (lift_result x).
Proof. intros d r d' H. unfold lift_result in H. by simplify_eq. Qed.

Lemma preserves_ask {A} (f : node -> A) : preserves P (ask f).
Proof. intros d r d' H. unfold ask in H. by simplify_eq. Qed.

Lemma preserves_bind {A B} (m : M A) (k : A -> M B) :
  preserves P m -> (forall a, preserves P (k a)) -> preserves P (bind m k).
Proof.
  intros Hm Hk d r d' H HP. unfold bind in H.
  destruct (m d) as [[a|e] d1] eqn:E.
  - eapply Hk; [exact H|]. by eapply Hm.
  - simplify_eq. by eapply Hm.
Qed.

Lemma preserves_catch {A} (m : M A) h :
  preserves P m -> (forall e, preserves P (h e)) -> preserves P (catch m h).
Proof.
  intros Hm Hh d r d' H HP. unfold catch in H.
  destruct (m d) as [[a|e] d1] eqn:E.
  - simplify_eq. by eapply Hm.
  - eapply Hh; [exact H|]. by eapply Hm.
Qed.

Lemma preserves_finally {A} (m : M A) c :
  preserves P m -> preserves P c -> preserves P (finally m c).
Proof.
  intros Hm Hc d r d' H HP. unfold finally in H.
  destruct (m d) as [r1 d1] eqn:E. destruct (c d1) as [[u|e] d2] eqn:E2;
    simplify_eq; (eapply Hc; [exact E2|]; by eapply Hm).
Qed.

Lemma preserves_change e f :
  (forall t t', f t = Some t' -> P t -> P t') -> preserves P (change e f).
Proof.
  intros Hf d r d' H HP. unfold change in H.
  destruct (f (tree d)) as [t'|] eqn:E; simplify_eq; [|done]. simpl. by eapply Hf.
Qed.

Lemma preserves_mktemp dir pre suf create :
  (forall p t t', create p t = Some t' -> P t -> P t') ->
  preserves P (mktemp dir pre suf create).
Proof.
  intros Hc d r d' H HP. unfold mktemp in H.
  destruct (fresh_name dir pre suf (rand d) (tree d)) as [[p names]|]; [|by simplify_eq].
  destruct (create p (tree d)) as [t'|] eqn:E; simplify_eq; [|done]. simpl. by eapply Hc.
Qed.

End Preserves.

(** Changes that refuse to replace a directory keep every directory. *)
Lemma alter_at_keeps_dir p q f t t' :
  (forall es, f (Some (Dir es)) = None) ->
  alter_at q f t = Some t' -> is_dir p t = true -> is_dir p t' = true.
Proof.
  intros Hf Ha Hd. destruct (decide (q `prefix_of` p)) as [[k ->]|Hqp].
  - exfalso. apply alter_at_lookup_same in Ha. unfold is_dir in Hd.
    rewrite fs_lookup_app in Hd.
    destruct (fs_lookup q t) as [[b|es]|]; simpl in Hd.
    + by destruct k.
    + by rewrite Hf in Ha.
    + done.
  - rewrite <- Hd. by eapply is_dir_shallow, alter_at_shallow.
Qed.

Lemma write_file_keeps_dir p q b t t' :
  write_file q b t = Some t' -> is_dir p t = true -> is_dir p t' = true.
Proof. by apply alter_at_keeps_dir. Qed.

Lemma unlink_keeps_dir p q t t' :
  unlink q t = Some t' -> is_dir p t = true -> is_dir p t' = true.
Proof. by apply alter_at_keeps_dir. Qed.

Lemma mkdir_keeps_dir p q t t' :
  mkdir q t = Some t' -> is_dir p t = true -> is_dir p t' = true.
Proof. by apply alter_at_keeps_dir. Qed.

Lemma makedirs_from_keeps_dir p done todo t t' :
  makedirs_from done todo t = Some t' -> is_dir p t = true -> is_dir p t' = true.
Proof.
  revert done t. induction todo as [|c todo IH]; intros dn t H Hd; simpl in H.
  - by simplify_eq.
  - destruct (fs_lookup (dn ++ [c]) t) as [[b|es]|]; [done | by eapply IH |].
    destruct (mkdir (dn ++ [c]) t) as [t1|] eqn:E; [|done].
    eapply IH; [exact H|]. by eapply mkdir_keeps_dir.
Qed.

Lemma makedirs_keeps_dir p q t t' :
  makedirs q t = Some t' -> is_dir p t = true -> is_dir p t' = true.
Proof. apply makedirs_from_keeps_dir. Qed.

Create HintDb keeps discriminated.

#[local] Hint Resolve preserves_ret preserves_raise preserves_lift preserves_ask : keeps.
#[local] Hint Resolve write_file_keeps_dir unlink_keeps_dir mkdir_keeps_dir
  makedirs_keeps_dir : keeps.

(** One step through the structure of a computation. *)
Ltac keeps_step :=
  first
    [ apply preserves_bind; [|intros ?]
    | apply preserves_catch; [|intros ?]
    | apply preserves_finally
    | apply preserves_change; intros ? ?
    | apply preserves_mktemp; intros ? ? ?
    | match goal with
      | |- preserves _ (if ?c then _ else _) => destruct c
      | |- preserves _ (match ?o with _ => _ end) => destruct o
      end
    | solve [eauto with keeps] ].

Ltac keeps := repeat keeps_step.

Section KeepsDirs.

Variable X : Externals.
Variable p : Path.

Abbreviation P := (fun t => is_dir p t = true).

Lemma sf_read_keeps q : preserves P (sf_read X q).
Proof. unfold sf_read. keeps. Qed.

Lemma sf_write_keeps q data rate : preserves P (sf_write X q data rate).
Proof. unfold sf_write. keeps. Qed.

Lemma run_ffmpeg_keeps cmd : preserves P (run_ffmpeg X cmd).
Proof. unfold run_ffmpeg. keeps. Qed.

Hint Resolve sf_read_keeps sf_write_keeps run_ffmpeg_keeps : keeps.

Lemma native_keeps q target denoise strength :
  preserves P (_normalize_native_format X q target denoise strength).
Proof. unfold _normalize_native_format. keeps. Qed.

Lemma compressed_keeps q target fmt denoise strength :
  preserves P (_normalize_compressed_format X q target fmt denoise strength).
Proof.
  intros d r d' H HP. unfold _normalize_compressed_format in H.
  destruct (NamedTemporaryFile_wav X d) as [[tmp|e] d1] eqn:E.
  - assert (P (tree d1)) as HP1.
    { eapply (preserves_mktemp (fun t => is_dir p t = true)); [|exact E|exact HP].
      intros ? ? ?. apply write_file_keeps_dir. }
    assert (preserves P
              (finally (catch (compressed_body X q tmp target fmt denoise strength)
                              (fun _ => ret None))
                       (remove_temp tmp))) as Hbody.
    { unfold compressed_body, remove_temp, _convert_to_wav, _convert_from_wav.
      keeps. }
    exact (Hbody _ _ _ H HP1).
  - simplify_eq.
    eapply (preserves_mktemp (fun t => is_dir p t = true)); [|exact E|exact HP].
    intros ? ? ?. apply write_file_keeps_dir.
Qed.

Hint Resolve native_keeps compressed_keeps : keeps.

Lemma normalize_audio_file_keeps q target denoise strength :
  preserves P (normalize_audio_file X q target denoise strength).
Proof. unfold normalize_audio_file. keeps. Qed.

Hint Resolve normalize_audio_file_keeps : keeps.

Lemma normalize_audio_files_keeps files target denoise strength :
  preserves P (normalize_audio_files X files target denoise strength).
Proof. induction files as [|f files IH]; simpl; keeps. Qed.

Lemma extract_members_keeps path members : preserves P (extract_members path members).
Proof.
  induction members as [|e members IH]; simpl; [keeps|].
  unfold _extract_member. keeps.
Qed.

Hint Resolve normalize_audio_files_keeps extract_members_keeps : keeps.

Lemma extract_pptx_keeps pptx_path temp_dir :
  preserves P (extract_pptx X pptx_path temp_dir).
Proof.
  unfold extract_pptx, ZipFile_read, extractall, find_audio_files. keeps.
Qed.

Lemma reconstruct_pptx_keeps extract_path output_path :
  preserves P (reconstruct_pptx X extract_path output_path).
Proof. unfold reconstruct_pptx. keeps. Qed.

Lemma copy2_keeps src dst : preserves P (copy2 src dst).
Proof. unfold copy2. keeps. Qed.

Lemma extract_audio_keeps video_path output_audio_path :
  preserves P (extract_audio_from_video X video_path output_audio_path).
Proof. unfold extract_audio_from_video. keeps. Qed.

End KeepsDirs.

(** ** Scratch directories *)

Lemma mkdtemp_is_dir X pre d temp_dir d1 :
  mkdtemp X pre d = (Ok temp_dir, d1) ->
  is_dir temp_dir (tree d1) = true /\ temp_dir <> [] /\ fs_lookup temp_dir (tree d) = None.
Proof.
  intros (Hfresh & Hmk & r & ->)%mktemp_inv. split_and!; [|by destruct (gettempdir X)|done].
  apply alter_at_lookup_same in Hmk. rewrite Hfresh in Hmk.
  unfold is_dir. by injection Hmk as <-.
Qed.

Lemma rmtree_dir p t :
  is_dir p t = true -> p <> [] -> exists t', rmtree p t = Some t'.
Proof.
  unfold is_dir. intros Hd Hne.
  destruct (fs_lookup p t) as [[b|es]|] eqn:E; try done.
  destruct (alter_opt_succeeds_present p
              (fun o => match o with Some (Dir _) => Some None | _ => None end)
              (Some t) (Dir es) None E eq_refl) as [o' Ho].
  destruct (alter_opt_not_removed _ _ _ _ Ho Hne) as [t' ->].
  exists t'. by apply alter_at_unfold.
Qed.

(** A body that keeps the scratch directory (as every modelled body
    does) is followed by its removal, and the answer of the body is the
    answer of the whole. *)
Lemma with_TempDirectory_run {A} X (body : Path -> M A) d temp_dir d1 r d2 :
  mkdtemp X "pptx_normalizer_" d = (Ok temp_dir, d1) ->
  body temp_dir d1 = (r, d2) ->
  is_dir temp_dir (tree d2) = true ->
  exists t3,
    rmtree temp_dir (tree d2) = Some t3
    /\ with_TempDirectory X body d = (r, {| tree := t3; rand := rand d2 |}).
Proof.
  intros Hmk Hbody Hdir.
  destruct (mkdtemp_is_dir _ _ _ _ _ Hmk) as (_ & Hne & _).
  destruct (rmtree_dir _ _ Hdir Hne) as [t3 Ht3]. exists t3. split; [done|].
  unfold with_TempDirectory. rewrite (bind_run _ _ _ _ _ Hmk).
  eapply finally_run; [exact Hbody|].
  rewrite bind_ask. unfold path_exists. unfold is_dir in Hdir.
  destruct (fs_lookup temp_dir (tree d2)) as [[?|?]|]; try done.
  by apply change_run.
Qed.

Lemma on_disk_run {A} (m : M A) w r d' :
  m (disk w) = (r, d') -> on_disk m w = (r, {| disk := d'; stdin := stdin w |}).
Proof. intros H. unfold on_disk. by rewrite H. Qed.

(** ** Walking the scratch tree *)

Lemma node_ind' (P : node -> Prop) :
  (forall b, P (File b)) ->
  (forall es, Forall (fun e => P (snd e)) es -> P (Dir es)) ->
  forall t, P t.
Proof.
  intros Hf Hd. fix IH 1. intros [b|es]; [apply Hf|]. apply Hd.
  induction es as [|[k ch] es IHes]; constructor; [apply IH | apply IHes].
Qed.

Lemma wf_node_Dir es :
  wf_node (Dir es) <-> NoDup (map fst es) /\ Forall (fun e => wf_node (snd e)) es.
Proof.
  simpl. apply and_iff_compat_l.
  induction es as [|[k ch] es IH]; [split; [constructor | done]|].
  rewrite Forall_cons, <- IH. done.
Qed.

Lemma tree_files_Dir es : tree_files (Dir es) = own_files es ++ files_below es.
Proof.
  simpl. f_equal.
  - induction es as [|[k [b|es']] es IH]; simpl; [done | by rewrite IH | done].
  - induction es as [|[k ch] es IH]; simpl; [done | by rewrite IH].
Qed.

Lemma walk_Dir root es :
  walk root (Dir es)
  = (root, subdirs es, nondirs es)
      :: flat_map (fun e => walk (joinpath root (fst e)) (snd e)) es.
Proof.
  simpl. f_equal. induction es as [|[k ch] es IH]; simpl; [done | by rewrite IH].
Qed.

(** The files that the two loops of [reconstruct_pptx] visit are the
    files of the tree. *)
Lemma walk_visits_tree_files root sub :
  flat_map (fun '(r, _, files) => map (joinpath r) files) (walk root sub)
  = map (fun f => root ++ fst f) (tree_files sub).
Proof.
  revert root. induction sub as [b|es IH] using node_ind'; intros root; [done|].
  rewrite walk_Dir, tree_files_Dir, map_app. cbn [flat_map]. f_equal.
  - unfold nondirs, own_files. clear IH.
    induction es as [|[k [b|es']] es IHes]; simpl; [done | by rewrite IHes | done].
  - unfold files_below.
    induction es as [|[k ch] es IHes]; simpl; [done|].
    apply Forall_cons in IH as [Hch IH].
    rewrite flat_map_app, map_app, (IHes IH). f_equal.
    simpl in Hch. rewrite Hch, map_map. apply map_ext. intros [p b]. simpl.
    unfold joinpath. by rewrite <- app_assoc.
Qed.

Lemma own_files_spec es p b :
  (p, b) ∈ own_files es <-> exists k, p = [k] /\ (k, File b) ∈ es.
Proof.
  unfold own_files. rewrite list_elem_of_In, in_flat_map. split.
  - intros ([k n] & Hin & Hp). simpl in Hp. destruct n as [b'|es']; [|done].
    destruct Hp as [Hp|[]]. simplify_eq. exists k. split; [done|]. by apply list_elem_of_In.
  - intros (k & -> & Hin). exists (k, File b). split; [by apply list_elem_of_In|].
    simpl. by left.
Qed.

Lemma files_below_spec es p b :
  (p, b) ∈ files_below es
  <-> exists k ch p', p = k :: p' /\ (k, ch) ∈ es /\ (p', b) ∈ tree_files ch.
Proof.
  unfold files_below. rewrite list_elem_of_In, in_flat_map. split.
  - intros ([k ch] & Hin & Hp). simpl in Hp. apply in_map_iff in Hp as ([p' b'] & Heq & Hp).
    simpl in Heq. simplify_eq. exists k, ch, p'.
    split_and!; [done | by apply list_elem_of_In | by apply list_elem_of_In].
  - intros (k & ch & p' & -> & Hin & Hp). exists (k, ch).
    split; [by apply list_elem_of_In|]. simpl. apply in_map_iff. exists (p', b).
    split; [done | by apply list_elem_of_In].
Qed.

(** Every listed file is in the tree, under its path, with its content. *)
Lemma tree_files_sound t p b :
  wf_node t -> (p, b) ∈ tree_files t -> fs_lookup p t = Some (File b).
Proof.
  revert p. induction t as [b'|es IH] using node_ind'; intros p Hwf Hin.
  - by apply elem_of_nil in Hin.
  - apply wf_node_Dir in Hwf as [Hnd Hwf].
    rewrite tree_files_Dir, elem_of_app in Hin. destruct Hin as [Hin|Hin].
    + apply own_files_spec in Hin as (k & -> & Hin). simpl.
      by rewrite (in_assoc_NoDup _ _ _ Hnd Hin).
    + apply files_below_spec in Hin as (k & ch & p' & -> & Hin & Hp). simpl.
      rewrite (in_assoc_NoDup _ _ _ Hnd Hin).
      rewrite Forall_forall in IH, Hwf.
      apply (IH (k, ch)); [done | by apply (Hwf (k, ch)) | done].
Qed.

(** Every file of a directory tree is listed. *)
Lemma tree_files_complete t p b :
  fs_lookup p t = Some (File b) -> p <> [] -> (p, b) ∈ tree_files t.
Proof.
  revert p. induction t as [b'|es IH] using node_ind'; intros p Hl Hne.
  - by destruct p.
  - destruct p as [|k p]; [done|]. simpl in Hl.
    destruct (assoc k es) as [ch|] eqn:Ek; [|done]. apply assoc_Some_in in Ek.
    rewrite tree_files_Dir, elem_of_app. destruct p as [|k' p].
    + simpl in Hl. simplify_eq. left. apply own_files_spec. eauto.
    + right. apply files_below_spec. exists k, ch, (k' :: p). split_and!; [done | done |].
      rewrite Forall_forall in IH. by apply (IH (k, ch)).
Qed.

Lemma tree_files_nonempty t p b : (p, b) ∈ tree_files t -> p <> [].
Proof.
  destruct t as [b'|es]; [by intros ?%elem_of_nil|].
  rewrite tree_files_Dir, elem_of_app.
  intros [(k & -> & _)%own_files_spec | (k & ch & p' & -> & _)%files_below_spec]; done.
Qed.

Lemma own_files_cons k n es :
  own_files ((k, n) :: es)
  = match n with File b => [([k], b)] | Dir _ => [] end ++ own_files es.
Proof. done. Qed.

Lemma files_below_cons k ch es :
  files_below ((k, ch) :: es)
  = map (fun f => (k :: fst f, snd f)) (tree_files ch) ++ files_below es.
Proof. done. Qed.

(** No path is listed twice. *)
Lemma tree_files_NoDup t : wf_node t -> NoDup (map fst (tree_files t)).
Proof.
  induction t as [b|es IH] using node_ind'; intros Hwf; [constructor|].
  apply wf_node_Dir in Hwf as [Hnd Hwf].
  rewrite tree_files_Dir, map_app. apply NoDup_app. split_and!.
  - clear IH Hwf. induction es as [|[k n] es IHes]; [constructor|].
    simpl in Hnd. apply NoDup_cons in Hnd as [Hk Hnd].
    rewrite own_files_cons, map_app. apply NoDup_app. split_and!; [| |by apply IHes].
    + destruct n; simpl; [apply NoDup_singleton | constructor].
    + intros p Hp Hp'. destruct n as [b|]; [|by apply elem_of_nil in Hp].
      apply list_elem_of_singleton in Hp. subst p.
      apply list_elem_of_fmap in Hp' as ([p b'] & Heq & Hin). simpl in Heq. subst p.
      apply own_files_spec in Hin as (k' & Heq & Hin).
      assert (k' = k) as -> by congruence.
      apply Hk. apply list_elem_of_fmap. by exists (k, File b').
  - intros p Hp Hp'.
    apply list_elem_of_fmap in Hp as ([p1 b1] & Heq & Hin). simpl in Heq. subst p1.
    apply own_files_spec in Hin as (k & -> & _).
    apply list_elem_of_fmap in Hp' as ([p2 b2] & Heq & Hin). simpl in Heq. subst p2.
    apply files_below_spec in Hin as (k' & ch & p' & Heq & _ & Hp').
    apply tree_files_nonempty in Hp'. congruence.
  - induction es as [|[k ch] es IHes]; [constructor|].
    simpl in Hnd. apply NoDup_cons in Hnd as [Hk Hnd].
    apply Forall_cons in IH as [Hch IH]. apply Forall_cons in Hwf as [Hwfch Hwf].
    rewrite files_below_cons, map_app. apply NoDup_app. split_and!; [| |by apply IHes].
    + rewrite map_map. simpl.
      change (NoDup (map (fun f : Path * bytes => k :: fst f) (tree_files ch))).
      rewrite <- (map_map fst (cons k)).
      apply NoDup_fmap_2; [intros ? ? ?; by simplify_eq | by apply Hch].
    + intros p Hp Hp'.
      apply list_elem_of_fmap in Hp as ([p1 b1] & Heq & Hin). simpl in Heq. subst p1.
      apply list_elem_of_fmap in Hin as ([p0 b0] & Heq & _). simpl in Heq.
      apply list_elem_of_fmap in Hp' as ([p2 b2] & Heq' & Hin'). simpl in Heq'. subst p2.
      apply files_below_spec in Hin' as (k' & ch' & p' & Heq' & Hin' & _).
      assert (k' = k) as -> by congruence.
      apply Hk. apply list_elem_of_fmap. by exists (k, ch').
Qed.

Lemma relative_to_app root p : relative_to (root ++ p) root = Some p.
Proof. induction root as [|c root IH]; simpl; [done | by rewrite String.eqb_refl]. Qed.

Lemma zip_write_files_all root t sub fs zip_ref :
  fs_lookup root t = Some sub ->
  (forall f, f ∈ fs -> fs_lookup (fst f) sub = Some (File (snd f))) ->
  zip_write_files root t (map (fun f => root ++ fst f) fs) zip_ref
  = (zip_ref ++ map file_entry fs, None).
Proof.
  intros Hroot. revert zip_ref. induction fs as [|f fs IH]; intros zip_ref Hfs; simpl.
  - by rewrite app_nil_r.
  - rewrite relative_to_app. unfold read_file. rewrite fs_lookup_app, Hroot. simpl.
    assert (fs_lookup (fst f) sub = Some (File (snd f))) as ->
      by (apply Hfs; apply list_elem_of_here).
    rewrite IH by (intros; apply Hfs; by apply list_elem_of_further).
    by rewrite <- app_assoc.
Qed.

(** The archive written for a scratch tree: one file entry for each
    regular file, named by its path from the scratch root. *)
Lemma archive_of_tree extract_path t sub :
  fs_lookup extract_path t = Some sub -> wf_node sub ->
  archive_of extract_path t = (map file_entry (tree_files sub), None).
Proof.
  intros Hroot Hwf. unfold archive_of, walk_files, os_walk. rewrite Hroot.
  rewrite walk_visits_tree_files.
  rewrite (zip_write_files_all _ _ sub); [done | done |].
  intros [p b] Hin. by apply tree_files_sound.
Qed.

(** ** Creating files and directories, seen path by path *)

Lemma kind_at_read q t t' : kind_at q t' = kind_at q t -> read_file q t' = read_file q t.
Proof. apply read_file_shallow. Qed.

Lemma kind_at_is_dir q t : is_dir q t = true <-> kind_at q t = Some (Dir []).
Proof.
  unfold is_dir, kind_at. destruct (fs_lookup q t) as [[b|es]|]; simpl; split; done.
Qed.

Lemma kind_at_file q t b : read_file q t = Some b <-> kind_at q t = Some (File b).
Proof.
  unfold read_file, kind_at.
  destruct (fs_lookup q t) as [[b'|es]|]; simpl; split; intros; by simplify_eq.
Qed.

Lemma kind_at_below p k t :
  k <> [] -> kind_at p t <> Some (Dir []) -> kind_at (p ++ k) t = None.
Proof.
  unfold kind_at. rewrite fs_lookup_app. intros Hk Hp.
  destruct (fs_lookup p t) as [[b|es]|]; simpl in *; [by destruct k | done | done].
Qed.

Lemma write_file_kind p b t t' q :
  write_file p b t = Some t' ->
  kind_at q t' = if decide (q = p) then Some (File b) else kind_at q t.
Proof.
  intros H. pose proof (alter_at_lookup_same _ _ _ _ H) as Hs.
  assert (fs_lookup p t' = Some (File b) /\ kind_at p t <> Some (Dir [])) as [Hp' Hp].
  { unfold kind_at. destruct (fs_lookup p t) as [[?|?]|]; simpl; by simplify_eq. }
  destruct (decide (q = p)) as [->|Hne]; [unfold kind_at; by rewrite Hp'|].
  destruct (decide (p `prefix_of` q)) as [[k ->]|Hpq].
  - assert (k <> []) by (intros ->; by rewrite app_nil_r in Hne).
    rewrite !kind_at_below; try done. unfold kind_at. by rewrite Hp'.
  - by eapply alter_at_shallow.
Qed.

Lemma mkdir_kind p t t' q :
  mkdir p t = Some t' ->
  kind_at p t = None
  /\ kind_at q t' = if decide (q = p) then Some (Dir []) else kind_at q t.
Proof.
  intros H. pose proof (alter_at_lookup_same _ _ _ _ H) as Hs.
  assert (fs_lookup p t' = Some (Dir []) /\ kind_at p t = None) as [Hp' Hp].
  { unfold kind_at. destruct (fs_lookup p t) as [[?|?]|]; simpl; by simplify_eq. }
  split; [done|].
  destruct (decide (q = p)) as [->|Hne]; [unfold kind_at; by rewrite Hp'|].
  destruct (decide (p `prefix_of` q)) as [[k ->]|Hpq].
  - assert (k <> []) by (intros ->; by rewrite app_nil_r in Hne).
    rewrite (kind_at_below p k t) by (done || congruence).
    unfold kind_at. rewrite fs_lookup_app, Hp'. by destruct k.
  - by eapply alter_at_shallow.
Qed.

Lemma alter_at_new p c f t es new :
  fs_lookup p t = Some (Dir es) -> f (assoc c es) = Some (Some new) ->
  exists t', alter_at (p ++ [c]) f t = Some t'.
Proof.
  intros Hp Hf.
  destruct (alter_opt_succeeds_new p c f (Some t) es (Some new) Hp Hf) as [o' Ho].
  assert (p ++ [c] <> []) as Hne by (by destruct p).
  destruct (alter_opt_not_removed _ _ _ _ Ho Hne) as [t' ->].
  exists t'. by apply alter_at_unfold.
Qed.

(** A file can be written where the parent is a directory and no
    directory is in the way. *)
Lemma write_file_ok p c b t :
  is_dir p t = true -> is_dir (p ++ [c]) t = false ->
  exists t', write_file (p ++ [c]) b t = Some t'.
Proof.
  unfold is_dir. intros Hp Hc.
  destruct (fs_lookup p t) as [[?|es]|] eqn:Ep; try done.
  eapply alter_at_new; [exact Ep|].
  rewrite fs_lookup_app, Ep in Hc. simpl in Hc.
  destruct (assoc c es) as [[?|?]|]; done.
Qed.

Lemma mkdir_ok p c t :
  is_dir p t = true -> path_exists (p ++ [c]) t = false ->
  exists t', mkdir (p ++ [c]) t = Some t'.
Proof.
  unfold is_dir, path_exists. intros Hp Hc.
  destruct (fs_lookup p t) as [[?|es]|] eqn:Ep; try done.
  eapply alter_at_new; [exact Ep|].
  rewrite fs_lookup_app, Ep in Hc. simpl in Hc.
  destruct (assoc c es) as [?|]; done.
Qed.

(** ** What the repack loop writes *)

Lemma relative_to_Some p base r : relative_to p base = Some r -> p = base ++ r.
Proof.
  revert p. induction base as [|b base IH]; intros p H; simpl in *; [by simplify_eq|].
  destruct p as [|c p]; [done|].
  destruct (String.eqb b c) eqn:E; [|done].
  apply String.eqb_eq in E as ->. f_equal. by apply IH.
Qed.

(** Every entry written comes from a regular file of the tree, with
    its path below the root as name and its bytes as data. *)
Lemma zip_write_files_from_files root t files zip_ref (Q : zip_entry -> Prop) :
  (forall arcname b,
      read_file (root ++ arcname) t = Some b ->
      Q {| ze_name := arcname; ze_is_dir := false; ze_data := b |}) ->
  (forall e, e ∈ zip_ref -> Q e) ->
  forall e, e ∈ fst (zip_write_files root t files zip_ref) -> Q e.
Proof.
  intros HQ. revert zip_ref. induction files as [|f files IH]; intros zip_ref Hz; simpl.
  - done.
  - destruct (relative_to f root) as [arcname|] eqn:Er; [|done].
    apply relative_to_Some in Er as ->.
    destruct (read_file (root ++ arcname) t) as [b|] eqn:Eb; [|done].
    apply IH. intros e [He|He%list_elem_of_singleton]%elem_of_app; [by apply Hz|].
    subst e. by apply HQ.
Qed.

Lemma archive_of_from_files root t e :
  e ∈ fst (archive_of root t) ->
  ze_is_dir e = false /\ read_file (root ++ ze_name e) t = Some (ze_data e).
Proof.
  revert e. apply zip_write_files_from_files.
  - done.
  - intros e He. by apply elem_of_nil in He.
Qed.

Lemma read_file_below_empty p q t :
  fs_lookup p t = Some (Dir []) -> read_file (p ++ q) t = None.
Proof.
  intros H. unfold read_file. rewrite fs_lookup_app, H. by destruct q.
Qed.

Lemma read_file_is_dir p t b : read_file p t = Some b -> is_dir p t = false.
Proof.
  unfold read_file, is_dir. by destruct (fs_lookup p t) as [[?|?]|].
Qed.

(** The run of [reconstruct_pptx] once the output file can be created. *)
Lemma reconstruct_pptx_run X extract_path output_path d t0 t1 :
  makedirs (parent output_path) (tree d) = Some t0 ->
  write_file output_path [] t0 = Some t1 ->
  exists t2,
    write_file output_path (zip_encode X (fst (archive_of extract_path t1))) t1 = Some t2
    /\ reconstruct_pptx X extract_path output_path d
       = (match snd (archive_of extract_path t1) with
          | None => Ok tt
          | Some e => Raise e
          end, {| tree := t2; rand := rand d |}).
Proof.
  intros Hmk Hw.
  destruct (write_file_over_file output_path
              (zip_encode X (fst (archive_of extract_path t1))) [] t1) as [t2 Ht2].
  { by eapply write_file_read_same. }
  exists t2. split; [done|]. unfold reconstruct_pptx.
  rewrite (bind_run _ _ _ _ _ (change_run OSError _ d t0 Hmk)).
  rewrite (bind_run _ _ _ _ _ (change_run OSError _ {| tree := t0; rand := rand d |} t1 Hw)).
  rewrite bind_ask. cbn [tree rand].
  destruct (archive_of extract_path t1) as [zip_ref err]. cbn [fst snd] in *.
  rewrite (bind_run _ _ _ _ _ (change_run OSError _ {| tree := t1; rand := rand d |} t2 Ht2)).
  cbn [rand].
  by destruct err.
Qed.

(** ** Well-formed trees stay well-formed *)

Lemma Forall_put (Q : string * node -> Prop) c n es :
  (forall k, Q (k, n)) -> Forall Q es -> Forall Q (put_entry c n es).
Proof.
  intros Hn. induction 1 as [|[k m] es Hk Hes IH]; simpl.
  - by repeat constructor.
  - destruct (String.eqb c k); constructor; auto.
Qed.

Lemma Forall_remove (Q : string * node -> Prop) c es :
  Forall Q es -> Forall Q (remove_entry c es).
Proof.
  induction 1 as [|[k m] es Hk Hes IH]; simpl; [constructor|].
  destruct (String.eqb c k); [done | by constructor].
Qed.

Lemma wf_node_lookup p t n : wf_node t -> fs_lookup p t = Some n -> wf_node n.
Proof.
  revert t. induction p as [|c p IH]; intros t Hwf H; simpl in H; [by simplify_eq|].
  destruct t as [b|es]; [done|].
  destruct (assoc c es) as [ch|] eqn:Ec; [|done].
  apply wf_node_Dir in Hwf as [_ Hwf]. apply assoc_Some_in in Ec.
  eapply IH; [|exact H]. rewrite Forall_forall in Hwf. exact (Hwf _ Ec).
Qed.

Lemma alter_opt_wf p f o o' :
  (forall x new, f x = Some (Some new) -> wf_node new) ->
  wf_opt o -> alter_opt p f o = Some o' -> wf_opt o'.
Proof.
  intros Hf. revert o o'. induction p as [|c p IH]; intros o o' Hwf H; simpl in H.
  - destruct o' as [new|]; [|done]. by eapply Hf.
  - destruct o as [[b|es]|]; try done.
    destruct (alter_opt p f (assoc c es)) as [new|] eqn:E; [|done]. simplify_eq.
    simpl in Hwf. apply wf_node_Dir in Hwf as [Hnd Hwf].
    assert (wf_opt new) as Hnew.
    { eapply IH; [|exact E]. destruct (assoc c es) as [ch|] eqn:Ec; [|done].
      apply assoc_Some_in in Ec. rewrite Forall_forall in Hwf. exact (Hwf _ Ec). }
    change (wf_node (Dir (set_entry c new es))). apply wf_node_Dir.
    destruct new as [n|]; simpl.
    + split; [by apply NoDup_put | by apply Forall_put].
    + split; [by apply NoDup_remove | by apply Forall_remove].
Qed.

Lemma alter_at_wf p f t t' :
  (forall x new, f x = Some (Some new) -> wf_node new) ->
  wf_node t -> alter_at p f t = Some t' -> wf_node t'.
Proof.
  intros Hf Hwf H. unfold alter_at in H.
  destruct (alter_opt p f (Some t)) as [[n|]|] eqn:E; simplify_eq.
  by apply (alter_opt_wf p f (Some t) (Some t') Hf).
Qed.

Lemma write_file_wf p b t t' : wf_node t -> write_file p b t = Some t' -> wf_node t'.
Proof.
  apply alter_at_wf. intros [[?|?]|] new H; by simplify_eq.
Qed.

Lemma mkdir_wf p t t' : wf_node t -> mkdir p t = Some t' -> wf_node t'.
Proof.
  apply alter_at_wf. intros [?|] new H; simplify_eq. apply wf_node_Dir.
  split; constructor.
Qed.

Lemma makedirs_from_wf done todo t t' :
  wf_node t -> makedirs_from done todo t = Some t' -> wf_node t'.
Proof.
  revert done t. induction todo as [|c todo IH]; intros done t Hwf H; simpl in H.
  - by simplify_eq.
  - destruct (fs_lookup (done ++ [c]) t) as [[b|es]|]; [done | by eapply IH |].
    destruct (mkdir (done ++ [c]) t) as [t1|] eqn:E; [|done].
    eapply IH; [|exact H]. by eapply mkdir_wf.
Qed.

(** ** Creating the directories on the way to a path *)

Lemma kind_at_is_file q t t' : kind_at q t' = kind_at q t -> is_file q t' = is_file q t.
Proof.
  unfold kind_at, is_file.
  destruct (fs_lookup q t') as [[?|?]|], (fs_lookup q t) as [[?|?]|]; by simpl.
Qed.

Lemma kind_at_dir_not_file q t : kind_at q t = Some (Dir []) -> is_file q t = false.
Proof. unfold kind_at, is_file. by destruct (fs_lookup q t) as [[?|?]|]. Qed.

(** [makedirs] succeeds when no regular file is in the way; it leaves
    every path as it was, except that missing directories on the way
    now exist. *)
Lemma makedirs_from_ok done todo t :
  is_dir done t = true ->
  (forall pref, pref `prefix_of` todo -> is_file (done ++ pref) t = false) ->
  exists t',
    makedirs_from done todo t = Some t'
    /\ is_dir (done ++ todo) t' = true
    /\ forall q,
        kind_at q t' = kind_at q t
        \/ (kind_at q t = None /\ kind_at q t' = Some (Dir [])
            /\ q `prefix_of` (done ++ todo)).
Proof.
  revert done t. induction todo as [|c todo IH]; intros done t Hdone Hfree.
  - exists t. rewrite app_nil_r. auto.
  - simpl. assert (forall pref, pref `prefix_of` todo ->
                     (done ++ [c]) ++ pref = done ++ c :: pref) as Happ.
    { intros pref _. by rewrite <- app_assoc. }
    assert (forall pref, pref `prefix_of` todo -> c :: pref `prefix_of` c :: todo) as Hpre.
    { intros pref [k ->]. by exists k. }
    destruct (fs_lookup (done ++ [c]) t) as [[b|es]|] eqn:E.
    + specialize (Hfree [c] (prefix_cons c [] todo (prefix_nil todo))).
      unfold is_file in Hfree. by rewrite E in Hfree.
    + destruct (IH (done ++ [c]) t) as (t' & Hrun & Hdir & Hk).
      { unfold is_dir. by rewrite E. }
      { intros pref Hp. rewrite Happ by done. auto. }
      exists t'. rewrite <- app_assoc in Hdir, Hk. auto.
    + destruct (mkdir_ok done c t Hdone) as [t1 Ht1].
      { unfold path_exists. by rewrite E. }
      rewrite Ht1.
      assert (forall q, kind_at q t1
                        = if decide (q = done ++ [c]) then Some (Dir []) else kind_at q t)
        as Hk1 by (intros q; by apply mkdir_kind).
      assert (kind_at (done ++ [c]) t = None) as Hnew by (unfold kind_at; by rewrite E).
      destruct (IH (done ++ [c]) t1) as (t' & Hrun & Hdir & Hk).
      { apply kind_at_is_dir. rewrite Hk1. by rewrite decide_True. }
      { intros pref Hp. specialize (Hk1 ((done ++ [c]) ++ pref)).
        destruct (decide _) in Hk1; [by apply kind_at_dir_not_file|].
        rewrite (kind_at_is_file _ _ _ Hk1), Happ by done. auto. }
      exists t'. rewrite <- app_assoc in Hdir, Hk. simpl in Hdir, Hk.
      split_and!; [done | done |]. intros q.
      specialize (Hk q). specialize (Hk1 q).
      destruct (decide (q = done ++ [c])) as [->|Hq].
      * right. split_and!; [done | |].
        -- destruct Hk as [Hk | (Hk & _)]; congruence.
        -- exists todo. by rewrite <- app_assoc.
      * rewrite Hk1 in Hk. done.
Qed.

Lemma makedirs_ok p t :
  is_dir [] t = true ->
  (forall pref, pref `prefix_of` p -> is_file pref t = false) ->
  exists t',
    makedirs p t = Some t'
    /\ is_dir p t' = true
    /\ forall q,
        kind_at q t' = kind_at q t
        \/ (kind_at q t = None /\ kind_at q t' = Some (Dir []) /\ q `prefix_of` p).
Proof. intros Hroot Hfree. by apply (makedirs_from_ok [] p t). Qed.

(** ** Extraction of an archive into an empty directory *)

Lemma kind_at_Some_dir q t es : fs_lookup q t = Some (Dir es) -> kind_at q t = Some (Dir []).
Proof. unfold kind_at. by intros ->. Qed.

Lemma kind_at_prefix_dir p k t x :
  kind_at (p ++ k) t = Some x -> k <> [] -> kind_at p t = Some (Dir []).
Proof.
  unfold kind_at. rewrite fs_lookup_app. intros H Hk.
  destruct (fs_lookup p t) as [[b|es]|]; simpl in *; [by destruct k | done | done].
Qed.

Lemma kind_at_prefix_of_dir p q t :
  p `prefix_of` q -> kind_at q t = Some (Dir []) -> kind_at p t = Some (Dir []).
Proof.
  intros [k ->] H. destruct k as [|c k]; [by rewrite app_nil_r in H|].
  by eapply kind_at_prefix_dir.
Qed.

Lemma is_file_false_kind q t :
  (forall b, kind_at q t <> Some (File b)) -> is_file q t = false.
Proof.
  unfold kind_at, is_file. intros H.
  destruct (fs_lookup q t) as [[b|es]|]; [|done|done]. by destruct (H b).
Qed.

Lemma prefix_of_app_split (pref R m : Path) :
  pref `prefix_of` R ++ m ->
  pref `prefix_of` R \/ exists m', pref = R ++ m' /\ m' `prefix_of` m.
Proof.
  revert pref. induction R as [|c R IH]; intros pref H; [right; by exists pref|].
  destruct pref as [|c' pref]; [left; apply prefix_nil|].
  simpl in H. pose proof (prefix_cons_inv_1 _ _ _ _ H) as ->.
  apply prefix_cons_inv_2 in H.
  destruct (IH _ H) as [Hp | (m' & -> & Hm')].
  - left. by apply prefix_cons.
  - right. by exists m'.
Qed.

Lemma parent_snoc (p : Path) c : parent (p ++ [c]) = p.
Proof. unfold parent. apply removelast_last. Qed.

(** The first half of [_extract_member]: the directories above the
    target exist afterwards. *)
Lemma extract_upperdirs R m t :
  kind_at R t = Some (Dir []) ->
  (forall m' b, m' `prefix_of` m -> kind_at (R ++ m') t <> Some (File b)) ->
  exists t1,
    (forall B (k : M B) rnd,
        (there <- ask (path_exists (R ++ m)) ;;
         (if negb there then change OSError (makedirs (R ++ m)) else ret tt) ;;; k)
          {| tree := t; rand := rnd |}
        = k {| tree := t1; rand := rnd |})
    /\ kind_at (R ++ m) t1 = Some (Dir [])
    /\ (wf_node t -> wf_node t1)
    /\ forall q,
        kind_at q t1 = kind_at q t
        \/ (kind_at q t = None /\ kind_at q t1 = Some (Dir [])
            /\ q `prefix_of` (R ++ m)).
Proof.
  intros HR Hfree. destruct (path_exists (R ++ m) t) eqn:Ex.
  - exists t. split_and!; [| |done|by left].
    + intros B k rnd. rewrite bind_ask. cbn [tree]. by rewrite Ex.
    + unfold path_exists in Ex. specialize (Hfree m).
      unfold kind_at in *.
      destruct (fs_lookup (R ++ m) t) as [[b|es]|]; simpl in *; [|done|done].
      by destruct (Hfree b).
  - destruct (makedirs_ok (R ++ m) t) as (t1 & Hmk & Hdir & Hk).
    { apply kind_at_is_dir. eapply (kind_at_prefix_of_dir [] R); [apply prefix_nil|done]. }
    { intros pref [Hp | (m' & -> & Hm')]%prefix_of_app_split.
      - apply kind_at_dir_not_file. by eapply kind_at_prefix_of_dir.
      - apply is_file_false_kind. intros b. by apply Hfree. }
    exists t1. split_and!; [| by apply kind_at_is_dir | | done].
    + intros B k rnd. rewrite bind_ask. cbn [tree]. rewrite Ex. cbn [negb].
      by rewrite (bind_run _ _ _ _ _
                    (change_run OSError _ {| tree := t; rand := rnd |} t1 Hmk)).
    + intros Hwf. by eapply makedirs_from_wf.
Qed.

Lemma prefix_of_snoc_not (m : Path) c : ~ m ++ [c] `prefix_of` m.
Proof.
  intros H%prefix_length. rewrite length_app in H. simpl in H. lia.
Qed.

(** One member: under the conditions that make an archive free of
    clashes, [_extract_member] succeeds and adds the member. *)
Lemma extract_member_step R e done t :
  sanitize (ze_name e) = ze_name e -> ze_name e <> [] ->
  (forall e', e' ∈ done -> ze_name e' <> ze_name e) ->
  (forall e', e' ∈ done -> ze_is_dir e' = false -> ~ ze_name e' `prefix_of` ze_name e) ->
  (ze_is_dir e = false -> forall e', e' ∈ done -> ~ ze_name e `prefix_of` ze_name e') ->
  extracted R done t ->
  exists t',
    (forall rnd, _extract_member R e {| tree := t; rand := rnd |}
                 = (Ok tt, {| tree := t'; rand := rnd |}))
    /\ extracted R (done ++ [e]) t'
    /\ (wf_node t -> wf_node t')
    /\ (forall q, ~ R `prefix_of` q -> kind_at q t' = kind_at q t).
Proof.
  intros Hclean Hne Hfresh Habove Hbelow (HR & Hb & Hc & Hd).
  destruct (exists_last Hne) as (m & c & Hn).
  assert (m `prefix_of` ze_name e) as Hmn by (exists [c]; done).
  destruct (extract_upperdirs R m t HR) as (t1 & Hrun1 & Hup & Hwf1 & Hk1).
  { intros m' b Hm' Hfile. destruct (Hc _ _ Hfile) as (e' & He' & Hf' & <-).
    apply (Habove e' He' Hf'). by etrans. }
  assert (forall q b, kind_at q t1 = Some (File b) -> kind_at q t = Some (File b)) as HF1.
  { intros q b H. destruct (Hk1 q) as [<- | (_ & ? & _)]; congruence. }
  assert (forall q b, kind_at q t = Some (File b) -> kind_at q t1 = Some (File b)) as HF2.
  { intros q b H. destruct (Hk1 q) as [-> | (? & _ & _)]; congruence. }
  assert (forall q, q <> [] -> kind_at (R ++ q) t1 = Some (Dir []) ->
                    (exists e', e' ∈ done /\ q `prefix_of` ze_name e') \/ q `prefix_of` m)
    as HD1.
  { intros q Hq H. destruct (Hk1 (R ++ q)) as [Heq | (_ & _ & Hp)].
    - left. apply Hd; congruence.
    - right. by apply prefix_app_inv in Hp. }
  assert (kind_at R t1 = Some (Dir [])) as HR1.
  { destruct (Hk1 R) as [-> | (? & _ & _)]; congruence. }
  assert (forall q, ~ R `prefix_of` q -> kind_at q t1 = kind_at q t) as Hout1.
  { intros q Hq. destruct (Hk1 q) as [-> | (Hnone & _ & Hp)]; [done|].
    apply prefix_of_app_split in Hp as [Hp | (m' & -> & _)].
    - rewrite (kind_at_prefix_of_dir q R t Hp HR) in Hnone. done.
    - destruct Hq. by exists m'. }
  set (target := (R ++ m) ++ [c]).
  assert (R ++ ze_name e = target) as Htarget by (by rewrite Hn, app_assoc).
  assert (forall t' x,
             x = (if ze_is_dir e then Dir [] else File (ze_data e)) ->
             (forall q, kind_at q t'
                        = if decide (q = target) then Some x else kind_at q t1) ->
             extracted R (done ++ [e]) t'
             /\ (forall q, ~ R `prefix_of` q -> kind_at q t' = kind_at q t)) as Hfinish.
  { intros t' x Hx Hk'.
    assert (forall q, q <> ze_name e -> kind_at (R ++ q) t' = kind_at (R ++ q) t1) as Hother.
    { intros q Hq. rewrite Hk', decide_False; [done|].
      rewrite <- Htarget. intros ?%app_inv_head. done. }
    assert (kind_at (R ++ ze_name e) t' = Some x) as Hnew.
    { by rewrite Hk', decide_True. }
    split; [split_and!|].
    - rewrite <- (app_nil_r R), Hother; by rewrite ?app_nil_r.
    - intros e0 [He0 | ->%list_elem_of_singleton]%elem_of_app Hf0.
      + rewrite Hother by by apply Hfresh. by apply HF2, Hb.
      + by rewrite Hnew, Hx, Hf0.
    - intros q b Hq. destruct (decide (q = ze_name e)) as [->|Hqn].
      + exists e. rewrite Hnew, Hx in Hq.
        split_and!; [set_solver | by destruct (ze_is_dir e) | done].
      + rewrite Hother in Hq by done.
        destruct (Hc q b (HF1 _ _ Hq)) as (e' & He' & Hf' & Hn').
        exists e'. split_and!; [set_solver | done | done].
    - intros q Hq0 Hq. destruct (decide (q = ze_name e)) as [->|Hqn].
      + exists e. split; [set_solver | done].
      + rewrite Hother in Hq by done.
        destruct (HD1 q Hq0 Hq) as [(e' & He' & Hp) | Hp].
        * exists e'. split; [set_solver | done].
        * exists e. split; [set_solver | by etrans].
    - intros q Hq. rewrite Hk', decide_False; [by apply Hout1|].
      intros ->. apply Hq. rewrite <- Htarget. by exists (ze_name e). }
  assert (forall B (k : M B) rnd,
             (_extract_member R e) {| tree := t; rand := rnd |}
             = (if ze_is_dir e
                then isd <- ask (is_dir target) ;;
                     if negb isd then change OSError (mkdir target) else ret tt
                else change OSError (write_file target (ze_data e)))
                 {| tree := t1; rand := rnd |}) as Hrun.
  { intros _ _ rnd. unfold _extract_member. rewrite Hclean, Htarget.
    unfold target at 1 2. rewrite parent_snoc. apply Hrun1. }
  destruct (ze_is_dir e) eqn:Edir.
  - destruct (is_dir target t1) eqn:Eisd.
    + exists t1. destruct (Hfinish t1 (Dir []) eq_refl) as [Hext Hout].
      { intros q. destruct (decide (q = target)) as [->|]; [|done].
        by apply kind_at_is_dir. }
      split_and!; [|done|done|done].
      intros rnd. rewrite (Hrun unit (ret tt)), bind_ask. cbn [tree]. by rewrite Eisd.
    + destruct (mkdir_ok (R ++ m) c t1) as [t' Ht'].
      { by apply kind_at_is_dir. }
      { unfold path_exists. fold target.
        destruct (fs_lookup target t1) as [[b|es]|] eqn:El; [| |done].
        - assert (kind_at target t = Some (File b)) as Hfile.
          { apply HF1. unfold kind_at. by rewrite El. }
          rewrite <- Htarget in Hfile.
          destruct (Hc _ _ Hfile) as (e' & He' & _ & Hn'). by destruct (Hfresh e' He').
        - unfold is_dir in Eisd. by rewrite El in Eisd. }
      fold target in Ht'. exists t'.
      destruct (Hfinish t' (Dir []) eq_refl) as [Hext Hout].
      { intros q. by apply mkdir_kind. }
      split_and!; [|done| |done].
      * intros rnd. rewrite (Hrun unit (ret tt)), bind_ask. cbn [tree].
        rewrite Eisd. cbn [negb].
        apply (change_run OSError _ {| tree := t1; rand := rnd |} t' Ht').
      * intros Hwf. eapply mkdir_wf; [|exact Ht']. auto.
  - destruct (write_file_ok (R ++ m) c (ze_data e) t1) as [t' Ht'].
    { by apply kind_at_is_dir. }
    { fold target. destruct (is_dir target t1) eqn:Eisd; [|done].
      apply kind_at_is_dir in Eisd. rewrite <- Htarget in Eisd.
      destruct (HD1 _ Hne Eisd) as [(e' & He' & Hp) | Hp].
      - by destruct (Hbelow eq_refl e' He').
      - rewrite Hn in Hp. by apply prefix_of_snoc_not in Hp. }
    fold target in Ht'. exists t'.
    destruct (Hfinish t' (File (ze_data e)) eq_refl) as [Hext Hout].
    { intros q. by apply write_file_kind. }
    split_and!; [|done| |done].
    + intros rnd. rewrite (Hrun unit (ret tt)).
      apply (change_run OSError _ {| tree := t1; rand := rnd |} t' Ht').
    + intros Hwf. eapply write_file_wf; [|exact Ht']. auto.
Qed.

Lemma wf_archive_member done e rest :
  wf_archive (done ++ e :: rest) ->
  (sanitize (ze_name e) = ze_name e /\ ze_name e <> [])
  /\ (forall e', e' ∈ done -> ze_name e' <> ze_name e)
  /\ (forall e', e' ∈ done -> ze_is_dir e' = false ->
        ~ ze_name e' `prefix_of` ze_name e)
  /\ (ze_is_dir e = false -> forall e', e' ∈ done -> ~ ze_name e `prefix_of` ze_name e').
Proof.
  intros (Hclean & Hnd & Hpf).
  rewrite Forall_forall in Hclean. rewrite Forall_forall in Hpf.
  assert (e ∈ done ++ e :: rest) as He.
  { apply elem_of_app. right. apply elem_of_cons. by left. }
  assert (forall e', e' ∈ done -> e' ∈ done ++ e :: rest) as Hdone.
  { intros e' He'. apply elem_of_app. by left. }
  assert (forall e', e' ∈ done -> ze_name e' <> ze_name e) as Hfresh.
  { intros e' He' Heq. rewrite map_app in Hnd. apply NoDup_app in Hnd as (_ & Hnd & _).
    apply (Hnd (ze_name e')).
    - apply list_elem_of_fmap. by exists e'.
    - rewrite Heq. simpl. apply elem_of_cons. by left. }
  split; [by apply Hclean|]. split; [done|]. split.
  - intros e' He' Hf' Hp. apply (Hfresh e' He'). symmetry.
    pose proof (Hpf e' (Hdone e' He') Hf') as Hall.
    rewrite Forall_forall in Hall. by apply Hall.
  - intros Hf e' He' Hp. apply (Hfresh e' He').
    pose proof (Hpf e He Hf) as Hall. rewrite Forall_forall in Hall.
    apply Hall; [by apply Hdone | done].
Qed.

Lemma extract_members_run R rest :
  forall done t,
    wf_archive (done ++ rest) -> extracted R done t ->
    exists t',
      (forall rnd, extract_members R rest {| tree := t; rand := rnd |}
                   = (Ok tt, {| tree := t'; rand := rnd |}))
      /\ extracted R (done ++ rest) t'
      /\ (wf_node t -> wf_node t')
      /\ (forall q, ~ R `prefix_of` q -> kind_at q t' = kind_at q t).
Proof.
  induction rest as [|e rest IH]; intros done t Hwf Hext.
  - exists t. rewrite app_nil_r. done.
  - destruct (wf_archive_member _ _ _ Hwf) as ((Hclean & Hne) & Hfresh & Habove & Hbelow).
    destruct (extract_member_step R e done t Hclean Hne Hfresh Habove Hbelow Hext)
      as (t1 & Hrun1 & Hext1 & Hwf1 & Hout1).
    replace (done ++ e :: rest) with ((done ++ [e]) ++ rest) in * by by rewrite <- app_assoc.
    destruct (IH (done ++ [e]) t1 Hwf Hext1) as (t' & Hrun & Hext' & Hwf' & Hout).
    exists t'. split_and!; [|done|auto|].
    + intros rnd. simpl. by rewrite (bind_run _ _ _ _ _ (Hrun1 rnd)).
    + intros q Hq. by rewrite Hout, Hout1.
Qed.

Lemma extracted_nil R t : fs_lookup R t = Some (Dir []) -> extracted R [] t.
Proof.
  intros H. assert (forall q, q <> [] -> kind_at (R ++ q) t = None) as Hbelow.
  { intros q Hq. unfold kind_at. rewrite fs_lookup_app, H. by destruct q. }
  split_and!.
  - by eapply kind_at_Some_dir.
  - intros e He. by apply elem_of_nil in He.
  - intros q b Hq. destruct q as [|c q].
    + rewrite app_nil_r in Hq. unfold kind_at in Hq. by rewrite H in Hq.
    + by rewrite Hbelow in Hq.
  - intros q Hq0 Hq. by rewrite Hbelow in Hq.
Qed.

(** [extractall] of a clash-free archive into an empty directory unpacks
    every member. *)
Lemma extractall_run entries R d :
  fs_lookup R (tree d) = Some (Dir []) -> wf_archive entries ->
  exists t',
    extractall entries R None d = (Ok tt, {| tree := t'; rand := rand d |})
    /\ extracted R entries t'
    /\ (wf_node (tree d) -> wf_node t')
    /\ (forall q, ~ R `prefix_of` q -> kind_at q t' = kind_at q (tree d)).
Proof.
  intros HR Hwf.
  destruct (extract_members_run R entries [] (tree d) Hwf (extracted_nil _ _ HR))
    as (t' & Hrun & Hext & Hwf' & Hout).
  exists t'. split_and!; [|done|done|done].
  unfold extractall. simpl. rewrite <- (Hrun (rand d)). by destruct d.
Qed.

(** ** The archive of a well-formed scratch directory *)

Lemma archive_of_dir root t es :
  fs_lookup root t = Some (Dir es) -> wf_node (Dir es) ->
  snd (archive_of root t) = None
  /\ NoDup (map ze_name (fst (archive_of root t)))
  /\ forall rel b,
      read_file (root ++ rel) t = Some b
      <-> {| ze_name := rel; ze_is_dir := false; ze_data := b |}
            ∈ fst (archive_of root t).
Proof.
  intros Hroot Hwf. rewrite (archive_of_tree root t (Dir es) Hroot Hwf). cbn [fst snd].
  split_and!; [done | |].
  - rewrite <- list_fmap_compose.
    replace (ze_name ∘ file_entry) with (@fst Path bytes) by done.
    by apply tree_files_NoDup.
  - intros rel b. rewrite read_file_lookup, fs_lookup_app, Hroot.
    change (lookup_opt rel (Some (Dir es))) with (fs_lookup rel (Dir es)).
    rewrite list_elem_of_fmap. split.
    + intros H. exists (rel, b). split; [done|].
      apply tree_files_complete; [done|]. intros ->. done.
    + intros ([p b'] & Heq & Hin). unfold file_entry in Heq. simpl in Heq.
      simplify_eq. by apply tree_files_sound.
Qed.

Lemma empty_dir_kinds R t :
  kind_at R t = Some (Dir []) -> (forall c, kind_at (R ++ [c]) t = None) ->
  fs_lookup R t = Some (Dir []).
Proof.
  unfold kind_at. intros HR Hc.
  destruct (fs_lookup R t) as [[b|[|[k n] es]]|] eqn:E; try done.
  specialize (Hc k). rewrite fs_lookup_app, E in Hc. simpl in Hc.
  by rewrite String.eqb_refl in Hc.
Qed.

(** The listing of audio files reads the disk only; it needs
    [ppt/media], when present, to be a directory. *)
Lemma find_audio_files_run extract_path d :
  is_file (joinpath (joinpath extract_path "ppt") "media") (tree d) = false ->
  exists audio_files, find_audio_files extract_path d = (Ok audio_files, d).
Proof.
  intros Hmedia. unfold find_audio_files. rewrite bind_ask.
  unfold path_exists, is_file in *.
  destruct (fs_lookup (joinpath (joinpath extract_path "ppt") "media") (tree d))
    as [[b|es]|] eqn:E; [done | | by eexists].
  rewrite bind_ask. unfold iterdir. rewrite E. rewrite bind_ask. by eexists.
Qed.

(** ** The run of [extract_pptx] on a clash-free archive *)


Lemma extract_pptx_run X pptx_path temp_dir d b entries :
  wf_node (tree d) ->
  fs_lookup temp_dir (tree d) = Some (Dir []) ->
  read_file pptx_path (tree d) = Some b ->
  zip_decode X b = Some entries ->
  wf_archive entries ->
  (forall e, e ∈ entries -> ze_is_dir e = false -> ze_name e <> ["ppt"; "media"]) ->
  exists audio_files t',
    extract_pptx X pptx_path temp_dir d
    = (Ok (joinpath temp_dir "pptx_contents", audio_files),
       {| tree := t'; rand := rand d |})
    /\ extracted (joinpath temp_dir "pptx_contents") entries t'
    /\ wf_node t'
    /\ (forall q, ~ temp_dir `prefix_of` q -> kind_at q t' = kind_at q (tree d)).
Proof.
  intros Hwf Htemp Hread Hdec Harch Hmedia.
  set (extract_path := joinpath temp_dir "pptx_contents").
  assert (kind_at temp_dir (tree d) = Some (Dir [])) as Hk by by eapply kind_at_Some_dir.
  assert (forall q, q <> [] -> kind_at (temp_dir ++ q) (tree d) = None) as Hbelow.
  { intros q Hq. unfold kind_at. rewrite fs_lookup_app, Htemp. by destruct q. }
  destruct (makedirs_ok extract_path (tree d)) as (t0 & Hmk & Hdir0 & Hk0).
  { apply kind_at_is_dir. eapply (kind_at_prefix_of_dir [] temp_dir); [apply prefix_nil|done]. }
  { intros pref [Hp | (m' & -> & Hm')]%prefix_of_app_split.
    - apply kind_at_dir_not_file. by eapply kind_at_prefix_of_dir.
    - apply is_file_false_kind. intros b'. destruct m' as [|c m'].
      + rewrite app_nil_r. congruence.
      + by rewrite Hbelow. }
  assert (fs_lookup extract_path t0 = Some (Dir [])) as Hempty.
  { apply empty_dir_kinds; [by apply kind_at_is_dir|]. intros c.
    destruct (Hk0 (extract_path ++ [c])) as [-> | (_ & _ & Hp)].
    - unfold extract_path, joinpath. rewrite <- app_assoc. by apply Hbelow.
    - by apply prefix_of_snoc_not in Hp. }
  assert (read_file pptx_path t0 = Some b) as Hread0.
  { rewrite <- Hread. destruct (Hk0 pptx_path) as [Heq | (Hnone & Hnew & _)].
    - by apply kind_at_read.
    - apply kind_at_file in Hread. congruence. }
  assert (forall q, ~ temp_dir `prefix_of` q -> kind_at q t0 = kind_at q (tree d)) as Hout0.
  { intros q Hq. destruct (Hk0 q) as [-> | (Hnone & _ & Hp)]; [done|].
    apply prefix_of_app_split in Hp as [Hp | (m' & -> & _)].
    - rewrite (kind_at_prefix_of_dir q temp_dir _ Hp Hk) in Hnone. done.
    - destruct Hq. by exists m'. }
  destruct (extractall_run entries extract_path {| tree := t0; rand := rand d |}
              Hempty Harch) as (t' & Hrun & Hext & Hwf' & Hout).
  cbn [tree rand] in *.
  destruct (find_audio_files_run extract_path {| tree := t'; rand := rand d |})
    as [audio_files Haudio].
  { apply is_file_false_kind. intros b' Hfile.
    destruct Hext as (_ & _ & Hfiles & _).
    unfold joinpath in Hfile. rewrite <- !app_assoc in Hfile.
    destruct (Hfiles _ _ Hfile) as (e & He & Hf & Hn). by apply (Hmedia e). }
  exists audio_files, t'. split_and!; [|done| |].
  - unfold extract_pptx. fold extract_path.
    rewrite (bind_run _ _ _ _ _ (change_run OSError _ d t0 Hmk)).
    unfold ZipFile_read. unfold bind at 1. unfold bind at 1. unfold ask at 1.
    cbn [tree]. rewrite Hread0. unfold lift_result at 1. rewrite Hdec. cbn [or_raise].
    rewrite (bind_run _ _ _ _ _ Hrun), (bind_run _ _ _ _ _ Haudio). done.
  - apply Hwf'. by eapply makedirs_from_wf.
  - intros q Hq. rewrite Hout, Hout0; [done | done |].
    intros [k ->]. apply Hq. exists ("pptx_contents" :: k).
    unfold extract_path, joinpath. by rewrite <- app_assoc.
Qed.

(** ** What extraction leaves alone *)

Lemma makedirs_from_kind done todo t t' q :
  makedirs_from done todo t = Some t' ->
  kind_at q t' = kind_at q t
  \/ (kind_at q t = None /\ kind_at q t' = Some (Dir []) /\ q `prefix_of` (done ++ todo)).
Proof.
  revert done t. induction todo as [|c todo IH]; intros done t H; simpl in H.
  - simplify_eq. by left.
  - destruct (fs_lookup (done ++ [c]) t) as [[b|es]|] eqn:E; [done | |].
    + destruct (IH _ _ H) as [Hk | Hk]; [by left|]. right. by rewrite <- app_assoc in Hk.
    + destruct (mkdir (done ++ [c]) t) as [t1|] eqn:Ht1; [|done].
      destruct (mkdir_kind _ _ _ q Ht1) as [Hnew Hk1].
      destruct (decide (q = done ++ [c])) as [->|Hq].
      * right. split_and!; [done | |].
        -- destruct (IH _ _ H) as [Hk | (Hk & _)]; congruence.
        -- exists todo. by rewrite <- app_assoc.
      * destruct (IH _ _ H) as [Hk | Hk].
        -- left. congruence.
        -- right. rewrite <- app_assoc in Hk. simpl in Hk. by rewrite <- Hk1.
Qed.

(** [makedirs] creates directories only: every file reads as before. *)
Lemma makedirs_read p t t' q : makedirs p t = Some t' -> read_file q t' = read_file q t.
Proof.
  intros H. destruct (makedirs_from_kind _ _ _ _ q H) as [Hk | (Hnone & Hnew & _)].
  - by apply kind_at_read.
  - unfold kind_at, read_file in *.
    destruct (fs_lookup q t') as [[?|?]|], (fs_lookup q t) as [[?|?]|]; by simpl in *.
Qed.

(** Creating the output file outside the scratch root leaves the
    files below the root as they were. *)
Lemma repack_reads_scratch extract_path output_path t t0 t1 rel :
  makedirs (parent output_path) t = Some t0 ->
  write_file output_path [] t0 = Some t1 ->
  ~ extract_path `prefix_of` output_path ->
  read_file (extract_path ++ rel) t1 = read_file (extract_path ++ rel) t.
Proof.
  intros Hmk Hw Hout. rewrite (write_file_read_other _ _ _ _ _ Hw).
  - by eapply makedirs_read.
  - intros E. apply Hout. exists rel. by rewrite E.
Qed.

Section Outside.

Variable X : Externals.
Variables (temp_dir q : Path) (v : option node).
Hypothesis Hq : ~ temp_dir `prefix_of` q.

Abbreviation P := (fun t => is_dir temp_dir t = true /\ kind_at q t = v).

Lemma makedirs_outside p t t' :
  temp_dir `prefix_of` p -> makedirs p t = Some t' -> P t -> P t'.
Proof.
  intros [k ->] Hmk [Hdir Hk]. split; [by eapply makedirs_keeps_dir|].
  destruct (makedirs_from_kind _ _ _ _ q Hmk) as [-> | (Hnone & _ & Hp)]; [done|].
  simpl in Hp. apply prefix_of_app_split in Hp as [Hp | (m' & -> & _)].
  - apply kind_at_is_dir in Hdir.
    rewrite (kind_at_prefix_of_dir q temp_dir t Hp Hdir) in Hnone. done.
  - destruct Hq. by exists m'.
Qed.

Lemma write_file_outside p b t t' :
  temp_dir `prefix_of` p -> write_file p b t = Some t' -> P t -> P t'.
Proof.
  intros Hp Hw [Hdir Hk]. split; [by eapply write_file_keeps_dir|].
  rewrite (write_file_kind _ _ _ _ q Hw), decide_False; [done|]. by intros ->.
Qed.

Lemma mkdir_outside p t t' :
  temp_dir `prefix_of` p -> mkdir p t = Some t' -> P t -> P t'.
Proof.
  intros Hp Hw [Hdir Hk]. split; [by eapply mkdir_keeps_dir|].
  destruct (mkdir_kind _ _ _ q Hw) as [_ ->]. rewrite decide_False; [done|]. by intros ->.
Qed.

Lemma parent_below (p k : Path) : k <> [] -> parent (p ++ k) = p ++ parent k.
Proof. intros Hk. unfold parent. by apply removelast_app. Qed.

Lemma extract_member_outside path e :
  temp_dir `prefix_of` path -> path <> temp_dir -> preserves P (_extract_member path e).
Proof.
  intros [k ->] Hne. assert (k <> []) as Hk by (intros ->; by rewrite app_nil_r in Hne).
  assert (temp_dir `prefix_of` (temp_dir ++ k) ++ sanitize (ze_name e)) as Htarget.
  { exists (k ++ sanitize (ze_name e)). by rewrite app_assoc. }
  assert (temp_dir `prefix_of` parent ((temp_dir ++ k) ++ sanitize (ze_name e))) as Hup.
  { rewrite <- app_assoc, parent_below by by destruct k. by eexists. }
  unfold _extract_member.
  apply preserves_bind; [apply preserves_ask|]. intros there.
  apply preserves_bind.
  { destruct (negb there); [|apply preserves_ret].
    apply preserves_change. intros t t'. by apply makedirs_outside. }
  intros _. destruct (ze_is_dir e).
  - apply preserves_bind; [apply preserves_ask|]. intros isd.
    destruct (negb isd); [|apply preserves_ret].
    apply preserves_change. intros t t'. by apply mkdir_outside.
  - apply preserves_change. intros t t'. by apply write_file_outside.
Qed.

Lemma extract_members_outside path members :
  temp_dir `prefix_of` path -> path <> temp_dir ->
  preserves P (extract_members path members).
Proof.
  intros Hp Hne. induction members as [|e members IH]; simpl; [apply preserves_ret|].
  apply preserves_bind; [by apply extract_member_outside | by intros _].
Qed.

(** [extract_pptx] changes nothing outside the scratch directory. *)
Lemma extract_pptx_outside pptx_path : preserves P (extract_pptx X pptx_path temp_dir).
Proof.
  unfold extract_pptx.
  assert (temp_dir `prefix_of` joinpath temp_dir "pptx_contents") as Hp by by eexists.
  assert (joinpath temp_dir "pptx_contents" <> temp_dir) as Hne.
  { intros H%(f_equal length). unfold joinpath in H. rewrite length_app in H.
    simpl in H. lia. }
  apply preserves_bind.
  { apply preserves_change. intros t t'. by apply makedirs_outside. }
  intros _. apply preserves_bind.
  { unfold ZipFile_read. apply preserves_bind; [apply preserves_ask|].
    intros [b|]; [apply preserves_lift | apply preserves_raise]. }
  intros entries. apply preserves_bind; [by apply extract_members_outside|].
  intros _. apply preserves_bind; [|intros ?; apply preserves_ret].
  unfold find_audio_files. apply preserves_bind; [apply preserves_ask|].
  intros [|]; [|apply preserves_ret].
  apply preserves_bind; [apply preserves_ask|].
  intros [children|]; [|apply preserves_raise].
  apply preserves_bind; [apply preserves_ask | intros ?; apply preserves_ret].
Qed.

End Outside.

(** ** The copy made for a presentation without audio *)

Lemma may_write_disk output_path force w r w1 :
  may_write output_path force w = (r, w1) -> disk w1 = disk w.
Proof.
  unfold may_write, confirm_overwrite, input. unfold_st.
  destruct w as [dk lines]. simpl.
  destruct (path_exists output_path (tree dk) && negb force).
  - destruct lines as [|l lines]; simpl; intros H; by simplify_eq.
  - simpl. intros H. by simplify_eq.
Qed.

Lemma kind_at_is_dir_eq q t t' : kind_at q t' = kind_at q t -> is_dir q t' = is_dir q t.
Proof.
  unfold kind_at, is_dir.
  destruct (fs_lookup q t') as [[?|?]|], (fs_lookup q t) as [[?|?]|]; by simpl.
Qed.



(** ** Sorting and directory scans *)

Lemma insert_sorted_perm p l : insert_sorted p l ≡ₚ p :: l.
Proof.
  induction l as [|q l IH]; simpl; [done|].
  destruct (path_leb p q); [done|]. rewrite IH. apply Permutation_swap.
Qed.

Lemma sort_paths_perm l : sort_paths l ≡ₚ l.
Proof.
  induction l as [|p l IH]; simpl; [done|].
  rewrite insert_sorted_perm. by constructor.
Qed.

Lemma path_leb_total p q : path_leb p q = false -> path_leb q p = true.
Proof.
  revert q. induction p as [|a p IH]; intros [|b q]; simpl; try done.
  rewrite (String.compare_antisym b a).
  destruct (String.compare a b); simpl; auto.
Qed.

Lemma insert_sorted_ascending p l : ascending l -> ascending (insert_sorted p l).
Proof.
  unfold ascending. induction 1 as [|q l Hl IH Hq]; simpl.
  - by repeat constructor.
  - destruct (path_leb p q) eqn:E.
    + constructor; [by constructor | by constructor].
    + constructor; [done|].
      destruct l as [|r l]; simpl.
      * constructor. by apply path_leb_total.
      * destruct (path_leb p r); constructor; [by apply path_leb_total|].
        by inversion Hq.
Qed.

Lemma sort_paths_ascending l : ascending (sort_paths l).
Proof.
  induction l as [|p l IH]; simpl; [constructor|]. by apply insert_sorted_ascending.
Qed.

Lemma elem_of_sort_paths p l : p ∈ sort_paths l <-> p ∈ l.
Proof. by rewrite sort_paths_perm. Qed.

(** The children of a directory that are regular files. *)
Lemma iterdir_file_child directory t children p :
  iterdir directory t = Some children ->
  (p ∈ children /\ is_file p t = true)
  <-> (exists c, p = joinpath directory c) /\ is_file p t = true.
Proof.
  unfold iterdir. destruct (fs_lookup directory t) as [[b|es]|] eqn:E; try done.
  intros [= <-]. split.
  - intros [([c n] & -> & _)%list_elem_of_fmap Hf]. split; [by exists c | done].
  - intros [[c ->] Hf]. split; [|done].
    unfold is_file, joinpath in Hf. rewrite fs_lookup_app, E in Hf. simpl in Hf.
    destruct (assoc c es) as [n|] eqn:Ec; [|done].
    apply list_elem_of_fmap. exists (c, n). split; [done|]. by apply assoc_Some_in.
Qed.

Lemma is_file_child_dir directory c t :
  is_file (joinpath directory c) t = true -> is_dir directory t = true.
Proof.
  unfold is_file, is_dir, joinpath. rewrite fs_lookup_app.
  by destruct (fs_lookup directory t) as [[?|?]|].
Qed.

(** The files that a scan of [directory] for the extensions [exts]
    keeps. *)
Lemma scan_spec exts directory t children p :
  iterdir directory t = Some children ->
  p ∈ sort_paths (List.filter (has_extension exts t) children)
  <-> exists c, p = joinpath directory c
                /\ is_file p t = true
                /\ lower (suffix p) ∈ exts.
Proof.
  intros Hit. rewrite elem_of_sort_paths, list_elem_of_In, filter_In, <- list_elem_of_In.
  unfold has_extension. rewrite andb_true_iff, str_in_spec.
  pose proof (iterdir_file_child directory t children p Hit) as Hc.
  split.
  - intros (Hin & Hf & Hext). destruct (proj1 Hc (conj Hin Hf)) as [[c ->] _]. eauto.
  - intros (c & -> & Hf & Hext). destruct (proj2 Hc (conj (ex_intro _ c eq_refl) Hf)).
    done.
Qed.

Lemma single_extension t ext children :
  List.filter (fun file_path => is_file file_path t
                                && String.eqb (lower (suffix file_path)) ext) children
  = List.filter (has_extension [ext] t) children.
Proof.
  apply List.filter_ext. intros p. unfold has_extension, str_in. simpl.
  by rewrite orb_false_r.
Qed.

Lemma iterdir_is_dir directory t :
  is_dir directory t = true -> exists children, iterdir directory t = Some children.
Proof.
  unfold is_dir, iterdir. destruct (fs_lookup directory t) as [[?|es]|]; try done.
  by eexists.
Qed.

Lemma iterdir_not_dir directory t :
  is_dir directory t = false -> iterdir directory t = None.
Proof.
  unfold is_dir, iterdir. by destruct (fs_lookup directory t) as [[?|es]|].
Qed.

Lemma is_dir_exists directory t : is_dir directory t = true -> path_exists directory t = true.
Proof. unfold is_dir, path_exists. by destruct (fs_lookup directory t) as [[?|?]|]. Qed.

Lemma find_pptx_files_scan directory t children :
  iterdir directory t = Some children ->
  find_pptx_files directory t
  = sort_paths (List.filter (has_extension [".pptx"] t) children).
Proof.
  intros Hit. unfold find_pptx_files. rewrite Hit, single_extension.
  unfold iterdir, path_exists in *. by destruct (fs_lookup directory t) as [[?|?]|].
Qed.

Lemma find_video_files_scan directory t children :
  iterdir directory t = Some children ->
  find_video_files directory t
  = sort_paths (List.filter (has_extension [".mp4"] t) children).
Proof.
  intros Hit. unfold find_video_files. rewrite Hit, single_extension.
  unfold iterdir, path_exists, is_dir in *.
  by destruct (fs_lookup directory t) as [[?|?]|].
Qed.

(** What [find_audio_files] returns has passed its test. *)
Lemma find_audio_files_sound extract_path d l d' p :
  find_audio_files extract_path d = (Ok l, d') ->
  p ∈ l ->
  d' = d
  /\ (exists c, p = joinpath (joinpath (joinpath extract_path "ppt") "media") c)
  /\ is_file p (tree d) = true
  /\ lower (suffix p) ∈ audio_extensions.
Proof.
  unfold find_audio_files. rewrite bind_ask. cbv beta.
  destruct (path_exists _ (tree d)).
  - rewrite bind_ask. cbv beta.
    destruct (iterdir _ (tree d)) as [children|] eqn:Hit; [|done].
    rewrite bind_ask. cbv beta. intros [= <- <-] Hin.
    apply (scan_spec audio_extensions _ (tree d) children p Hit) in Hin
      as (c & -> & Hf & Hext).
    split_and!; [done | by exists c | done | done].
  - intros [= <- <-] Hin. by apply elem_of_nil in Hin.
Qed.

(** The seven suffixes of the scan are the seven formats of the
    dispatch. *)
Lemma audio_extension_format file_path :
  lower (suffix file_path) ∈ audio_extensions ->
  (file_format_of file_path ∈ ["wav"; "flac"; "ogg"]
   \/ file_format_of file_path ∈ ["mp3"; "m4a"; "wma"; "aac"])
  /\ lower (suffix file_path) = ("." ++ file_format_of file_path)%string.
Proof.
  unfold file_format_of, audio_extensions. intros H.
  repeat (apply elem_of_cons in H as [-> | H]);
    [.. | by apply elem_of_nil in H]; simpl;
    (split; [|done]); rewrite <- !str_in_spec; simpl; auto.
Qed.

(** ** The net effect of normalisation on the disk *)

Lemma unlink_kind p t t' q :
  unlink p t = Some t' ->
  is_file p t = true
  /\ kind_at q t' = if decide (p `prefix_of` q) then None else kind_at q t.
Proof.
  intros H. pose proof (alter_at_lookup_same _ _ _ _ H) as Hs.
  assert (fs_lookup p t' = None /\ is_file p t = true) as [Hp' Hp].
  { unfold is_file. destruct (fs_lookup p t) as [[?|?]|]; simpl in *; by simplify_eq. }
  split; [done|].
  destruct (decide (p `prefix_of` q)) as [[k ->]|Hpq].
  - unfold kind_at. by rewrite fs_lookup_app, Hp'.
  - by eapply alter_at_shallow.
Qed.

Lemma kind_at_is_file_true q t : is_file q t = true <-> exists b, kind_at q t = Some (File b).
Proof.
  unfold is_file, kind_at. destruct (fs_lookup q t) as [[b|?]|]; simpl; split;
    try done; [by eexists | by intros [? ?] | by intros [? ?]].
Qed.

Lemma write_file_keeps_file p q x t t' :
  write_file p x t = Some t' -> is_file q t = true -> is_file q t' = true.
Proof.
  intros Hw [b Hb]%kind_at_is_file_true. apply kind_at_is_file_true.
  rewrite (write_file_kind _ _ _ _ q Hw). destruct (decide (q = p)); eauto.
Qed.

Lemma mktemp_raise dir pre suf create d e d1 :
  mktemp dir pre suf create d = (Raise e, d1) -> tree d1 = tree d.
Proof.
  unfold mktemp. destruct (fresh_name _ _ _ _ _) as [[p names]|]; [|by intros [= _ <-]].
  destruct (create p (tree d)); [done|]. by intros [= _ <-].
Qed.

Lemma rewrites_within_refl ps t : rewrites_within ps t t.
Proof. by split. Qed.

Lemma rewrites_within_trans ps t1 t2 t3 :
  rewrites_within ps t1 t2 -> rewrites_within ps t2 t3 -> rewrites_within ps t1 t3.
Proof.
  intros [Hk1 Hf1] [Hk2 Hf2]. split.
  - intros q Hq. by rewrite Hk2, Hk1.
  - auto.
Qed.

Lemma rewrites_within_mono ps ps' t t' :
  ps ⊆ ps' -> rewrites_within ps t t' -> rewrites_within ps' t t'.
Proof.
  intros Hsub [Hk Hf]. split; [|done]. intros q Hq. apply Hk. intros Hin. by apply Hq, Hsub.
Qed.

Section Frames.

Variable X : Externals.
Variable P : node -> Prop.

Lemma sf_read_preserves q : preserves P (sf_read X q).
Proof. unfold sf_read. keeps. Qed.

Lemma sf_write_preserves q data rate :
  (forall x t t', write_file q x t = Some t' -> P t -> P t') ->
  preserves P (sf_write X q data rate).
Proof. intros Hw. unfold sf_write. keeps; eauto. Qed.

Lemma run_ffmpeg_preserves cmd out :
  cmd_output cmd = Some out ->
  (forall x t t', write_file out x t = Some t' -> P t -> P t') ->
  preserves P (run_ffmpeg X cmd).
Proof. intros Hout Hw. unfold run_ffmpeg. rewrite Hout. keeps; eauto. Qed.

Lemma native_preserves q target denoise strength :
  (forall x t t', write_file q x t = Some t' -> P t -> P t') ->
  preserves P (_normalize_native_format X q target denoise strength).
Proof.
  intros Hw. pose proof sf_read_preserves. pose proof (sf_write_preserves q).
  unfold _normalize_native_format. keeps; eauto with keeps.
Qed.

Lemma compressed_body_preserves p tmp target fmt denoise strength :
  (forall x t t', write_file tmp x t = Some t' -> P t -> P t') ->
  (forall x t t', write_file p x t = Some t' -> P t -> P t') ->
  preserves P (compressed_body X p tmp target fmt denoise strength).
Proof.
  intros Htmp Hp. unfold compressed_body, _convert_to_wav, _convert_from_wav.
  apply preserves_bind; [by apply (run_ffmpeg_preserves _ tmp)|]. intros _.
  apply preserves_bind; [apply sf_read_preserves|]. intros [data rate].
  apply preserves_bind; [apply preserves_lift|]. intros dur.
  destruct (PrimFloat.ltb dur min_duration); [apply preserves_ret|].
  apply preserves_bind; [apply preserves_lift|]. intros loudness.
  destruct (is_unmeasurable loudness); [apply preserves_ret|].
  apply preserves_bind; [apply preserves_lift|]. intros normalized.
  apply preserves_bind; [by apply sf_write_preserves|]. intros _.
  apply preserves_bind; [|intros _; apply preserves_ret].
  apply (run_ffmpeg_preserves _ p); [|done].
  apply convert_from_wav_cmd_io.
Qed.

End Frames.

Lemma catch_returns {A} (m : M A) (a : A) d r d' :
  catch m (fun _ => ret a) d = (r, d') -> exists o, r = Ok o.
Proof.
  unfold catch, ret. destruct (m d) as [[o|e] d1]; intros [= <- _]; eauto.
Qed.

Lemma native_frame X p target denoise strength d r d' :
  _normalize_native_format X p target denoise strength d = (r, d') ->
  (exists o, r = Ok o) /\ rewrites_within [p] (tree d) (tree d').
Proof.
  intros H. split; [by eapply catch_returns|]. split.
  - intros q Hq%not_elem_of_cons.
    eapply (native_preserves X (fun t => kind_at q t = kind_at q (tree d)));
      [|exact H|done].
    intros x t t' Hw <-. rewrite (write_file_kind _ _ _ _ q Hw), decide_False; tauto.
  - intros q Hq.
    eapply (native_preserves X (fun t => is_file q t = true)); [|exact H|done].
    intros x t t'. apply write_file_keeps_file.
Qed.

Lemma not_below_absent tmp q t :
  fs_lookup tmp t = None -> is_Some (fs_lookup q t) -> ~ tmp `prefix_of` q.
Proof.
  intros Hfresh Hq Hp. destruct (fs_lookup_prefix_Some tmp q t Hp Hq) as [n Hn]. congruence.
Qed.

Lemma kind_below_absent tmp q t :
  fs_lookup tmp t = None -> tmp `prefix_of` q -> kind_at q t = None.
Proof.
  intros Hfresh [k ->]. unfold kind_at. by rewrite fs_lookup_app, Hfresh.
Qed.

Lemma is_file_is_Some q t : is_file q t = true -> is_Some (fs_lookup q t).
Proof. unfold is_file. destruct (fs_lookup q t); [by eexists | done]. Qed.

Lemma compressed_frame X p target fmt denoise strength d r d' :
  _normalize_compressed_format X p target fmt denoise strength d = (r, d') ->
  (exists o, r = Ok o) /\ rewrites_within [p] (tree d) (tree d').
Proof.
  unfold _normalize_compressed_format.
  destruct (NamedTemporaryFile_wav X d) as [[tmp|e] d1] eqn:E.
  2:{ intros [= <- <-]. rewrite (mktemp_raise _ _ _ _ _ _ _ E).
      split; [by eexists | apply rewrites_within_refl]. }
  apply mktemp_inv in E as (Hfresh & Hw & rnd & Hname).
  assert (tmp <> []) as Hne by (rewrite Hname; by destruct (gettempdir X)).
  unfold finally.
  destruct (catch (compressed_body X p tmp target fmt denoise strength)
                  (fun _ => ret None) d1) as [r1 d2] eqn:Eb.
  destruct (catch_returns _ _ _ _ _ Eb) as [o ->].
  assert (forall P : node -> Prop,
             (forall x t t', write_file tmp x t = Some t' -> P t -> P t') ->
             (forall x t t', write_file p x t = Some t' -> P t -> P t') ->
             P (tree d1) -> P (tree d2)) as Hbody.
  { intros P Htmp Hp. eapply (preserves_catch P); [| |exact Eb].
    - by apply compressed_body_preserves.
    - intros e. apply preserves_ret. }
  assert (is_file tmp (tree d1) = true) as Htmp1.
  { apply kind_at_is_file_true. exists []. rewrite (write_file_kind _ _ _ _ tmp Hw).
    by rewrite decide_True. }
  assert (is_file tmp (tree d2) = true) as Htmp2.
  { apply (Hbody (fun t => is_file tmp t = true)); [| |done];
      intros x t t'; apply write_file_keeps_file. }
  destruct (kind_at_is_file_true tmp (tree d2)) as [[b2 Hb2%kind_at_file] _]; [done|].
  destruct (unlink_file tmp b2 (tree d2) Hb2 Hne) as [t3 Ht3].
  assert (remove_temp tmp d2 = (Ok tt, {| tree := t3; rand := rand d2 |})) as ->.
  { unfold remove_temp. rewrite bind_ask. unfold path_exists.
    apply read_file_lookup in Hb2. rewrite Hb2. by apply change_run. }
  intros [= <- <-]. split; [by eexists|]. cbn [tree].
  assert (forall q, ~ tmp `prefix_of` q -> kind_at q t3 = kind_at q (tree d2)) as Hun.
  { intros q Hq. destruct (unlink_kind _ _ _ q Ht3) as [_ ->]. by rewrite decide_False. }
  split.
  - intros q Hq%not_elem_of_cons. destruct (decide (tmp `prefix_of` q)) as [Hp|Hp].
    + destruct (unlink_kind _ _ _ q Ht3) as [_ ->]. rewrite decide_True by done.
      symmetry. by apply kind_below_absent with tmp.
    + assert (q <> tmp) as Hqt by (intros ->; by apply Hp).
      rewrite (Hun q Hp).
      transitivity (kind_at q (tree d1)).
      * apply (Hbody (fun t => kind_at q t = kind_at q (tree d1))); [| |done];
          intros x t t' Hwr <-; rewrite (write_file_kind _ _ _ _ q Hwr), decide_False;
          tauto.
      * by rewrite (write_file_kind _ _ _ _ q Hw), decide_False.
  - intros q Hq.
    pose proof (not_below_absent tmp q (tree d) Hfresh (is_file_is_Some _ _ Hq)) as Hp.
    apply kind_at_is_file_true. rewrite (Hun q Hp). apply kind_at_is_file_true.
    apply (Hbody (fun t => is_file q t = true));
      [intros x t t'; apply write_file_keeps_file ..|].
    by eapply write_file_keeps_file.
Qed.

(** [normalize_audio_file] always returns, and what it leaves on the
    disk differs from what it found at [file_path] only. *)
Lemma normalize_audio_file_frame X p target denoise strength d r d' :
  normalize_audio_file X p target denoise strength d = (r, d') ->
  (exists o, r = Ok o) /\ rewrites_within [p] (tree d) (tree d').
Proof.
  unfold normalize_audio_file.
  destruct (str_in (file_format_of p) ["wav"; "flac"; "ogg"]); [apply native_frame|].
  destruct (str_in (file_format_of p) ["mp3"; "m4a"; "wma"; "aac"]);
    [apply compressed_frame|].
  intros [= <- <-]. split; [by eexists | apply rewrites_within_refl].
Qed.

Lemma normalize_audio_files_frame X files target denoise strength d r d' :
  normalize_audio_files X files target denoise strength d = (r, d') ->
  (exists stats, r = Ok stats /\ length stats <= length files)
  /\ rewrites_within files (tree d) (tree d').
Proof.
  revert d r d'. induction files as [|p files IH]; intros d r d' H; simpl in H.
  - injection H as <- <-. split; [by exists [] | apply rewrites_within_refl].
  - unfold bind at 1 in H.
    destruct (normalize_audio_file X p target denoise strength d) as [r1 d1] eqn:E1.
    destruct (normalize_audio_file_frame _ _ _ _ _ _ _ _ E1) as [[o ->] Hf1].
    unfold bind at 1 in H.
    destruct (normalize_audio_files X files target denoise strength d1) as [r2 d2] eqn:E2.
    destruct (IH _ _ _ E2) as [(stats & -> & Hlen) Hf2].
    injection H as <- <-. split.
    + eexists. split; [done|]. destruct o; simpl; lia.
    + eapply rewrites_within_trans.
      * eapply rewrites_within_mono; [|exact Hf1].
        intros q ->%list_elem_of_singleton. apply elem_of_cons. by left.
      * eapply rewrites_within_mono; [|exact Hf2].
        intros q Hq. apply elem_of_cons. by right.
Qed.

(** ** The records returned by normalisation *)

Lemma returns_ret {A} (Q : A -> Prop) a : Q a -> returns Q (ret a).
Proof. intros HQ d a' d' [= <- _]. done. Qed.

Lemma returns_bind {A B} (Q : B -> Prop) (m : M A) (k : A -> M B) :
  (forall a, returns Q (k a)) -> returns Q (bind m k).
Proof.
  intros Hk d b d' H. unfold bind in H. destruct (m d) as [[a|e] d1]; [|done].
  by eapply Hk.
Qed.

Lemma returns_catch {A} (Q : A -> Prop) (m : M A) h :
  returns Q m -> (forall e, returns Q (h e)) -> returns Q (catch m h).
Proof.
  intros Hm Hh d a d' H. unfold catch in H. destruct (m d) as [[a1|e] d1] eqn:E.
  - injection H as <- <-. by eapply Hm.
  - by eapply Hh.
Qed.

Lemma returns_finally {A} (Q : A -> Prop) (m : M A) c :
  returns Q m -> returns Q (finally m c).
Proof.
  intros Hm d a d' H. unfold finally in H. destruct (m d) as [r1 d1] eqn:E.
  destruct (c d1) as [[u|e] d2]; [|done]. injection H as -> <-. by eapply Hm.
Qed.

Lemma native_stats X p target denoise strength :
  returns (stats_of p target) (_normalize_native_format X p target denoise strength).
Proof.
  unfold _normalize_native_format.
  apply returns_catch; [|intros e; by apply returns_ret].
  apply returns_bind. intros [data rate].
  apply returns_bind. intros dur.
  destruct (PrimFloat.ltb dur min_duration); [by apply returns_ret|].
  apply returns_bind. intros loudness.
  destruct (is_unmeasurable loudness); [by apply returns_ret|].
  apply returns_bind. intros normalized. apply returns_bind. intros _.
  apply returns_ret. intros s [= <-]. done.
Qed.

Lemma compressed_stats X p target fmt denoise strength :
  returns (stats_of p target) (_normalize_compressed_format X p target fmt denoise strength).
Proof.
  intros d a d' H. unfold _normalize_compressed_format in H.
  destruct (NamedTemporaryFile_wav X d) as [[tmp|e] d1]; [|by injection H as <- _].
  revert H. apply returns_finally.
  apply returns_catch; [|intros e; by apply returns_ret].
  unfold compressed_body.
  apply returns_bind. intros _. apply returns_bind. intros [data rate].
  apply returns_bind. intros dur.
  destruct (PrimFloat.ltb dur min_duration); [by apply returns_ret|].
  apply returns_bind. intros loudness.
  destruct (is_unmeasurable loudness); [by apply returns_ret|].
  apply returns_bind. intros normalized. apply returns_bind. intros _.
  apply returns_bind. intros _.
  apply returns_ret. intros s [= <-]. done.
Qed.

Lemma normalize_audio_file_stats X p target denoise strength :
  returns (stats_of p target) (normalize_audio_file X p target denoise strength).
Proof.
  unfold normalize_audio_file.
  destruct (str_in _ _); [apply native_stats|].
  destruct (str_in _ _); [apply compressed_stats | by apply returns_ret].
Qed.

(** The records come in the order of the files, at most one per file. *)
Lemma normalize_audio_files_stats X files target denoise strength :
  returns (fun stats =>
             map filename stats `sublist_of` map name files
             /\ Forall (fun s => target_lufs s = target
                                 /\ gain_db s = PrimFloat.sub target (original_lufs s))
                       stats)
          (normalize_audio_files X files target denoise strength).
Proof.
  induction files as [|p files IH]; simpl.
  - apply returns_ret. split; [constructor | constructor].
  - intros d stats d' H. unfold bind at 1 in H.
    destruct (normalize_audio_file X p target denoise strength d) as [[o|e] d1] eqn:E1;
      [|done].
    pose proof (normalize_audio_file_stats X p target denoise strength _ _ _ E1) as Ho.
    unfold bind at 1 in H.
    destruct (normalize_audio_files X files target denoise strength d1)
      as [[rest|e] d2] eqn:E2; [|done].
    destruct (IH _ _ _ E2) as [Hsub Hall]. injection H as <- <-.
    destruct o as [s|]; simpl.
    + destruct (Ho s eq_refl) as (-> & Ht & Hg). split.
      * by apply sublist_skip.
      * by constructor.
    + split; [by apply sublist_cons | done].
Qed.

(** ** The net effect of a job on the disk *)

Lemma rmtree_kind p t t' q :
  rmtree p t = Some t' ->
  kind_at q t' = if decide (p `prefix_of` q) then None else kind_at q t.
Proof.
  intros H. pose proof (alter_at_lookup_same _ _ _ _ H) as Hs.
  assert (fs_lookup p t' = None) as Hp'.
  { destruct (fs_lookup p t) as [[?|?]|]; simpl in *; by simplify_eq. }
  destruct (decide (p `prefix_of` q)) as [[k ->]|Hpq].
  - unfold kind_at. by rewrite fs_lookup_app, Hp'.
  - by eapply alter_at_shallow.
Qed.

(** A [with TempDirectory()] block whose body leaves a path alone
    leaves it alone as a whole; the paths inside the scratch directory
    are absent before and after. *)
Lemma with_TempDirectory_frame {A} X (body : Path -> M A) d r d' q :
  (forall temp_dir,
      fs_lookup temp_dir (tree d) = None -> ~ temp_dir `prefix_of` q ->
      preserves (fun t => is_dir temp_dir t = true /\ kind_at q t = kind_at q (tree d))
                (body temp_dir)) ->
  (forall temp_dir, preserves (fun t => is_dir temp_dir t = true) (body temp_dir)) ->
  with_TempDirectory X body d = (r, d') ->
  kind_at q (tree d') = kind_at q (tree d).
Proof.
  intros Hq Hdir H. unfold with_TempDirectory in H. unfold bind at 1 in H.
  destruct (mkdtemp X "pptx_normalizer_" d) as [[temp_dir|e] d1] eqn:Emk.
  2:{ injection H as _ <-. by rewrite (mktemp_raise _ _ _ _ _ _ _ Emk). }
  destruct (mkdtemp_is_dir _ _ _ _ _ Emk) as (Hdir1 & Hne & Hfresh).
  apply mktemp_inv in Emk as (_ & Hmk & _).
  unfold finally in H. destruct (body temp_dir d1) as [rb d2] eqn:Eb.
  pose proof (Hdir temp_dir _ _ _ Eb Hdir1) as Hdir2. simpl in Hdir2.
  destruct (rmtree_dir _ _ Hdir2 Hne) as [t3 Ht3].
  rewrite bind_ask, (is_dir_exists _ _ Hdir2) in H.
  rewrite (change_run OSError _ d2 t3 Ht3) in H. injection H as _ <-. cbn [tree].
  rewrite (rmtree_kind _ _ _ q Ht3).
  destruct (decide (temp_dir `prefix_of` q)) as [Hp|Hp].
  - symmetry. by apply kind_below_absent with temp_dir.
  - assert (kind_at q (tree d1) = kind_at q (tree d)) as H1.
    { destruct (mkdir_kind _ _ _ q Hmk) as [_ ->]. rewrite decide_False; [done|].
      by intros ->. }
    by destruct (Hq temp_dir Hfresh Hp _ _ _ Eb (conj Hdir1 H1)).
Qed.

Lemma preserves_and {A} (P1 P2 : node -> Prop) (m : M A) :
  preserves P1 m -> preserves P2 m -> preserves (fun t => P1 t /\ P2 t) m.
Proof. intros H1 H2 d r d' H [HP1 HP2]. split; [by eapply H1 | by eapply H2]. Qed.

Lemma parent_prefix (p : Path) : parent p `prefix_of` p.
Proof.
  destruct (decide (p = [])) as [->|Hne]; [done|].
  destruct (exists_last Hne) as (up & c & ->). rewrite parent_snoc. by exists [c].
Qed.

(** [copy2] writes its target only, and never its source. *)
Lemma copy2_frame src dst q v :
  q <> dst -> (q <> joinpath dst (name src) \/ q = src) ->
  preserves (fun t => kind_at q t = v) (copy2 src dst).
Proof.
  intros Hdst Hin d r d' H HP. unfold copy2 in H. rewrite !bind_ask in H.
  destruct (path_exists src (tree d)) eqn:Ex; simpl in H.
  - destruct (bool_decide (src = copy2_target src dst (tree d))) eqn:Es;
      [by injection H as _ <-|].
    apply bool_decide_eq_false in Es. rewrite bind_ask in H.
    destruct (read_file src (tree d)) as [b|]; [|by injection H as _ <-].
    unfold change in H.
    destruct (write_file (copy2_target src dst (tree d)) b (tree d)) as [t'|] eqn:Ew;
      injection H as _ <-; [|done].
    cbn [tree]. rewrite (write_file_kind _ _ _ _ q Ew), decide_False; [done|].
    unfold copy2_target in *. destruct (is_dir dst (tree d)); [|done].
    destruct Hin as [Hin | ->]; [done | by intros ?].
  - rewrite bind_ask in H. unfold read_file, path_exists in *.
    destruct (fs_lookup src (tree d)); [done|]. by injection H as _ <-.
Qed.

(** [reconstruct_pptx] changes its output file and creates the missing
    directories above it. *)
Lemma reconstruct_pptx_frame X extract_path output_path q v :
  q <> output_path -> (~ q `prefix_of` output_path \/ v <> None) ->
  preserves (fun t => kind_at q t = v) (reconstruct_pptx X extract_path output_path).
Proof.
  intros Hout Hanc.
  assert (forall x t t', write_file output_path x t = Some t' ->
                         kind_at q t = v -> kind_at q t' = v) as Hw.
  { intros x t t' Hw <-. by rewrite (write_file_kind _ _ _ _ q Hw), decide_False. }
  unfold reconstruct_pptx.
  apply preserves_bind.
  { apply preserves_change. intros t t' Hmk Hv.
    destruct (makedirs_from_kind _ _ _ _ q Hmk) as [-> | (Hnone & _ & Hp)]; [done|].
    destruct Hanc as [Hanc | Hanc].
    - destruct Hanc. simpl in Hp. etrans; [exact Hp | apply parent_prefix].
    - congruence. }
  intros _. apply preserves_bind; [apply preserves_change; apply Hw|]. intros _.
  apply preserves_bind; [apply preserves_ask|]. intros [zip_ref err].
  apply preserves_bind; [apply preserves_change; apply Hw|]. intros _.
  destruct err; [apply preserves_raise | apply preserves_ret].
Qed.

(** The audio files that [extract_pptx] reports are regular files
    inside the extraction directory. *)
Lemma extract_pptx_audio_under X pptx_path temp_dir d extract_path audio_files d' :
  extract_pptx X pptx_path temp_dir d = (Ok (extract_path, audio_files), d') ->
  extract_path = joinpath temp_dir "pptx_contents"
  /\ forall p, p ∈ audio_files ->
       is_file p (tree d') = true
       /\ exists c, p = extract_path ++ ["ppt"; "media"; c].
Proof.
  unfold extract_pptx. intros H. unfold bind at 1 in H.
  destruct (change OSError _ d) as [[[]|e] d1]; [|done]. unfold bind at 1 in H.
  destruct (ZipFile_read X pptx_path d1) as [[entries|e] d2]; [|done].
  unfold bind at 1 in H.
  destruct (extractall entries _ None d2) as [[[]|e] d3]; [|done].
  unfold bind at 1 in H.
  destruct (find_audio_files (joinpath temp_dir "pptx_contents") d3)
    as [[l|e] d4] eqn:Efind; [|done].
  injection H as <- <- <-. split; [done|]. intros p Hp.
  destruct (find_audio_files_sound _ _ _ _ _ Efind Hp) as (-> & [c ->] & Hf & _).
  split; [done|]. exists c. unfold joinpath. by rewrite <- !app_assoc.
Qed.

(** The body of a presentation job, seen from a path outside the
    scratch directory. *)
Lemma pptx_body_frame X input_path output_path target denoise strength temp_dir q v :
  ~ temp_dir `prefix_of` q ->
  q <> output_path ->
  (q <> joinpath output_path (name input_path) \/ q = input_path) ->
  (~ q `prefix_of` output_path \/ v <> None) ->
  preserves (fun t => is_dir temp_dir t = true /\ kind_at q t = v)
    (ea <- extract_pptx X input_path temp_dir ;;
     let '(extract_path, audio_files) := ea in
     match audio_files with
     | [] => copy2 input_path output_path ;;; ret 0%Z
     | _ :: _ =>
         stats <- normalize_audio_files X audio_files target denoise strength ;;
         reconstruct_pptx X extract_path output_path ;;; ret 0%Z
     end).
Proof.
  intros Htemp Hout Hcopy Hanc d r d' H HP. unfold bind at 1 in H.
  destruct (extract_pptx X input_path temp_dir d) as [[[extract_path audio]|e] d1] eqn:Eex.
  2:{ injection H as _ <-. exact (extract_pptx_outside X temp_dir q v Htemp _ _ _ _ Eex HP). }
  pose proof (extract_pptx_outside X temp_dir q v Htemp _ _ _ _ Eex HP) as HP1.
  destruct (extract_pptx_audio_under _ _ _ _ _ _ _ Eex) as [-> Haudio].
  destruct audio as [|a rest].
  - revert H HP1. generalize d1 r d'. change (preserves
      (fun t => is_dir temp_dir t = true /\ kind_at q t = v)
      (copy2 input_path output_path ;;; ret 0%Z)).
    apply preserves_bind; [|intros _; apply preserves_ret].
    apply preserves_and; [apply copy2_keeps | by apply copy2_frame].
  - unfold bind at 1 in H.
    destruct (normalize_audio_files X (a :: rest) target denoise strength d1)
      as [r2 d2] eqn:En.
    destruct (normalize_audio_files_frame _ _ _ _ _ _ _ _ En)
      as [(stats & -> & _) [Hk _]].
    assert (is_dir temp_dir (tree d2) = true /\ kind_at q (tree d2) = v) as HP2.
    { split.
      - eapply normalize_audio_files_keeps; [exact En | apply HP1].
      - rewrite Hk; [apply HP1|]. intros Hin. destruct (Haudio _ Hin) as [_ [c ->]].
        apply Htemp. exists ("pptx_contents" :: "ppt" :: "media" :: [c]).
        unfold joinpath. by rewrite <- app_assoc. }
    revert H HP2. generalize d2 r d'. change (preserves
      (fun t => is_dir temp_dir t = true /\ kind_at q t = v)
      (reconstruct_pptx X (joinpath temp_dir "pptx_contents") output_path ;;; ret 0%Z)).
    apply preserves_bind; [|intros _; apply preserves_ret].
    apply preserves_and; [apply reconstruct_pptx_keeps | by apply reconstruct_pptx_frame].
Qed.

Lemma tune_container_frame X input_path output_path target denoise strength d r d' q :
  Cli.tune_container X input_path output_path target denoise strength d = (r, d') ->
  q <> output_path ->
  (q <> joinpath output_path (name input_path) \/ q = input_path) ->
  (~ q `prefix_of` output_path \/ path_exists q (tree d) = true) ->
  kind_at q (tree d') = kind_at q (tree d).
Proof.
  intros H Hout Hcopy Hanc. unfold Cli.tune_container in H.
  eapply with_TempDirectory_frame; [| |exact H].
  - intros temp_dir Hfresh Htemp. apply pptx_body_frame; [done..|].
    destruct Hanc as [Hanc | Hanc]; [by left | right].
    unfold path_exists, kind_at in *. by destruct (fs_lookup q (tree d)).
  - intros temp_dir d0 r0 d0' H0 HP0. unfold bind at 1 in H0.
    destruct (extract_pptx X input_path temp_dir d0) as [[[ep audio]|e] d1] eqn:Eex.
    2:{ injection H0 as _ <-. by eapply extract_pptx_keeps. }
    pose proof (extract_pptx_keeps X temp_dir _ _ _ _ _ Eex HP0) as HP1.
    destruct audio as [|a rest].
    + revert H0 HP1. generalize d1 r0 d0'.
      change (preserves (fun t => is_dir temp_dir t = true)
                (copy2 input_path output_path ;;; ret 0%Z)).
      apply preserves_bind; [apply copy2_keeps | intros _; apply preserves_ret].
    + revert H0 HP1. generalize d1 r0 d0'.
      change (preserves (fun t => is_dir temp_dir t = true)
                (stats <- normalize_audio_files X (a :: rest) target denoise strength ;;
                 reconstruct_pptx X ep output_path ;;; ret 0%Z)).
      apply preserves_bind; [apply normalize_audio_files_keeps|]. intros stats.
      apply preserves_bind; [apply reconstruct_pptx_keeps | intros _; apply preserves_ret].
Qed.

Lemma job_frame {A} (valid : node -> bool) output_path force (body : M A) (bad skip fail : A)
    (Q : node -> node -> Prop) w r w' :
  (valid' <- on_disk (ask valid) ;;
   if negb valid' then ret bad else
   go <- may_write output_path force ;;
   if negb go then ret skip else
   on_disk (catch body (fun _ => ret fail))) w = (r, w') ->
  (forall t, Q t t) ->
  (forall d rb d', body d = (rb, d') -> Q (tree d) (tree d')) ->
  Q (tree (disk w)) (tree (disk w')).
Proof.
  intros H Hrefl Hbody. unfold bind at 1 in H. unfold on_disk at 1, ask at 1 in H.
  assert ({| disk := disk w; stdin := stdin w |} = w) as Hw by (by destruct w).
  rewrite Hw in H. destruct (negb (valid (tree (disk w)))); [by injection H as _ <-|].
  unfold bind at 1 in H.
  destruct (may_write output_path force w) as [rg w1] eqn:Eg.
  rewrite <- (may_write_disk _ _ _ _ _ Eg).
  destruct rg as [go|e]; [|by injection H as _ <-].
  destruct (negb go); [by injection H as _ <-|].
  unfold on_disk, catch in H. destruct (body (disk w1)) as [[a|e] d'] eqn:Eb;
    injection H as _ <-; cbn [disk]; by eapply Hbody.
Qed.

Lemma normalize_audio_file_preserves X p target denoise strength q v :
  q <> p ->
  preserves (fun t => kind_at q t = v) (normalize_audio_file X p target denoise strength).
Proof.
  intros Hq d r d' H <-.
  destruct (normalize_audio_file_frame _ _ _ _ _ _ _ _ H) as [_ [Hk _]].
  apply Hk. by intros ->%list_elem_of_singleton.
Qed.

Lemma video_body_frame X input_path output_path target denoise strength d r d' q :
  VideoCli.process_video_body X input_path output_path target denoise strength d = (r, d') ->
  q <> output_path ->
  kind_at q (tree d') = kind_at q (tree d).
Proof.
  intros H Hout. unfold VideoCli.process_video_body in H.
  assert (forall temp_dir,
             preserves (fun t => is_dir temp_dir t = true)
               (extract_audio_from_video X input_path
                  (joinpath temp_dir "extracted_audio.wav") ;;;
                stats <- normalize_audio_file X (joinpath temp_dir "extracted_audio.wav")
                           target denoise strength ;;
                match stats with
                | None => ret 1%Z
                | Some _ =>
                    replace_audio_in_video X input_path
                      (joinpath temp_dir "extracted_audio.wav") output_path ;;;
                    ret 0%Z
                end)) as Hdir.
  { intros temp_dir.
    apply preserves_bind; [apply extract_audio_keeps|]. intros _.
    apply preserves_bind; [apply normalize_audio_file_keeps|]. intros [s|].
    - apply preserves_bind; [apply run_ffmpeg_keeps | intros _; apply preserves_ret].
    - apply preserves_ret. }
  eapply with_TempDirectory_frame; [| exact Hdir | exact H].
  intros temp_dir Hfresh Htemp. cbv zeta.
  assert (q <> joinpath temp_dir "extracted_audio.wav") as Hq.
  { intros ->. apply Htemp. by eexists. }
  assert (forall out, q <> out ->
            forall x t t', write_file out x t = Some t' ->
                           kind_at q t = kind_at q (tree d) ->
                           kind_at q t' = kind_at q (tree d)) as Hw.
  { intros out Hne x t t' Hw <-.
    by rewrite (write_file_kind _ _ _ _ q Hw), decide_False. }
  apply preserves_and; [apply Hdir|].
  apply preserves_bind.
  { unfold extract_audio_from_video. apply preserves_bind; [apply preserves_ask|].
    intros ok. destruct (negb ok); [apply preserves_raise|].
    eapply run_ffmpeg_preserves; [reflexivity | by apply Hw]. }
  intros _. apply preserves_bind; [by apply normalize_audio_file_preserves|].
  intros [s|]; [|apply preserves_ret].
  apply preserves_bind; [|intros _; apply preserves_ret].
  unfold replace_audio_in_video.
  eapply run_ffmpeg_preserves; [reflexivity | by apply Hw].
Qed.

(** ** The net effect of a batch *)

Lemma batch_loop_frame job output_dir files (Q : node -> node -> Prop) :
  (forall t, Q t t) ->
  (forall t1 t2 t3, Q t1 t2 -> Q t2 t3 -> Q t1 t3) ->
  (forall f w0 r0 w0',
      job f (joinpath output_dir (name f)) w0 = (r0, w0') ->
      Q (tree (disk w0)) (tree (disk w0'))) ->
  forall s e w r w',
    batch_loop job output_dir files s e w = (r, w') ->
    Q (tree (disk w)) (tree (disk w')).
Proof.
  intros Hrefl Htrans Hjob. induction files as [|f files IH]; intros s e w r w' H.
  - simpl in H. injection H as _ <-. apply Hrefl.
  - simpl in H. unfold bind at 1 in H.
    destruct (job f (joinpath output_dir (name f)) w) as [[code|x] w1] eqn:Ej.
    + apply (Htrans _ (tree (disk w1))); [by eapply Hjob|].
      destruct (code =? 0)%Z; by eapply IH.
    + injection H as _ <-. by eapply Hjob.
Qed.

Lemma batch_frame (find : Path -> node -> list Path) (job : Path -> Path -> IO Z)
    input_dir output_dir w r w' q :
  (there <- on_disk (ask (path_exists input_dir)) ;;
   if negb there then ret 1%Z else
   isd <- on_disk (ask (is_dir input_dir)) ;;
   if negb isd then ret 1%Z else
   files <- on_disk (ask (find input_dir)) ;;
   match files with
   | [] => ret 0%Z
   | _ :: _ =>
       on_disk (change OSError (makedirs output_dir)) ;;;
       counts <- batch_loop job output_dir files 0 0 ;;
       ret (batch_status (snd counts))
   end) w = (r, w') ->
  (forall f w0 r0 w0',
      job f (joinpath output_dir (name f)) w0 = (r0, w0') ->
      kind_at q (tree (disk w0')) = kind_at q (tree (disk w0))) ->
  ~ q `prefix_of` output_dir ->
  kind_at q (tree (disk w')) = kind_at q (tree (disk w)).
Proof.
  intros H Hjob Hq.
  assert ({| disk := disk w; stdin := stdin w |} = w) as Hw by (by destruct w).
  unfold bind at 1 in H. unfold on_disk at 1, ask at 1 in H. rewrite Hw in H.
  destruct (negb _); [by injection H as _ <-|].
  unfold bind at 1 in H. unfold on_disk at 1, ask at 1 in H. rewrite Hw in H.
  destruct (negb _); [by injection H as _ <-|].
  unfold bind at 1 in H. unfold on_disk at 1, ask at 1 in H. rewrite Hw in H.
  destruct (find input_dir (tree (disk w))) as [|f files]; [by injection H as _ <-|].
  unfold bind at 1 in H. unfold on_disk at 1, change at 1 in H.
  destruct (makedirs output_dir (tree (disk w))) as [t1|] eqn:Emk;
    [|by injection H as _ <-].
  assert (kind_at q t1 = kind_at q (tree (disk w))) as H1.
  { destruct (makedirs_from_kind _ _ _ _ q Emk) as [-> | (_ & _ & Hp)]; [done|].
    by destruct Hq. }
  unfold bind at 1 in H.
  destruct (batch_loop job output_dir (f :: files) 0 0 _) as [rc w2] eqn:Eloop.
  apply (batch_loop_frame job output_dir (f :: files)
           (fun t t' => kind_at q t' = kind_at q t)) in Eloop;
    [| done | intros t1' t2' t3' H12 H23; by rewrite H23 | intros; by eapply Hjob].
  cbn [disk tree] in Eloop. rewrite <- H1, <- Eloop.
  destruct rc; by injection H as _ <-.
Qed.

Lemma process_single_pptx_frame X input_path output_path target force denoise strength
    w r w' q :
  Cli.process_single_pptx X input_path output_path target force denoise strength w
  = (r, w') ->
  q <> output_path ->
  q <> joinpath output_path (name input_path) ->
  ~ q `prefix_of` output_path ->
  kind_at q (tree (disk w')) = kind_at q (tree (disk w)).
Proof.
  intros H Hout Hcopy Hanc. unfold Cli.process_single_pptx in H.
  apply (job_frame _ _ _ _ _ _ _ (fun t t' => kind_at q t' = kind_at q t) _ _ _ H);
    [done|].
  intros d rb d' Hb. eapply tune_container_frame; eauto.
Qed.

Lemma process_single_video_frame X input_path output_path target force denoise strength
    w r w' q :
  VideoCli.process_single_video X input_path output_path target force denoise strength w
  = (r, w') ->
  q <> output_path ->
  kind_at q (tree (disk w')) = kind_at q (tree (disk w)).
Proof.
  intros H Hout. unfold VideoCli.process_single_video in H.
  apply (job_frame _ _ _ _ _ _ _ (fun t t' => kind_at q t' = kind_at q t) _ _ _ H);
    [done|].
  intros d rb d' Hb. eapply video_body_frame; eauto.
Qed.

(** A path that is neither above nor inside a directory is away from
    every file directly inside it. *)
Lemma away_from_children (q output_dir : Path) c :
  ~ q `prefix_of` output_dir -> ~ output_dir `prefix_of` q ->
  q <> joinpath output_dir c
  /\ (forall c', q <> joinpath (joinpath output_dir c) c')
  /\ ~ q `prefix_of` joinpath output_dir c.
Proof.
  intros Hup Hin. split_and!.
  - intros ->. apply Hin. by eexists.
  - intros c' ->. apply Hin. exists [c; c']. unfold joinpath. by rewrite <- app_assoc.
  - intros [Hp | (m & -> & _)]%prefix_of_app_split; [done|]. apply Hin. by eexists.
Qed.

(** ** Pieces of the presentation pipeline *)










(** ** The single-file branch of [main] *)

Lemma catch_on_disk {A} (m : M A) (h : A) w :
  catch (on_disk m) (fun _ => ret h) w = on_disk (catch m (fun _ => ret h)) w.
Proof.
  unfold catch, on_disk, ret. destruct (m (disk w)) as [[a|e] d']; reflexivity.
Qed.

Lemma single_file_main X args input_path output_path :
  check_options X args = Ok None ->
  arg_input_dir args = None ->
  arg_input args = Some input_path ->
  arg_output args = Some output_path ->
  Cli.main X args
  = catch
      (valid <- on_disk (ask (validate_pptx_file X input_path)) ;;
       if negb valid then ret 1%Z else
       go <- may_write output_path (arg_force args) ;;
       if negb go then ret 0%Z else
       on_disk (Cli.tune_container X input_path output_path (arg_target_lufs args)
                  (arg_denoise args) (arg_denoise_strength args)))
      (fun _ => ret 1%Z).
Proof. intros Hc Hd Hi Ho. unfold Cli.main. by rewrite Hc, Hd, Hi, Ho. Qed.

(** A job that asks before its [try] block, against the same steps
    inside one [try] block. *)
Lemma asking_inside_try (valid : node -> bool) (mw : IO bool) (body : M Z) w :
  let job :=
    (v <- on_disk (ask valid) ;;
     if negb v then ret 1%Z else
     go <- mw ;;
     if negb go then ret 0%Z else on_disk (catch body (fun _ => ret 1%Z))) in
  let inside :=
    catch
      (v <- on_disk (ask valid) ;;
       if negb v then ret 1%Z else
       go <- mw ;;
       if negb go then ret 0%Z else on_disk body)
      (fun _ => ret 1%Z) in
  (forall code w', job w = (Ok code, w') -> inside w = (Ok code, w'))
  /\ (forall e w', job w = (Raise e, w') ->
        mw w = (Raise e, w') /\ inside w = (Ok 1%Z, w')).
Proof.
  intros job inside. subst job inside. unfold catch, bind, on_disk, ask, ret.
  assert ({| disk := disk w; stdin := stdin w |} = w) as -> by (by destruct w).
  destruct (negb (valid (tree (disk w)))); [split; [done | intros e w' [=]]|].
  destruct (mw w) as [[go|e] w1].
  - destruct (negb go); [split; [done | intros e w' [=]]|].
    destruct (body (disk w1)) as [[a|e] d']; (split; [done | intros e' w' [=]]).
  - split; [intros code w' [=] | intros e' w' [= <- <-]; done].
Qed.

Lemma may_write_raise output_path force w e w' :
  may_write output_path force w = (Raise e, w') -> e = EOFError.
Proof.
  unfold may_write, confirm_overwrite, input. unfold_st.
  destruct (path_exists output_path (tree (disk w)) && negb force); [|done].
  destruct (stdin w); simpl; intros H; by simplify_eq.
Qed.

(** ** The question about an existing output *)

Lemma job_asks {A} (valid : node -> bool) output_path force (body : M A)
    (bad skip fail : A) w :
  let job :=
    (valid' <- on_disk (ask valid) ;;
     if negb valid' then ret bad else
     go <- may_write output_path force ;;
     if negb go then ret skip else
     on_disk (catch body (fun _ => ret fail))) in
  valid (tree (disk w)) = true ->
  (force = true \/ path_exists output_path (tree (disk w)) = false ->
   job w = on_disk (catch body (fun _ => ret fail)) w)
  /\ (force = false -> path_exists output_path (tree (disk w)) = true ->
      match stdin w with
      | [] => job w = (Raise EOFError, w)
      | line :: rest =>
          job w = if str_in (lower line) ["y"; "yes"]
                  then on_disk (catch body (fun _ => ret fail))
                         {| disk := disk w; stdin := rest |}
                  else (Ok skip, {| disk := disk w; stdin := rest |})
      end).
Proof.
  intros job Hvalid. subst job. destruct w as [dk lines]. cbn [disk stdin] in *.
  unfold may_write, confirm_overwrite, input, bind, on_disk, ask, ret, catch.
  cbv beta iota. cbn [disk stdin]. rewrite Hvalid. cbn [negb]. cbv beta iota.
  cbn [disk stdin]. split.
  - intros [-> | ->]; rewrite ?andb_false_r; cbn [andb negb]; done.
  - intros -> ->. cbn [andb negb]. cbv beta iota. cbn [disk stdin].
    destruct lines as [|line rest]; [done|]. cbv beta iota. cbn [disk stdin].
    by destruct (str_in (lower line) ["y"; "yes"]).
Qed.

Lemma on_disk_catch_stdin {A} (m : M A) (a : A) w r w' :
  on_disk (catch m (fun _ => ret a)) w = (r, w') ->
  stdin w' = stdin w /\ exists code, r = Ok code.
Proof.
  unfold on_disk, catch, ret. destruct (m (disk w)) as [[x|e] d']; intros [= <- <-]; eauto.
Qed.

Lemma job_prompt {A} (valid : node -> bool) output_path force (body : M A)
    (bad skip fail : A) w :
  let job :=
    (valid' <- on_disk (ask valid) ;;
     if negb valid' then ret bad else
     go <- may_write output_path force ;;
     if negb go then ret skip else
     on_disk (catch body (fun _ => ret fail))) in
  valid (tree (disk w)) = true ->
  (force = true \/ path_exists output_path (tree (disk w)) = false ->
   forall r w', job w = (r, w') -> stdin w' = stdin w /\ exists code, r = Ok code)
  /\ (force = false -> path_exists output_path (tree (disk w)) = true ->
      forall line rest, stdin w = line :: rest ->
        (str_in (lower line) ["y"; "yes"] = false ->
         job w = (Ok skip, {| disk := disk w; stdin := rest |}))
        /\ (str_in (lower line) ["y"; "yes"] = true ->
            exists code w', job w = (Ok code, w') /\ stdin w' = rest)).
Proof.
  intros job Hvalid.
  destruct (job_asks valid output_path force body bad skip fail w Hvalid)
    as [Hsilent Hasked].
  fold job in Hsilent, Hasked. split.
  - intros Hno r w' H. rewrite (Hsilent Hno) in H. by eapply on_disk_catch_stdin.
  - intros Hf Hex line rest Hin. specialize (Hasked Hf Hex). rewrite Hin in Hasked.
    split; intros Hans; rewrite Hans in Hasked; [done|].
    destruct (on_disk (catch body (fun _ => ret fail)) {| disk := disk w; stdin := rest |})
      as [r w'] eqn:E.
    destruct (on_disk_catch_stdin _ _ _ _ _ E) as [Hst [code ->]].
    by exists code, w'.
Qed.

(** ** Probing a video *)

Lemma last_codec_skip ty s rest init :
  is_stream ty s = false -> last_codec ty (s :: rest) init = last_codec ty rest init.
Proof. intros H. unfold last_codec. simpl. by rewrite H. Qed.

Lemma last_map_Some {A} (x : A) (l : list A) :
  exists y, List.last (map Some (x :: l)) None = Some y.
Proof.
  revert x. induction l as [|x' l IH]; intros x; [by exists x|].
  destruct (IH x') as [y Hy]. exists y. by rewrite <- Hy.
Qed.

Lemma last_codec_here ty s rest init :
  is_stream ty s = true ->
  last_codec ty (s :: rest) init = last_codec ty rest (codec_name s).
Proof.
  intros H. unfold last_codec. cbn [List.filter]. rewrite H.
  destruct (List.filter (is_stream ty) rest) as [|s' l]; [done|].
  change (List.last (map Some (s :: s' :: l)) None)
    with (List.last (map Some (s' :: l)) None).
  by destruct (last_map_Some s' l) as [y ->].
Qed.

Lemma scan_streams_flags X streams info info' :
  scan_streams X streams info = Ok info' ->
  has_audio info' = has_audio info || existsb (is_stream "audio") streams
  /\ has_video info' = has_video info || existsb (is_stream "video") streams
  /\ audio_codec info' = last_codec "audio" streams (audio_codec info)
  /\ video_codec info' = last_codec "video" streams (video_codec info).
Proof.
  revert info. induction streams as [|s rest IH]; intros info H; simpl in H.
  - injection H as <-. by rewrite !orb_false_r.
  - change (match codec_type s with Some ty => String.eqb ty "video" | None => false end)
      with (is_stream "video" s) in H.
    change (match codec_type s with Some ty => String.eqb ty "audio" | None => false end)
      with (is_stream "audio" s) in H.
    assert (is_stream "video" s = true -> is_stream "audio" s = false) as Hex.
    { unfold is_stream. destruct (codec_type s) as [ty|]; [|done].
      by intros ->%String.eqb_eq. }
    cbn [existsb]. destruct (is_stream "video" s) eqn:Ev.
    + rewrite (Hex eq_refl). destruct (updated_duration X info s) as [d|e]; [|done].
      destruct (IH _ H) as (Ha & Hv & Hac & Hvc). cbn in Ha, Hv, Hac, Hvc.
      rewrite last_codec_skip by by apply Hex.
      rewrite last_codec_here by done. by rewrite orb_true_r.
    + destruct (is_stream "audio" s) eqn:Ea.
      * destruct (updated_duration X info s) as [d|e]; [|done].
        destruct (IH _ H) as (Ha & Hv & Hac & Hvc). cbn in Ha, Hv, Hac, Hvc.
        rewrite last_codec_here by done. rewrite last_codec_skip by done.
        by rewrite orb_true_r.
      * destruct (IH _ H) as (Ha & Hv & Hac & Hvc).
        by rewrite !last_codec_skip.
Qed.

Lemma get_video_info_inv X video_path t info :
  get_video_info X video_path t = Ok info ->
  exists b streams,
    read_file video_path t = Some b
    /\ ffprobe X b = Some streams
    /\ has_audio info = existsb (is_stream "audio") streams
    /\ has_video info = existsb (is_stream "video") streams
    /\ audio_codec info = last_codec "audio" streams None
    /\ video_codec info = last_codec "video" streams None.
Proof.
  unfold get_video_info. destruct (read_file video_path t) as [b|]; [|done].
  destruct (ffprobe X b) as [streams|] eqn:Hp; [|done]. intros H.
  destruct (scan_streams_flags _ _ _ _ H) as (Ha & Hv & Hac & Hvc).
  cbn [has_audio has_video audio_codec video_codec orb] in Ha, Hv, Hac, Hvc.
  by exists b, streams.
Qed.
Lemma scan_streams_total X streams info :
  forallb (duration_parses X) streams = true ->
  exists info', scan_streams X streams info = Ok info'.
Proof.
  revert info. induction streams as [|s rest IH]; intros info H; simpl in *.
  - by eexists.
  - apply andb_true_iff in H as [Hs Hrest].
    change (match codec_type s with Some ty => String.eqb ty "video" | None => false end)
      with (is_stream "video" s).
    change (match codec_type s with Some ty => String.eqb ty "audio" | None => false end)
      with (is_stream "audio" s).
    assert (is_stream "video" s || is_stream "audio" s = true ->
            exists d, updated_duration X info s = Ok d) as Hd.
    { intros Hty. unfold duration_parses in Hs. rewrite Hty in Hs.
      unfold updated_duration. destruct (stream_duration s) as [[|c d]|]; [by eexists| |by eexists].
      apply bool_decide_eq_true in Hs as [f ->]. by eexists. }
    destruct (is_stream "video" s).
    + destruct (Hd eq_refl) as [d ->]. by apply IH.
    + destruct (is_stream "audio" s).
      * destruct (Hd eq_refl) as [d ->]. by apply IH.
      * by apply IH.
Qed.

Lemma scan_streams_raise X streams info e :
  scan_streams X streams info = Raise e ->
  forallb (duration_parses X) streams = false.
Proof.
  intros H. destruct (forallb (duration_parses X) streams) eqn:E; [|done].
  destruct (scan_streams_total X streams info E) as [info' H']. congruence.
Qed.

Lemma scan_streams_parsed X streams info info' :
  scan_streams X streams info = Ok info' ->
  forallb (duration_parses X) streams = true.
Proof.
  revert info. induction streams as [|s rest IH]; intros info H; simpl in *; [done|].
  change (match codec_type s with Some ty => String.eqb ty "video" | None => false end)
    with (is_stream "video" s) in H.
  change (match codec_type s with Some ty => String.eqb ty "audio" | None => false end)
    with (is_stream "audio" s) in H.
  assert (forall d, updated_duration X info s = Ok d ->
                    match stream_duration s with
                    | None | Some "" => true
                    | Some d => bool_decide (is_Some (float_of_str X d))
                    end = true) as Hd.
  { intros d. unfold updated_duration.
    destruct (stream_duration s) as [[|c r]|]; [done| |done].
    destruct (float_of_str X (String c r)) as [f|] eqn:E; [|done].
    intros _. apply bool_decide_eq_true. by eexists. }
  apply andb_true_iff. unfold duration_parses.
  destruct (is_stream "video" s); cbn [orb].
  - destruct (updated_duration X info s) as [d|e]; [|done].
    split; [by apply (Hd d)|by eapply IH].
  - destruct (is_stream "audio" s).
    + destruct (updated_duration X info s) as [d|e]; [|done].
      split; [by apply (Hd d)|by eapply IH].
    + split; [done|by eapply IH].
Qed.

Lemma get_video_info_ok X video_path t b streams :
  read_file video_path t = Some b ->
  ffprobe X b = Some streams ->
  forallb (duration_parses X) streams = true ->
  exists info, get_video_info X video_path t = Ok info.
Proof.
  intros Hr Hp Hd. unfold get_video_info. rewrite Hr, Hp. by apply scan_streams_total.
Qed.

Lemma get_video_info_parsed X video_path t info b streams :
  get_video_info X video_path t = Ok info ->
  read_file video_path t = Some b ->
  ffprobe X b = Some streams ->
  forallb (duration_parses X) streams = true.
Proof.
  unfold get_video_info. intros H Hr Hp. rewrite Hr, Hp in H.
  by eapply scan_streams_parsed.
Qed.

Lemma rmtree_not_dir p t : is_dir p t = false -> rmtree p t = None.
Proof.
  intros Hd. destruct (rmtree p t) as [t'|] eqn:E; [|done].
  apply alter_at_lookup_same in E. unfold is_dir in Hd.
  by destruct (fs_lookup p t) as [[b|es]|].
Qed.

(** ** Exit statuses *)

Lemma tune_container_status X input_path output_path target denoise strength :
  returns (fun a => a = 0%Z)
    (Cli.tune_container X input_path output_path target denoise strength).
Proof.
  unfold Cli.tune_container, with_TempDirectory.
  apply returns_bind. intros temp_dir. apply returns_finally.
  apply returns_bind. intros [extract_path [|f fs]].
  - apply returns_bind. intros _. by apply returns_ret.
  - apply returns_bind. intros stats. apply returns_bind. intros _. by apply returns_ret.
Qed.

Lemma process_video_body_status X input_path output_path target denoise strength :
  returns (fun a => a = 0%Z \/ a = 1%Z)
    (VideoCli.process_video_body X input_path output_path target denoise strength).
Proof.
  unfold VideoCli.process_video_body, with_TempDirectory.
  apply returns_bind. intros temp_dir. apply returns_finally.
  apply returns_bind. intros _. apply returns_bind. intros [stats|].
  - apply returns_bind. intros _. apply returns_ret. by left.
  - apply returns_ret. by right.
Qed.

Lemma on_disk_status (Q : Z -> Prop) (m : M Z) w a w' :
  returns Q m -> on_disk m w = (Ok a, w') -> Q a.
Proof.
  intros Hm H. unfold on_disk in H. destruct (m (disk w)) as [[b|e] d'] eqn:E; [|done].
  injection H as <- _. by eapply Hm.
Qed.

Lemma job_status (valid : node -> bool) (mw : IO bool) (fin : IO Z) w a w' :
  (v <- on_disk (ask valid) ;;
   if negb v then ret 1%Z else
   go <- mw ;;
   if negb go then ret 0%Z else fin) w = (Ok a, w') ->
  (forall w0 a0 w0', fin w0 = (Ok a0, w0') -> a0 = 0%Z \/ a0 = 1%Z) ->
  a = 0%Z \/ a = 1%Z.
Proof.
  intros H Hfin. unfold bind, on_disk, ask, ret in H.
  destruct (negb (valid (tree (disk w)))); [injection H as <- _; by right|].
  destruct (mw _) as [[go|e] w1]; [|done].
  destruct (negb go); [injection H as <- _; by left|].
  by eapply Hfin.
Qed.

Lemma pptx_job_status X input_path output_path target force denoise strength w a w' :
  Cli.process_single_pptx X input_path output_path target force denoise strength w
  = (Ok a, w') ->
  a = 0%Z \/ a = 1%Z.
Proof.
  intros H. eapply job_status; [exact H|]. intros w0 a0 w0'.
  apply (on_disk_status (fun a => a = 0%Z \/ a = 1%Z)).
  apply returns_catch; [|intros e; apply returns_ret; by right].
  intros d b d' Hb. left. by eapply tune_container_status.
Qed.

Lemma video_job_status X input_path output_path target force denoise strength w a w' :
  VideoCli.process_single_video X input_path output_path target force denoise strength w
  = (Ok a, w') ->
  a = 0%Z \/ a = 1%Z.
Proof.
  intros H. eapply job_status; [exact H|]. intros w0 a0 w0'.
  apply (on_disk_status (fun a => a = 0%Z \/ a = 1%Z)).
  apply returns_catch; [|intros e; apply returns_ret; by right].
  apply process_video_body_status.
Qed.

Lemma batch_status_bit n : batch_status n = 0%Z \/ batch_status n = 1%Z.
Proof. unfold batch_status. destruct (n =? 0)%nat; [by left|by right]. Qed.

Lemma batch_exit_status (find : Path -> node -> list Path) (job : Path -> Path -> IO Z)
    input_dir output_dir w a w' :
  (there <- on_disk (ask (path_exists input_dir)) ;;
   if negb there then ret 1%Z else
   isd <- on_disk (ask (is_dir input_dir)) ;;
   if negb isd then ret 1%Z else
   files <- on_disk (ask (find input_dir)) ;;
   match files with
   | [] => ret 0%Z
   | _ :: _ =>
       on_disk (change OSError (makedirs output_dir)) ;;;
       counts <- batch_loop job output_dir files 0 0 ;;
       ret (batch_status (snd counts))
   end) w = (Ok a, w') ->
  a = 0%Z \/ a = 1%Z.
Proof.
  intros H. unfold bind at 1 in H. unfold on_disk at 1, ask at 1 in H.
  destruct (negb _); [injection H as <- _; by right|].
  unfold bind at 1 in H. unfold on_disk at 1, ask at 1 in H.
  destruct (negb _); [injection H as <- _; by right|].
  unfold bind at 1 in H. unfold on_disk at 1, ask at 1 in H.
  destruct (find _ _) as [|f fs]; [injection H as <- _; by left|].
  unfold bind at 1 in H. destruct (on_disk _ _) as [[u|e] w1]; [|done].
  unfold bind at 1 in H. destruct (batch_loop _ _ _ _ _ _) as [[counts|e] w2]; [|done].
  injection H as <- _. apply batch_status_bit.
Qed.

Lemma catch_status (m : IO Z) w r w' :
  catch m (fun _ => ret 1%Z) w = (r, w') ->
  (forall a w1, m w = (Ok a, w1) -> a = 0%Z \/ a = 1%Z) ->
  exists code, r = Ok code /\ (code = 0%Z \/ code = 1%Z).
Proof.
  unfold catch, ret. intros H Hm. destruct (m w) as [[a|e] w1].
  - injection H as <- _. exists a. split; [done|]. by eapply Hm.
  - injection H as <- _. exists 1%Z. split; [done|]. by right.
Qed.

Lemma check_ffmpeg_installed_raise X e :
  check_ffmpeg_installed X = Raise e ->
  ffmpeg_version X = Raise e /\ e <> FileNotFoundError /\ e <> TimeoutExpired.
Proof.
  unfold check_ffmpeg_installed. destruct (ffmpeg_version X) as [rc|e']; [done|].
  by destruct e'; intros [= <-].
Qed.

Lemma check_options_one X args code : check_options X args = Ok (Some code) -> code = 1%Z.
Proof.
  unfold check_options. intros H.
  repeat match type of H with
         | (if ?b then _ else _) = _ => destruct b; [by injection H as <-|]
         end.
  destruct (check_ffmpeg_installed X) as [[|]|e]; cbn in H; by simplify_eq.
Qed.

Lemma check_options_raise X args e :
  check_options X args = Raise e ->
  ffmpeg_version X = Raise e /\ e <> FileNotFoundError /\ e <> TimeoutExpired.
Proof.
  unfold check_options. intros H.
  repeat match type of H with
         | (if ?b then _ else _) = _ => destruct b; [done|]
         end.
  destruct (check_ffmpeg_installed X) as [[|]|e'] eqn:E; cbn in H; try done.
  injection H as <-. by apply check_ffmpeg_installed_raise.
Qed.

Lemma check_options_rejects X args :
  PrimFloat.ltb (arg_target_lufs args) (-70)%float = true
  \/ PrimFloat.ltb 0%float (arg_target_lufs args) = true
  \/ PrimFloat.ltb (arg_denoise_strength args) 0%float = true
  \/ PrimFloat.ltb 1%float (arg_denoise_strength args) = true
  \/ check_ffmpeg_installed X = Ok false
  \/ (arg_input_dir args <> None /\ arg_output_dir args = None)
  \/ (arg_input_dir args = None /\ (arg_output args = None \/ arg_output_dir args <> None)) ->
  check_options X args = Ok (Some 1%Z).
Proof.
  intros H. unfold check_options.
  destruct (arg_input_dir args) as [input_dir|], (arg_output_dir args) as [output_dir|],
    (arg_output args) as [output|]; cbn; try done;
    destruct (PrimFloat.ltb (arg_target_lufs args) (-70)%float),
      (PrimFloat.ltb 0%float (arg_target_lufs args)); cbn; try done;
    destruct (PrimFloat.ltb (arg_denoise_strength args) 0%float),
      (PrimFloat.ltb 1%float (arg_denoise_strength args)); cbn; try done;
    destruct (check_ffmpeg_installed X) as [[|]|e]; cbn; try done;
    exfalso; intuition congruence.
Qed.
(** ** Directories stay *)

Lemma with_TempDirectory_keeps_dir {A} X (body : Path -> M A) p :
  (forall temp_dir, preserves (fun t => is_dir p t = true) (body temp_dir)) ->
  preserves (fun t => is_dir p t = true) (with_TempDirectory X body).
Proof.
  intros Hbody d r d' H Hp. unfold with_TempDirectory in H. unfold bind at 1 in H.
  destruct (mkdtemp X "pptx_normalizer_" d) as [[temp_dir|e] d1] eqn:Emk.
  2:{ injection H as _ <-. by rewrite (mktemp_raise _ _ _ _ _ _ _ Emk). }
  destruct (mkdtemp_is_dir _ _ _ _ _ Emk) as (_ & _ & Hfresh).
  assert (~ temp_dir `prefix_of` p) as Hout.
  { apply not_below_absent with (tree d); [done|].
    unfold is_dir in Hp. by destruct (fs_lookup p (tree d)). }
  apply mktemp_inv in Emk as (_ & Hmk & _).
  pose proof (mkdir_keeps_dir _ _ _ _ Hmk Hp) as Hp1.
  unfold finally in H. destruct (body temp_dir d1) as [rb d2] eqn:Eb.
  pose proof (Hbody temp_dir _ _ _ Eb Hp1) as Hp2. cbv beta in Hp2.
  rewrite bind_ask in H. destruct (path_exists temp_dir (tree d2)).
  - unfold change in H. destruct (rmtree temp_dir (tree d2)) as [t3|] eqn:Erm.
    + injection H as _ <-. cbn [tree].
      rewrite (kind_at_is_dir_eq p (tree d2) t3); [done|].
      by rewrite (rmtree_kind _ _ _ p Erm), decide_False.
    + by injection H as _ <-.
  - unfold ret in H. by injection H as _ <-.
Qed.

Lemma tune_container_keeps_dir X input_path output_path target denoise strength p :
  preserves (fun t => is_dir p t = true)
    (Cli.tune_container X input_path output_path target denoise strength).
Proof.
  unfold Cli.tune_container. apply with_TempDirectory_keeps_dir. intros temp_dir.
  apply preserves_bind; [apply extract_pptx_keeps|].
  intros [extract_path [|f fs]].
  - apply preserves_bind; [apply copy2_keeps | intros _; apply preserves_ret].
  - apply preserves_bind; [apply normalize_audio_files_keeps|]. intros stats.
    apply preserves_bind; [apply reconstruct_pptx_keeps | intros _; apply preserves_ret].
Qed.

Lemma process_video_body_keeps_dir X input_path output_path target denoise strength p :
  preserves (fun t => is_dir p t = true)
    (VideoCli.process_video_body X input_path output_path target denoise strength).
Proof.
  unfold VideoCli.process_video_body. apply with_TempDirectory_keeps_dir. intros temp_dir.
  apply preserves_bind; [apply extract_audio_keeps|]. intros _.
  apply preserves_bind; [apply normalize_audio_file_keeps|]. intros [stats|].
  - apply preserves_bind; [|intros _; apply preserves_ret].
    unfold replace_audio_in_video. apply run_ffmpeg_keeps.
  - apply preserves_ret.
Qed.

Lemma pptx_job_keeps_dir X input_path output_path target force denoise strength p w r w' :
  Cli.process_single_pptx X input_path output_path target force denoise strength w
  = (r, w') ->
  is_dir p (tree (disk w)) = true -> is_dir p (tree (disk w')) = true.
Proof.
  intros H.
  apply (job_frame _ _ _ _ _ _ _ (fun t t' => is_dir p t = true -> is_dir p t' = true)
           _ _ _ H); [done|].
  intros d rb d' Hb. by apply (tune_container_keeps_dir _ _ _ _ _ _ _ _ _ _ Hb).
Qed.

Lemma video_job_keeps_dir X input_path output_path target force denoise strength p w r w' :
  VideoCli.process_single_video X input_path output_path target force denoise strength w
  = (r, w') ->
  is_dir p (tree (disk w)) = true -> is_dir p (tree (disk w')) = true.
Proof.
  intros H.
  apply (job_frame _ _ _ _ _ _ _ (fun t t' => is_dir p t = true -> is_dir p t' = true)
           _ _ _ H); [done|].
  intros d rb d' Hb. by apply (process_video_body_keeps_dir _ _ _ _ _ _ _ _ _ _ Hb).
Qed.

(** The cases of a batch: the input is no directory, nothing to do,
    the output directory cannot be made, or the loop has run on a disk
    where the output directory exists. *)
Lemma batch_cases (find : Path -> node -> list Path) (job : Path -> Path -> IO Z)
    input_dir output_dir w r w' :
  (there <- on_disk (ask (path_exists input_dir)) ;;
   if negb there then ret 1%Z else
   isd <- on_disk (ask (is_dir input_dir)) ;;
   if negb isd then ret 1%Z else
   files <- on_disk (ask (find input_dir)) ;;
   match files with
   | [] => ret 0%Z
   | _ :: _ =>
       on_disk (change OSError (makedirs output_dir)) ;;;
       counts <- batch_loop job output_dir files 0 0 ;;
       ret (batch_status (snd counts))
   end) w = (r, w') ->
  (is_dir input_dir (tree (disk w)) = false /\ r = Ok 1%Z /\ w' = w)
  \/ (is_dir input_dir (tree (disk w)) = true
      /\ ((find input_dir (tree (disk w)) = [] /\ r = Ok 0%Z /\ w' = w)
          \/ (find input_dir (tree (disk w)) <> []
              /\ ((makedirs output_dir (tree (disk w)) = None
                   /\ r = Raise OSError /\ w' = w)
                  \/ exists t1 rc,
                       makedirs output_dir (tree (disk w)) = Some t1
                       /\ batch_loop job output_dir (find input_dir (tree (disk w))) 0 0
                            {| disk := {| tree := t1; rand := rand (disk w) |};
                               stdin := stdin w |} = (rc, w')
                       /\ r = match rc with
                              | Ok counts => Ok (batch_status (snd counts))
                              | Raise e => Raise e
                              end)))).
Proof.
  intros H.
  assert ({| disk := disk w; stdin := stdin w |} = w) as Hw by (by destruct w).
  unfold bind at 1 in H. unfold on_disk at 1, ask at 1 in H. rewrite Hw in H.
  destruct (path_exists input_dir (tree (disk w))) eqn:Eex; cbn [negb] in H.
  2:{ left. injection H as <- <-. split; [|done].
      unfold path_exists in Eex. unfold is_dir.
      by destruct (fs_lookup input_dir (tree (disk w))). }
  unfold bind at 1 in H. unfold on_disk at 1, ask at 1 in H. rewrite Hw in H.
  destruct (is_dir input_dir (tree (disk w))) eqn:Edir; cbn [negb] in H.
  2:{ left. by injection H as <- <-. }
  right. split; [done|].
  unfold bind at 1 in H. unfold on_disk at 1, ask at 1 in H. rewrite Hw in H.
  destruct (find input_dir (tree (disk w))) as [|f files] eqn:Ef.
  { left. by injection H as <- <-. }
  right. split; [done|].
  unfold bind at 1 in H. unfold on_disk at 1, change at 1 in H.
  destruct (makedirs output_dir (tree (disk w))) as [t1|] eqn:Emk.
  2:{ left. rewrite Hw in H. by injection H as <- <-. }
  right. unfold bind at 1 in H.
  destruct (batch_loop job output_dir (f :: files) 0 0 _) as [rc w2] eqn:Eloop.
  exists t1, rc. split; [done|]. destruct rc as [counts|e]; by injection H as <- <-.
Qed.

Lemma makedirs_from_is_dir pre todo t t' :
  makedirs_from pre todo t = Some t' ->
  is_dir pre t = true ->
  is_dir (pre ++ todo) t' = true.
Proof.
  revert pre t. induction todo as [|c todo IH]; intros pre t H Hd; simpl in H.
  - injection H as <-. by rewrite app_nil_r.
  - replace (pre ++ c :: todo) with ((pre ++ [c]) ++ todo) by by rewrite <- app_assoc.
    destruct (fs_lookup (pre ++ [c]) t) as [[b|es]|] eqn:E; [done| |].
    + apply (IH _ _ H). unfold is_dir. by rewrite E.
    + destruct (mkdir (pre ++ [c]) t) as [t1|] eqn:Emk; [|done].
      apply (IH _ _ H). apply kind_at_is_dir.
      destruct (mkdir_kind _ _ _ (pre ++ [c]) Emk) as [_ ->]. by rewrite decide_True.
Qed.

Lemma makedirs_is_dir p t t' :
  makedirs p t = Some t' -> is_dir [] t = true -> is_dir p t' = true.
Proof. apply (makedirs_from_is_dir [] p). Qed.

Lemma is_dir_root p t : is_dir p t = true -> is_dir [] t = true.
Proof.
  intros H%kind_at_is_dir. apply kind_at_is_dir.
  apply (kind_at_prefix_of_dir [] p); [apply prefix_nil | done].
Qed.

Lemma batch_loop_keeps_dir (job : Path -> Path -> IO Z) output_dir files p s e w rc w' :
  batch_loop job output_dir files s e w = (rc, w') ->
  (forall f o w0 r0 w0',
      job f o w0 = (r0, w0') ->
      is_dir p (tree (disk w0)) = true -> is_dir p (tree (disk w0')) = true) ->
  is_dir p (tree (disk w)) = true ->
  is_dir p (tree (disk w')) = true.
Proof.
  intros Hloop Hjob.
  refine (batch_loop_frame job output_dir files
            (fun t t' => is_dir p t = true -> is_dir p t' = true) _ _ _ s e w rc w' Hloop).
  - done.
  - intros t2 t3 t4 H23 H34 H2. by apply H34, H23.
  - intros f w0 r0 w0'. apply Hjob.
Qed.

Lemma batch_keeps_dir (find : Path -> node -> list Path) (job : Path -> Path -> IO Z)
    input_dir output_dir p w r w' :
  (there <- on_disk (ask (path_exists input_dir)) ;;
   if negb there then ret 1%Z else
   isd <- on_disk (ask (is_dir input_dir)) ;;
   if negb isd then ret 1%Z else
   files <- on_disk (ask (find input_dir)) ;;
   match files with
   | [] => ret 0%Z
   | _ :: _ =>
       on_disk (change OSError (makedirs output_dir)) ;;;
       counts <- batch_loop job output_dir files 0 0 ;;
       ret (batch_status (snd counts))
   end) w = (r, w') ->
  (forall f o w0 r0 w0',
      job f o w0 = (r0, w0') ->
      is_dir p (tree (disk w0)) = true -> is_dir p (tree (disk w0')) = true) ->
  is_dir p (tree (disk w)) = true ->
  is_dir p (tree (disk w')) = true.
Proof.
  intros H Hjob Hp.
  destruct (batch_cases _ _ _ _ _ _ _ H)
    as [(_ & _ & ->) | (Hin & [(Hnil & _ & ->) | (_ & [(_ & _ & ->) | (t1 & rc & Hmk & Hloop & _)])])];
    try done.
  apply (batch_loop_keeps_dir _ _ _ p _ _ _ _ _ Hloop Hjob). cbn [disk tree].
  by eapply makedirs_keeps_dir.
Qed.
(** ** What a record means *)

Lemma bind_Ok_inv {S A B} (m : St S A) (k : A -> St S B) s b s' :
  bind m k s = (Ok b, s') -> exists a s1, m s = (Ok a, s1) /\ k a s1 = (Ok b, s').
Proof. unfold bind. destruct (m s) as [[a|e] s1]; [eauto | done]. Qed.

Lemma lift_result_inv {S A} (r : result A) (s s' : S) a :
  lift_result r s = (Ok a, s') -> r = Ok a /\ s' = s.
Proof. unfold lift_result. by intros [= -> <-]. Qed.

Lemma or_raise_inv {A} e (o : option A) a : or_raise e o = Ok a -> o = Some a.
Proof. destruct o; simpl; by intros [=]; subst. Qed.

Lemma sf_read_inv X p d data rate d' :
  sf_read X p d = (Ok (data, rate), d') ->
  d' = d /\ exists b, read_file p (tree d) = Some b /\ sf_decode X b = Some (data, rate).
Proof.
  unfold sf_read. rewrite bind_ask. destruct (read_file p (tree d)) as [b|]; [|done].
  intros [H ->]%lift_result_inv. apply or_raise_inv in H. split; [done|]. by exists b.
Qed.

Lemma change_inv e f d u d' :
  change e f d = (Ok u, d') -> f (tree d) = Some (tree d') /\ rand d' = rand d.
Proof. unfold change. destruct (f (tree d)) as [t'|]; [|done]. by intros [= _ <-]. Qed.

Lemma sf_write_inv X p data rate d u d' :
  sf_write X p data rate d = (Ok u, d') ->
  exists b, sf_encode X (name p) data rate = Some b
            /\ write_file p b (tree d) = Some (tree d') /\ rand d' = rand d.
Proof.
  unfold sf_write. destruct (sf_encode X (name p) data rate) as [b|]; [|done].
  intros [Hw Hr]%change_inv. by exists b.
Qed.

Lemma run_ffmpeg_one_inv X cmd src dst d u d' :
  cmd_inputs cmd = [src] -> cmd_output cmd = Some dst ->
  run_ffmpeg X cmd d = (Ok u, d') ->
  exists b out,
    read_file src (tree d) = Some b
    /\ ffmpeg X (cmd_options cmd) [b] = Some out
    /\ write_file dst out (tree d) = Some (tree d') /\ rand d' = rand d.
Proof.
  intros Hi Ho. unfold run_ffmpeg. rewrite bind_ask, Hi, Ho. simpl.
  destruct (read_file src (tree d)) as [b|]; [|done].
  destruct (ffmpeg X (cmd_options cmd) [b]) as [out|] eqn:Eff; [|done].
  intros [Hw Hr]%change_inv. by exists b, out.
Qed.

(** The steps between decoding and writing, common to both paths. *)
Lemma measure_inv X target denoise strength data rate
    (fin : ndarray -> float -> float -> M (option AudioNormalizationStats)) d stats d' :
  (dur <- lift_result (get_audio_duration rate (Z.of_nat (len data))) ;;
   if PrimFloat.ltb dur min_duration then ret None else
   let data := apply_denoise X denoise data rate strength in
   loudness <- lift_result (or_raise LibraryError (integrated_loudness X rate data)) ;;
   if is_unmeasurable loudness then ret None else
   let gain := PrimFloat.sub target loudness in
   normalized_audio <-
     lift_result (or_raise LibraryError (normalize_loudness X data loudness target)) ;;
   fin normalized_audio loudness dur) d = (Ok (Some stats), d') ->
  exists out L dur,
    get_audio_duration rate (Z.of_nat (len data)) = Ok dur
    /\ PrimFloat.ltb dur min_duration = false
    /\ integrated_loudness X rate (apply_denoise X denoise data rate strength) = Some L
    /\ is_unmeasurable L = false
    /\ normalize_loudness X (apply_denoise X denoise data rate strength) L target = Some out
    /\ fin out L dur d = (Ok (Some stats), d').
Proof.
  intros (dur & d1 & [Hdur ->]%lift_result_inv & H)%bind_Ok_inv.
  destruct (PrimFloat.ltb dur min_duration) eqn:Elt; [done|]. cbv zeta in H.
  apply bind_Ok_inv in H as (L & d1 & [HL ->]%lift_result_inv & H).
  apply or_raise_inv in HL.
  destruct (is_unmeasurable L) eqn:Eun; [done|].
  apply bind_Ok_inv in H as (out & d1 & [Hout ->]%lift_result_inv & H).
  apply or_raise_inv in Hout.
  by exists out, L, dur.
Qed.

Lemma native_record X p target denoise strength d stats d' :
  _normalize_native_format X p target denoise strength d = (Ok (Some stats), d') ->
  exists data rate out b b',
    is_normalized X target denoise strength data rate stats out
    /\ read_file p (tree d) = Some b
    /\ sf_decode X b = Some (data, rate)
    /\ sf_encode X (name p) out rate = Some b'
    /\ read_file p (tree d') = Some b'.
Proof.
  unfold _normalize_native_format, catch.
  match goal with |- context [bind ?m ?k d] => destruct (bind m k d) as [[o|e] d1] eqn:E end;
    [|done].
  intros [= -> ->].
  apply bind_Ok_inv in E as ([data rate] & d1 & [-> (b & Hb & Hdec)]%sf_read_inv & H).
  apply (measure_inv X target denoise strength data rate
           (fun normalized_audio loudness dur =>
              sf_write X p normalized_audio rate ;;;
              ret (Some {| filename := name p; original_lufs := loudness;
                           target_lufs := target;
                           gain_db := PrimFloat.sub target loudness;
                           duration := dur |}))) in H
    as (out & L & dur & Hdur & Hlt & HL & Hun & Hout & H).
  apply bind_Ok_inv in H as (u & d1 & (b' & Henc & Hw & _)%sf_write_inv & H).
  unfold ret in H. injection H as <- <-.
  exists data, rate, out, b, b'. split; [by repeat split|].
  split_and!; try done. by eapply write_file_read_same.
Qed.

Lemma bridged_record X p target fmt denoise strength d stats d' :
  is_file p (tree d) = true ->
  _normalize_compressed_format X p target fmt denoise strength d = (Ok (Some stats), d') ->
  exists data rate out tmp b0 w1 w2 b1,
    is_normalized X target denoise strength data rate stats out
    /\ (exists r, tmp = joinpath (gettempdir X) ("tmp" ++ r ++ ".wav"))
    /\ fs_lookup tmp (tree d) = None
    /\ read_file p (tree d) = Some b0
    /\ ffmpeg X (cmd_options (_convert_to_wav_cmd p tmp)) [b0] = Some w1
    /\ sf_decode X w1 = Some (data, rate)
    /\ sf_encode X (name tmp) out rate = Some w2
    /\ ffmpeg X (cmd_options (_convert_from_wav_cmd tmp p fmt)) [w2] = Some b1
    /\ read_file p (tree d') = Some b1
    /\ fs_lookup tmp (tree d') = None.
Proof.
  intros Hfile. unfold _normalize_compressed_format.
  destruct (NamedTemporaryFile_wav X d) as [[tmp|e] d1] eqn:Etmp; [|done].
  pose proof Etmp as (Hfresh & Hcreate & Hname)%mktemp_inv.
  assert (~ tmp `prefix_of` p) as Hout.
  { apply not_below_absent with (tree d); [done|]. by apply is_file_is_Some. }
  assert (p <> tmp) as Hne by (intros ->; by destruct Hout).
  unfold finally, catch.
  destruct (compressed_body X p tmp target fmt denoise strength d1) as [[o|e] d2] eqn:Eb.
  2:{ unfold ret. by destruct (remove_temp tmp d2) as [[u|e'] d3]. }
  destruct (remove_temp tmp d2) as [[u|e'] d3] eqn:Erm; [|done].
  intros [= -> ->].
  unfold compressed_body in Eb.
  apply bind_Ok_inv in Eb as (u1 & da & Hto & Eb).
  apply (run_ffmpeg_one_inv X _ p tmp) in Hto as (b0 & w1 & Hb0 & Hw1 & Hwa & _); [|done|done].
  apply bind_Ok_inv in Eb as ([data rate] & db & [-> (b & Hb & Hdec)]%sf_read_inv & Eb).
  rewrite (write_file_read_same _ _ _ _ Hwa) in Hb. injection Hb as <-.
  apply (measure_inv X target denoise strength data rate
           (fun normalized_audio loudness dur =>
              sf_write X tmp normalized_audio rate ;;;
              _convert_from_wav X tmp p fmt ;;;
              ret (Some {| filename := name p; original_lufs := loudness;
                           target_lufs := target;
                           gain_db := PrimFloat.sub target loudness;
                           duration := dur |}))) in Eb
    as (out & L & dur & Hdur & Hlt & HL & Hun & Hnorm & Eb).
  apply bind_Ok_inv in Eb as (u2 & dc & (w2 & Henc & Hwc & _)%sf_write_inv & Eb).
  apply bind_Ok_inv in Eb as (u3 & dd & Hfrom & Eb).
  destruct (convert_from_wav_cmd_io tmp p fmt) as [Hi Ho].
  apply (run_ffmpeg_one_inv X _ tmp p) in Hfrom as (w2' & b1 & Hw2 & Hb1 & Hwd & _);
    [|done|done].
  rewrite (write_file_read_same _ _ _ _ Hwc) in Hw2. injection Hw2 as <-.
  unfold ret in Eb. injection Eb as <- <-.
  exists data, rate, out, tmp, b0, w1, w2, b1. split; [by repeat split|].
  split; [done|]. split; [done|]. split.
  { rewrite <- Hb0. symmetry. by eapply write_file_read_other. }
  split; [done|]. split; [done|]. split; [done|]. split; [done|].
  (* the cleanup *)
  assert (read_file tmp (tree dd) = Some w2) as Htmp.
  { rewrite (write_file_read_other _ _ _ _ _ Hwd); [|done]. by eapply write_file_read_same. }
  unfold remove_temp in Erm. rewrite bind_ask in Erm.
  assert (path_exists tmp (tree dd) = true) as Hex.
  { unfold path_exists. apply read_file_lookup in Htmp. by rewrite Htmp. }
  rewrite Hex in Erm.
  apply change_inv in Erm as [Hun' _].
  destruct (unlink_kind _ _ _ p Hun') as [_ Hk]. rewrite decide_False in Hk by done.
  split.
  - rewrite (kind_at_read _ _ _ Hk). by eapply write_file_read_same.
  - apply alter_at_lookup_same in Hun'.
    apply read_file_lookup in Htmp. rewrite Htmp in Hun'. by injection Hun' as <-.
Qed.


(** * The claims *)

(** C1.  Whenever the decoded audio is not shorter than 0.4 s (the
    test [duration < 0.4] of the code is false) and the loudness [L]
    measured on it is neither [-inf] nor NaN, every statistics record
    that normalisation returns carries [gain_db = target - L], the plain
    float subtraction, whatever the target; and such a record is
    returned as soon as the remaining library calls succeed.  This holds
    on the native path and on the bridged path alike. *)
Theorem gain_is_target_minus_loudness :
  forall (X : Externals) (file_path : Path) (target : float)
         (denoise : bool) (strength : float) (d : Disk)
         (data : ndarray) (rate : Z) (dur L : float),
    get_audio_duration rate (Z.of_nat (len data)) = Ok dur ->
    PrimFloat.ltb dur min_duration = false ->
    integrated_loudness X rate (apply_denoise X denoise data rate strength) = Some L ->
    is_unmeasurable L = false ->
    (forall b,
        read_file file_path (tree d) = Some b ->
        sf_decode X b = Some (data, rate) ->
        (forall stats d',
            _normalize_native_format X file_path target denoise strength d
            = (Ok (Some stats), d') ->
            gain_db stats = PrimFloat.sub target L /\ original_lufs stats = L)
        /\ (forall out b',
               normalize_loudness X (apply_denoise X denoise data rate strength) L target
               = Some out ->
               sf_encode X (name file_path) out rate = Some b' ->
               exists stats d',
                 _normalize_native_format X file_path target denoise strength d
                 = (Ok (Some stats), d')
                 /\ gain_db stats = PrimFloat.sub target L))
    /\
    (forall fmt b0 tmp d1 w1,
        read_file file_path (tree d) = Some b0 ->
        NamedTemporaryFile_wav X d = (Ok tmp, d1) ->
        ffmpeg X (cmd_options (_convert_to_wav_cmd file_path tmp)) [b0] = Some w1 ->
        sf_decode X w1 = Some (data, rate) ->
        (forall stats d',
            _normalize_compressed_format X file_path target fmt denoise strength d
            = (Ok (Some stats), d') ->
            gain_db stats = PrimFloat.sub target L /\ original_lufs stats = L)
        /\ (forall out w2 b1,
               normalize_loudness X (apply_denoise X denoise data rate strength) L target
               = Some out ->
               sf_encode X (name tmp) out rate = Some w2 ->
               ffmpeg X (cmd_options (_convert_from_wav_cmd tmp file_path fmt)) [w2]
               = Some b1 ->
               exists stats d',
                 _normalize_compressed_format X file_path target fmt denoise strength d
                 = (Ok (Some stats), d')
                 /\ gain_db stats = PrimFloat.sub target L)).
Proof.
  intros X file_path target denoise strength d data rate dur L Hdur Hlt HL Hun. split.
  - intros b Hread Hdecode.
    pose proof (native_measured X file_path target denoise strength d b data rate dur
                  Hread Hdecode Hdur L Hlt HL Hun) as Hrun.
    split.
    + intros stats d' Hs. rewrite Hs in Hrun.
      destruct (normalize_loudness X _ L target) as [out|]; [|done].
      destruct (sf_encode X _ out rate) as [b'|]; [|done].
      destruct (write_file file_path b' (tree d)); [|done].
      by simplify_eq.
    + intros out b' Hn He. rewrite Hn, He in Hrun.
      destruct (write_file_over_file file_path b' _ _ Hread) as [t' Ht'].
      rewrite Ht' in Hrun. eauto.
  - intros fmt b0 tmp d1 w1 Hread Htemp Hto Hdecode.
    pose proof (bridged_measured X file_path target fmt denoise strength d d1 tmp b0 w1
                  data rate dur Hread Htemp Hto Hdecode Hdur L Hlt HL Hun) as Hrun.
    split.
    + intros stats d' Hs.
      destruct (normalize_loudness X _ L target) as [out|]; [|congruence].
      destruct (sf_encode X _ out rate) as [w2|]; [|congruence].
      destruct (ffmpeg X _ [w2]) as [b1|]; [|congruence].
      destruct Hrun as (t' & Hrun & _). rewrite Hs in Hrun. by simplify_eq.
    + intros out w2 b1 Hn He Hf. rewrite Hn, He, Hf in Hrun.
      destruct Hrun as (t' & Hrun & _). eauto.
Qed.

Lemma gain_is_target_minus_loudness_witness :
  (exists stats d',
      _normalize_native_format Demo.externals ["in"; "voice.wav"] (-16)%float
        false 0.5%float Demo.disk0 = (Ok (Some stats), d')
      /\ gain_db stats = 7%float)
  /\ (exists stats d',
         _normalize_compressed_format Demo.externals ["in"; "song.mp3"] (-16)%float
           "mp3" false 0.5%float Demo.disk0 = (Ok (Some stats), d')
         /\ gain_db stats = 7%float).
Proof.
  split.
  - destruct (gain_is_target_minus_loudness Demo.externals ["in"; "voice.wav"]
                (-16)%float false 0.5%float Demo.disk0
                (Arr1 float64 [1; 2; 3; 4]%float) 10%Z
                0x1.999999999999ap-2%float (-23)%float
                eq_refl eq_refl eq_refl eq_refl) as [Hnative _].
    destruct (Hnative [x01; x02; x03; x04] eq_refl eq_refl) as [_ Hreturns].
    exact (Hreturns (Arr1 float64 [1; 2; 3; 4]%float) [x2a; x2a; x2a; x2a] eq_refl eq_refl).
  - destruct (gain_is_target_minus_loudness Demo.externals ["in"; "song.mp3"]
                (-16)%float false 0.5%float Demo.disk0
                (Arr1 float64 [7; 7; 7; 7]%float) 10%Z
                0x1.999999999999ap-2%float (-23)%float
                eq_refl eq_refl eq_refl eq_refl) as [_ Hbridged].
    destruct (Hbridged "mp3" [x07; x07; x07; x07] ["tmp"; "tmpa.wav"]
                {| tree := match write_file ["tmp"; "tmpa.wav"] [] Demo.root with
                           | Some t => t | None => Demo.root end;
                   rand := ["b"; "c"; "d"; "e"; "f"] |}
                [x07; x07; x07; x07] eq_refl eq_refl eq_refl eq_refl) as [_ Hreturns].
    exact (Hreturns (Arr1 float64 [7; 7; 7; 7]%float) [x2a; x2a; x2a; x2a]
             [x2a; x2a; x2a; x2a] eq_refl eq_refl eq_refl).
Defined.

(** Every way through the native path: the tree changes only together
    with a returned record, and a returned record has passed both
    checks. *)
Lemma native_write_is_last X file_path target denoise strength d r d' :
  _normalize_native_format X file_path target denoise strength d = (r, d') ->
  (exists stats,
      r = Ok (Some stats)
      /\ PrimFloat.ltb (duration stats) min_duration = false
      /\ is_unmeasurable (original_lufs stats) = false)
  \/ (r = Ok None /\ d' = d).
Proof.
  unfold _normalize_native_format, sf_read, sf_write. unfold_st.
  destruct (read_file file_path (tree d)) as [b|]; simpl; [|intros; simplify_eq; auto].
  destruct (sf_decode X b) as [[data rate]|]; simpl; [|intros; simplify_eq; auto].
  destruct (get_audio_duration rate _) as [dur|]; simpl; [|intros; simplify_eq; auto].
  destruct (PrimFloat.ltb dur min_duration) eqn:Hlt; [intros; simplify_eq; auto|].
  destruct (integrated_loudness X rate _) as [L|]; simpl; [|intros; simplify_eq; auto].
  destruct (is_unmeasurable L) eqn:Hun; [intros; simplify_eq; auto|].
  destruct (normalize_loudness X _ L target) as [out|]; simpl; [|intros; simplify_eq; auto].
  destruct (sf_encode X _ out rate) as [b'|]; simpl; [|intros; simplify_eq; auto].
  destruct (write_file file_path b' (tree d)); simpl; intros; simplify_eq; [|auto].
  left. eexists. split; [done|]. auto.
Qed.

(** C3.  Audio whose decoded duration is below 0.4 s, and audio whose
    measured loudness is [-inf] or NaN, is skipped: normalisation returns
    [None] and the tree of files is exactly as before (on the bridged
    path the temporary file has come and gone).  On the native path the
    tree changes in no run at all unless a record is returned, and a
    returned record has passed both checks. *)
Theorem skip_leaves_file_untouched :
  forall (X : Externals) (file_path : Path) (target : float)
         (denoise : bool) (strength : float) (d : Disk)
         (data : ndarray) (rate : Z) (dur : float),
    get_audio_duration rate (Z.of_nat (len data)) = Ok dur ->
    (PrimFloat.ltb dur min_duration = true
     \/ (PrimFloat.ltb dur min_duration = false
         /\ exists L,
             integrated_loudness X rate (apply_denoise X denoise data rate strength)
             = Some L
             /\ (PrimFloat.eqb L neg_infinity = true \/ PrimFloat.is_nan L = true))) ->
    (forall b,
        read_file file_path (tree d) = Some b ->
        sf_decode X b = Some (data, rate) ->
        _normalize_native_format X file_path target denoise strength d = (Ok None, d))
    /\ (forall fmt b0 tmp d1 w1,
           read_file file_path (tree d) = Some b0 ->
           NamedTemporaryFile_wav X d = (Ok tmp, d1) ->
           ffmpeg X (cmd_options (_convert_to_wav_cmd file_path tmp)) [b0] = Some w1 ->
           sf_decode X w1 = Some (data, rate) ->
           exists d',
             _normalize_compressed_format X file_path target fmt denoise strength d
             = (Ok None, d')
             /\ tree d' = tree d)
    /\ (forall r d',
           _normalize_native_format X file_path target denoise strength d = (r, d') ->
           (exists stats,
               r = Ok (Some stats)
               /\ PrimFloat.ltb (duration stats) min_duration = false
               /\ is_unmeasurable (original_lufs stats) = false)
           \/ (r = Ok None /\ d' = d)).
Proof.
  intros X file_path target denoise strength d data rate dur Hdur Hskip.
  split_and!.
  - intros b Hread Hdecode. destruct Hskip as [Hlt|(Hlt & L & HL & Hun)].
    + by eapply native_skip_short.
    + eapply native_skip_unmeasurable; try done.
      unfold is_unmeasurable. destruct Hun as [-> | ->]; [done | apply orb_true_r].
  - intros fmt b0 tmp d1 w1 Hread Htemp Hto Hdecode.
    exists {| tree := tree d; rand := rand d1 |}. split; [|done].
    destruct Hskip as [Hlt|(Hlt & L & HL & Hun)].
    + by eapply bridged_skip_short.
    + eapply bridged_skip_unmeasurable; try done.
      unfold is_unmeasurable. destruct Hun as [-> | ->]; [done | apply orb_true_r].
  - intros r d'. apply native_write_is_last.
Qed.

Lemma skip_leaves_file_untouched_witness :
  _normalize_native_format Demo.externals ["in"; "blip.wav"] (-16)%float
    false 0.5%float Demo.disk0 = (Ok None, Demo.disk0)
  /\ (exists d',
         _normalize_compressed_format Demo.externals ["in"; "beep.m4a"] (-16)%float
           "m4a" false 0.5%float Demo.disk0 = (Ok None, d')
         /\ tree d' = tree Demo.disk0)
  /\ _normalize_native_format Demo.externals ["in"; "hush.wav"] (-16)%float
       false 0.5%float Demo.disk0 = (Ok None, Demo.disk0).
Proof.
  split_and!.
  - destruct (skip_leaves_file_untouched Demo.externals ["in"; "blip.wav"]
                (-16)%float false 0.5%float Demo.disk0
                (Arr1 float64 [9; 9]%float) 10%Z 0x1.999999999999ap-3%float
                eq_refl (or_introl eq_refl)) as (Hnative & _ & _).
    exact (Hnative [x09; x09] eq_refl eq_refl).
  - destruct (skip_leaves_file_untouched Demo.externals ["in"; "beep.m4a"]
                (-16)%float false 0.5%float Demo.disk0
                (Arr1 float64 [5; 5]%float) 10%Z 0x1.999999999999ap-3%float
                eq_refl (or_introl eq_refl)) as (_ & Hbridged & _).
    exact (Hbridged "m4a" [x05; x05] ["tmp"; "tmpa.wav"]
             {| tree := match write_file ["tmp"; "tmpa.wav"] [] Demo.root with
                        | Some t => t | None => Demo.root end;
                rand := ["b"; "c"; "d"; "e"; "f"] |}
             [x05; x05] eq_refl eq_refl eq_refl eq_refl).
  - destruct (skip_leaves_file_untouched Demo.externals ["in"; "hush.wav"]
                (-16)%float false 0.5%float Demo.disk0
                (Arr1 float64 [0; 0; 0; 0]%float) 10%Z 0x1.999999999999ap-2%float
                eq_refl
                (or_intror (conj eq_refl
                   (ex_intro _ neg_infinity (conj eq_refl (or_introl eq_refl))))))
      as (Hnative & _ & _).
    exact (Hnative [x00; x00; x00; x00] eq_refl eq_refl).
Defined.

(** C5.  When the denoising step raises, the samples stay the decoded
    ones: the run with [denoise = true] is the run with
    [denoise = false], on both paths, so that the asset is measured,
    gain-adjusted and written from the original samples whenever the
    run without denoising writes it. *)
Theorem denoise_failure_falls_back :
  forall (X : Externals) (file_path : Path) (target : float) (strength : float)
         (d : Disk) (data : ndarray) (rate : Z) (e : exn),
    denoise_audio X data rate strength = Raise e ->
    apply_denoise X true data rate strength = data
    /\ (forall b,
           read_file file_path (tree d) = Some b ->
           sf_decode X b = Some (data, rate) ->
           _normalize_native_format X file_path target true strength d
           = _normalize_native_format X file_path target false strength d
           /\ forall dur L out b',
               get_audio_duration rate (Z.of_nat (len data)) = Ok dur ->
               PrimFloat.ltb dur min_duration = false ->
               integrated_loudness X rate data = Some L ->
               is_unmeasurable L = false ->
               normalize_loudness X data L target = Some out ->
               sf_encode X (name file_path) out rate = Some b' ->
               exists stats d',
                 _normalize_native_format X file_path target true strength d
                 = (Ok (Some stats), d')
                 /\ original_lufs stats = L
                 /\ gain_db stats = PrimFloat.sub target L
                 /\ read_file file_path (tree d') = Some b')
    /\ (forall fmt b0 tmp d1 w1,
           read_file file_path (tree d) = Some b0 ->
           NamedTemporaryFile_wav X d = (Ok tmp, d1) ->
           ffmpeg X (cmd_options (_convert_to_wav_cmd file_path tmp)) [b0] = Some w1 ->
           sf_decode X w1 = Some (data, rate) ->
           _normalize_compressed_format X file_path target fmt true strength d
           = _normalize_compressed_format X file_path target fmt false strength d
           /\ forall dur L out w2 b1,
               get_audio_duration rate (Z.of_nat (len data)) = Ok dur ->
               PrimFloat.ltb dur min_duration = false ->
               integrated_loudness X rate data = Some L ->
               is_unmeasurable L = false ->
               normalize_loudness X data L target = Some out ->
               sf_encode X (name tmp) out rate = Some w2 ->
               ffmpeg X (cmd_options (_convert_from_wav_cmd tmp file_path fmt)) [w2]
               = Some b1 ->
               exists stats d',
                 _normalize_compressed_format X file_path target fmt true strength d
                 = (Ok (Some stats), d')
                 /\ original_lufs stats = L
                 /\ gain_db stats = PrimFloat.sub target L
                 /\ read_file file_path (tree d') = Some b1).
Proof.
  intros X file_path target strength d data rate e Hfail.
  assert (apply_denoise X true data rate strength = data) as Hsame.
  { unfold apply_denoise. by rewrite Hfail. }
  split_and!; [done | |].
  - intros b Hread Hdecode. split.
    + unfold _normalize_native_format, sf_read. unfold_st. rewrite Hread.
      cbv beta iota. rewrite Hdecode. cbn [or_raise]. cbv beta iota.
      by rewrite Hsame.
    + intros dur L out b' Hdur Hlt HL Hun Hn He.
      pose proof (native_measured X file_path target true strength d b data rate dur
                    Hread Hdecode Hdur L Hlt) as Hrun.
      rewrite Hsame in Hrun. specialize (Hrun HL Hun). rewrite Hn, He in Hrun.
      destruct (write_file_over_file file_path b' _ _ Hread) as [t' Ht'].
      rewrite Ht' in Hrun. do 2 eexists. split; [exact Hrun|].
      split_and!; [done | done |]. by eapply write_file_read_same.
  - intros fmt b0 tmp d1 w1 Hread Htemp Hto Hdecode. split.
    + unfold _normalize_compressed_format. rewrite Htemp. cbv beta iota.
      destruct (bridged_decoded X file_path target fmt true strength d d1 tmp b0 w1
                  data rate Hread Htemp Hto Hdecode) as (t2 & Hw & Ht).
      destruct (bridged_decoded X file_path target fmt false strength d d1 tmp b0 w1
                  data rate Hread Htemp Hto Hdecode) as (t2' & Hw' & Hf).
      unfold finally, catch. rewrite Ht, Hf, Hsame.
      assert (t2 = t2') as -> by congruence. done.
    + intros dur L out w2 b1 Hdur Hlt HL Hun Hn He Hf.
      pose proof (bridged_measured X file_path target fmt true strength d d1 tmp b0 w1
                    data rate dur Hread Htemp Hto Hdecode Hdur L Hlt) as Hrun.
      rewrite Hsame in Hrun. specialize (Hrun HL Hun). rewrite Hn, He, Hf in Hrun.
      destruct Hrun as (t' & Hrun & Hr & _). do 2 eexists. split; [exact Hrun|]. done.
Qed.

Lemma denoise_failure_falls_back_witness :
  (exists stats d',
      _normalize_native_format Demo.externals_broken_denoise ["in"; "voice.wav"]
        (-16)%float true 0.5%float Demo.disk0 = (Ok (Some stats), d')
      /\ original_lufs stats = (-23)%float
      /\ gain_db stats = 7%float
      /\ read_file ["in"; "voice.wav"] (tree d') = Some [x2a; x2a; x2a; x2a])
  /\ (exists stats d',
         _normalize_compressed_format Demo.externals_broken_denoise ["in"; "song.mp3"]
           (-16)%float "mp3" true 0.5%float Demo.disk0 = (Ok (Some stats), d')
         /\ original_lufs stats = (-23)%float
         /\ gain_db stats = 7%float
         /\ read_file ["in"; "song.mp3"] (tree d') = Some [x2a; x2a; x2a; x2a]).
Proof.
  split.
  - destruct (denoise_failure_falls_back Demo.externals_broken_denoise
                ["in"; "voice.wav"] (-16)%float 0.5%float Demo.disk0
                (Arr1 float64 [1; 2; 3; 4]%float) 10%Z LibraryError eq_refl)
      as (_ & Hnative & _).
    destruct (Hnative [x01; x02; x03; x04] eq_refl eq_refl) as [_ Hwritten].
    exact (Hwritten 0x1.999999999999ap-2%float (-23)%float
             (Arr1 float64 [1; 2; 3; 4]%float) [x2a; x2a; x2a; x2a]
             eq_refl eq_refl eq_refl eq_refl eq_refl eq_refl).
  - destruct (denoise_failure_falls_back Demo.externals_broken_denoise
                ["in"; "song.mp3"] (-16)%float 0.5%float Demo.disk0
                (Arr1 float64 [7; 7; 7; 7]%float) 10%Z LibraryError eq_refl)
      as (_ & _ & Hbridged).
    destruct (Hbridged "mp3" [x07; x07; x07; x07] ["tmp"; "tmpa.wav"]
                {| tree := match write_file ["tmp"; "tmpa.wav"] [] Demo.root with
                           | Some t => t | None => Demo.root end;
                   rand := ["b"; "c"; "d"; "e"; "f"] |}
                [x07; x07; x07; x07] eq_refl eq_refl eq_refl eq_refl) as [_ Hwritten].
    exact (Hwritten 0x1.999999999999ap-2%float (-23)%float
             (Arr1 float64 [7; 7; 7; 7]%float) [x2a; x2a; x2a; x2a] [x2a; x2a; x2a; x2a]
             eq_refl eq_refl eq_refl eq_refl eq_refl eq_refl eq_refl).
Defined.

Lemma shape_len_channels a b :
  shape a = shape b -> len a = len b /\ channels a = channels b.
Proof. destruct a, b; simpl; intros H; by simplify_eq. Qed.

Lemma column_astype cast dt a ch :
  wf_ndarray a -> ch < channels a ->
  values (column (astype cast dt a) ch) = map (cast dt) (values (column a ch)).
Proof.
  destruct a as [d v|d c rows]; simpl; intros Hwf Hch; [done|].
  rewrite !map_map. apply map_ext_Forall.
  eapply Forall_impl; [exact Hwf|]. simpl. intros r Hr.
  rewrite <- (map_nth (cast dt)). apply nth_indep. rewrite length_map. lia.
Qed.

(** C8.  For a well-formed array and a noise reduction that keeps the
    shape of what it is given, whatever [denoise_audio] returns has the
    shape of the input: as many frames and as many channels.  With more
    than one channel, channel [ch] of the result is the reduction of
    channel [ch] of the input alone (after the conversion to float32 and
    back, when the input is not float32).  It does return when the
    library is installed and the reduction does not raise.  The
    strength is arbitrary. *)
Theorem denoise_preserves_shape :
  forall (X : Externals) (data : ndarray) (rate : Z) (strength : float),
    wf_ndarray data ->
    (forall y sr s y', reduce_noise X y sr s = Some y' -> shape y' = shape y) ->
    let converted := negb (dtype_eqb (dtype_of data) float32) in
    let data_float := if converted then astype (cast X) float32 data else data in
    let restore := fun x => if converted then cast X (dtype_of data) x else x in
    (forall out,
        denoise_audio X data rate strength = Ok out ->
        shape out = shape data
        /\ len out = len data
        /\ channels out = channels data
        /\ (1 < channels data ->
            forall ch, ch < channels data ->
              exists y',
                reduce_noise X (column data_float ch) rate strength = Some y'
                /\ values (column out ch) = map restore (values y')))
    /\ (noisereduce_installed X = true ->
        (forall y sr s, is_Some (reduce_noise X y sr s)) ->
        exists out, denoise_audio X data rate strength = Ok out).
Proof.
  intros X data rate strength Hwf Hshape converted data_float restore.
  assert (shape data_float = shape data) as Hsf.
  { unfold data_float. destruct converted; [apply shape_astype | done]. }
  assert (forall y, shape (if converted then astype (cast X) (dtype_of data) y else y)
                    = shape y) as Hback.
  { intros y. destruct converted; [apply shape_astype | done]. }
  (* the flat case, shared by flat arrays and arrays one channel wide *)
  assert (forall out,
             match or_raise LibraryError (reduce_noise X data_float rate strength) with
             | Ok y =>
                 if converted then Ok (astype (cast X) (dtype_of data) y) else Ok y
             | Raise e => Raise e
             end = Ok out -> shape out = shape data) as Hflat.
  { intros out H. destruct (reduce_noise X data_float rate strength) as [y|] eqn:Ey; [|done].
    simpl in H. rewrite <- Hsf, <- (Hshape _ _ _ _ Ey), <- (Hback y).
    destruct converted; by simplify_eq. }
  (* the result of stacking the reduced channels *)
  assert (forall c rows ds,
             data = Arr2 (dtype_of data) c rows -> 1 < c ->
             denoise_channels X data_float rate strength (seq 0 c) = Ok ds ->
             exists dt rows',
               column_stack ds = Ok (Arr2 dt c rows')
               /\ length rows' = length rows
               /\ Forall (fun r => length r = c) rows'
               /\ forall ch, ch < c ->
                    exists y', reduce_noise X (column data_float ch) rate strength = Some y'
                               /\ map (fun r => nth ch r 0%float) rows' = values y')
    as Hstack.
  { intros c rows ds Hd Hc Hds.
    apply denoise_channels_inv in Hds as [Hlen Hall]. rewrite length_seq in Hlen.
    assert (forall j y, ds !! j = Some y ->
              reduce_noise X (column data_float j) rate strength = Some y) as Hj.
    { intros j y Hy. assert (j < c) as Hjc by (apply lookup_lt_Some in Hy; lia).
      destruct (Hall j j) as (y' & Hy' & Hd'); [by apply lookup_seq_lt|]. congruence. }
    destruct (column_stack_columns ds (length rows)) as (dt & rows' & Hst & Hl & Hw & Hcol).
    - intros ->. simpl in Hlen. lia.
    - apply Forall_lookup. intros j y Hy. apply shape_Arr1_inv.
      rewrite (Hshape _ _ _ _ (Hj _ _ Hy)).
      unfold data_float. rewrite Hd. destruct converted; simpl; by rewrite ?length_map.
    - rewrite Hlen in Hst, Hw. exists dt, rows'. split_and!; try done.
      intros ch Hch. destruct (Hall ch ch) as (y' & Hy' & Hd'); [by apply lookup_seq_lt|].
      exists y'. split; [done|]. by apply Hcol. }
  split.
  - intros out Hout.
    assert (shape out = shape data
            /\ (1 < channels data ->
                forall ch, ch < channels data ->
                  exists y',
                    reduce_noise X (column data_float ch) rate strength = Some y'
                    /\ values (column out ch) = map restore (values y'))) as [Hs Hch].
    { unfold denoise_audio in Hout.
      destruct (noisereduce_installed X); [|done]. cbn [negb] in Hout.
      fold converted in Hout. fold data_float in Hout.
      destruct data as [dt v|dt c rows] eqn:Hd.
      - cbn [shape length nth] in Hout. change (1 <? 1)%nat with false in Hout.
        cbn [andb] in Hout. split; [by apply Hflat | simpl; lia].
      - cbn [shape length nth] in Hout.
        change (1 <? 2)%nat with true in Hout. cbn [andb] in Hout.
        destruct (1 <? c)%nat eqn:Hc; [|split; [by apply Hflat | simpl; apply Nat.ltb_ge in Hc; lia]].
        apply Nat.ltb_lt in Hc.
        destruct (denoise_channels X data_float rate strength (seq 0 c)) as [ds|] eqn:Hds;
          [|done].
        destruct (Hstack c rows ds eq_refl Hc Hds) as (dt' & rows' & Hst & Hl & Hw & Hcol).
        rewrite Hst in Hout. split.
        + destruct converted; simplify_eq; simpl; rewrite ?length_map; congruence.
        + intros _ ch Hlt. simpl in Hlt. destruct (Hcol ch Hlt) as (y' & Hy' & Hv).
          exists y'. split; [done|]. rewrite <- Hv. unfold restore.
          destruct converted; cbv beta iota in Hout; injection Hout as <-.
          * exact (column_astype (cast X) dt (Arr2 dt' c rows') ch Hw Hlt).
          * simpl. by rewrite map_id. }
    destruct (shape_len_channels _ _ Hs) as [? ?]. done.
  - intros Hinst Htot. unfold denoise_audio. rewrite Hinst. cbn [negb].
    fold converted. fold data_float.
    destruct (1 <? length (shape data))%nat eqn:E1; cbn [andb];
      [destruct (1 <? nth 1 (shape data) 0%nat)%nat eqn:E2|].
    + destruct data as [dt v|dt c rows] eqn:Hd; [done|]. cbn [shape nth] in E2 |- *.
      apply Nat.ltb_lt in E2.
      destruct (denoise_channels_total X data_float rate strength (seq 0 c) Htot)
        as [ds Hds].
      rewrite Hds.
      destruct (Hstack c rows ds eq_refl E2 Hds) as (dt' & rows' & -> & _).
      destruct converted; eauto.
    + destruct (Htot data_float rate strength) as [y ->]. simpl. destruct converted; eauto.
    + destruct (Htot data_float rate strength) as [y ->]. simpl. destruct converted; eauto.
Qed.

Lemma denoise_preserves_shape_witness :
  exists out,
    denoise_audio Demo.externals
      (Arr2 float64 2 [[1; 2]; [3; 4]; [5; 6]]%float) 10%Z 0.5%float = Ok out
    /\ shape out = [3; 2]%nat
    /\ values (column out 1) = [2; 4; 6]%float.
Proof.
  assert (wf_ndarray (Arr2 float64 2 [[1; 2]; [3; 4]; [5; 6]]%float)) as Hwf.
  { simpl. repeat constructor. }
  assert (forall y (sr : Z) (s : float) y',
             reduce_noise Demo.externals y sr s = Some y' -> shape y' = shape y) as Hkeeps.
  { intros y sr s y' H. simpl in H. injection H as <-. reflexivity. }
  destruct (denoise_preserves_shape Demo.externals
              (Arr2 float64 2 [[1; 2]; [3; 4]; [5; 6]]%float) 10%Z 0.5%float Hwf Hkeeps)
    as [Hshape Hreturns].
  destruct (Hreturns eq_refl (fun y _ _ => ex_intro _ y eq_refl)) as [out Hout].
  exists out. destruct (Hshape out Hout) as (Hs & _ & _ & Hch).
  split; [exact Hout|]. split; [exact Hs|].
  destruct (Hch ltac:(simpl; lia) 1%nat ltac:(simpl; lia)) as (y' & Hy & Hv).
  simpl in Hy. injection Hy as <-. exact Hv.
Defined.

(** C6.  [normalize_audio_file] dispatches on the lowercased extension
    of the file name: wav, flac and ogg go to the native path; mp3, m4a,
    wma and aac to the bridged path, which has ffmpeg write a temporary
    [.wav] file with [-acodec pcm_s16le -ar 48000 -ac 2], works on that
    file, and has ffmpeg encode it back with the arguments that
    [codec_map] lists for the format; a format that [codec_map] does not
    list gets [-acodec copy]; every other extension returns [None] and
    leaves the disk as it is.  Both paths are followed to their end: on
    the native path the file is decoded by the sound-file library,
    normalised and written back by it under its own name, without
    ffmpeg; on the bridged path it goes through both conversions. *)
Theorem dispatch_by_extension :
  forall (X : Externals) (file_path : Path) (target : float)
         (denoise : bool) (strength : float),
    let fmt := file_format_of file_path in
    (fmt ∈ ["wav"; "flac"; "ogg"] ->
     normalize_audio_file X file_path target denoise strength
     = _normalize_native_format X file_path target denoise strength)
    /\ (fmt ∈ ["mp3"; "m4a"; "wma"; "aac"] ->
        normalize_audio_file X file_path target denoise strength
        = _normalize_compressed_format X file_path target fmt denoise strength)
    /\ (fmt ∉ ["wav"; "flac"; "ogg"; "mp3"; "m4a"; "wma"; "aac"] ->
        forall d,
          normalize_audio_file X file_path target denoise strength d = (Ok None, d))
    /\ (forall dir stem ext,
           file_path = joinpath dir (stem ++ String "." ext)%string ->
           stem <> "" -> ext <> "" -> has_dot ext = false ->
           fmt = lower ext)
    /\ (forall tmp,
           cmd_options (_convert_to_wav_cmd file_path tmp)
           = ["ffmpeg"; "-i"; "-y"; "-acodec"; "pcm_s16le"; "-ar"; "48000";
              "-ac"; "2"; "-loglevel"; "error"]
           /\ cmd_inputs (_convert_to_wav_cmd file_path tmp) = [file_path]
           /\ cmd_output (_convert_to_wav_cmd file_path tmp) = Some tmp)
    /\ (forall d tmp d1,
           NamedTemporaryFile_wav X d = (Ok tmp, d1) ->
           exists r, name tmp = ("tmp" ++ r ++ ".wav")%string)
    /\ (forall tmp target_format,
           cmd_options (_convert_from_wav_cmd tmp file_path target_format)
           = ["ffmpeg"; "-i"; "-y"] ++ codec_args target_format ++ ["-loglevel"; "error"]
           /\ cmd_inputs (_convert_from_wav_cmd tmp file_path target_format) = [tmp]
           /\ cmd_output (_convert_from_wav_cmd tmp file_path target_format)
              = Some file_path)
    /\ (codec_args "mp3" = ["-acodec"; "libmp3lame"; "-b:a"; "192k"]
        /\ codec_args "m4a" = ["-acodec"; "aac"; "-b:a"; "192k"]
        /\ codec_args "wma" = ["-acodec"; "wmav2"; "-b:a"; "192k"]
        /\ codec_args "aac" = ["-acodec"; "aac"; "-b:a"; "192k"])
    /\ (forall target_format,
           target_format ∉ ["mp3"; "m4a"; "wma"; "aac"] ->
           codec_args target_format = ["-acodec"; "copy"])
    /\ (forall d b0 tmp d1 w1 data rate dur L out w2 b1,
           read_file file_path (tree d) = Some b0 ->
           NamedTemporaryFile_wav X d = (Ok tmp, d1) ->
           ffmpeg X ["ffmpeg"; "-i"; "-y"; "-acodec"; "pcm_s16le"; "-ar"; "48000";
                     "-ac"; "2"; "-loglevel"; "error"] [b0] = Some w1 ->
           sf_decode X w1 = Some (data, rate) ->
           get_audio_duration rate (Z.of_nat (len data)) = Ok dur ->
           PrimFloat.ltb dur min_duration = false ->
           integrated_loudness X rate (apply_denoise X denoise data rate strength)
           = Some L ->
           is_unmeasurable L = false ->
           normalize_loudness X (apply_denoise X denoise data rate strength) L target
           = Some out ->
           sf_encode X (name tmp) out rate = Some w2 ->
           ffmpeg X (["ffmpeg"; "-i"; "-y"] ++ codec_args fmt ++ ["-loglevel"; "error"])
             [w2] = Some b1 ->
           exists stats d',
             _normalize_compressed_format X file_path target fmt denoise strength d
             = (Ok (Some stats), d')
             /\ read_file file_path (tree d') = Some b1
             /\ forall q, q <> file_path ->
                          read_file q (tree d') = read_file q (tree d))
    /\ (forall d b data rate dur L out b',
           read_file file_path (tree d) = Some b ->
           sf_decode X b = Some (data, rate) ->
           get_audio_duration rate (Z.of_nat (len data)) = Ok dur ->
           PrimFloat.ltb dur min_duration = false ->
           integrated_loudness X rate (apply_denoise X denoise data rate strength)
           = Some L ->
           is_unmeasurable L = false ->
           normalize_loudness X (apply_denoise X denoise data rate strength) L target
           = Some out ->
           sf_encode X (name file_path) out rate = Some b' ->
           exists stats d',
             _normalize_native_format X file_path target denoise strength d
             = (Ok (Some stats), d')
             /\ read_file file_path (tree d') = Some b'
             /\ forall q, q <> file_path ->
                          read_file q (tree d') = read_file q (tree d)).
Proof.
  intros X file_path target denoise strength fmt.
  split_and!.
  - intros H%str_in_spec. unfold normalize_audio_file. fold fmt. by rewrite H.
  - intros H. unfold normalize_audio_file. fold fmt.
    assert (str_in fmt ["wav"; "flac"; "ogg"] = false) as ->.
    { rewrite !elem_of_cons in H.
      destruct H as [-> | [-> | [-> | [-> | H]]]]; try done. by apply elem_of_nil in H. }
    apply str_in_spec in H. by rewrite H.
  - intros H d. unfold normalize_audio_file. fold fmt.
    rewrite !not_elem_of_cons in H. destruct H as (? & ? & ? & ? & ? & ? & ? & _).
    assert (str_in fmt ["wav"; "flac"; "ogg"] = false) as ->.
    { apply str_in_false. rewrite !not_elem_of_cons. split_and!; try done.
      apply not_elem_of_nil. }
    assert (str_in fmt ["mp3"; "m4a"; "wma"; "aac"] = false) as ->.
    { apply str_in_false. rewrite !not_elem_of_cons. split_and!; try done.
      apply not_elem_of_nil. }
    done.
  - intros dir stem ext -> Hstem Hext Hdot. by apply file_format_stem_ext.
  - intros tmp. by split_and!.
  - intros d tmp d1 (_ & _ & r & ->)%mktemp_inv. exists r. apply name_joinpath.
  - intros tmp target_format. split; [apply cmd_options_from_wav|].
    apply convert_from_wav_cmd_io.
  - by vm_compute.
  - by vm_compute.
  - by vm_compute.
  - by vm_compute.
  - apply codec_args_default.
  - intros d b0 tmp d1 w1 data rate dur L out w2 b1
           Hread Htemp Hto Hdecode Hdur Hlt HL Hun Hn He Hf.
    pose proof (bridged_measured X file_path target fmt denoise strength d d1 tmp b0 w1
                  data rate dur Hread Htemp Hto Hdecode Hdur L Hlt HL Hun) as Hrun.
    rewrite Hn, He, cmd_options_from_wav, Hf in Hrun.
    destruct Hrun as (t' & Hrun & Hr & Ho). eauto.
  - intros d b data rate dur L out b' Hread Hdecode Hdur Hlt HL Hun Hn He.
    pose proof (native_measured X file_path target denoise strength d b data rate dur
                  Hread Hdecode Hdur L Hlt HL Hun) as Hrun.
    rewrite Hn, He in Hrun.
    destruct (write_file_over_file file_path b' _ _ Hread) as [t' Ht'].
    rewrite Ht' in Hrun.
    eexists _, {| tree := t'; rand := rand d |}. split; [exact Hrun|]. cbn [tree]. split.
    + by eapply write_file_read_same.
    + intros q Hq. by eapply write_file_read_other.
Qed.

Lemma dispatch_by_extension_witness :
  (exists stats d',
      normalize_audio_file Demo.externals ["in"; "Talk.WAV"] (-16)%float false 0.5%float
        Demo.capitals = (Ok (Some stats), d')
      /\ read_file ["in"; "Talk.WAV"] (tree d') = Some [x2a; x2a; x2a; x2a])
  /\ (forall d,
         normalize_audio_file Demo.externals ["in"; "notes.txt"] (-16)%float false
           0.5%float d = (Ok None, d))
  /\ (normalize_audio_file Demo.externals ["in"; "song.mp3"] (-16)%float false 0.5%float
      = _normalize_compressed_format Demo.externals ["in"; "song.mp3"] (-16)%float
          "mp3" false 0.5%float)
  /\ file_format_of ["in"; "Talk.WAV"] = "wav"
  /\ codec_args "opus" = ["-acodec"; "copy"]
  /\ (exists stats d',
         _normalize_compressed_format Demo.externals ["in"; "song.mp3"] (-16)%float
           "mp3" false 0.5%float Demo.disk0 = (Ok (Some stats), d')
         /\ read_file ["in"; "song.mp3"] (tree d') = Some [x2a; x2a; x2a; x2a]).
Proof.
  split_and!.
  - destruct (dispatch_by_extension Demo.externals ["in"; "Talk.WAV"] (-16)%float
                false 0.5%float)
      as (Hnative & _ & _ & _ & _ & _ & _ & _ & _ & _ & Hrun).
    rewrite Hnative; [|apply (bool_decide_unpack _); by vm_compute].
    destruct (Hrun Demo.capitals [x01; x02; x03; x04]
                (Arr1 float64 [1; 2; 3; 4]%float) 10%Z
                0x1.999999999999ap-2%float (-23)%float
                (Arr1 float64 [1; 2; 3; 4]%float) [x2a; x2a; x2a; x2a]
                eq_refl eq_refl eq_refl eq_refl eq_refl eq_refl eq_refl eq_refl)
      as (stats & d' & Hr & Hc & _).
    exists stats, d'. by split.
  - destruct (dispatch_by_extension Demo.externals ["in"; "notes.txt"] (-16)%float
                false 0.5%float) as (_ & _ & Hother & _).
    apply Hother. apply (bool_decide_unpack _). by vm_compute.
  - destruct (dispatch_by_extension Demo.externals ["in"; "song.mp3"] (-16)%float
                false 0.5%float) as (_ & Hbridged & _).
    apply Hbridged. apply (bool_decide_unpack _). by vm_compute.
  - destruct (dispatch_by_extension Demo.externals ["in"; "Talk.WAV"] (-16)%float
                false 0.5%float) as (_ & _ & _ & Hext & _).
    apply (Hext ["in"] "Talk" "WAV"); [reflexivity | discriminate | discriminate | reflexivity].
  - destruct (dispatch_by_extension Demo.externals ["in"; "song.mp3"] (-16)%float
                false 0.5%float) as (_ & _ & _ & _ & _ & _ & _ & _ & Hcopy & _).
    apply Hcopy. apply (bool_decide_unpack _). by vm_compute.
  - destruct (dispatch_by_extension Demo.externals ["in"; "song.mp3"] (-16)%float
                false 0.5%float) as (_ & _ & _ & _ & _ & _ & _ & _ & _ & Hrun & _).
    destruct (Hrun Demo.disk0 [x07; x07; x07; x07] ["tmp"; "tmpa.wav"]
                {| tree := match write_file ["tmp"; "tmpa.wav"] [] Demo.root with
                           | Some t => t | None => Demo.root end;
                   rand := ["b"; "c"; "d"; "e"; "f"] |}
                [x07; x07; x07; x07] (Arr1 float64 [7; 7; 7; 7]%float) 10%Z
                0x1.999999999999ap-2%float (-23)%float
                (Arr1 float64 [7; 7; 7; 7]%float) [x2a; x2a; x2a; x2a]
                [x2a; x2a; x2a; x2a]
                eq_refl eq_refl eq_refl eq_refl eq_refl eq_refl eq_refl eq_refl
                eq_refl eq_refl eq_refl) as (stats & d' & Hr & Hc & _).
    exists stats, d'. by split.
Defined.




(** C4, as the code has it.  A presentation job whose validation,
    extraction and repack succeed returns [0], whatever the audio
    normalisation returned: [stats] may be shorter than [audio_files],
    or empty.  A video job, by the explicit test [if not stats: return 1],
    returns [1] as soon as normalisation returns no record, be it a skip
    or a failure, and does not remux: every path of the disk, the
    output path included, holds what it held before the job. *)
Theorem skip_is_no_error_for_containers :
  forall (X : Externals) (input_path output_path : Path) (target : float)
         (force denoise : bool) (strength : float)
         (w w1 : World) (temp_dir : Path) (d1 d2 d3 : Disk),
    may_write output_path force w = (Ok true, w1) ->
    mkdtemp X "pptx_normalizer_" (disk w1) = (Ok temp_dir, d1) ->
    (forall extract_path audio_files stats d4,
        validate_pptx_file X input_path (tree (disk w)) = true ->
        extract_pptx X input_path temp_dir d1 = (Ok (extract_path, audio_files), d2) ->
        audio_files <> [] ->
        normalize_audio_files X audio_files target denoise strength d2 = (Ok stats, d3) ->
        reconstruct_pptx X extract_path output_path d3 = (Ok tt, d4) ->
        exists w',
          Cli.process_single_pptx X input_path output_path target force denoise strength w
          = (Ok 0%Z, w'))
    /\ (validate_video_file X input_path (tree (disk w)) = true ->
        extract_audio_from_video X input_path (joinpath temp_dir "extracted_audio.wav") d1
        = (Ok tt, d2) ->
        normalize_audio_file X (joinpath temp_dir "extracted_audio.wav") target denoise
          strength d2 = (Ok None, d3) ->
        exists w',
          VideoCli.process_single_video X input_path output_path target force denoise
            strength w = (Ok 1%Z, w')
          /\ forall q, kind_at q (tree (disk w')) = kind_at q (tree (disk w))).
Proof.
  intros X input_path output_path target force denoise strength w w1 temp_dir d1 d2 d3
         Hgo Hmk.
  destruct (mkdtemp_is_dir _ _ _ _ _ Hmk) as (Hdir1 & _ & _).
  split.
  - intros extract_path audio_files stats d4 Hvalid Hex Hne Hnorm Hrec.
    assert (is_dir temp_dir (tree d4) = true) as Hdir4.
    { eapply reconstruct_pptx_keeps; [exact Hrec|].
      eapply normalize_audio_files_keeps; [exact Hnorm|].
      eapply extract_pptx_keeps; [exact Hex|]. done. }
    destruct (with_TempDirectory_run X
                (fun temp_dir =>
                   ea <- extract_pptx X input_path temp_dir ;;
                   let '(extract_path, audio_files) := ea in
                   match audio_files with
                   | [] => copy2 input_path output_path ;;; ret 0%Z
                   | _ :: _ =>
                       stats <- normalize_audio_files X audio_files target denoise
                                  strength ;;
                       reconstruct_pptx X extract_path output_path ;;; ret 0%Z
                   end)
                (disk w1) temp_dir d1 (Ok 0%Z) d4 Hmk) as (t5 & _ & Hrun); [|done|].
    { rewrite (bind_run _ _ _ _ _ Hex). destruct audio_files as [|a rest]; [done|].
      rewrite (bind_run _ _ _ _ _ Hnorm). by rewrite (bind_run _ _ _ _ _ Hrec). }
    eexists. unfold Cli.process_single_pptx.
    unfold bind at 1. unfold on_disk at 1. unfold ask at 1. rewrite Hvalid.
    cbn [negb]. cbv beta iota.
    assert ({| disk := disk w; stdin := stdin w |} = w) as -> by (by destruct w).
    rewrite (bind_run _ _ _ _ _ Hgo). cbn [negb].
    apply on_disk_run. unfold Cli.tune_container, catch. by rewrite Hrun.
  - intros Hvalid Hex Hnorm.
    pose proof (may_write_disk _ _ _ _ _ Hgo) as Hdisk.
    destruct (mkdtemp_is_dir _ _ _ _ _ Hmk) as (_ & Htemp & Hfresh).
    pose proof Hmk as (_ & Hmkdir & _)%mktemp_inv.
    set (temp_audio := joinpath temp_dir "extracted_audio.wav") in *.
    assert (is_dir temp_dir (tree d3) = true) as Hdir3.
    { eapply normalize_audio_file_keeps; [exact Hnorm|].
      eapply extract_audio_keeps; [exact Hex|]. done. }
    destruct (with_TempDirectory_run X
                (fun temp_dir =>
                   let temp_audio := joinpath temp_dir "extracted_audio.wav" in
                   extract_audio_from_video X input_path temp_audio ;;;
                   stats <- normalize_audio_file X temp_audio target denoise strength ;;
                   match stats with
                   | None => ret 1%Z
                   | Some _ =>
                       replace_audio_in_video X input_path temp_audio output_path ;;;
                       ret 0%Z
                   end)
                (disk w1) temp_dir d1 (Ok 1%Z) d3 Hmk) as (t5 & Hrm & Hrun); [|done|].
    { cbv zeta. fold temp_audio.
      by rewrite (bind_run _ _ _ _ _ Hex), (bind_run _ _ _ _ _ Hnorm). }
    exists {| disk := {| tree := t5; rand := rand d3 |}; stdin := stdin w1 |}. split.
    + unfold VideoCli.process_single_video.
      unfold bind at 1. unfold on_disk at 1. unfold ask at 1. rewrite Hvalid.
      cbn [negb]. cbv beta iota.
      assert ({| disk := disk w; stdin := stdin w |} = w) as -> by (by destruct w).
      rewrite (bind_run _ _ _ _ _ Hgo). cbn [negb].
      apply on_disk_run. unfold VideoCli.process_video_body, catch.
      cbv zeta in Hrun. by rewrite Hrun.
    + intros q. cbn [disk tree]. rewrite (rmtree_kind _ _ _ q Hrm). rewrite <- Hdisk.
      destruct (decide (temp_dir `prefix_of` q)) as [Hbelow | Hout].
      { symmetry. by apply kind_below_absent with temp_dir. }
      assert (q <> temp_audio) as Hq.
      { intros ->. destruct Hout. by eexists. }
      destruct (normalize_audio_file_frame _ _ _ _ _ _ _ _ Hnorm) as [_ [Hk3 _]].
      rewrite Hk3 by by intros ->%list_elem_of_singleton.
      unfold extract_audio_from_video in Hex. rewrite bind_ask in Hex.
      destruct (negb (_has_audio_stream X input_path (tree d1))); [done|].
      apply (run_ffmpeg_one_inv X _ input_path temp_audio) in Hex
        as (b & out & _ & _ & Hw & _); [|done|done].
      rewrite (write_file_kind _ _ _ _ q Hw), decide_False by done.
      destruct (mkdir_kind _ _ _ q Hmkdir) as [_ ->]. rewrite decide_False; [done|].
      intros ->. by destruct Hout.
Qed.

Lemma skip_is_no_error_for_containers_witness :
  (exists w',
      Cli.process_single_pptx Demo.externals ["in"; "quiet.pptx"] ["out"; "quiet.pptx"]
        (-16)%float false false 0.5%float Demo.world0 = (Ok 0%Z, w'))
  /\ (exists w',
         VideoCli.process_single_video Demo.externals ["in"; "mute.mp4"]
           ["out"; "mute.mp4"] (-16)%float false false 0.5%float Demo.world0
         = (Ok 1%Z, w')
         /\ kind_at ["out"; "mute.mp4"] (tree (disk w')) = None).
Proof.
  pose (temp_dir := ["tmp"; "pptx_normalizer_a"]).
  pose (d1 := snd (mkdtemp Demo.externals "pptx_normalizer_" Demo.disk0)).
  split.
  - pose (d2 := snd (extract_pptx Demo.externals ["in"; "quiet.pptx"] temp_dir d1)).
    pose (audio := [temp_dir ++ ["pptx_contents"; "ppt"; "media"; "audio1.wav"]]).
    pose (d3 := snd (normalize_audio_files Demo.externals audio (-16)%float false
                       0.5%float d2)).
    destruct (skip_is_no_error_for_containers Demo.externals
                ["in"; "quiet.pptx"] ["out"; "quiet.pptx"] (-16)%float false false
                0.5%float Demo.world0 Demo.world0 temp_dir d1 d2 d3
                eq_refl eq_refl) as [Hpptx _].
    apply (Hpptx (temp_dir ++ ["pptx_contents"]) audio []
             (snd (reconstruct_pptx Demo.externals (temp_dir ++ ["pptx_contents"])
                     ["out"; "quiet.pptx"] d3)));
      [reflexivity | reflexivity | discriminate | reflexivity | reflexivity].
  - pose (temp_audio := temp_dir ++ ["extracted_audio.wav"]).
    pose (d2 := snd (extract_audio_from_video Demo.externals ["in"; "mute.mp4"]
                       temp_audio d1)).
    destruct (skip_is_no_error_for_containers Demo.externals
                ["in"; "mute.mp4"] ["out"; "mute.mp4"] (-16)%float false false
                0.5%float Demo.world0 Demo.world0 temp_dir d1 d2 d2
                eq_refl eq_refl) as [_ Hvideo].
    destruct Hvideo as (w' & Hrun & Hsame); [reflexivity | reflexivity | reflexivity |].
    exists w'. split; [exact Hrun|]. by rewrite Hsame.
Defined.

(** The claim of the spec fails for video jobs: a silent track is
    skipped, and the job returns [1]. *)
Lemma video_skip_fails_the_job : ~ skip_never_fails_a_video_job.
Proof.
  intros Hclaim.
  pose (temp_dir := ["tmp"; "pptx_normalizer_a"]).
  pose (temp_audio := temp_dir ++ ["extracted_audio.wav"]).
  pose (d1 := snd (mkdtemp Demo.externals "pptx_normalizer_" Demo.disk0)).
  pose (d2 := snd (extract_audio_from_video Demo.externals ["in"; "mute.mp4"]
                     temp_audio d1)).
  pose (d4 := snd (replace_audio_in_video Demo.externals ["in"; "mute.mp4"] temp_audio
                     ["out"; "mute.mp4"] d2)).
  pose (w' := snd (VideoCli.process_single_video Demo.externals ["in"; "mute.mp4"]
                     ["out"; "mute.mp4"] (-16)%float false false 0.5%float
                     Demo.world0)).
  assert (1%Z = 0%Z) as Habsurd; [|discriminate].
  apply (Hclaim Demo.externals ["in"; "mute.mp4"] ["out"; "mute.mp4"] (-16)%float
           false false 0.5%float Demo.world0 Demo.world0 w' temp_dir d1 d2 d2 d4);
    reflexivity.
Qed.

(** C10.  The repack writes an entry for regular files only.  Once the
    output file can be created, outside the scratch root,
    [reconstruct_pptx] stores the encoding of the entries collected by
    the walk; each of these entries is a file entry whose name, taken
    below the scratch root, leads to a regular file holding the entry's
    bytes; no directory gets an entry of its own, and an empty
    directory leaves no trace in the output: no entry lies at or below
    it. *)
Theorem repack_writes_only_regular_files :
  forall (X : Externals) (extract_path output_path : Path) (d : Disk) (t0 t1 : node),
    makedirs (parent output_path) (tree d) = Some t0 ->
    write_file output_path [] t0 = Some t1 ->
    ~ extract_path `prefix_of` output_path ->
    let entries := fst (archive_of extract_path t1) in
    (exists d',
        reconstruct_pptx X extract_path output_path d
        = (match snd (archive_of extract_path t1) with
           | None => Ok tt
           | Some e => Raise e
           end, d')
        /\ read_file output_path (tree d') = Some (zip_encode X entries))
    /\ (forall e, e ∈ entries ->
          ze_is_dir e = false
          /\ read_file (extract_path ++ ze_name e) (tree d) = Some (ze_data e))
    /\ (forall p e, is_dir (extract_path ++ p) (tree d) = true -> e ∈ entries ->
          ze_name e <> p)
    /\ (forall p e, fs_lookup (extract_path ++ p) (tree d) = Some (Dir []) ->
          e ∈ entries -> ~ p `prefix_of` ze_name e).
Proof.
  intros X extract_path output_path d t0 t1 Hmk Hw Hout entries.
  assert (forall e, e ∈ entries ->
            ze_is_dir e = false
            /\ read_file (extract_path ++ ze_name e) (tree d) = Some (ze_data e)) as Hfiles.
  { intros e He. rewrite <- (repack_reads_scratch _ _ _ _ _ _ Hmk Hw Hout).
    by apply archive_of_from_files. }
  split_and!.
  - destruct (reconstruct_pptx_run X extract_path output_path d t0 t1 Hmk Hw)
      as (t2 & Ht2 & Hrun).
    eexists. split; [exact Hrun|]. simpl. by eapply write_file_read_same.
  - done.
  - intros p e Hdir He <-.
    apply Hfiles in He as [_ He%read_file_is_dir]. congruence.
  - intros p e Hempty He [q Hq].
    apply Hfiles in He as [_ He].
    rewrite Hq, app_assoc, (read_file_below_empty _ q _ Hempty) in He. done.
Qed.

Lemma repack_writes_only_regular_files_witness :
  is_dir (Demo.contents ++ ["customXml"]) (tree Demo.unpacked) = true
  /\ (exists d',
         reconstruct_pptx Demo.externals Demo.contents ["out"; "talk.pptx"] Demo.unpacked
         = (Ok tt, d')
         /\ exists entries,
             read_file ["out"; "talk.pptx"] (tree d')
             = Some (zip_encode Demo.externals entries)
             /\ map ze_name entries
                = [["ppt"; "slides"; "slide1.xml"];
                   ["ppt"; "media"; "audio1.wav"];
                   ["ppt"; "media"; "image1.png"]]
             /\ forall e, e ∈ entries -> ~ ["customXml"] `prefix_of` ze_name e).
Proof.
  pose (t0 := default (Dir []) (makedirs ["out"] (tree Demo.unpacked))).
  pose (t1 := default (Dir []) (write_file ["out"; "talk.pptx"] [] t0)).
  destruct (repack_writes_only_regular_files Demo.externals Demo.contents
              ["out"; "talk.pptx"] Demo.unpacked t0 t1 eq_refl eq_refl)
    as ((d' & Hrun & Hout) & _ & _ & Hempty).
  { intros [k Hk]. discriminate Hk. }
  split; [reflexivity|].
  exists d'. split; [exact Hrun|].
  exists (fst (archive_of Demo.contents t1)). split; [exact Hout|].
  split; [reflexivity|].
  intros e He. by apply (Hempty ["customXml"] e eq_refl).
Defined.

(** C2.  Repack completeness.  (1) When [reconstruct_pptx] can create
    its output file, outside the scratch root, it returns normally and
    stores the encoding of an archive that has, for every regular file
    at a path [rel] below the scratch root at the time of the call,
    exactly one entry: entry names are pairwise distinct, and an entry
    with name [rel] and bytes [b] is present exactly when the file at
    [rel] below the root holds [b].
    (2) [extract_pptx] extracts with [members = None], that is, every
    member of the input archive: for an archive free of name clashes,
    unpacked into a fresh scratch directory, extraction succeeds, every
    file member is on disk under its name with its bytes, and the
    archive that a repack of this tree builds has exactly the file
    members of the input. *)
Theorem repack_includes_every_file_once :
  (forall (X : Externals) (extract_path output_path : Path) (d : Disk) (t0 t1 : node),
      wf_node (tree d) ->
      makedirs (parent output_path) (tree d) = Some t0 ->
      write_file output_path [] t0 = Some t1 ->
      is_dir extract_path (tree d) = true ->
      ~ extract_path `prefix_of` output_path ->
      exists entries d',
        reconstruct_pptx X extract_path output_path d = (Ok tt, d')
        /\ read_file output_path (tree d') = Some (zip_encode X entries)
        /\ NoDup (map ze_name entries)
        /\ forall rel b,
            read_file (extract_path ++ rel) (tree d) = Some b
            <-> {| ze_name := rel; ze_is_dir := false; ze_data := b |} ∈ entries)
  /\ (forall (X : Externals) (pptx_path temp_dir : Path) (d : Disk) (b : bytes)
             (entries : list zip_entry),
         wf_node (tree d) ->
         fs_lookup temp_dir (tree d) = Some (Dir []) ->
         read_file pptx_path (tree d) = Some b ->
         zip_decode X b = Some entries ->
         wf_archive entries ->
         (forall e, e ∈ entries -> ze_is_dir e = false -> ze_name e <> ["ppt"; "media"]) ->
         let extract_path := joinpath temp_dir "pptx_contents" in
         exists audio_files d',
           extract_pptx X pptx_path temp_dir d = (Ok (extract_path, audio_files), d')
           /\ (forall e, e ∈ entries -> ze_is_dir e = false ->
                 read_file (extract_path ++ ze_name e) (tree d') = Some (ze_data e))
           /\ snd (archive_of extract_path (tree d')) = None
           /\ forall e, e ∈ fst (archive_of extract_path (tree d'))
                        <-> e ∈ entries /\ ze_is_dir e = false).
Proof.
  split.
  - intros X extract_path output_path d t0 t1 Hwf Hmk Hw Hdir0 Hout.
    assert (is_dir extract_path t1 = true) as Hdir.
    { eapply write_file_keeps_dir; [exact Hw|]. by eapply makedirs_keeps_dir. }
    assert (forall rel, read_file (extract_path ++ rel) t1
                        = read_file (extract_path ++ rel) (tree d)) as Hsame.
    { intros rel. by eapply repack_reads_scratch. }
    destruct (reconstruct_pptx_run X extract_path output_path d t0 t1 Hmk Hw)
      as (t2 & Ht2 & Hrun).
    assert (wf_node t1) as Hwf1.
    { eapply write_file_wf; [|exact Hw]. by eapply makedirs_from_wf. }
    unfold is_dir in Hdir.
    destruct (fs_lookup extract_path t1) as [[?|es]|] eqn:Eroot; try done.
    destruct (archive_of_dir extract_path t1 es Eroot) as (Herr & Hnd & Hin).
    { by eapply wf_node_lookup. }
    rewrite Herr in Hrun.
    exists (fst (archive_of extract_path t1)), {| tree := t2; rand := rand d |}.
    split_and!; [done | | done |].
    + simpl. by eapply write_file_read_same.
    + intros rel b. by rewrite <- Hsame.
  - intros X pptx_path temp_dir d b entries Hwf Htemp Hread Hdec Harch Hmedia extract_path.
    destruct (extract_pptx_run X pptx_path temp_dir d b entries
                Hwf Htemp Hread Hdec Harch Hmedia)
      as (audio_files & t' & Hrun & (HR & Hb & Hc & Hd) & Hwf' & _).
    fold extract_path in Hrun, HR, Hb, Hc, Hd.
    exists audio_files, {| tree := t'; rand := rand d |}. cbn [tree].
    assert (exists es, fs_lookup extract_path t' = Some (Dir es)) as [es Eroot].
    { apply kind_at_is_dir in HR. unfold is_dir in HR.
      destruct (fs_lookup extract_path t') as [[?|es]|]; try done. by exists es. }
    destruct (archive_of_dir extract_path t' es Eroot) as (Herr & Hnd & Hin).
    { by eapply wf_node_lookup. }
    split_and!; [done | | done |].
    + intros e He Hf. apply kind_at_file. by apply Hb.
    + intros e. split.
      * intros He. destruct (archive_of_from_files _ _ _ He) as [Hf Hfile].
        apply kind_at_file in Hfile.
        destruct (Hc _ _ Hfile) as (e' & He' & Hf' & Hn').
        pose proof (Hb e' He' Hf') as Hfile'. rewrite Hn', Hfile in Hfile'.
        assert (e' = e) as <-; [|done].
        destruct e, e'. simpl in *. by simplify_eq.
      * intros [He Hf]. pose proof (Hb e He Hf) as Hfile.
        apply kind_at_file, Hin in Hfile. destruct e. simpl in *. by subst.
Qed.

Lemma repack_includes_every_file_once_witness :
  (exists entries d',
      reconstruct_pptx Demo.externals Demo.contents ["out"; "talk.pptx"] Demo.unpacked
      = (Ok tt, d')
      /\ read_file ["out"; "talk.pptx"] (tree d') = Some (zip_encode Demo.externals entries)
      /\ NoDup (map ze_name entries)
      /\ {| ze_name := ["ppt"; "media"; "audio1.wav"]; ze_is_dir := false;
            ze_data := [x01; x02; x03; x04; x05] |} ∈ entries)
  /\ (exists audio_files d',
         extract_pptx Demo.externals ["in"; "talk.pptx"] Demo.scratch
           (snd (mkdtemp Demo.externals "pptx_normalizer_" Demo.disk0))
         = (Ok (Demo.contents, audio_files), d')
         /\ forall e, e ∈ fst (archive_of Demo.contents (tree d'))
                      <-> e ∈ Demo.archive_with_audio /\ ze_is_dir e = false).
Proof.
  destruct repack_includes_every_file_once as [Hrepack Hextract]. split.
  - pose (t0 := default (Dir []) (makedirs ["out"] (tree Demo.unpacked))).
    pose (t1 := default (Dir []) (write_file ["out"; "talk.pptx"] [] t0)).
    destruct (Hrepack Demo.externals Demo.contents ["out"; "talk.pptx"] Demo.unpacked
                t0 t1) as (entries & d' & Hrun & Hout & Hnd & Hin);
      [|reflexivity|reflexivity|reflexivity| |].
    { vm_compute. repeat split; by apply (bool_decide_unpack _). }
    { intros [k Hk]. discriminate Hk. }
    exists entries, d'. split; [exact Hrun|]. split; [exact Hout|]. split; [exact Hnd|].
    apply Hin. reflexivity.
  - destruct (Hextract Demo.externals ["in"; "talk.pptx"] Demo.scratch
                (snd (mkdtemp Demo.externals "pptx_normalizer_" Demo.disk0))
                [x50; x4b; x01] Demo.archive_with_audio)
      as (audio_files & d' & Hrun & _ & _ & Hsame);
      [|reflexivity|reflexivity|reflexivity| | |].
    { vm_compute. repeat split; by apply (bool_decide_unpack _). }
    { unfold wf_archive. apply (bool_decide_unpack _). vm_compute. exact I. }
    { apply (proj1 (Forall_forall
                      (fun e => ze_is_dir e = false -> ze_name e <> ["ppt"; "media"])
                      Demo.archive_with_audio)).
      apply (bool_decide_unpack _). vm_compute. exact I. }
    exists audio_files, d'. split; [exact Hrun | exact Hsame].
Defined.

(** The claim of the spec fails for an archive that lists a member name
    twice, which [zipfile] reads without complaint: extraction writes
    the second member over the first, the job returns [0], and the
    first entry is in the input archive but not among the entries that
    the repack stores. *)
Lemma duplicate_member_vanishes :
  let X := Demo.externals_duplicate in
  let lost := {| ze_name := ["docProps"; "app.xml"]; ze_is_dir := false;
                 ze_data := [x3c; x61] |} in
  let written :=
    [ {| ze_name := ["ppt"; "media"; "audio1.wav"]; ze_is_dir := false;
         ze_data := [x00; x00; x00; x00; x00] |};
      {| ze_name := ["docProps"; "app.xml"]; ze_is_dir := false;
         ze_data := [x3c; x62] |} ] in
  zip_decode X [x50; x4b; x01] = Some Demo.archive_duplicate
  /\ lost ∈ Demo.archive_duplicate
  /\ (lost ∉ written)
  /\ (exists audio_files d',
         extract_pptx X ["in"; "talk.pptx"] Demo.scratch
           (snd (mkdtemp X "pptx_normalizer_" Demo.disk0))
         = (Ok (Demo.contents, audio_files), d')
         /\ archive_of Demo.contents (tree d') = (written, None))
  /\ (exists w',
         Cli.process_single_pptx X ["in"; "talk.pptx"] ["out"; "talk.pptx"] (-16)%float
           false false 0.5%float Demo.world0 = (Ok 0%Z, w')
         /\ read_file ["out"; "talk.pptx"] (tree (disk w')) = Some (zip_encode X written)).
Proof.
  intros X lost written. split; [reflexivity|]. split.
  { apply elem_of_cons. right. apply elem_of_cons. by left. }
  split.
  { intros H. apply elem_of_cons in H as [H | H]; [discriminate H|].
    apply elem_of_cons in H as [H | H]; [discriminate H|]. by apply elem_of_nil in H. }
  split.
  - eexists _, _. split; [vm_compute; reflexivity|]. by vm_compute.
  - eexists. split; [vm_compute; reflexivity|]. by vm_compute.
Qed.




(** X1.  [find_pptx_files] returns nothing for a path that is not a
    directory; otherwise it returns, in ascending order, exactly the
    direct children of the directory that are regular files and whose
    suffix is [.pptx] in any letter case. *)
Theorem find_pptx_files_lists_presentations :
  forall (directory : Path) (t : node),
    (is_dir directory t = false -> find_pptx_files directory t = [])
    /\ ascending (find_pptx_files directory t)
    /\ forall p,
        p ∈ find_pptx_files directory t
        <-> exists c, p = joinpath directory c
                      /\ is_file p t = true
                      /\ lower (suffix p) = ".pptx".
Proof.
  intros directory t. destruct (is_dir directory t) eqn:Ed.
  - destruct (iterdir_is_dir _ _ Ed) as [children Hit].
    rewrite (find_pptx_files_scan _ _ _ Hit).
    split_and!; [done | apply sort_paths_ascending |].
    intros p. rewrite (scan_spec _ _ _ _ _ Hit).
    by setoid_rewrite list_elem_of_singleton.
  - assert (find_pptx_files directory t = []) as ->.
    { unfold find_pptx_files. rewrite (iterdir_not_dir _ _ Ed). by destruct (negb _). }
    split_and!; [done | constructor |].
    intros p. split; [by intros ?%elem_of_nil|].
    intros (c & -> & Hf%is_file_child_dir & _). congruence.
Qed.

Lemma find_pptx_files_lists_presentations_witness :
  find_pptx_files ["decks"; "talk.pptx"] Demo.shelf = []
  /\ find_pptx_files ["decks"] Demo.shelf
     = [["decks"; "Intro.PPTX"]; ["decks"; "talk.pptx"]]
  /\ ["decks"; "Intro.PPTX"] ∈ find_pptx_files ["decks"] Demo.shelf.
Proof.
  destruct (find_pptx_files_lists_presentations ["decks"; "talk.pptx"] Demo.shelf)
    as (Hnone & _ & _).
  destruct (find_pptx_files_lists_presentations ["decks"] Demo.shelf)
    as (_ & _ & Hin).
  split; [exact (Hnone eq_refl)|]. split; [reflexivity|].
  apply Hin. exists "Intro.PPTX". repeat split; reflexivity.
Defined.

(** X2.  [find_video_files] returns nothing for a path that is not a
    directory; otherwise it returns, in ascending order, exactly the
    direct children of the directory that are regular files and whose
    suffix is [.mp4] in any letter case. *)
Theorem find_video_files_lists_videos :
  forall (directory : Path) (t : node),
    (is_dir directory t = false -> find_video_files directory t = [])
    /\ ascending (find_video_files directory t)
    /\ forall p,
        p ∈ find_video_files directory t
        <-> exists c, p = joinpath directory c
                      /\ is_file p t = true
                      /\ lower (suffix p) = ".mp4".
Proof.
  intros directory t. destruct (is_dir directory t) eqn:Ed.
  - destruct (iterdir_is_dir _ _ Ed) as [children Hit].
    rewrite (find_video_files_scan _ _ _ Hit).
    split_and!; [done | apply sort_paths_ascending |].
    intros p. rewrite (scan_spec _ _ _ _ _ Hit).
    by setoid_rewrite list_elem_of_singleton.
  - assert (find_video_files directory t = []) as ->.
    { unfold find_video_files. rewrite Ed. simpl. by rewrite orb_true_r. }
    split_and!; [done | constructor |].
    intros p. split; [by intros ?%elem_of_nil|].
    intros (c & -> & Hf%is_file_child_dir & _). congruence.
Qed.

Lemma find_video_files_lists_videos_witness :
  find_video_files ["nowhere"] Demo.shelf = []
  /\ find_video_files ["decks"] Demo.shelf = [["decks"; "clip.Mp4"]]
  /\ ["decks"; "clip.Mp4"] ∈ find_video_files ["decks"] Demo.shelf.
Proof.
  destruct (find_video_files_lists_videos ["nowhere"] Demo.shelf) as (Hnone & _ & _).
  destruct (find_video_files_lists_videos ["decks"] Demo.shelf) as (_ & _ & Hin).
  split; [exact (Hnone eq_refl)|]. split; [reflexivity|].
  apply Hin. exists "clip.Mp4". repeat split; reflexivity.
Defined.

(** X3.  [find_audio_files] looks at the direct children of
    [ppt/media] only.  With no such path the answer is the empty list;
    when [ppt/media] is a regular file the scan raises; when it is a
    directory the answer lists, in ascending order, exactly its
    children that are regular files with one of the seven audio
    suffixes, in any letter case.  The disk is never changed. *)
Theorem find_audio_files_scans_media_dir :
  forall (extract_path : Path) (d : Disk),
    let media_dir := joinpath (joinpath extract_path "ppt") "media" in
    (path_exists media_dir (tree d) = false ->
     find_audio_files extract_path d = (Ok [], d))
    /\ (is_file media_dir (tree d) = true ->
        find_audio_files extract_path d = (Raise OSError, d))
    /\ (is_dir media_dir (tree d) = true ->
        exists l,
          find_audio_files extract_path d = (Ok l, d)
          /\ ascending l
          /\ forall p,
              p ∈ l <-> exists c, p = joinpath media_dir c
                                  /\ is_file p (tree d) = true
                                  /\ lower (suffix p) ∈ audio_extensions).
Proof.
  intros extract_path d media_dir. unfold find_audio_files. fold media_dir.
  rewrite bind_ask. cbv beta. split_and!.
  - by intros ->.
  - intros Hf. unfold is_file, path_exists, iterdir in *.
    destruct (fs_lookup media_dir (tree d)) as [[?|?]|] eqn:E; try done.
    rewrite bind_ask. cbv beta. by rewrite E.
  - intros Hd. rewrite (is_dir_exists _ _ Hd). cbv iota. rewrite bind_ask. cbv beta.
    destruct (iterdir_is_dir _ _ Hd) as [children Hit]. rewrite Hit. cbv iota.
    rewrite bind_ask. cbv beta.
    eexists. split; [reflexivity|]. split; [apply sort_paths_ascending|].
    intros p. apply (scan_spec audio_extensions media_dir (tree d) children p Hit).
Qed.

Lemma find_audio_files_scans_media_dir_witness :
  find_audio_files ["nowhere"] Demo.unpacked = (Ok [], Demo.unpacked)
  /\ exists l,
      find_audio_files Demo.contents Demo.unpacked = (Ok l, Demo.unpacked)
      /\ (Demo.contents ++ ["ppt"; "media"; "audio1.wav"]) ∈ l
      /\ ~ (Demo.contents ++ ["ppt"; "media"; "image1.png"]) ∈ l.
Proof.
  destruct (find_audio_files_scans_media_dir ["nowhere"] Demo.unpacked)
    as (Hnone & _ & _).
  destruct (find_audio_files_scans_media_dir Demo.contents Demo.unpacked)
    as (_ & _ & Hdir).
  split; [exact (Hnone eq_refl)|].
  destruct (Hdir eq_refl) as (l & Hrun & _ & Hin).
  exists l. split; [exact Hrun|]. split.
  - apply Hin. exists "audio1.wav". split; [reflexivity|]. split; [reflexivity|].
    apply (bool_decide_unpack _). vm_compute. exact I.
  - intros (c & Hc & _ & Hext)%Hin.
    assert (c = "image1.png") as ->.
    { apply (f_equal (fun p => List.last p "")) in Hc. vm_compute in Hc. congruence. }
    revert Hext. apply (bool_decide_unpack _). vm_compute. exact I.
Defined.

(** X4.  Every file that [find_audio_files] returns is processed by
    [normalize_audio_file]: its format is one of the three decoded
    directly or one of the four bridged through WAV, so the branch for
    unsupported formats is never taken for a file of the scan. *)
Theorem every_found_audio_file_is_handled :
  forall (X : Externals) (extract_path : Path) (d d' : Disk) (l : list Path) (p : Path)
         (target : float) (denoise : bool) (strength : float),
    find_audio_files extract_path d = (Ok l, d') ->
    p ∈ l ->
    (file_format_of p ∈ ["wav"; "flac"; "ogg"]
     /\ normalize_audio_file X p target denoise strength
        = _normalize_native_format X p target denoise strength)
    \/ (file_format_of p ∈ ["mp3"; "m4a"; "wma"; "aac"]
        /\ normalize_audio_file X p target denoise strength
           = _normalize_compressed_format X p target (file_format_of p) denoise strength).
Proof.
  intros X extract_path d d' l p target denoise strength Hrun Hin.
  destruct (find_audio_files_sound _ _ _ _ _ Hrun Hin) as (_ & _ & _ & Hext).
  destruct (audio_extension_format p Hext) as [[Hn | Hc] _].
  - left. split; [done|]. unfold normalize_audio_file.
    by rewrite (proj2 (str_in_spec _ _) Hn).
  - right. split; [done|]. unfold normalize_audio_file.
    rewrite (proj2 (str_in_spec _ _) Hc).
    destruct (str_in (file_format_of p) ["wav"; "flac"; "ogg"]) eqn:E; [|done].
    apply str_in_spec in E. exfalso. revert Hc E. generalize (file_format_of p).
    intros s Hc E. repeat (apply elem_of_cons in Hc as [-> | Hc]);
      [.. | by apply elem_of_nil in Hc];
      repeat (apply elem_of_cons in E as [E | E]; [discriminate|]);
      by apply elem_of_nil in E.
Qed.

Lemma every_found_audio_file_is_handled_witness :
  file_format_of (Demo.contents ++ ["ppt"; "media"; "audio1.wav"]) ∈ ["wav"; "flac"; "ogg"]
  /\ normalize_audio_file Demo.externals (Demo.contents ++ ["ppt"; "media"; "audio1.wav"])
       (-16)%float false 0.5%float
     = _normalize_native_format Demo.externals
         (Demo.contents ++ ["ppt"; "media"; "audio1.wav"]) (-16)%float false 0.5%float.
Proof.
  destruct (every_found_audio_file_is_handled Demo.externals Demo.contents Demo.unpacked
              Demo.unpacked [Demo.contents ++ ["ppt"; "media"; "audio1.wav"]]
              (Demo.contents ++ ["ppt"; "media"; "audio1.wav"])
              (-16)%float false 0.5%float eq_refl)
    as [H | [H _]].
  - apply list_elem_of_singleton. reflexivity.
  - exact H.
  - exfalso. revert H. apply (bool_decide_unpack _). vm_compute. exact I.
Defined.

(** X5.  [normalize_audio_file] never raises, whatever the file, the
    libraries or ffmpeg do, and its lasting effect on the disk is
    confined to the file it is given: what is at any other path is the
    same before and after (so the temporary WAV of the bridged path is
    gone again), and no regular file stops being one. *)
Theorem normalize_audio_file_is_contained :
  forall (X : Externals) (file_path : Path) (target : float) (denoise : bool)
         (strength : float) (d : Disk),
  exists o d',
    normalize_audio_file X file_path target denoise strength d = (Ok o, d')
    /\ (forall q, q <> file_path -> kind_at q (tree d') = kind_at q (tree d))
    /\ (forall q, is_file q (tree d) = true -> is_file q (tree d') = true).
Proof.
  intros X file_path target denoise strength d.
  destruct (normalize_audio_file X file_path target denoise strength d) as [r d'] eqn:E.
  destruct (normalize_audio_file_frame _ _ _ _ _ _ _ _ E) as [[o ->] [Hk Hf]].
  exists o, d'. split_and!; [done | | done].
  intros q Hq. apply Hk. by intros ->%list_elem_of_singleton.
Qed.

Lemma normalize_audio_file_is_contained_witness :
  exists s d',
    normalize_audio_file Demo.externals ["in"; "song.mp3"] (-16)%float false 0.5%float
      Demo.disk0 = (Ok (Some s), d')
    /\ kind_at ["tmp"; "tmpa.wav"] (tree d') = None
    /\ kind_at ["in"; "voice.wav"] (tree d') = Some (File [x01; x02; x03; x04])
    /\ is_file ["in"; "song.mp3"] (tree d') = true.
Proof.
  destruct (normalize_audio_file_is_contained Demo.externals ["in"; "song.mp3"]
              (-16)%float false 0.5%float Demo.disk0) as (o & d' & Hrun & Hk & Hf).
  assert (exists s, o = Some s) as [s ->].
  { injection Hrun as <- _. by eexists. }
  exists s, d'. split; [exact Hrun|]. split; [|split].
  - rewrite Hk by discriminate. reflexivity.
  - rewrite Hk by discriminate. reflexivity.
  - apply Hf. reflexivity.
Defined.

(** X6.  [normalize_audio_files] never raises.  It returns at most one
    record per file, in the order of the files, each named after its
    file and carrying the requested target and the gain
    [target - original]; what is at a path that is not among the files
    is the same before and after. *)
Theorem normalize_audio_files_reports_in_order :
  forall (X : Externals) (audio_files : list Path) (target : float) (denoise : bool)
         (strength : float) (d : Disk),
  exists stats d',
    normalize_audio_files X audio_files target denoise strength d = (Ok stats, d')
    /\ length stats <= length audio_files
    /\ map filename stats `sublist_of` map name audio_files
    /\ Forall (fun s => target_lufs s = target
                        /\ gain_db s = PrimFloat.sub target (original_lufs s)) stats
    /\ (forall q, q ∉ audio_files -> kind_at q (tree d') = kind_at q (tree d)).
Proof.
  intros X audio_files target denoise strength d.
  destruct (normalize_audio_files X audio_files target denoise strength d)
    as [r d'] eqn:E.
  destruct (normalize_audio_files_frame _ _ _ _ _ _ _ _ E)
    as [(stats & -> & Hlen) [Hk Hf]].
  destruct (normalize_audio_files_stats _ _ _ _ _ _ _ _ E) as [Hsub Hall].
  by exists stats, d'.
Qed.

Lemma normalize_audio_files_reports_in_order_witness :
  exists stats d',
    normalize_audio_files Demo.externals
      [["in"; "blip.wav"]; ["in"; "song.mp3"]; ["in"; "hush.wav"]; ["in"; "voice.wav"]]
      (-16)%float false 0.5%float Demo.disk0 = (Ok stats, d')
    /\ map filename stats = ["song.mp3"; "voice.wav"]
    /\ kind_at ["in"; "talk.pptx"] (tree d') = Some (File [x50; x4b; x01]).
Proof.
  destruct (normalize_audio_files_reports_in_order Demo.externals
              [["in"; "blip.wav"]; ["in"; "song.mp3"]; ["in"; "hush.wav"];
               ["in"; "voice.wav"]]
              (-16)%float false 0.5%float Demo.disk0)
    as (stats & d' & Hrun & _ & _ & _ & Hk).
  exists stats, d'. split; [exact Hrun|]. split.
  - injection Hrun as <- _. reflexivity.
  - rewrite Hk; [reflexivity|].
    apply (bool_decide_unpack _). vm_compute. exact I.
Defined.

(** X7.  Whatever its outcome, a presentation job leaves the disk as
    it found it except at its output: what is at a path [q] is the same
    before and after the call whenever [q] is not the output path, not
    the input's name inside the output path (the copy target when the
    output is a directory), and not a directory above the output path
    (which the repack creates when missing).  In particular nothing of
    the scratch directory or of the temporary files remains. *)
Theorem pptx_job_changes_only_its_output :
  forall (X : Externals) (input_path output_path : Path) (target : float)
         (force denoise : bool) (strength : float) (w w' : World) (r : result Z)
         (q : Path),
    Cli.process_single_pptx X input_path output_path target force denoise strength w
    = (r, w') ->
    q <> output_path ->
    q <> joinpath output_path (name input_path) ->
    ~ q `prefix_of` output_path ->
    kind_at q (tree (disk w')) = kind_at q (tree (disk w)).
Proof.
  intros X input_path output_path target force denoise strength w w' r q H Hout Hcopy Hanc.
  unfold Cli.process_single_pptx in H.
  apply (job_frame _ _ _ _ _ _ _ (fun t t' => kind_at q t' = kind_at q t) _ _ _ H);
    [done|].
  intros d rb d' Hb. eapply tune_container_frame; eauto.
Qed.

Lemma pptx_job_changes_only_its_output_witness :
  exists w',
    Cli.process_single_pptx Demo.externals ["in"; "talk.pptx"] ["out"; "talk.pptx"]
      (-16)%float false false 0.5%float Demo.world0 = (Ok 0%Z, w')
    /\ kind_at ["tmp"; "pptx_normalizer_a"] (tree (disk w')) = None
    /\ kind_at ["in"; "talk.pptx"] (tree (disk w')) = Some (File [x50; x4b; x01])
    /\ is_file ["out"; "talk.pptx"] (tree (disk w')) = true.
Proof.
  pose (w' := snd (Cli.process_single_pptx Demo.externals ["in"; "talk.pptx"]
                     ["out"; "talk.pptx"] (-16)%float false false 0.5%float
                     Demo.world0)).
  assert (forall q, q <> ["out"; "talk.pptx"] ->
                    q <> joinpath ["out"; "talk.pptx"] (name ["in"; "talk.pptx"]) ->
                    ~ q `prefix_of` ["out"; "talk.pptx"] ->
                    kind_at q (tree (disk w')) = kind_at q (tree (disk Demo.world0)))
    as Hframe.
  { intros q. apply (pptx_job_changes_only_its_output Demo.externals ["in"; "talk.pptx"]
                       ["out"; "talk.pptx"] (-16)%float false false 0.5%float
                       Demo.world0 w' (Ok 0%Z) q). reflexivity. }
  exists w'. split; [reflexivity|]. split; [|split].
  - rewrite Hframe; [reflexivity | discriminate | discriminate |].
    intros [k Hk]. discriminate Hk.
  - rewrite Hframe; [reflexivity | discriminate | discriminate |].
    intros [k Hk]. discriminate Hk.
  - reflexivity.
Defined.

(** X8.  A presentation job never modifies its input unless the output
    path is the input path itself: whatever the outcome, the input
    reads the same before and after the call. *)
Theorem pptx_job_keeps_its_input :
  forall (X : Externals) (input_path output_path : Path) (target : float)
         (force denoise : bool) (strength : float) (w w' : World) (r : result Z),
    Cli.process_single_pptx X input_path output_path target force denoise strength w
    = (r, w') ->
    output_path <> input_path ->
    read_file input_path (tree (disk w')) = read_file input_path (tree (disk w)).
Proof.
  intros X input_path output_path target force denoise strength w w' r H Hne.
  unfold Cli.process_single_pptx in H.
  apply kind_at_read.
  destruct (path_exists input_path (tree (disk w))) eqn:Ex.
  - apply (job_frame _ _ _ _ _ _ _
             (fun t t' => path_exists input_path t = true ->
                          kind_at input_path t' = kind_at input_path t) _ _ _ H);
      [done | | done].
    intros d rb d' Hb Hex. eapply tune_container_frame; eauto.
  - unfold bind at 1 in H. unfold on_disk at 1, ask at 1 in H.
    unfold validate_pptx_file in H. rewrite Ex in H. simpl in H.
    by injection H as _ <-.
Qed.

Lemma pptx_job_keeps_its_input_witness :
  exists w',
    Cli.process_single_pptx Demo.externals ["in"; "talk.pptx"] ["in"]
      (-16)%float true false 0.5%float Demo.world0 = (Ok 1%Z, w')
    /\ read_file ["in"; "talk.pptx"] (tree (disk w')) = Some [x50; x4b; x01].
Proof.
  pose (w' := snd (Cli.process_single_pptx Demo.externals ["in"; "talk.pptx"] ["in"]
                     (-16)%float true false 0.5%float Demo.world0)).
  exists w'. split; [reflexivity|].
  rewrite (pptx_job_keeps_its_input Demo.externals ["in"; "talk.pptx"] ["in"]
             (-16)%float true false 0.5%float Demo.world0 w' (Ok 1%Z) eq_refl);
    [reflexivity | discriminate].
Defined.

(** X9.  Whatever its outcome, a video job changes nothing on the disk
    but its output file: what is at any other path, the input video
    included, is the same before and after the call, and the scratch
    directory with the extracted audio is gone. *)
Theorem video_job_changes_only_its_output :
  forall (X : Externals) (input_path output_path : Path) (target : float)
         (force denoise : bool) (strength : float) (w w' : World) (r : result Z)
         (q : Path),
    VideoCli.process_single_video X input_path output_path target force denoise strength w
    = (r, w') ->
    q <> output_path ->
    kind_at q (tree (disk w')) = kind_at q (tree (disk w)).
Proof.
  intros X input_path output_path target force denoise strength w w' r q H Hout.
  unfold VideoCli.process_single_video in H.
  apply (job_frame _ _ _ _ _ _ _ (fun t t' => kind_at q t' = kind_at q t) _ _ _ H);
    [done|].
  intros d rb d' Hb. eapply video_body_frame; eauto.
Qed.

Lemma video_job_changes_only_its_output_witness :
  exists w',
    VideoCli.process_single_video Demo.externals ["in"; "clip.mp4"] ["out"; "clip.mp4"]
      (-16)%float false false 0.5%float Demo.world0 = (Ok 0%Z, w')
    /\ kind_at ["tmp"; "pptx_normalizer_a"] (tree (disk w')) = None
    /\ kind_at ["in"; "clip.mp4"] (tree (disk w'))
       = Some (File [x01; x02; x03; x04; x05; x06])
    /\ is_file ["out"; "clip.mp4"] (tree (disk w')) = true.
Proof.
  pose (w' := snd (VideoCli.process_single_video Demo.externals ["in"; "clip.mp4"]
                     ["out"; "clip.mp4"] (-16)%float false false 0.5%float
                     Demo.world0)).
  assert (forall q, q <> ["out"; "clip.mp4"] ->
                    kind_at q (tree (disk w')) = kind_at q (tree (disk Demo.world0)))
    as Hframe.
  { intros q. apply (video_job_changes_only_its_output Demo.externals ["in"; "clip.mp4"]
                       ["out"; "clip.mp4"] (-16)%float false false 0.5%float
                       Demo.world0 w' (Ok 0%Z) q). reflexivity. }
  exists w'. split; [reflexivity|]. split; [|split].
  - rewrite Hframe; [reflexivity | discriminate].
  - rewrite Hframe; [reflexivity | discriminate].
  - reflexivity.
Defined.

(** X10.  A batch run of either program, whatever happens to its jobs,
    changes the disk only inside the output directory and by creating
    that directory with its missing parents: what is at a path that is
    neither the output directory, nor above it, nor inside it, is the
    same before and after the run. *)
Theorem batch_stays_inside_output_dir :
  forall (X : Externals) (input_dir output_dir : Path) (target : float)
         (force denoise : bool) (strength : float) (w : World) (q : Path),
    ~ q `prefix_of` output_dir ->
    ~ output_dir `prefix_of` q ->
    (forall r w',
        Cli.process_batch_directory X input_dir output_dir target force denoise strength w
        = (r, w') ->
        kind_at q (tree (disk w')) = kind_at q (tree (disk w)))
    /\ (forall r w',
           VideoCli.process_batch_directory X input_dir output_dir target force denoise
             strength w = (r, w') ->
           kind_at q (tree (disk w')) = kind_at q (tree (disk w))).
Proof.
  intros X input_dir output_dir target force denoise strength w q Hup Hin. split.
  - intros r w' H. unfold Cli.process_batch_directory in H.
    eapply batch_frame; [exact H | | done].
    intros f w0 r0 w0' Hjob.
    destruct (away_from_children q output_dir (name f) Hup Hin) as (H1 & H2 & H3).
    cbv beta in Hjob.
    exact (process_single_pptx_frame _ _ _ _ _ _ _ _ _ _ _ Hjob H1 (H2 _) H3).
  - intros r w' H. unfold VideoCli.process_batch_directory in H.
    eapply batch_frame; [exact H | | done].
    intros f w0 r0 w0' Hjob.
    destruct (away_from_children q output_dir (name f) Hup Hin) as (H1 & _).
    cbv beta in Hjob.
    exact (process_single_video_frame _ _ _ _ _ _ _ _ _ _ _ Hjob H1).
Qed.

Lemma batch_stays_inside_output_dir_witness :
  exists w',
    Cli.process_batch_directory Demo.externals ["in"] ["out"; "tuned"] (-16)%float
      true false 0.5%float Demo.world0 = (Ok 1%Z, w')
    /\ kind_at ["in"; "talk.pptx"] (tree (disk w')) = Some (File [x50; x4b; x01])
    /\ kind_at ["tmp"; "pptx_normalizer_a"] (tree (disk w')) = None
    /\ is_file ["out"; "tuned"; "talk.pptx"] (tree (disk w')) = true.
Proof.
  pose (w' := snd (Cli.process_batch_directory Demo.externals ["in"] ["out"; "tuned"]
                     (-16)%float true false 0.5%float Demo.world0)).
  assert (forall q, ~ q `prefix_of` ["out"; "tuned"] -> ~ ["out"; "tuned"] `prefix_of` q ->
                    kind_at q (tree (disk w')) = kind_at q (tree (disk Demo.world0)))
    as Hframe.
  { intros q Hup Hin.
    destruct (batch_stays_inside_output_dir Demo.externals ["in"] ["out"; "tuned"]
                (-16)%float true false 0.5%float Demo.world0 q Hup Hin) as [Hpptx _].
    apply (Hpptx (Ok 1%Z) w'). reflexivity. }
  exists w'. split; [reflexivity|]. split; [|split].
  - rewrite Hframe; [reflexivity | |]; intros [k Hk]; discriminate Hk.
  - rewrite Hframe; [reflexivity | |]; intros [k Hk]; discriminate Hk.
  - reflexivity.
Defined.



(** X12.  The single-file branch of [main] repeats
    [process_single_pptx]: with valid options it returns the same
    status and leaves the same disk and console, whenever the question
    about an existing output is answered.  The two differ only when
    reading the answer fails: [main] returns [1], while
    [process_single_pptx], which asks outside its [try] block, lets the
    error through. *)
Theorem main_single_file_is_process_single_pptx :
  forall (X : Externals) (args : Args) (input_path output_path : Path) (w : World),
    check_options X args = Ok None ->
    arg_input_dir args = None ->
    arg_input args = Some input_path ->
    arg_output args = Some output_path ->
    let job := Cli.process_single_pptx X input_path output_path (arg_target_lufs args)
                 (arg_force args) (arg_denoise args) (arg_denoise_strength args) in
    (forall code w', job w = (Ok code, w') -> Cli.main X args w = (Ok code, w'))
    /\ (forall e w', job w = (Raise e, w') ->
          e = EOFError /\ Cli.main X args w = (Ok 1%Z, w')).
Proof.
  intros X args input_path output_path w Hc Hd Hi Ho job.
  rewrite (single_file_main X args input_path output_path Hc Hd Hi Ho).
  destruct (asking_inside_try (validate_pptx_file X input_path)
              (may_write output_path (arg_force args))
              (Cli.tune_container X input_path output_path (arg_target_lufs args)
                 (arg_denoise args) (arg_denoise_strength args)) w) as [Hok Hraise].
  split; [exact Hok|]. intros e w' He. destruct (Hraise e w' He) as [Hmw Hmain].
  split; [by eapply may_write_raise | exact Hmain].
Qed.

Lemma main_single_file_is_process_single_pptx_witness :
  let args := {| arg_input := Some ["in"; "talk.pptx"]; arg_input_dir := None;
                 arg_output := Some ["out"; "talk.pptx"]; arg_output_dir := None;
                 arg_target_lufs := (-16)%float; arg_denoise := false;
                 arg_denoise_strength := 0.5%float; arg_verbose := false;
                 arg_force := false |} in
  exists w',
    Cli.process_single_pptx Demo.externals ["in"; "talk.pptx"] ["out"; "talk.pptx"]
      (-16)%float false false 0.5%float Demo.world0 = (Ok 0%Z, w')
    /\ Cli.main Demo.externals args Demo.world0 = (Ok 0%Z, w').
Proof.
  intros args.
  pose (w' := snd (Cli.process_single_pptx Demo.externals ["in"; "talk.pptx"]
                     ["out"; "talk.pptx"] (-16)%float false false 0.5%float
                     Demo.world0)).
  destruct (main_single_file_is_process_single_pptx Demo.externals args
              ["in"; "talk.pptx"] ["out"; "talk.pptx"] Demo.world0
              eq_refl eq_refl eq_refl eq_refl) as [Hok _].
  exists w'. split; [reflexivity|]. apply Hok. reflexivity.
Defined.

(** X13.  The question about an existing output.  For a valid input,
    neither job reads the console when [--force] is given or the output
    does not exist yet, and neither then raises.  Otherwise exactly one
    line is read: unless it is [y] or [yes] in any letter case the job
    returns [0] and leaves the disk as it is; if it is, the job goes on
    and returns a status. *)
Theorem existing_output_needs_a_yes :
  forall (X : Externals) (input_path output_path : Path) (target : float)
         (force denoise : bool) (strength : float) (w : World),
    let pptx := Cli.process_single_pptx X input_path output_path target force denoise
                  strength in
    let video := VideoCli.process_single_video X input_path output_path target force
                   denoise strength in
    let unasked := force = true \/ path_exists output_path (tree (disk w)) = false in
    let asked := force = false /\ path_exists output_path (tree (disk w)) = true in
    let yes line := str_in (lower line) ["y"; "yes"] in
    (validate_pptx_file X input_path (tree (disk w)) = true ->
     (unasked -> forall r w', pptx w = (r, w') ->
                   stdin w' = stdin w /\ exists code, r = Ok code)
     /\ (asked -> forall line rest, stdin w = line :: rest ->
           (yes line = false -> pptx w = (Ok 0%Z, {| disk := disk w; stdin := rest |}))
           /\ (yes line = true ->
               exists code w', pptx w = (Ok code, w') /\ stdin w' = rest)))
    /\ (validate_video_file X input_path (tree (disk w)) = true ->
        (unasked -> forall r w', video w = (r, w') ->
                      stdin w' = stdin w /\ exists code, r = Ok code)
        /\ (asked -> forall line rest, stdin w = line :: rest ->
              (yes line = false ->
               video w = (Ok 0%Z, {| disk := disk w; stdin := rest |}))
              /\ (yes line = true ->
                  exists code w', video w = (Ok code, w') /\ stdin w' = rest))).
Proof.
  intros X input_path output_path target force denoise strength w
         pptx video unasked asked yes.
  split; intros Hvalid.
  - destruct (job_prompt (validate_pptx_file X input_path) output_path force
                (Cli.tune_container X input_path output_path target denoise strength)
                1%Z 0%Z 1%Z w Hvalid) as [Hsilent Hasked].
    split; [exact Hsilent | intros [Hf Hex]; exact (Hasked Hf Hex)].
  - destruct (job_prompt (validate_video_file X input_path) output_path force
                (VideoCli.process_video_body X input_path output_path target denoise
                   strength)
                1%Z 0%Z 1%Z w Hvalid) as [Hsilent Hasked].
    split; [exact Hsilent | intros [Hf Hex]; exact (Hasked Hf Hex)].
Qed.

Lemma existing_output_needs_a_yes_witness :
  let w := {| disk := Demo.disk0; stdin := ["no"; "Yes"] |} in
  Cli.process_single_pptx Demo.externals ["in"; "talk.pptx"] ["in"; "plain.pptx"]
    (-16)%float false false 0.5%float w
  = (Ok 0%Z, {| disk := Demo.disk0; stdin := ["Yes"] |})
  /\ exists code w',
      VideoCli.process_single_video Demo.externals ["in"; "clip.mp4"] ["in"; "mute.mp4"]
        (-16)%float false false 0.5%float {| disk := Demo.disk0; stdin := ["Yes"; "x"] |}
      = (Ok code, w')
      /\ stdin w' = ["x"].
Proof.
  intros w. split.
  - destruct (existing_output_needs_a_yes Demo.externals ["in"; "talk.pptx"]
                ["in"; "plain.pptx"] (-16)%float false false 0.5%float w) as [Hpptx _].
    destruct (Hpptx eq_refl) as [_ Hasked].
    destruct (Hasked (conj eq_refl eq_refl) "no" ["Yes"] eq_refl) as [Hno _].
    exact (Hno eq_refl).
  - destruct (existing_output_needs_a_yes Demo.externals ["in"; "clip.mp4"]
                ["in"; "mute.mp4"] (-16)%float false false 0.5%float
                {| disk := Demo.disk0; stdin := ["Yes"; "x"] |}) as [_ Hvideo].
    destruct (Hvideo eq_refl) as [_ Hasked].
    destruct (Hasked (conj eq_refl eq_refl) "Yes" ["x"] eq_refl) as [_ Hyes].
    exact (Hyes eq_refl).
Defined.

(** X14.  A presentation without audio cannot be processed in place.
    When extraction finds no audio file and the copy target is the
    input itself (the output path is the input path, or the directory
    that holds the input), [shutil.copy2] refuses with [SameFileError]:
    the job returns [1], and every path of the disk, the input
    included, holds what it held before. *)
Theorem no_audio_in_place_fails_cleanly :
  forall (X : Externals) (input_path output_path : Path) (target : float)
         (force denoise : bool) (strength : float)
         (w w1 : World) (temp_dir extract_path : Path) (d1 d2 : Disk),
    validate_pptx_file X input_path (tree (disk w)) = true ->
    may_write output_path force w = (Ok true, w1) ->
    mkdtemp X "pptx_normalizer_" (disk w1) = (Ok temp_dir, d1) ->
    extract_pptx X input_path temp_dir d1 = (Ok (extract_path, []), d2) ->
    copy2_target input_path output_path (tree (disk w)) = input_path ->
    exists w',
      Cli.process_single_pptx X input_path output_path target force denoise strength w
      = (Ok 1%Z, w')
      /\ forall q, kind_at q (tree (disk w')) = kind_at q (tree (disk w)).
Proof.
  intros X input_path output_path target force denoise strength w w1 temp_dir
         extract_path d1 d2 Hvalid Hgo Hmk Hex Hsame.
  pose proof (may_write_disk _ _ _ _ _ Hgo) as Hdisk.
  destruct (mkdtemp_is_dir _ _ _ _ _ Hmk) as (Hdir1 & Htemp & Hfresh).
  pose proof Hmk as (_ & Hmkdir & _)%mktemp_inv. rewrite Hdisk in Hfresh, Hmkdir.
  assert (path_exists input_path (tree (disk w)) = true) as Hex0.
  { unfold validate_pptx_file in Hvalid.
    by destruct (path_exists input_path (tree (disk w))). }
  assert (forall q, ~ temp_dir `prefix_of` q ->
                    kind_at q (tree d2) = kind_at q (tree (disk w))
                    /\ is_dir temp_dir (tree d2) = true) as Hframe.
  { intros q Hq.
    assert (kind_at q (tree d1) = kind_at q (tree (disk w))) as H1.
    { destruct (mkdir_kind _ _ _ q Hmkdir) as [_ ->]. rewrite decide_False; [done|].
      by intros ->. }
    destruct (extract_pptx_outside X temp_dir q (kind_at q (tree (disk w))) Hq input_path
                _ _ _ Hex) as [Hdir2 Hk2]; [by split|]. done. }
  assert (~ temp_dir `prefix_of` input_path) as Hin.
  { apply not_below_absent with (tree (disk w)); [done|].
    unfold path_exists in Hex0. destruct (fs_lookup input_path (tree (disk w))); [|done].
    by eexists. }
  assert (~ temp_dir `prefix_of` output_path) as Hout.
  { intros Hp. apply Hin. rewrite <- Hsame. unfold copy2_target.
    destruct (is_dir output_path (tree (disk w))); [|done].
    etrans; [exact Hp | by eexists]. }
  assert (copy2 input_path output_path d2 = (Raise SameFileError, d2)) as Hcopy.
  { unfold copy2. rewrite !bind_ask.
    assert (copy2_target input_path output_path (tree d2) = input_path) as ->.
    { rewrite <- Hsame at 2. unfold copy2_target.
      by rewrite (kind_at_is_dir_eq output_path (tree (disk w)) (tree d2))
        by (by apply Hframe). }
    rewrite (path_exists_shallow input_path (tree (disk w)) (tree d2))
      by apply (Hframe input_path Hin).
    by rewrite Hex0, bool_decide_eq_true_2. }
  destruct (with_TempDirectory_run X
              (fun temp_dir =>
                 ea <- extract_pptx X input_path temp_dir ;;
                 let '(extract_path, audio_files) := ea in
                 match audio_files with
                 | [] => copy2 input_path output_path ;;; ret 0%Z
                 | _ :: _ =>
                     stats <- normalize_audio_files X audio_files target denoise
                                strength ;;
                     reconstruct_pptx X extract_path output_path ;;; ret 0%Z
                 end)
              (disk w1) temp_dir d1 (Raise SameFileError) d2 Hmk)
    as (t3 & Hrm & Hrun).
  { rewrite (bind_run _ _ _ _ _ Hex). cbv beta iota.
    by rewrite (bind_run_raise _ _ _ _ _ Hcopy). }
  { by apply (Hframe input_path). }
  exists {| disk := {| tree := t3; rand := rand d2 |}; stdin := stdin w1 |}. split.
  - unfold Cli.process_single_pptx.
    unfold bind at 1. unfold on_disk at 1. unfold ask at 1. rewrite Hvalid.
    cbn [negb]. cbv beta iota.
    assert ({| disk := disk w; stdin := stdin w |} = w) as -> by (by destruct w).
    rewrite (bind_run _ _ _ _ _ Hgo). cbn [negb].
    apply on_disk_run. unfold Cli.tune_container, catch. by rewrite Hrun.
  - intros q. cbn [disk tree]. rewrite (rmtree_kind _ _ _ q Hrm).
    destruct (decide (temp_dir `prefix_of` q)) as [Hp|Hp].
    + symmetry. by apply kind_below_absent with temp_dir.
    + by apply Hframe.
Qed.

Lemma no_audio_in_place_fails_cleanly_witness :
  exists w',
    Cli.process_single_pptx Demo.externals ["in"; "plain.pptx"] ["in"; "plain.pptx"]
      (-16)%float true false 0.5%float Demo.world0 = (Ok 1%Z, w')
    /\ kind_at ["in"; "plain.pptx"] (tree (disk w')) = Some (File [x50; x4b; x02])
    /\ kind_at ["tmp"; "pptx_normalizer_a"] (tree (disk w')) = None.
Proof.
  pose (d1 := snd (mkdtemp Demo.externals "pptx_normalizer_" Demo.disk0)).
  pose (d2 := snd (extract_pptx Demo.externals ["in"; "plain.pptx"] Demo.scratch d1)).
  destruct (no_audio_in_place_fails_cleanly Demo.externals ["in"; "plain.pptx"]
              ["in"; "plain.pptx"] (-16)%float true false 0.5%float
              Demo.world0 Demo.world0 Demo.scratch Demo.contents d1 d2
              eq_refl eq_refl eq_refl eq_refl eq_refl) as (w' & Hrun & Hsame).
  exists w'. split; [exact Hrun|]. split; rewrite Hsame; reflexivity.
Defined.

(** X15.  A video job that succeeds remuxes the original video with the
    normalised audio.  When validation, extraction and normalisation
    succeed, ffmpeg answers the remux, and the output path is not the
    input, is not a directory, and lies in an existing directory outside
    the scratch directory, then the audio extracted into the scratch
    directory is ffmpeg's answer on the input with
    [-vn -acodec pcm_s16le -ar 48000 -ac 2], and the output holds
    ffmpeg's answer on the input video and the normalised WAV, in this
    order, with the video stream copied ([-c:v copy]), the audio encoded
    as AAC at 192k, and streams mapped [0:v:0] and [1:a:0]; the job
    returns [0] and the input is as it was. *)
Theorem video_job_remuxes_normalized_audio :
  forall (X : Externals) (input_path output_path : Path) (target : float)
         (force denoise : bool) (strength : float)
         (w w1 : World) (temp_dir : Path) (d1 d2 d3 : Disk)
         (v wav' out : bytes) (stats : AudioNormalizationStats),
    let temp_audio := joinpath temp_dir "extracted_audio.wav" in
    validate_video_file X input_path (tree (disk w)) = true ->
    read_file input_path (tree (disk w)) = Some v ->
    may_write output_path force w = (Ok true, w1) ->
    mkdtemp X "pptx_normalizer_" (disk w1) = (Ok temp_dir, d1) ->
    extract_audio_from_video X input_path temp_audio d1 = (Ok tt, d2) ->
    normalize_audio_file X temp_audio target denoise strength d2 = (Ok (Some stats), d3) ->
    read_file temp_audio (tree d3) = Some wav' ->
    ffmpeg X ["ffmpeg"; "-i"; "-i"; "-c:v"; "copy"; "-c:a"; "aac"; "-b:a"; "192k";
              "-map"; "0:v:0"; "-map"; "1:a:0"; "-shortest"; "-y"] [v; wav'] = Some out ->
    is_dir (parent output_path) (tree (disk w)) = true ->
    is_dir output_path (tree (disk w)) = false ->
    ~ temp_dir `prefix_of` output_path ->
    output_path <> input_path ->
    exists w',
      VideoCli.process_single_video X input_path output_path target force denoise
        strength w = (Ok 0%Z, w')
      /\ read_file output_path (tree (disk w')) = Some out
      /\ read_file input_path (tree (disk w')) = Some v
      /\ ffmpeg X ["ffmpeg"; "-i"; "-vn"; "-acodec"; "pcm_s16le"; "-ar"; "48000";
                   "-ac"; "2"; "-y"] [v]
         = read_file temp_audio (tree d2).
Proof.
  intros X input_path output_path target force denoise strength w w1 temp_dir d1 d2 d3
         v wav' out stats temp_audio Hvalid Hread Hgo Hmk Hext Hnorm Hwav Hff
         Hup Hnodir Hout Hne.
  pose proof (may_write_disk _ _ _ _ _ Hgo) as Hdisk.
  destruct (mkdtemp_is_dir _ _ _ _ _ Hmk) as (Hdir1 & Htemp & Hfresh).
  pose proof Hmk as (_ & Hmkdir & _)%mktemp_inv. rewrite Hdisk in Hfresh, Hmkdir.
  assert (forall q, q <> temp_dir -> kind_at q (tree d1) = kind_at q (tree (disk w))) as H01.
  { intros q Hq. destruct (mkdir_kind _ _ _ q Hmkdir) as [_ ->]. by rewrite decide_False. }
  assert (~ temp_dir `prefix_of` input_path) as Hin.
  { apply not_below_absent with (tree (disk w)); [done|].
    apply read_file_lookup in Hread. by eexists. }
  assert (read_file input_path (tree d1) = Some v) as Hread1.
  { rewrite <- Hread. apply kind_at_read, H01. by intros ->. }
  (* the extraction *)
  unfold extract_audio_from_video in Hext. rewrite bind_ask in Hext.
  destruct (negb (_has_audio_stream X input_path (tree d1))); [done|].
  rewrite (run_ffmpeg_one X (extract_audio_cmd input_path temp_audio) input_path temp_audio d1 v eq_refl eq_refl Hread1) in Hext.
  change (cmd_options (extract_audio_cmd input_path temp_audio))
    with ["ffmpeg"; "-i"; "-vn"; "-acodec"; "pcm_s16le"; "-ar"; "48000"; "-ac"; "2"; "-y"]
    in Hext.
  destruct (ffmpeg X _ [v]) as [wav|] eqn:Ewav; [|done].
  unfold change in Hext.
  destruct (write_file temp_audio wav (tree d1)) as [t2|] eqn:Ew2; [|done].
  injection Hext as <-. cbn [tree] in *.
  (* what is outside the scratch directory *)
  destruct (normalize_audio_file_frame _ _ _ _ _ _ _ _ Hnorm) as [_ [H23 _]].
  cbn [tree] in H23.
  assert (forall q, ~ temp_dir `prefix_of` q ->
                    kind_at q (tree d3) = kind_at q (tree (disk w))) as H03.
  { intros q Hq. assert (q <> temp_audio) as Hqa.
    { intros ->. apply Hq. by eexists. }
    rewrite H23 by (by intros ->%list_elem_of_singleton).
    rewrite (write_file_kind _ _ _ _ q Ew2), decide_False by done.
    apply H01. by intros ->. }
  assert (read_file input_path (tree d3) = Some v) as Hread3.
  { rewrite <- Hread. by apply kind_at_read, H03. }
  (* the remux *)
  assert (output_path <> []) as Hone.
  { intros E. rewrite E in Hup, Hnodir. simpl in Hup. congruence. }
  destruct (exists_last Hone) as (up & c & Eout).
  assert (forall q, q `prefix_of` output_path -> ~ temp_dir `prefix_of` q) as Hpre.
  { intros q Hqo Htq. apply Hout. by etrans. }
  destruct (write_file_ok up c out (tree d3)) as [t4 Ht4].
  { rewrite Eout, parent_snoc in Hup. rewrite <- Hup.
    apply kind_at_is_dir_eq, H03, Hpre. rewrite Eout. by eexists. }
  { rewrite <- Eout, <- Hnodir. by apply kind_at_is_dir_eq, H03. }
  rewrite <- Eout in Ht4.
  assert (replace_audio_in_video X input_path temp_audio output_path d3
          = (Ok tt, {| tree := t4; rand := rand d3 |})) as Hrep.
  { unfold replace_audio_in_video, run_ffmpeg. rewrite bind_ask.
    change (cmd_inputs (replace_audio_cmd input_path temp_audio output_path))
      with [input_path; temp_audio].
    change (cmd_output (replace_audio_cmd input_path temp_audio output_path))
      with (Some output_path).
    change (cmd_options (replace_audio_cmd input_path temp_audio output_path))
      with ["ffmpeg"; "-i"; "-i"; "-c:v"; "copy"; "-c:a"; "aac"; "-b:a"; "192k";
            "-map"; "0:v:0"; "-map"; "1:a:0"; "-shortest"; "-y"].
    cbn [read_all]. rewrite Hread3, Hwav, Hff. by apply change_run. }
  assert (is_dir temp_dir t4 = true) as Hdir4.
  { eapply write_file_keeps_dir; [exact Ht4|].
    eapply normalize_audio_file_keeps; [exact Hnorm|]. cbn [tree].
    by eapply write_file_keeps_dir. }
  destruct (with_TempDirectory_run X
              (fun temp_dir =>
                 let temp_audio := joinpath temp_dir "extracted_audio.wav" in
                 extract_audio_from_video X input_path temp_audio ;;;
                 stats <- normalize_audio_file X temp_audio target denoise strength ;;
                 match stats with
                 | None => ret 1%Z
                 | Some _ =>
                     replace_audio_in_video X input_path temp_audio output_path ;;;
                     ret 0%Z
                 end)
              (disk w1) temp_dir d1 (Ok 0%Z) {| tree := t4; rand := rand d3 |} Hmk)
    as (t5 & Hrm & Hrun); [|done|].
  { cbv zeta. fold temp_audio.
    assert (extract_audio_from_video X input_path temp_audio d1
            = (Ok tt, {| tree := t2; rand := rand d1 |})) as Hext'.
    { unfold extract_audio_from_video. rewrite bind_ask.
      destruct (negb (_has_audio_stream X input_path (tree d1))) eqn:Eh.
      - exfalso. unfold validate_video_file in Hvalid.
        assert (_has_audio_stream X input_path (tree (disk w)) = true) as Ha.
        { repeat (destruct (negb _) eqn:? in Hvalid; [done|]).
          by apply negb_false_iff. }
        apply negb_true_iff in Eh. unfold _has_audio_stream, get_video_info in *.
        rewrite Hread in Ha. rewrite Hread1 in Eh. congruence.
      - rewrite (run_ffmpeg_one X (extract_audio_cmd input_path temp_audio) input_path temp_audio d1 v eq_refl eq_refl Hread1).
        change (cmd_options (extract_audio_cmd input_path temp_audio))
          with ["ffmpeg"; "-i"; "-vn"; "-acodec"; "pcm_s16le"; "-ar"; "48000";
                "-ac"; "2"; "-y"].
        rewrite Ewav. by apply change_run. }
    rewrite (bind_run _ _ _ _ _ Hext'), (bind_run _ _ _ _ _ Hnorm).
    by rewrite (bind_run _ _ _ _ _ Hrep). }
  cbn [tree] in Hrm.
  exists {| disk := {| tree := t5; rand := rand d3 |}; stdin := stdin w1 |}.
  cbn [disk tree]. split_and!.
  - unfold VideoCli.process_single_video.
    unfold bind at 1. unfold on_disk at 1. unfold ask at 1. rewrite Hvalid.
    cbn [negb]. cbv beta iota.
    assert ({| disk := disk w; stdin := stdin w |} = w) as -> by (by destruct w).
    rewrite (bind_run _ _ _ _ _ Hgo). cbn [negb].
    apply on_disk_run. unfold VideoCli.process_video_body, catch.
    cbv zeta in Hrun. by rewrite Hrun.
  - rewrite (alter_at_read_other _ _ _ _ _ Hrm Hout). by eapply write_file_read_same.
  - rewrite (alter_at_read_other _ _ _ _ _ Hrm Hin).
    by rewrite (write_file_read_other _ _ _ _ _ Ht4).
  - symmetry. by eapply write_file_read_same.
Qed.

Lemma video_job_remuxes_normalized_audio_witness :
  exists w',
    VideoCli.process_single_video Demo.externals ["in"; "clip.mp4"] ["out"; "clip.mp4"]
      (-16)%float false false 0.5%float Demo.world0 = (Ok 0%Z, w')
    /\ read_file ["out"; "clip.mp4"] (tree (disk w'))
       = Some ([x01; x02; x03; x04; x05; x06] ++ repeat x2a 6)
    /\ read_file ["in"; "clip.mp4"] (tree (disk w')) = Some [x01; x02; x03; x04; x05; x06].
Proof.
  pose (temp_audio := Demo.scratch ++ ["extracted_audio.wav"]).
  pose (d1 := snd (mkdtemp Demo.externals "pptx_normalizer_" Demo.disk0)).
  pose (d2 := snd (extract_audio_from_video Demo.externals ["in"; "clip.mp4"]
                     temp_audio d1)).
  pose (run := normalize_audio_file Demo.externals temp_audio (-16)%float false
                 0.5%float d2).
  pose (stats := match fst run with
                 | Ok (Some s) => s
                 | _ => {| filename := ""; original_lufs := 0; target_lufs := 0;
                           gain_db := 0; duration := 0 |}
                 end).
  destruct (video_job_remuxes_normalized_audio Demo.externals ["in"; "clip.mp4"]
              ["out"; "clip.mp4"] (-16)%float false false 0.5%float
              Demo.world0 Demo.world0 Demo.scratch d1 d2 (snd run)
              [x01; x02; x03; x04; x05; x06] (repeat x2a 6)
              ([x01; x02; x03; x04; x05; x06] ++ repeat x2a 6) stats
              eq_refl eq_refl eq_refl eq_refl eq_refl eq_refl eq_refl eq_refl
              eq_refl eq_refl)
    as (w' & Hrun & Hout & Hin & _).
  - intros [k Hk]. discriminate Hk.
  - discriminate.
  - exists w'. split; [exact Hrun|]. split; [exact Hout | exact Hin].
Defined.
(** X16.  What [get_video_info] reports.  When the probe returns, the
    file could be read and ffprobe answered with a list of streams;
    [has_audio] and [has_video] say whether that list holds a stream
    whose [codec_type] is ["audio"], respectively ["video"], and
    [audio_codec] and [video_codec] are the [codec_name] of the LAST
    such stream (the loop overwrites them), [None] when there is none. *)
Theorem get_video_info_reports_last_streams :
  forall (X : Externals) (video_path : Path) (t : node) (info : video_info),
    get_video_info X video_path t = Ok info ->
    exists b streams,
      read_file video_path t = Some b
      /\ ffprobe X b = Some streams
      /\ has_audio info = existsb (is_stream "audio") streams
      /\ has_video info = existsb (is_stream "video") streams
      /\ audio_codec info = last_codec "audio" streams None
      /\ video_codec info = last_codec "video" streams None.
Proof. intros X video_path t info H. by apply get_video_info_inv. Qed.

Lemma get_video_info_reports_last_streams_witness :
  exists info b streams,
    get_video_info Demo.externals ["in"; "clip.mp4"] Demo.root = Ok info
    /\ read_file ["in"; "clip.mp4"] Demo.root = Some b
    /\ ffprobe Demo.externals b = Some streams
    /\ has_audio info = existsb (is_stream "audio") streams
    /\ has_video info = existsb (is_stream "video") streams
    /\ audio_codec info = last_codec "audio" streams None
    /\ video_codec info = last_codec "video" streams None.
Proof.
  eexists.
  destruct (get_video_info_reports_last_streams Demo.externals ["in"; "clip.mp4"]
              Demo.root _ eq_refl) as (b & streams & H).
  exists b, streams. split; [reflexivity|exact H].
Defined.

(** X17.  Which files [validate_video_file] accepts.  A path is a valid
    video exactly when it is a regular file whose suffix is [.mp4] in any
    letter case, ffprobe answers on its contents, every duration of an
    audio or video stream of the answer is empty or a number, and the
    answer holds at least one video and at least one audio stream.  In
    particular a file that ffprobe cannot read, or one with a malformed
    duration, is reported as having no video stream: the helpers turn
    every exception of the probe into [False]. *)
Theorem validate_video_file_accepts_iff :
  forall (X : Externals) (file_path : Path) (t : node),
    validate_video_file X file_path t = true
    <-> lower (suffix file_path) = ".mp4"
        /\ exists b streams,
             read_file file_path t = Some b
             /\ ffprobe X b = Some streams
             /\ forallb (duration_parses X) streams = true
             /\ existsb (is_stream "video") streams = true
             /\ existsb (is_stream "audio") streams = true.
Proof.
  intros X file_path t. unfold validate_video_file, _has_video_stream, _has_audio_stream.
  split.
  - destruct (path_exists file_path t); [|done]. cbn [negb].
    destruct (is_file file_path t); [|done]. cbn [negb].
    destruct (String.eqb (lower (suffix file_path)) ".mp4") eqn:Es; [|done]. cbn [negb].
    apply String.eqb_eq in Es.
    destruct (get_video_info X file_path t) as [info|e] eqn:Ei; [|done].
    destruct (get_video_info_inv _ _ _ _ Ei) as (b & streams & Hr & Hp & Ha & Hv & _).
    destruct (has_video info) eqn:Ev; [|done]. cbn [negb].
    destruct (has_audio info) eqn:Ea; [|done]. intros _.
    split; [done|]. exists b, streams.
    split; [done|]. split; [done|]. split; [by eapply get_video_info_parsed|].
    by split.
  - intros (Hs & b & streams & Hr & Hp & Hd & Hv & Ha).
    assert (fs_lookup file_path t = Some (File b)) as Hl.
    { unfold read_file in Hr. by destruct (fs_lookup file_path t) as [[|]|]; simplify_eq. }
    unfold path_exists, is_file. rewrite Hl. cbn [negb].
    rewrite Hs, String.eqb_refl. cbn [negb].
    destruct (get_video_info_ok _ _ _ _ _ Hr Hp Hd) as [info Ei]. rewrite Ei.
    destruct (get_video_info_inv _ _ _ _ Ei) as (b' & streams' & Hr' & Hp' & Ha' & Hv' & _).
    rewrite Hr in Hr'. injection Hr' as <-. rewrite Hp in Hp'. injection Hp' as <-.
    by rewrite Hv', Hv, Ha', Ha.
Qed.
(** X18.  Extraction cannot leave the scratch directory.  Whatever the
    archive holds (member names with [..] components, absolute names,
    empty components), and whether extraction succeeds or raises,
    [extract_pptx] changes nothing outside the directory it is given:
    every path that is not that directory or below it holds the same
    before and after. *)
Theorem extract_pptx_stays_in_scratch :
  forall (X : Externals) (pptx_path temp_dir q : Path) (d d' : Disk)
         (r : result (Path * list Path)),
    is_dir temp_dir (tree d) = true ->
    ~ temp_dir `prefix_of` q ->
    extract_pptx X pptx_path temp_dir d = (r, d') ->
    kind_at q (tree d') = kind_at q (tree d).
Proof.
  intros X pptx_path temp_dir q d d' r Hdir Hq H.
  by destruct (extract_pptx_outside X temp_dir q (kind_at q (tree d)) Hq pptx_path
                 _ _ _ H (conj Hdir eq_refl)).
Qed.

Lemma extract_pptx_stays_in_scratch_witness :
  let ex := extract_pptx Demo.externals_hostile ["in"; "talk.pptx"] ["tmp"] Demo.disk0 in
  kind_at ["in"; "talk.pptx"] (tree (snd ex)) = Some (File [x50; x4b; x01])
  /\ kind_at ["tmp"; "pptx_contents"; "in"; "talk.pptx"] (tree (snd ex)) = Some (File [xff])
  /\ kind_at ["out"; "x"] (tree (snd ex)) = None
  /\ kind_at ["tmp"; "pptx_contents"; "out"; "x"] (tree (snd ex)) = Some (File [xfe]).
Proof.
  intros ex. split; [|by vm_compute].
  rewrite (extract_pptx_stays_in_scratch Demo.externals_hostile ["in"; "talk.pptx"] ["tmp"]
             ["in"; "talk.pptx"] Demo.disk0 (snd ex) (fst ex)).
  - reflexivity.
  - reflexivity.
  - intros [k Hk]. discriminate Hk.
  - subst ex. by destruct (extract_pptx _ _ _ _).
Defined.
(** X19.  What a [with TempDirectory()] block does.  If the directory
    cannot be created the body does not run.  Otherwise the body runs on
    a fresh, empty directory, and then: if the directory is still a
    directory, the block ends as the body did, value or exception, and
    the directory is gone with everything below it, while every other
    path holds what the body left there; if nothing is at that path any
    more, the block ends as the body did and changes nothing further; if
    the body replaced the directory by a regular file, the removal
    fails and its [OSError] replaces the outcome of the body. *)
Theorem TempDirectory_removes_the_directory :
  forall (A : Type) (X : Externals) (body : Path -> M A) (d d' : Disk) (r : result A),
    with_TempDirectory X body d = (r, d') ->
    (exists e, mkdtemp X "pptx_normalizer_" d = (Raise e, d') /\ r = Raise e)
    \/ exists temp_dir d1 rb d2,
         mkdtemp X "pptx_normalizer_" d = (Ok temp_dir, d1)
         /\ fs_lookup temp_dir (tree d) = None
         /\ fs_lookup temp_dir (tree d1) = Some (Dir [])
         /\ body temp_dir d1 = (rb, d2)
         /\ ((is_dir temp_dir (tree d2) = true /\ r = rb
              /\ forall q, kind_at q (tree d')
                           = if decide (temp_dir `prefix_of` q) then None
                             else kind_at q (tree d2))
             \/ (path_exists temp_dir (tree d2) = false /\ r = rb /\ d' = d2)
             \/ (is_file temp_dir (tree d2) = true /\ r = Raise OSError /\ d' = d2)).
Proof.
  intros A X body d d' r H. unfold with_TempDirectory in H. unfold bind at 1 in H.
  destruct (mkdtemp X "pptx_normalizer_" d) as [[temp_dir|e] d1] eqn:Emk.
  2:{ left. exists e. by injection H as <- <-. }
  right. destruct (mkdtemp_is_dir _ _ _ _ _ Emk) as (Hdir1 & Hne & Hfresh).
  unfold finally in H. destruct (body temp_dir d1) as [rb d2] eqn:Eb.
  exists temp_dir, d1, rb, d2. split; [done|]. split; [done|]. split.
  { apply mktemp_inv in Emk as (_ & Hmk & _). apply alter_at_lookup_same in Hmk.
    rewrite Hfresh in Hmk. by injection Hmk as <-. }
  split; [done|]. rewrite bind_ask in H.
  destruct (path_exists temp_dir (tree d2)) eqn:Eex.
  - destruct (is_dir temp_dir (tree d2)) eqn:Edir.
    + left. destruct (rmtree_dir _ _ Edir Hne) as [t3 Ht3].
      rewrite (change_run OSError _ d2 t3 Ht3) in H. injection H as <- <-.
      split; [done|]. split; [done|]. intros q. cbn [tree]. by apply rmtree_kind.
    + right. right. rewrite (change_fail OSError _ d2 (rmtree_not_dir _ _ Edir)) in H.
      injection H as <- <-. split; [|done].
      unfold path_exists in Eex. unfold is_dir in Edir. unfold is_file.
      by destruct (fs_lookup temp_dir (tree d2)) as [[b|es]|].
  - right. left. unfold ret in H. by injection H as <- <-.
Qed.

Lemma TempDirectory_removes_the_directory_witness :
  let body := fun temp_dir : Path =>
                change OSError (write_file (joinpath temp_dir "f") [x01]) ;;;
                @raise Disk Z ValueError in
  let run := with_TempDirectory Demo.externals body Demo.disk0 in
  run = (fst run, snd run)
  /\ ((exists e, mkdtemp Demo.externals "pptx_normalizer_" Demo.disk0 = (Raise e, snd run)
                /\ fst run = Raise e)
      \/ exists temp_dir d1 rb d2,
           mkdtemp Demo.externals "pptx_normalizer_" Demo.disk0 = (Ok temp_dir, d1)
           /\ fs_lookup temp_dir (tree Demo.disk0) = None
           /\ fs_lookup temp_dir (tree d1) = Some (Dir [])
           /\ body temp_dir d1 = (rb, d2)
           /\ ((is_dir temp_dir (tree d2) = true /\ fst run = rb
                /\ forall q, kind_at q (tree (snd run))
                             = if decide (temp_dir `prefix_of` q) then None
                               else kind_at q (tree d2))
               \/ (path_exists temp_dir (tree d2) = false /\ fst run = rb /\ snd run = d2)
               \/ (is_file temp_dir (tree d2) = true /\ fst run = Raise OSError
                   /\ snd run = d2)))
  /\ fst run = Raise ValueError
  /\ tree (snd run) = Demo.root.
Proof.
  intros body run.
  assert (run = (fst run, snd run)) as Hrun by by destruct run.
  split; [exact Hrun|]. split; [|by vm_compute].
  exact (TempDirectory_removes_the_directory Z Demo.externals body Demo.disk0 (snd run)
           (fst run) Hrun).
Defined.
(** X20.  How [main] ends.  From the parsed command line on, and
    leaving aside an interrupt from the keyboard, which is no
    [Exception] and which [main] answers with [130], [main] of either
    program returns [0] or [1], with one exception: the ffmpeg probe is
    made before the [try] block, so an exception of
    [subprocess.run(['ffmpeg', '-version'])] other than
    [FileNotFoundError] and [TimeoutExpired] leaves [main], with nothing
    touched.  A target that compares below [-70] or above [0], a denoise
    strength that compares below [0] or above [1], a probe that answers
    that ffmpeg is missing, or an inconsistent choice of single-file and
    batch options, gives [1] before the disk or the console is
    touched. *)
Theorem main_returns_zero_or_one_or_the_probe_raises :
  forall (X : Externals) (args : Args) (w : World),
    (forall r w',
        Cli.main X args w = (r, w') \/ VideoCli.main X args w = (r, w') ->
        (exists code, r = Ok code /\ (code = 0%Z \/ code = 1%Z))
        \/ (exists e, r = Raise e /\ w' = w
                      /\ ffmpeg_version X = Raise e
                      /\ e <> FileNotFoundError /\ e <> TimeoutExpired))
    /\ (PrimFloat.ltb (arg_target_lufs args) (-70)%float = true
        \/ PrimFloat.ltb 0%float (arg_target_lufs args) = true
        \/ PrimFloat.ltb (arg_denoise_strength args) 0%float = true
        \/ PrimFloat.ltb 1%float (arg_denoise_strength args) = true
        \/ check_ffmpeg_installed X = Ok false
        \/ (arg_input_dir args <> None /\ arg_output_dir args = None)
        \/ (arg_input_dir args = None
            /\ (arg_output args = None \/ arg_output_dir args <> None)) ->
        Cli.main X args w = (Ok 1%Z, w) /\ VideoCli.main X args w = (Ok 1%Z, w)).
Proof.
  intros X args w. split.
  - intros r w' H.
    assert (forall inner : IO Z,
               (forall a w1, inner w = (Ok a, w1) -> a = 0%Z \/ a = 1%Z) ->
               match check_options X args with
               | Raise e => raise e
               | Ok (Some code) => ret code
               | Ok None => catch inner (fun _ => ret 1%Z)
               end w = (r, w') ->
               (exists code, r = Ok code /\ (code = 0%Z \/ code = 1%Z))
               \/ (exists e, r = Raise e /\ w' = w
                             /\ ffmpeg_version X = Raise e
                             /\ e <> FileNotFoundError /\ e <> TimeoutExpired)) as Hmain.
    { intros inner Hinner Hrun.
      destruct (check_options X args) as [[code|]|e] eqn:E.
      - left. injection Hrun as <- _. exists code. split; [done|]. right.
        by eapply check_options_one.
      - left. by eapply catch_status.
      - right. injection Hrun as <- <-. exists e. split; [done|]. split; [done|].
        by eapply check_options_raise. }
    destruct H as [H | H].
    + refine (Hmain _ _ H). intros a w1.
      destruct (arg_input_dir args) as [input_dir|].
      * destruct (arg_output_dir args) as [output_dir|].
        -- apply batch_exit_status.
        -- intros [= <- _]. by right.
      * destruct (arg_input args) as [input_path|]; [|done].
        destruct (arg_output args) as [output_path|]; [|done].
        intros H1. eapply job_status; [exact H1|]. intros w0 a0 w0' H0. left.
        by apply (on_disk_status (fun a => a = 0%Z) _ _ _ _
                    (tune_container_status _ _ _ _ _ _) H0).
    + refine (Hmain _ _ H). intros a w1.
      destruct (arg_input_dir args) as [input_dir|].
      * destruct (arg_output_dir args) as [output_dir|].
        -- apply batch_exit_status.
        -- intros [= <- _]. by right.
      * destruct (arg_input args) as [input_path|]; [|done].
        destruct (arg_output args) as [output_path|]; [|done].
        apply video_job_status.
  - intros H%(check_options_rejects X). unfold Cli.main, VideoCli.main. by rewrite H.
Qed.

Lemma main_returns_zero_or_one_or_the_probe_raises_witness :
  let args target :=
    {| arg_input := Some ["in"; "talk.pptx"]; arg_input_dir := None;
       arg_output := Some ["out"; "talk.pptx"]; arg_output_dir := None;
       arg_target_lufs := target; arg_denoise := false;
       arg_denoise_strength := 0.5%float; arg_verbose := false;
       arg_force := false |} in
  (Cli.main Demo.externals (args 3%float) Demo.world0 = (Ok 1%Z, Demo.world0)
   /\ VideoCli.main Demo.externals (args 3%float) Demo.world0 = (Ok 1%Z, Demo.world0))
  /\ ((exists code,
         fst (Cli.main Demo.externals (args (-16)%float) Demo.world0) = Ok code
         /\ (code = 0%Z \/ code = 1%Z))
      \/ (exists e,
            fst (Cli.main Demo.externals (args (-16)%float) Demo.world0) = Raise e
            /\ snd (Cli.main Demo.externals (args (-16)%float) Demo.world0) = Demo.world0
            /\ ffmpeg_version Demo.externals = Raise e
            /\ e <> FileNotFoundError /\ e <> TimeoutExpired))
  /\ Cli.main Demo.externals_blocked (args (-16)%float) Demo.world0
     = (Raise OSError, Demo.world0).
Proof.
  intros args. split; [|split].
  - apply (main_returns_zero_or_one_or_the_probe_raises Demo.externals (args 3%float)
             Demo.world0).
    right. left. reflexivity.
  - apply (main_returns_zero_or_one_or_the_probe_raises Demo.externals
             (args (-16)%float) Demo.world0).
    left. by destruct (Cli.main Demo.externals (args (-16)%float) Demo.world0).
  - reflexivity.
Defined.
(** X21.  No run removes a directory.  Whatever a single job or a batch
    of either program does, and however it ends, every directory that
    exists before the run is still a directory after it: the only
    directory ever removed is the scratch directory the run made
    itself. *)
Theorem no_run_removes_a_directory :
  forall (X : Externals) (input output : Path) (target : float)
         (force denoise : bool) (strength : float) (p : Path) (w : World),
    is_dir p (tree (disk w)) = true ->
    is_dir p (tree (disk (snd (Cli.process_single_pptx X input output target force
                                 denoise strength w)))) = true
    /\ is_dir p (tree (disk (snd (VideoCli.process_single_video X input output target
                                    force denoise strength w)))) = true
    /\ is_dir p (tree (disk (snd (Cli.process_batch_directory X input output target
                                    force denoise strength w)))) = true
    /\ is_dir p (tree (disk (snd (VideoCli.process_batch_directory X input output target
                                    force denoise strength w)))) = true.
Proof.
  intros X input output target force denoise strength p w Hp.
  split; [|split; [|split]].
  - destruct (Cli.process_single_pptx _ _ _ _ _ _ _ w) as [r w'] eqn:E.
    by eapply pptx_job_keeps_dir.
  - destruct (VideoCli.process_single_video _ _ _ _ _ _ _ w) as [r w'] eqn:E.
    by eapply video_job_keeps_dir.
  - destruct (Cli.process_batch_directory _ _ _ _ _ _ _ w) as [r w'] eqn:E.
    refine (batch_keeps_dir _ _ _ _ p _ _ _ E _ Hp).
    intros f o w0 r0 w0'. apply pptx_job_keeps_dir.
  - destruct (VideoCli.process_batch_directory _ _ _ _ _ _ _ w) as [r w'] eqn:E.
    refine (batch_keeps_dir _ _ _ _ p _ _ _ E _ Hp).
    intros f o w0 r0 w0'. apply video_job_keeps_dir.
Qed.

Lemma no_run_removes_a_directory_witness :
  is_dir ["tmp"] (tree (disk (snd (Cli.process_single_pptx Demo.externals
            ["in"; "talk.pptx"] ["tmp"] (-16)%float true false 0.5%float
            Demo.world0)))) = true
  /\ is_dir ["tmp"] (tree (disk (snd (VideoCli.process_single_video Demo.externals
               ["in"; "talk.pptx"] ["tmp"] (-16)%float true false 0.5%float
               Demo.world0)))) = true
  /\ is_dir ["tmp"] (tree (disk (snd (Cli.process_batch_directory Demo.externals
               ["in"; "talk.pptx"] ["tmp"] (-16)%float true false 0.5%float
               Demo.world0)))) = true
  /\ is_dir ["tmp"] (tree (disk (snd (VideoCli.process_batch_directory Demo.externals
               ["in"; "talk.pptx"] ["tmp"] (-16)%float true false 0.5%float
               Demo.world0)))) = true.
Proof.
  apply (no_run_removes_a_directory Demo.externals ["in"; "talk.pptx"] ["tmp"]
           (-16)%float true false 0.5%float ["tmp"] Demo.world0).
  reflexivity.
Defined.

(** X22.  A batch with nothing to do, and the output directory.  When
    the input path is not a directory both batch functions return [1];
    when it is a directory without a regular file of the wanted suffix
    directly in it they return [0]; in both cases nothing is changed,
    and the output directory is not created.  When there is such a file,
    either the output directory cannot be created, and then the error
    leaves the function with nothing changed, or the output directory
    exists when the batch ends. *)
Theorem batch_without_work_changes_nothing :
  forall (X : Externals) (input_dir output_dir : Path) (target : float)
         (force denoise : bool) (strength : float) (w : World),
    let t := tree (disk w) in
    let pptx := Cli.process_batch_directory X input_dir output_dir target force denoise
                  strength in
    let video := VideoCli.process_batch_directory X input_dir output_dir target force
                   denoise strength in
    let wanted ext := exists c, is_file (joinpath input_dir c) t = true
                                /\ lower (suffix (joinpath input_dir c)) = ext in
    (is_dir input_dir t = false -> pptx w = (Ok 1%Z, w) /\ video w = (Ok 1%Z, w))
    /\ (is_dir input_dir t = true ->
        (~ wanted ".pptx" -> pptx w = (Ok 0%Z, w))
        /\ (~ wanted ".mp4" -> video w = (Ok 0%Z, w))
        /\ (wanted ".pptx" ->
            (makedirs output_dir t = None /\ pptx w = (Raise OSError, w))
            \/ is_dir output_dir (tree (disk (snd (pptx w)))) = true)
        /\ (wanted ".mp4" ->
            (makedirs output_dir t = None /\ video w = (Raise OSError, w))
            \/ is_dir output_dir (tree (disk (snd (video w)))) = true)).
Proof.
  intros X input_dir output_dir target force denoise strength w t pptx video wanted.
  assert (forall ext (find : Path -> node -> list Path),
            (forall p, p ∈ find input_dir t
                       <-> exists c, p = joinpath input_dir c /\ is_file p t = true
                                     /\ lower (suffix p) = ext) ->
            (find input_dir t = [] <-> ~ wanted ext)) as Hfind.
  { intros ext find Hspec. split.
    - intros Hnil (c & Hf & Hs).
      assert (joinpath input_dir c ∈ find input_dir t) as Hin by (apply Hspec; eauto).
      rewrite Hnil in Hin. by apply elem_of_nil in Hin.
    - intros Hno. destruct (find input_dir t) as [|p l] eqn:E; [done|]. destruct Hno.
      assert (p ∈ p :: l) as Hin by by left.
      apply Hspec in Hin as (c & -> & Hf & Hs). by exists c. }
  destruct (pptx w) as [rp wp] eqn:Ep. destruct (video w) as [rv wv] eqn:Ev.
  pose proof (batch_cases _ _ _ _ _ _ _ Ep) as Cp.
  pose proof (batch_cases _ _ _ _ _ _ _ Ev) as Cv.
  fold t in Cp, Cv. cbn [snd].
  split.
  - intros Hno. rewrite Hno in Cp, Cv.
    destruct Cp as [(_ & -> & ->) | ([=] & _)]. by destruct Cv as [(_ & -> & ->) | ([=] & _)].
  - intros Hdir. rewrite Hdir in Cp, Cv.
    destruct Cp as [([=] & _) | (_ & Cp)]. destruct Cv as [([=] & _) | (_ & Cv)].
    destruct (iterdir_is_dir _ _ Hdir) as [children Hit].
    assert (find_pptx_files input_dir t = [] <-> ~ wanted ".pptx") as Hp.
    { apply Hfind. intros p. rewrite (find_pptx_files_scan _ _ _ Hit), (scan_spec _ _ _ _ _ Hit).
      by setoid_rewrite list_elem_of_singleton. }
    assert (find_video_files input_dir t = [] <-> ~ wanted ".mp4") as Hv.
    { apply Hfind. intros p. rewrite (find_video_files_scan _ _ _ Hit), (scan_spec _ _ _ _ _ Hit).
      by setoid_rewrite list_elem_of_singleton. }
    assert (is_dir [] t = true) as Hroot by by eapply is_dir_root.
    split; [|split; [|split]].
    + intros Hno%Hp. by destruct Cp as [(_ & -> & ->) | (Hne & _)].
    + intros Hno%Hv. by destruct Cv as [(_ & -> & ->) | (Hne & _)].
    + intros Hw. destruct Cp as [(Hnil%Hp & _) | (_ & Cp)]; [done|].
      destruct Cp as [(Hmk & -> & ->) | (t1 & rc & Hmk & Hloop & _)]; [by left|]. right.
      refine (batch_loop_keeps_dir _ _ _ output_dir _ _ _ _ _ Hloop _ _).
      * intros f o w0 r0 w0'. apply pptx_job_keeps_dir.
      * cbn [disk tree]. by eapply makedirs_is_dir.
    + intros Hw. destruct Cv as [(Hnil%Hv & _) | (_ & Cv)]; [done|].
      destruct Cv as [(Hmk & -> & ->) | (t1 & rc & Hmk & Hloop & _)]; [by left|]. right.
      refine (batch_loop_keeps_dir _ _ _ output_dir _ _ _ _ _ Hloop _ _).
      * intros f o w0 r0 w0'. apply video_job_keeps_dir.
      * cbn [disk tree]. by eapply makedirs_is_dir.
Qed.

Lemma batch_without_work_changes_nothing_witness :
  Cli.process_batch_directory Demo.externals ["out"] ["new"] (-16)%float true false
    0.5%float Demo.world0 = (Ok 0%Z, Demo.world0)
  /\ VideoCli.process_batch_directory Demo.externals ["out"] ["new"] (-16)%float true
       false 0.5%float Demo.world0 = (Ok 0%Z, Demo.world0).
Proof.
  destruct (batch_without_work_changes_nothing Demo.externals ["out"] ["new"] (-16)%float
              true false 0.5%float Demo.world0) as [_ Hdir].
  destruct (Hdir eq_refl) as (Hp & Hv & _).
  split; [apply Hp | apply Hv]; intros (c & Hf & _); vm_compute in Hf; discriminate Hf.
Defined.
(** X23.  What a record means.  Whenever [normalize_audio_file] returns
    a record for an existing file, the file has been rewritten from its
    own contents: the samples decoded from it (for mp3, m4a, wma and aac
    after ffmpeg has converted the file to a 48 kHz stereo 16-bit WAV)
    were long enough, the loudness measured after the optional noise
    reduction is the finite [original_lufs] of the record, and the file
    now holds the encoding, at the sample rate that was read, of the
    library's normalisation of those samples from that loudness to the
    target; on the bridged path encoded as WAV and converted back by
    ffmpeg with the codec arguments of the format, the temporary WAV
    being gone. *)
Theorem a_record_means_the_file_was_rewritten :
  forall (X : Externals) (file_path : Path) (target : float) (denoise : bool)
         (strength : float) (d d' : Disk) (stats : AudioNormalizationStats),
    is_file file_path (tree d) = true ->
    normalize_audio_file X file_path target denoise strength d = (Ok (Some stats), d') ->
    exists data rate out,
      is_normalized X target denoise strength data rate stats out
      /\ ((str_in (file_format_of file_path) ["wav"; "flac"; "ogg"] = true
           /\ exists b b',
                read_file file_path (tree d) = Some b
                /\ sf_decode X b = Some (data, rate)
                /\ sf_encode X (name file_path) out rate = Some b'
                /\ read_file file_path (tree d') = Some b')
          \/ (str_in (file_format_of file_path) ["mp3"; "m4a"; "wma"; "aac"] = true
              /\ exists tmp b0 w1 w2 b1,
                   (exists r, tmp = joinpath (gettempdir X) ("tmp" ++ r ++ ".wav"))
                   /\ read_file file_path (tree d) = Some b0
                   /\ ffmpeg X ["ffmpeg"; "-i"; "-y"; "-acodec"; "pcm_s16le"; "-ar"; "48000";
                                "-ac"; "2"; "-loglevel"; "error"] [b0] = Some w1
                   /\ sf_decode X w1 = Some (data, rate)
                   /\ sf_encode X (name tmp) out rate = Some w2
                   /\ ffmpeg X (["ffmpeg"; "-i"; "-y"]
                                  ++ codec_args (file_format_of file_path)
                                  ++ ["-loglevel"; "error"]) [w2] = Some b1
                   /\ read_file file_path (tree d') = Some b1
                   /\ fs_lookup tmp (tree d') = None)).
Proof.
  intros X file_path target denoise strength d d' stats Hfile H.
  unfold normalize_audio_file in H. cbv zeta in H.
  destruct (str_in (file_format_of file_path) ["wav"; "flac"; "ogg"]) eqn:Enative.
  - destruct (native_record _ _ _ _ _ _ _ _ H)
      as (data & rate & out & b & b' & Hnorm & Hb & Hdec & Henc & Hb').
    exists data, rate, out. split; [done|]. left. split; [done|]. by exists b, b'.
  - destruct (str_in (file_format_of file_path) ["mp3"; "m4a"; "wma"; "aac"]) eqn:Ebridged;
      [|done].
    destruct (bridged_record _ _ _ _ _ _ _ _ _ Hfile H)
      as (data & rate & out & tmp & b0 & w1 & w2 & b1
          & Hnorm & Hname & _ & Hb0 & Hw1 & Hdec & Henc & Hb1 & Hb' & Hgone).
    exists data, rate, out. split; [done|]. right. split; [done|].
    exists tmp, b0, w1, w2, b1. rewrite cmd_options_from_wav in Hb1.
    by split_and!.
Qed.

Lemma a_record_means_the_file_was_rewritten_witness :
  exists stats d' data rate out,
    normalize_audio_file Demo.externals ["in"; "song.mp3"] (-16)%float false 0.5%float
      Demo.disk0 = (Ok (Some stats), d')
    /\ is_normalized Demo.externals (-16)%float false 0.5%float data rate stats out.
Proof.
  assert (exists stats d',
             normalize_audio_file Demo.externals ["in"; "song.mp3"] (-16)%float false
               0.5%float Demo.disk0 = (Ok (Some stats), d')) as (stats & d' & E).
  { vm_compute. eexists _, _. reflexivity. }
  destruct (a_record_means_the_file_was_rewritten Demo.externals ["in"; "song.mp3"]
              (-16)%float false 0.5%float Demo.disk0 d' stats eq_refl E)
    as (data & rate & out & Hnorm & _).
  by exists stats, d', data, rate, out.
Defined.
